(** * Event-buffer decoding: a shallow embedding of the decoder sources

    The development follows the C++ sources:
    - [Pipelining]: [PipeliningModule::SplitBuffer], [GetNextBlock],
      [GetIndex], [ReStart], [PrintBlocks];
    - [Fastbus]: [FastbusModule::LoadSlot], [Decode];
    - [EtClient]: [THaEtClient::init], [codaRead], [codaClose], [isOpen];
    - [Database]: [Podd::SeekDBdate], [Podd::LoadDBvalue] and their helpers;
    - [EventBlocks], [FastbusCalls]: blocks of events as the modules write
      them, and the state a call of [LoadSlot] finds;
    - [DBText], [DBStamps], [DBConfig], [DBHere]: [ChopPrefix], time stamps,
      [SeekDBconfig], [Here];
    - [DBRead], [DBLines]: [GetLine], [IsAssignment], [ReadDBline];
    - [DBValues]: [LoadDBarray], [LoadDBmatrix];
    - [DBLoad]: [LoadDBvalue] from the text of a file on;
    - [DBRequests]: [LoadDatabase];
    - [DBFiles]: [GetDBFileList], [OpenDBFile].

    A [UInt_t] is a [Z] in [0, 2^32); arithmetic that can leave that range
    is reduced modulo [2^32] where the source relies on it. *)

From Stdlib Require Import ZArith List Bool Lia.
From Stdlib Require Ascii String.
Import ListNotations.
Open Scope Z_scope.

(** Wrap-around of a 32-bit unsigned value. *)
Definition UInt_t (x : Z) : Z := x mod 2 ^ 32.

(* ================================================================== *)
(** * PipeliningModule *)

Module Pipelining.

(** Messages the module writes to [cerr]. *)
Inductive diag : Type :=
| WarnInconsistentSlot                  (* "WARNING : inconsistent slot num" *)
| ErrBlockCount (declared produced : Z) (* "ERROR:  num events in block inconsistent" *)
| ErrNoEventBuffers                     (* "ERROR:  No event buffers !" *)
| WarnIndexProblem (idx size : Z).      (* "Warning:  index problem in PipeliningModule" *)

(** The members of the class that [SplitBuffer] and the iteration
    interface read or write.  [fSlot], [fDebug], [fMultiBlockMode],
    [fBlockIsDone] and [block_size] are declared in the base class; [cerr]
    is the stream of messages written so far.  Output to [fDebugFile] has no
    effect on the members and is left out. *)
Record PipeliningModule : Type := mkModule {
  fCrate : Z;
  fSlot : Z;
  fDebug : Z;
  fMultiBlockMode : bool;
  fBlockIsDone : bool;
  block_size : Z;
  fNWarnings : Z;
  fBlockHeader : Z;
  data_type_def : Z;
  fFirstTime : bool;
  eventblock : list (list Z);
  index_buffer : Z;
  cerr : list diag
}.

Definition set_fMultiBlockMode (v : bool) (m : PipeliningModule) :=
  mkModule (fCrate m) (fSlot m) (fDebug m) v (fBlockIsDone m) (block_size m)
    (fNWarnings m) (fBlockHeader m) (data_type_def m) (fFirstTime m)
    (eventblock m) (index_buffer m) (cerr m).
Definition set_fBlockIsDone (v : bool) (m : PipeliningModule) :=
  mkModule (fCrate m) (fSlot m) (fDebug m) (fMultiBlockMode m) v (block_size m)
    (fNWarnings m) (fBlockHeader m) (data_type_def m) (fFirstTime m)
    (eventblock m) (index_buffer m) (cerr m).
Definition set_block_size (v : Z) (m : PipeliningModule) :=
  mkModule (fCrate m) (fSlot m) (fDebug m) (fMultiBlockMode m) (fBlockIsDone m) v
    (fNWarnings m) (fBlockHeader m) (data_type_def m) (fFirstTime m)
    (eventblock m) (index_buffer m) (cerr m).
Definition set_fNWarnings (v : Z) (m : PipeliningModule) :=
  mkModule (fCrate m) (fSlot m) (fDebug m) (fMultiBlockMode m) (fBlockIsDone m)
    (block_size m) v (fBlockHeader m) (data_type_def m) (fFirstTime m)
    (eventblock m) (index_buffer m) (cerr m).
Definition set_fBlockHeader (v : Z) (m : PipeliningModule) :=
  mkModule (fCrate m) (fSlot m) (fDebug m) (fMultiBlockMode m) (fBlockIsDone m)
    (block_size m) (fNWarnings m) v (data_type_def m) (fFirstTime m)
    (eventblock m) (index_buffer m) (cerr m).
Definition set_data_type_def (v : Z) (m : PipeliningModule) :=
  mkModule (fCrate m) (fSlot m) (fDebug m) (fMultiBlockMode m) (fBlockIsDone m)
    (block_size m) (fNWarnings m) (fBlockHeader m) v (fFirstTime m)
    (eventblock m) (index_buffer m) (cerr m).
Definition set_fFirstTime (v : bool) (m : PipeliningModule) :=
  mkModule (fCrate m) (fSlot m) (fDebug m) (fMultiBlockMode m) (fBlockIsDone m)
    (block_size m) (fNWarnings m) (fBlockHeader m) (data_type_def m) v
    (eventblock m) (index_buffer m) (cerr m).
Definition set_eventblock (v : list (list Z)) (m : PipeliningModule) :=
  mkModule (fCrate m) (fSlot m) (fDebug m) (fMultiBlockMode m) (fBlockIsDone m)
    (block_size m) (fNWarnings m) (fBlockHeader m) (data_type_def m)
    (fFirstTime m) v (index_buffer m) (cerr m).
Definition set_index_buffer (v : Z) (m : PipeliningModule) :=
  mkModule (fCrate m) (fSlot m) (fDebug m) (fMultiBlockMode m) (fBlockIsDone m)
    (block_size m) (fNWarnings m) (fBlockHeader m) (data_type_def m)
    (fFirstTime m) (eventblock m) v (cerr m).
Definition log (d : diag) (m : PipeliningModule) :=
  mkModule (fCrate m) (fSlot m) (fDebug m) (fMultiBlockMode m) (fBlockIsDone m)
    (block_size m) (fNWarnings m) (fBlockHeader m) (data_type_def m)
    (fFirstTime m) (eventblock m) (index_buffer m) (cerr m ++ [d]).

(** Modelled from the spec: the accessors [IsMultiBlockMode()] and
    [BlockIsDone()] of the base class, whose header is not among the
    sources; they return the flags [fMultiBlockMode] and [fBlockIsDone]. *)
Definition IsMultiBlockMode (m : PipeliningModule) : bool := fMultiBlockMode m.
Definition BlockIsDone (m : PipeliningModule) : bool := fBlockIsDone m.

(** [ReStart]. *)
Definition ReStart (m : PipeliningModule) : PipeliningModule :=
  set_fBlockIsDone false (set_index_buffer 0 m).

(** The constructor [PipeliningModule(crate, slot)].  [dbg] and [blk] are the
    values the base-class constructor leaves in [fDebug] and [block_size]. *)
Definition new_PipeliningModule (crate slot dbg blk : Z) : PipeliningModule :=
  ReStart (mkModule crate slot dbg false false blk 0 0 15 true [] 0 []).

(** ** SplitBuffer *)

(** The locals of [SplitBuffer] that live across loop iterations, next to the
    module itself.  [eventnum], [evt_num] and [evt_num_modblock] only feed the
    debug file and are left out.  [BlockStart] is an [Int_t] that is
    incremented at most once per word. *)
Record split_state : Type := mkSplit {
  self : PipeliningModule;
  oneEventBuffer : list Z;
  slot_blk_hdr : Z;
  slot_evt_hdr : Z;
  BlockStart : Z
}.

Definition on_self (f : PipeliningModule -> PipeliningModule) (s : split_state) :=
  mkSplit (f (self s)) (oneEventBuffer s) (slot_blk_hdr s) (slot_evt_hdr s)
    (BlockStart s).
Definition set_oneEventBuffer (v : list Z) (s : split_state) :=
  mkSplit (self s) v (slot_blk_hdr s) (slot_evt_hdr s) (BlockStart s).
Definition set_slot_blk_hdr (v : Z) (s : split_state) :=
  mkSplit (self s) (oneEventBuffer s) v (slot_evt_hdr s) (BlockStart s).
Definition set_slot_evt_hdr (v : Z) (s : split_state) :=
  mkSplit (self s) (oneEventBuffer s) (slot_blk_hdr s) v (BlockStart s).
Definition set_BlockStart (v : Z) (s : split_state) :=
  mkSplit (self s) (oneEventBuffer s) (slot_blk_hdr s) (slot_evt_hdr s) v.

(** [eventblock.push_back(oneEventBuffer); oneEventBuffer.clear();] *)
Definition push_event (s : split_state) : split_state :=
  set_oneEventBuffer []
    (on_self (fun m => set_eventblock (eventblock m ++ [oneEventBuffer s]) m) s).

Definition data_type_id (data : Z) : Z := Z.land (Z.shiftr data 31) 1.
Definition type_field (data : Z) : Z := Z.land (Z.shiftr data 27) 15.
Definition slot_field (data : Z) : Z := Z.land (Z.shiftr data 22) 31.
Definition size_field (data : Z) : Z := Z.land (Z.shiftr data 0) 255.

(** [case 0]: block header. *)
Definition case_block_header (data : Z) (s : split_state) : split_state :=
  if data_type_id data =? 0 then s else
  let s := on_self (set_fBlockHeader data) s in
  let s := set_slot_blk_hdr (slot_field data) s in
  let s := on_self (set_block_size (size_field data)) s in
  let s := if 1 <? block_size (self s)
           then on_self (set_fMultiBlockMode true) s else s in
  if fMultiBlockMode (self s) && (slot_blk_hdr s =? fSlot (self s))
  then set_BlockStart 1 s else s.

(** [case 1]: block trailer. *)
Definition case_block_trailer (data : Z) (s : split_state) : split_state :=
  let slot_blk_trl := slot_field data in
  if fMultiBlockMode (self s) && (slot_blk_trl =? fSlot (self s)) then
    let s := set_BlockStart (BlockStart s + 1) s in
    let s := set_oneEventBuffer (oneEventBuffer s ++ [data]) s in
    push_event s
  else s.

(** [case 2]: event header. *)
Definition case_event_header (data : Z) (s : split_state) : split_state :=
  let s := set_slot_evt_hdr (slot_field data) s in
  let s := if slot_blk_hdr s =? fSlot (self s)
           then set_BlockStart (BlockStart s + 1) s else s in
  if fMultiBlockMode (self s) && (slot_blk_hdr s =? fSlot (self s)) then
    let s := if BlockStart s =? 2 then s else push_event s in
    set_oneEventBuffer
      (oneEventBuffer s ++ [fBlockHeader (self s); data]) s
  else s.

(** [default]: all other data. *)
Definition case_default (data : Z) (s : split_state) : split_state :=
  let s :=
    if slot_blk_hdr s =? slot_evt_hdr s then s else
    let n := fNWarnings (self s) in
    let s := on_self (set_fNWarnings (UInt_t (n + 1))) s in
    if n mod 100 =? 0 then on_self (log WarnInconsistentSlot) s else s in
  if fMultiBlockMode (self s) && (slot_blk_hdr s =? fSlot (self s))
  then set_oneEventBuffer (oneEventBuffer s ++ [data]) s else s.

(** [switch(data_type_def)]. *)
Definition dispatch (data : Z) (s : split_state) : split_state :=
  let t := data_type_def (self s) in
  if t =? 0 then case_block_header data s
  else if t =? 1 then case_block_trailer data s
  else if t =? 2 then case_event_header data s
  else case_default data s.

(** One iteration of [for( UInt_t data : codabuffer )]. *)
Definition split_word (s : split_state) (data : Z) : split_state :=
  let s := if data_type_id data =? 1
           then on_self (set_data_type_def (type_field data)) s else s in
  dispatch data s.

(** The state in which the loop is entered, and the loop. *)
Definition split_init (m : PipeliningModule) : split_state :=
  mkSplit
    (set_block_size 0 (set_fBlockIsDone false (set_eventblock [] m)))
    [] 0 0 0.

Definition split_scan (m : PipeliningModule) (codabuffer : list Z) : split_state :=
  fold_left split_word codabuffer (split_init m).

(** The members the loop never writes. *)
Definition frame (m : PipeliningModule) : Z * Z * Z * bool * bool * Z :=
  (fCrate m, fSlot m, fDebug m, fBlockIsDone m, fFirstTime m, index_buffer m).

(** ** Iteration: GetIndex, GetNextBlock *)

Definition size (m : PipeliningModule) : Z := Z.of_nat (length (eventblock m)).

Definition GetIndex (m : PipeliningModule) : Z * PipeliningModule :=
  let idx := UInt_t (index_buffer m - 1) in
  if (0 <? index_buffer m) && (idx <? size m) then (idx, m)
  else (0, log (WarnIndexProblem idx (size m)) m).

Definition GetNextBlock (m : PipeliningModule) : list Z * PipeliningModule :=
  match eventblock m with
  | [] => ([], log ErrNoEventBuffers m)
  | first :: _ =>
    if negb (IsMultiBlockMode m) then (first, m) else
    let m := if index_buffer m =? size m - 1
             then set_fBlockIsDone true m else m in
    let m := set_index_buffer (UInt_t (index_buffer m + 1)) m in
    let (i, m) := GetIndex m in
    (nth (Z.to_nat i) (eventblock m) [], m)
  end.

(** ** PrintBlocks *)

Definition maxloops : Z := 5000000.

(** The loop [while (!BlockIsDone())] of [PrintBlocks]; [None] is the
    [runtime_error] thrown once [icnt] has passed [maxloops].  The fuel is
    chosen by [PrintBlocks] so that it outlasts that bound. *)
Fixpoint PrintBlocks_loop (fuel : nat) (icnt : Z) (m : PipeliningModule)
  : option PipeliningModule :=
  if BlockIsDone m then Some m
  else if maxloops <? icnt then None
  else match fuel with
       | O => None
       | S fuel' => PrintBlocks_loop fuel' (icnt + 1) (snd (GetNextBlock m))
       end.

Definition PrintBlocks (m : PipeliningModule) : option PipeliningModule :=
  if negb (IsMultiBlockMode m) then Some m else
  match PrintBlocks_loop (Z.to_nat (maxloops + 2)) 0 (ReStart m) with
  | Some m' => Some (ReStart m')
  | None => None
  end.

(** [SplitBuffer]: the module afterwards and the value returned, or [None]
    when the exception of [PrintBlocks] propagates. *)
Definition SplitBuffer (m : PipeliningModule) (codabuffer : list Z)
  : option (PipeliningModule * Z) :=
  let m0 := set_fBlockIsDone false (set_eventblock [] m) in
  if negb (fFirstTime m0) && negb (IsMultiBlockMode m0) then
    Some (set_index_buffer 1 (set_eventblock [codabuffer] m0), 1)
  else
    let m1 := set_fFirstTime false (self (split_scan m codabuffer)) in
    if negb (IsMultiBlockMode m1) then
      Some (set_index_buffer 1
              (set_eventblock (eventblock m1 ++ [codabuffer]) m1), 1)
    else
      let m2 := if block_size m1 =? size m1 then m1
                else log (ErrBlockCount (block_size m1) (size m1)) m1 in
      if 1 <=? fDebug m2 then
        match PrintBlocks m2 with
        | Some m3 => Some (m3, 0)
        | None => None
        end
      else Some (m2, 0).

(** [n] successive calls of [GetNextBlock], with the sub-buffers they
    return. *)
Fixpoint drain (n : nat) (m : PipeliningModule)
  : list (list Z) * PipeliningModule :=
  match n with
  | O => ([], m)
  | S n' =>
    let (b, m1) := GetNextBlock m in
    let (bs, m2) := drain n' m1 in
    (b :: bs, m2)
  end.


(** ** Frame words, as the wire format lays them out *)

(** A tagged word whose type field says block header. *)
Definition is_block_header (data : Z) : bool :=
  (data_type_id data =? 1) && (type_field data =? 0).

(** A tagged word of a data type: neither block header, block trailer nor
    event header. *)
Definition tagged_data (data : Z) : Prop :=
  data_type_id data = 1 /\ 3 <= type_field data.

(** A word without the tag bit: it continues the type of the last tagged
    word. *)
Definition untagged (data : Z) : Prop := data_type_id data = 0.

Definition BlockHeader (slot size : Z) : Z :=
  Z.lor (Z.shiftl 1 31) (Z.lor (Z.shiftl 0 27) (Z.lor (Z.shiftl slot 22) size)).
Definition BlockTrailer (slot nwords : Z) : Z :=
  Z.lor (Z.shiftl 1 31) (Z.lor (Z.shiftl 1 27) (Z.lor (Z.shiftl slot 22) nwords)).
Definition EventHeader (slot idx : Z) : Z :=
  Z.lor (Z.shiftl 1 31) (Z.lor (Z.shiftl 2 27) (Z.lor (Z.shiftl slot 22) idx)).

End Pipelining.

(* ================================================================== *)
(** * FastbusModule *)

Module Fastbus.

(** Messages written to [cerr]. *)
Inductive cerr_msg : Type :=
| ErrCrateOutOfBounds   (* "FastBusModule::ERROR: crate out of bounds" *)
| ErrSlotOutOfBounds.   (* "FastBusModule::ERROR: slot out of bounds" *)

(** Lines written to [*fDebugFile], when there is one. *)
Inductive debug_msg : Type :=
| DbgLoadSlot
| DbgHasHeader (has : bool)
| DbgModelNum (n : Z)
| DbgHeader (header : Z)
| DbgHit (chan data raw : Z)
| DbgWordsExpected (n : Z)
| DbgWordCountMismatch (crate slot expected seen : Z).

(** The members [LoadSlot] and [Decode] use.  [fDebugFile] says whether the
    pointer of that name is set.  [fCrate], [fSlot], [fWdcntMask],
    [fModelNum], [fWordsSeen], [fHeader] and [fDebugFile] are declared in
    the base class. *)
Record FastbusModule : Type := mkFastbus {
  fCrate : Z;
  fSlot : Z;
  fHasHeader : bool;
  fSlotMask : Z;
  fSlotShift : Z;
  fChanMask : Z;
  fChanShift : Z;
  fDataMask : Z;
  fWdcntMask : Z;
  fModelNum : Z;
  fChan : Z;
  fData : Z;
  fRawData : Z;
  fWordsSeen : Z;
  fHeader : Z;
  fDebugFile : bool
}.

Definition set_fCrate (v : Z) (m : FastbusModule) :=
  mkFastbus v (fSlot m) (fHasHeader m) (fSlotMask m) (fSlotShift m)
    (fChanMask m) (fChanShift m) (fDataMask m) (fWdcntMask m) (fModelNum m)
    (fChan m) (fData m) (fRawData m) (fWordsSeen m) (fHeader m) (fDebugFile m).
Definition set_fSlot (v : Z) (m : FastbusModule) :=
  mkFastbus (fCrate m) v (fHasHeader m) (fSlotMask m) (fSlotShift m)
    (fChanMask m) (fChanShift m) (fDataMask m) (fWdcntMask m) (fModelNum m)
    (fChan m) (fData m) (fRawData m) (fWordsSeen m) (fHeader m) (fDebugFile m).
Definition set_fWdcntMask (v : Z) (m : FastbusModule) :=
  mkFastbus (fCrate m) (fSlot m) (fHasHeader m) (fSlotMask m) (fSlotShift m)
    (fChanMask m) (fChanShift m) (fDataMask m) v (fModelNum m)
    (fChan m) (fData m) (fRawData m) (fWordsSeen m) (fHeader m) (fDebugFile m).
Definition set_decoded (chan data raw : Z) (m : FastbusModule) :=
  mkFastbus (fCrate m) (fSlot m) (fHasHeader m) (fSlotMask m) (fSlotShift m)
    (fChanMask m) (fChanShift m) (fDataMask m) (fWdcntMask m) (fModelNum m)
    chan data raw (fWordsSeen m) (fHeader m) (fDebugFile m).
Definition set_fWordsSeen (v : Z) (m : FastbusModule) :=
  mkFastbus (fCrate m) (fSlot m) (fHasHeader m) (fSlotMask m) (fSlotShift m)
    (fChanMask m) (fChanShift m) (fDataMask m) (fWdcntMask m) (fModelNum m)
    (fChan m) (fData m) (fRawData m) v (fHeader m) (fDebugFile m).
Definition set_fHeader (v : Z) (m : FastbusModule) :=
  mkFastbus (fCrate m) (fSlot m) (fHasHeader m) (fSlotMask m) (fSlotShift m)
    (fChanMask m) (fChanShift m) (fDataMask m) (fWdcntMask m) (fModelNum m)
    (fChan m) (fData m) (fRawData m) (fWordsSeen m) v (fDebugFile m).

(** Modelled from the spec: the inline helpers [IsSlot], [Chan] and [Data]
    of the class header, which is not among the sources.  A word belongs to
    the module when its slot-mask bits, shifted down, equal the configured
    slot; channel and value are taken with the channel mask and shift and
    the data mask. *)
Definition IsSlot (m : FastbusModule) (rdata : Z) : bool :=
  Z.shiftr (Z.land rdata (fSlotMask m)) (fSlotShift m) =? fSlot m.
Definition Chan (m : FastbusModule) (rdata : Z) : Z :=
  Z.shiftr (Z.land rdata (fChanMask m)) (fChanShift m).
Definition Data (m : FastbusModule) (rdata : Z) : Z :=
  Z.land rdata (fDataMask m).

(** [Decode]. *)
Definition Decode (m : FastbusModule) (word : Z) : FastbusModule :=
  set_decoded (Chan m word) (Data m word) word m.

(** One call of [THaSlotData::loadData(chan, data, raw)]. *)
Definition hit : Type := (Z * Z * Z)%type.

(** What a call of [LoadSlot] works on besides the buffer: the
    function-local [static int first_load], one variable for all modules of
    the process; the module; the calls made on [sldat]; the two output
    streams. *)
Record world : Type := mkWorld {
  first_load : bool;
  this : FastbusModule;
  sldat : list hit;
  cerr : list cerr_msg;
  debug : list debug_msg
}.

Definition on_this (f : FastbusModule -> FastbusModule) (w : world) : world :=
  mkWorld (first_load w) (f (this w)) (sldat w) (cerr w) (debug w).
Definition set_first_load (v : bool) (w : world) : world :=
  mkWorld v (this w) (sldat w) (cerr w) (debug w).
Definition loadData (h : hit) (w : world) : world :=
  mkWorld (first_load w) (this w) (sldat w ++ [h]) (cerr w) (debug w).
Definition to_cerr (e : cerr_msg) (w : world) : world :=
  mkWorld (first_load w) (this w) (sldat w) (cerr w ++ [e]) (debug w).
(** [if (fDebugFile) *fDebugFile << ...] *)
Definition to_debug (d : debug_msg) (w : world) : world :=
  if fDebugFile (this w)
  then mkWorld (first_load w) (this w) (sldat w) (cerr w) (debug w ++ [d])
  else w.

Section Bounds.

(** The crate and slot limits of the decoder's header, which is not among
    the sources. *)
Variables MAXROC MAXSLOT_FB : Z.

(** The block guarded by [first_load]. *)
Definition check_bounds (w : world) : world :=
  if first_load w then
    let w := if MAXROC <=? fCrate (this w)
             then on_this (set_fCrate 0) (to_cerr ErrCrateOutOfBounds w)
             else w in
    let w := if MAXSLOT_FB <? fSlot (this w)
             then on_this (set_fSlot 0) (to_cerr ErrSlotOutOfBounds w)
             else w in
    set_first_load false w
  else w.

(** The body of [while (IsSlot( *p ))], up to and including [p++]. *)
Definition scan_word (word : Z) (w : world) : world :=
  let w :=
    if fHasHeader (this w) && (fWordsSeen (this w) =? 0) then
      to_debug (DbgHeader word) (on_this (set_fHeader word) w)
    else
      let w := on_this (fun m => Decode m word) w in
      let m := this w in
      let w := to_debug (DbgHit (fChan m) (fData m) word) w in
      loadData (fChan m, fData m, fRawData m) w in
  on_this (fun m => set_fWordsSeen (UInt_t (fWordsSeen m + 1)) m) w.

(** The loop.  [rest] is the memory from [p] on, [p] and [pstop] are counted
    in words from [evbuffer].  Reading past the memory given is undefined
    and yields [None]. *)
Fixpoint scan (rest : list Z) (p pstop : Z) (w : world) : option world :=
  match rest with
  | [] => None
  | word :: rest' =>
    if IsSlot (this w) word then
      let w := scan_word word w in
      if pstop <? p + 1 then Some w else scan rest' (p + 1) pstop w
    else Some w
  end.

(** The consistency check after the loop. *)
Definition check_word_count (w : world) : world :=
  let m := this w in
  if fHeader m =? 0 then w else
  let fWordsExpect := Z.land (fHeader m) (fWdcntMask m) in
  let w := to_debug (DbgWordsExpected fWordsExpect) w in
  if fWordsExpect =? fWordsSeen m then w
  else to_debug (DbgWordCountMismatch (fCrate m) (fSlot m) fWordsExpect
                   (fWordsSeen m)) w.

(** The world in which the loop starts. *)
Definition before_scan (w : world) : world :=
  let w := check_bounds w in
  let w := on_this (fun m => set_fHeader 0 (set_fWordsSeen 0 m)) w in
  let w := to_debug DbgLoadSlot w in
  let w := to_debug (DbgHasHeader (fHasHeader (this w))) w in
  to_debug (DbgModelNum (fModelNum (this w))) w.

(** [LoadSlot(sldat, evbuffer, pstop)]: the world afterwards and the value
    returned. *)
Definition LoadSlot (w : world) (evbuffer : list Z) (pstop : Z)
  : option (world * Z) :=
  let w := check_bounds w in
  let w := on_this (fun m => set_fHeader 0 (set_fWordsSeen 0 m)) w in
  let w := to_debug DbgLoadSlot w in
  let w := to_debug (DbgHasHeader (fHasHeader (this w))) w in
  let w := to_debug (DbgModelNum (fModelNum (this w))) w in
  match scan evbuffer 0 pstop w with
  | None => None
  | Some w =>
    let w := check_word_count w in
    Some (w, fWordsSeen (this w))
  end.

End Bounds.

(** The words a scan consumes: the longest run of words of the module's
    slot at the start of the buffer, cut at the bound. *)
Fixpoint take_while {A : Type} (f : A -> bool) (l : list A) : list A :=
  match l with
  | [] => []
  | a :: l' => if f a then a :: take_while f l' else []
  end.

Definition slot_run (m : FastbusModule) (evbuffer : list Z) (pstop : Z)
  : list Z :=
  take_while (IsSlot m) (firstn (Z.to_nat (pstop + 1)) evbuffer).

Definition decoded (m : FastbusModule) (word : Z) : hit :=
  (Chan m word, Data m word, word).

(** The configuration of a module: what [IsSlot], [Chan] and [Data] read,
    and what the loop never writes. *)
Definition config (m : FastbusModule) :=
  (fCrate m, fSlot m, fHasHeader m, fSlotMask m, fSlotShift m, fChanMask m,
   fChanShift m, fDataMask m, fWdcntMask m, fModelNum m, fDebugFile m).

(** The lines the check after the loop writes to the debug file. *)
Definition word_count_lines (m : FastbusModule) : list debug_msg :=
  if fDebugFile m && negb (fHeader m =? 0) then
    DbgWordsExpected (Z.land (fHeader m) (fWdcntMask m)) ::
    (if Z.land (fHeader m) (fWdcntMask m) =? fWordsSeen m then []
     else [DbgWordCountMismatch (fCrate m) (fSlot m)
             (Z.land (fHeader m) (fWdcntMask m)) (fWordsSeen m)])
  else [].

End Fastbus.

(* ================================================================== *)
(** * THaEtClient *)

Module EtClient.

(** The two values the member functions return. *)
Inductive coda_status : Type := CODA_OK | CODA_ERROR.

(** Status of the ET library calls, an [int]; [ET_OK] is zero and the
    errors are negative. *)
Definition ET_OK : Z := 0.

(** An event handed over by [et_events_get]: the words behind its data
    pointer and the byte length [et_event_getlength] reports. *)
Record et_event : Type := mkEvent {
  ev_data : list Z;
  ev_length : Z
}.

(** What the ET system and the environment answer during one call. *)
Record et_answers : Type := mkAnswers {
  station_ok : bool;           (* the station name is set and short enough *)
  et_open_res : Z;
  et_station_create_res : Z;
  et_station_attach_res : Z;
  et_events_get_res : Z;
  et_events_got : list et_event;
  et_events_put_res : Z;
  et_station_detach_res : Z;
  et_close_res : Z
}.

(** The members that decide what the calls return, and the event buffer.
    The members that only serve the rate printout ([firstRateCalc], [evsum],
    [xcnt], [daqt1], [ratesum]) and [timeout], which that printout adapts
    and which is only passed on to [et_events_get], are left out. *)
Record THaEtClient : Type := mkClient {
  nread : Z;
  nused : Z;
  waitflag : Z;
  didclose : Z;
  notopened : Z;
  firstread : Z;
  evbuffer : list Z
}.

Definition set_nread (v : Z) (c : THaEtClient) :=
  mkClient v (nused c) (waitflag c) (didclose c) (notopened c) (firstread c)
    (evbuffer c).
Definition set_nused (v : Z) (c : THaEtClient) :=
  mkClient (nread c) v (waitflag c) (didclose c) (notopened c) (firstread c)
    (evbuffer c).
Definition set_waitflag (v : Z) (c : THaEtClient) :=
  mkClient (nread c) (nused c) v (didclose c) (notopened c) (firstread c)
    (evbuffer c).
Definition set_didclose (v : Z) (c : THaEtClient) :=
  mkClient (nread c) (nused c) (waitflag c) v (notopened c) (firstread c)
    (evbuffer c).
Definition set_notopened (v : Z) (c : THaEtClient) :=
  mkClient (nread c) (nused c) (waitflag c) (didclose c) v (firstread c)
    (evbuffer c).
Definition set_firstread (v : Z) (c : THaEtClient) :=
  mkClient (nread c) (nused c) (waitflag c) (didclose c) (notopened c) v
    (evbuffer c).
Definition set_evbuffer (v : list Z) (c : THaEtClient) :=
  mkClient (nread c) (nused c) (waitflag c) (didclose c) (notopened c)
    (firstread c) v.

(** How a call ends: it returns, the process exits ([exit(1)]), or the
    behaviour is undefined. *)
Inductive outcome : Type :=
| Returned (c : THaEtClient) (status : coda_status)
| Exited
| Undefined.

(** The flags as [initflags] sets them, then [codaOpen]: [waitflag = smode].
    [buf] is the event buffer the class allocates. *)
Definition new_THaEtClient (smode : Z) (buf : list Z) : THaEtClient :=
  set_waitflag smode (mkClient 0 0 0 0 0 1 buf).

(** [codaOpen(computer, mysession, smode)]. *)
Definition codaOpen (smode : Z) (c : THaEtClient) : THaEtClient * coda_status :=
  (set_waitflag smode c, CODA_OK).

(** [isOpen]. *)
Definition isOpen (c : THaEtClient) : bool :=
  (notopened c =? 1) && (didclose c =? 0).

Section Constants.

(** Constants of headers that are not among the sources: the event buffer
    length in words and the code of "station exists". *)
Variables MAXEVLEN ET_ERROR_EXISTS : Z.

(** [sizeof(int)]. *)
Definition bpi : Z := 4.

(** The byte order of a word of which only some bytes are copied belongs to
    the platform: [partial_copy n src dst] is the word that holds the first
    [n] bytes of [src] and the remaining bytes of [dst]. *)
Variable partial_copy : Z -> Z -> Z -> Z.

(** [init]. *)
Definition init (a : et_answers) (c : THaEtClient)
  : THaEtClient * coda_status :=
  if negb (station_ok a) then (c, CODA_ERROR)
  else if negb (et_open_res a =? ET_OK) then (set_notopened 1 c, CODA_ERROR)
  else
    let status := et_station_create_res a in
    if (status <? ET_OK) && negb (status =? ET_ERROR_EXISTS)
    then (c, CODA_ERROR)
    else if et_station_attach_res a <? 0 then (c, CODA_ERROR)
    else (c, CODA_OK).

(** [codaClose]. *)
Definition codaClose (a : et_answers) (c : THaEtClient)
  : THaEtClient * coda_status :=
  if negb (didclose c =? 0) || negb (firstread c =? 0) then (c, CODA_OK)
  else
    let c := set_didclose 1 c in
    if negb (notopened c =? 0) then (c, CODA_ERROR)
    else if negb (et_station_detach_res a =? ET_OK) then (c, CODA_ERROR)
    else if negb (et_close_res a =? ET_OK) then (c, CODA_ERROR)
    else (c, CODA_OK).

(** The loop over the events of a fresh chunk: [Some true] when every
    declared length fits, [Some false] at the first that does not, [None]
    when an event has no first word or [*pdata + 1] overflows an [int]. *)
Fixpoint check_lengths (evs : list et_event) : option bool :=
  match evs with
  | [] => Some true
  | e :: evs' =>
    match ev_data e with
    | [] => None
    | word0 :: _ =>
      if word0 =? 2 ^ 31 - 1 then None
      else
        let event_size := word0 + 1 in
        if MAXEVLEN <? event_size then Some false else check_lengths evs'
    end
  end.

(** [memcpy(dst, src, n)] on words, [None] when [src] or [dst] is shorter
    than [n] bytes or [n] is negative. *)
Definition memcpy (dst src : list Z) (n : Z) : option (list Z) :=
  let q := Z.to_nat (n / bpi) in
  let r := n mod bpi in
  if n <? 0 then None
  else if r =? 0 then
    if (q <=? length src)%nat && (q <=? length dst)%nat
    then Some (firstn q src ++ skipn q dst) else None
  else
    match nth_error src q, nth_error dst q with
    | Some s, Some d =>
      Some (firstn q src ++ partial_copy r s d :: skipn (S q) dst)
    | _, _ => None
    end.

(** The second half of [codaRead], "return an event".  [evs] is the local
    array: the events just fetched or, on a call that does not fetch,
    nothing that is defined. *)
Definition deliver (a : et_answers) (evs : option (list et_event))
           (c : THaEtClient) : outcome :=
  match evs with
  | None => Undefined
  | Some evs =>
    match nth_error evs (Z.to_nat (nused c)) with
    | None => Undefined
    | Some e =>
      let nbytes := ev_length e in
      let lencpy := if nbytes <? bpi * MAXEVLEN then nbytes
                    else bpi * MAXEVLEN in
      match memcpy (evbuffer c) (ev_data e) lencpy with
      | None => Undefined
      | Some buf =>
        let c := set_evbuffer buf c in
        let c := set_nused (nused c + 1) c in
        if bpi * MAXEVLEN <? nbytes then Returned c CODA_ERROR
        else if nread c <=? nused c then
          if et_events_put_res a <? ET_OK then Exited
          else Returned c CODA_OK
        else Returned c CODA_OK
      end
    end
  end.

(** The first half: "pull out a chunk of events", then [deliver]. *)
Definition fetch (a : et_answers) (c : THaEtClient) : outcome :=
  if nread c <=? nused c then
    let c := set_nread (Z.of_nat (length (et_events_got a))) c in
    if et_events_get_res a <? ET_OK
    then Returned (set_nused 0 (set_nread 0 c)) CODA_ERROR
    else
      let c := set_nused 0 c in
      match check_lengths (et_events_got a) with
      | None => Undefined
      | Some false => Returned c CODA_ERROR
      | Some true => deliver a (Some (et_events_got a)) c
      end
  else deliver a None c.

(** [codaRead]. *)
Definition codaRead (a : et_answers) (c : THaEtClient) : outcome :=
  if negb (firstread c =? 0) then
    let c := set_firstread 0 c in
    match init a c with
    | (c, CODA_ERROR) => Returned c CODA_ERROR
    | (c, CODA_OK) => fetch a c
    end
  else fetch a c.

End Constants.

(** An event whose declared length fits the event buffer. *)
Definition fits (MAXEVLEN : Z) (e : et_event) : Prop :=
  exists word0 rest, ev_data e = word0 :: rest /\ word0 + 1 <= MAXEVLEN.

(** A client that is past its first read, or whose first read connects. *)
Definition ready (ET_ERROR_EXISTS : Z) (a : et_answers) (c : THaEtClient)
  : Prop :=
  firstread c = 0 \/
  snd (init ET_ERROR_EXISTS a (set_firstread 0 c)) = CODA_OK.

End EtClient.

(* ================================================================== *)
(** * Database support functions *)

Module Database.
Import Ascii.

(** A C string or [std::string] as the list of its characters. *)
Definition chars : Type := list ascii.

(** ** TDatime *)

(** A [TDatime] is the 32-bit word it packs the date into, and two of them
    compare as those words do.  [TDatime] belongs to the ROOT library; the
    packing is the one of its [Set(year, month, day, hour, min, sec)]. *)
Definition TDatime : Type := Z.

Definition TDatime_Set (yy mm dd hh mi ss : Z) : TDatime :=
  UInt_t (Z.lor (Z.shiftl (yy - 1995) 26)
         (Z.lor (Z.shiftl mm 22)
         (Z.lor (Z.shiftl dd 17)
         (Z.lor (Z.shiftl hh 12)
         (Z.lor (Z.shiftl mi 6) ss))))).

(** [TDatime(950101, 0)], the first of January 1995. *)
Definition epoch : TDatime := TDatime_Set 1995 1 1 0 0 0.

(** ** Character helpers *)

Definition nul : ascii := "000"%char.
Definition newline : ascii := "010"%char.

(** [isspace] in the C locale. *)
Definition isspace (c : ascii) : bool :=
  let n := N_of_ascii c in
  (n =? 32)%N || ((9 <=? n)%N && (n <=? 13)%N).

Definition isdigit (c : ascii) : bool :=
  let n := N_of_ascii c in (48 <=? n)%N && (n <=? 57)%N.

Definition digit_value (c : ascii) : Z := Z.of_N (N_of_ascii c) - 48.

(** [s.find(c, from)]: the index of the first [c] at or after [from]. *)
Fixpoint find_from (c : ascii) (from : nat) (s : chars) : option nat :=
  match s with
  | [] => None
  | x :: s' =>
    match from with
    | O => if Ascii.eqb x c then Some O
           else option_map S (find_from c O s')
    | S from' => option_map S (find_from c from' s')
    end
  end.

(** [s.substr(pos, n)]. *)
Definition substr (s : chars) (pos n : nat) : chars := firstn n (skipn pos s).

(** The characters up to the first NUL: what a C function sees. *)
Fixpoint c_str (s : chars) : chars :=
  match s with
  | [] => []
  | x :: s' => if Ascii.eqb x nul then [] else x :: c_str s'
  end.

Fixpoint skip_while (f : ascii -> bool) (s : chars) : chars :=
  match s with
  | [] => []
  | x :: s' => if f x then skip_while f s' else s
  end.

Definition is_blank (c : ascii) : bool := Ascii.eqb c " "%char.

(** ** sscanf with the format of a time stamp *)

(** Up to [width] decimal digits from the front of [s]: their value so far
    continued from [acc], how many were read, and the rest. *)
Fixpoint scan_digits (width : nat) (acc : Z) (count : nat) (s : chars)
  : Z * nat * chars :=
  match width, s with
  | S width', x :: s' =>
    if isdigit x
    then scan_digits width' (10 * acc + digit_value x) (S count) s'
    else (acc, count, s)
  | _, _ => (acc, count, s)
  end.

(** The conversion [%<width>d]: leading white space is skipped, a sign
    counts towards the width, at least one digit is needed. *)
Definition scan_int (width : nat) (s : chars) : option (Z * chars) :=
  let s := skip_while isspace s in
  let '(negative, width, s) :=
    match s with
    | x :: s' =>
      if Ascii.eqb x "-"%char then (true, pred width, s')
      else if Ascii.eqb x "+"%char then (false, pred width, s')
      else (false, width, s)
    | [] => (false, width, s)
    end in
  let '(v, count, rest) := scan_digits width 0 O s in
  match count with
  | O => None
  | S _ => Some (if negative then - v else v, rest)
  end.

(** An ordinary character of the format. *)
Definition expect (c : ascii) (s : chars) : option chars :=
  match s with
  | x :: s' => if Ascii.eqb x c then Some s' else None
  | [] => None
  end.

(** [sscanf(s, "%4d-%2d-%2d %2d:%2d:%2d", ...) == 6] and the six values. *)
Definition sscanf_date (s : chars) : option (Z * Z * Z * Z * Z * Z) :=
  match scan_int 4 s with None => None | Some (yy, s) =>
  match expect "-"%char s with None => None | Some s =>
  match scan_int 2 s with None => None | Some (mm, s) =>
  match expect "-"%char s with None => None | Some s =>
  match scan_int 2 s with None => None | Some (dd, s) =>
  match scan_int 2 (skip_while isspace s) with None => None | Some (hh, s) =>
  match expect ":"%char s with None => None | Some s =>
  match scan_int 2 s with None => None | Some (mi, s) =>
  match expect ":"%char s with None => None | Some s =>
  match scan_int 2 s with None => None | Some (ss, _) =>
  Some (yy, mm, dd, hh, mi, ss)
  end end end end end end end end end end.

(** ** IsDBdate, IsDBkey, IsTag *)

(** [IsDBdate(line, date)]: [Some] of the time stamp when it returns 1 and
    sets [date], [None] when it returns 0 and leaves [date] alone.
    [line.size() - 12] is computed in [size_t]. *)
Definition IsDBdate (line : chars) : option TDatime :=
  match find_from "["%char 0 line with
  | None => None
  | Some lbrk =>
    let size := Z.of_nat (length line) in
    if (size - 12) mod 2 ^ 64 <=? Z.of_nat lbrk then None else
    match find_from "]"%char lbrk line with
    | None => None
    | Some rbrk =>
      if (rbrk <=? lbrk + 11)%nat then None else
      match sscanf_date (substr line (lbrk + 1) (rbrk - lbrk - 1)) with
      | None => None
      | Some (yy, mm, dd, hh, mi, ss) =>
        if (yy <? 1995) || (mm <? 1) || (12 <? mm) || (dd <? 1) || (31 <? dd)
           || (hh <? 0) || (23 <? hh) || (mi <? 0) || (59 <? mi)
           || (ss <? 0) || (59 <? ss)
        then None
        else Some (TDatime_Set yy mm dd hh mi ss)
      end
    end
  end.

(** Whether [k] is the beginning of [key]: [strncmp(k, key, |k|) == 0] for
    a [k] without NUL. *)
Fixpoint is_prefix (k key : chars) : bool :=
  match k, key with
  | [], _ => true
  | x :: k', y :: key' => Ascii.eqb x y && is_prefix k' key'
  | _ :: _, [] => false
  end.

(** The characters before the first [c], and those after it. *)
Fixpoint split_at (c : ascii) (s : chars) : option (chars * chars) :=
  match s with
  | [] => None
  | x :: s' =>
    if Ascii.eqb x c then Some ([], s')
    else match split_at c s' with
         | Some (l, r) => Some (x :: l, r)
         | None => None
         end
  end.

(** Whether the last character of [s] is a blank; an empty [s] has none. *)
Definition trailing_blank (s : chars) : bool :=
  match rev s with
  | c :: _ => is_blank c
  | [] => false
  end.

(** [IsDBkey(line, key, text)]: the value returned and [text] afterwards.
    [None] is the failed assertion that the right-hand side does not end
    with a blank; a build with [NDEBUG] goes on there.  The two assertions
    before it, [ln <= eq] and [p >= ln], hold whenever they are reached. *)
Definition IsDBkey (NDEBUG : bool) (line key text : chars)
  : option (Z * chars) :=
  match split_at "="%char line with
  | None => Some (0, text)
  | Some (lhs, rhs) =>
    let ln := skip_while is_blank lhs in
    match ln with
    | [] => Some (-1, text)
    | _ =>
      let k := rev (skip_while is_blank (rev ln)) in
      if negb (is_prefix k key) then Some (-1, text)
      else if trailing_blank rhs && negb NDEBUG then None
      else Some (1, skip_while is_blank rhs)
    end
  end.

(** [IsTag(buf)]. *)
Definition IsTag (buf : chars) : bool :=
  match skip_while (fun c => negb (Ascii.eqb c "["%char)) buf with
  | [] => false
  | _ :: p =>
    match p with
    | [] => false
    | x :: p' =>
      if Ascii.eqb x "]"%char then false
      else match skip_while (fun c => negb (Ascii.eqb c "]"%char)) p' with
           | [] => false
           | _ :: _ => true
           end
    end
  end.

(** ** SeekDBdate *)

(** The successive results of [fgets(buf, 256, file)] until end of file:
    each holds at most 255 characters and ends after a newline.  [room] is
    the space left in the buffer, [cur] what is in it, last character
    first. *)
Fixpoint fgets_from (room : nat) (cur : chars) (file : chars)
  : list chars :=
  match file with
  | [] => match cur with [] => [] | _ => [rev cur] end
  | c :: file' =>
    if Ascii.eqb c newline then rev (c :: cur) :: fgets_from 255 [] file'
    else match room with
         | S (S room') => fgets_from (S room') (c :: cur) file'
         | _ => rev (c :: cur) :: fgets_from 255 [] file'
         end
  end.

Definition fgets_all (file : chars) : list chars := fgets_from 255 [] file.

(** The locals of [SeekDBdate] and the file position. *)
Record seek_state : Type := mkSeek {
  seek_prevdate : TDatime;
  foundpos : Z;
  seek_found : bool;
  quit : bool;
  offset : Z
}.

(** [if (buf[len - 1] == '\n') buf[len - 1] = 0;] *)
Definition chop_newline (buf : chars) : chars :=
  match rev buf with
  | x :: r => if Ascii.eqb x newline then rev r else buf
  | [] => buf
  end.

(** The line [SeekDBdate] looks at for one result of [fgets], or [None] when
    it skips it: shorter than two characters, or a comment. *)
Definition seek_line (chunk : chars) : option chars :=
  let buf := c_str chunk in
  if (length buf <? 2)%nat then None
  else match buf with
       | x :: _ => if Ascii.eqb x "#"%char then None else Some (chop_newline buf)
       | [] => None
       end.

(** One turn of [while( !errno && !quit && fgets(buf, LEN, file) )]. *)
Definition seek_step (date : TDatime) (end_on_tag : bool) (st : seek_state)
           (chunk : chars) : seek_state :=
  if quit st then st else
  let pos := offset st + Z.of_nat (length chunk) in
  match seek_line chunk with
  | None => mkSeek (seek_prevdate st) (foundpos st) (seek_found st) false pos
  | Some line =>
    let accepted :=
      match IsDBdate line with
      | Some tagdate =>
        if (tagdate <=? date) && (seek_prevdate st <=? tagdate)
        then Some tagdate else None
      | None => None
      end in
    match accepted with
    | Some tagdate => mkSeek tagdate pos true false pos
    | None =>
      mkSeek (seek_prevdate st) (foundpos st) (seek_found st)
        (end_on_tag && IsTag line) pos
    end
  end.

(** [SeekDBdate(file, date, end_on_tag)] on a file with contents [file] and
    position [pos]: the value returned and the position afterwards. *)
Definition SeekDBdate (file : chars) (pos : nat) (date : TDatime)
           (end_on_tag : bool) : bool * Z :=
  let st := fold_left (seek_step date end_on_tag)
              (fgets_all (skipn pos file))
              (mkSeek epoch (-1) false false (Z.of_nat pos)) in
  (seek_found st, if seek_found st then foundpos st else Z.of_nat pos).

(** ** LoadDBvalue *)

(** The locals of [LoadDBvalue] and the output parameter [text]. *)
Record load_state : Type := mkLoad {
  found : bool;
  do_ignore : bool;
  keydate : TDatime;
  prevdate : TDatime;
  text : chars
}.

(** A loop that a failed assertion in its body ends. *)
Fixpoint fold_opt {A B : Type} (f : A -> B -> option A) (l : list B) (a : A)
  : option A :=
  match l with
  | [] => Some a
  | b :: l' =>
    match f a b with
    | Some a' => fold_opt f l' a'
    | None => None
    end
  end.

Section Build.

(** Whether the assertions are compiled out. *)
Variable NDEBUG : bool.

(** The body of [for( auto& line : lines )]; [None] when the assertion of
    [IsDBkey] fails. *)
Definition load_line (date : TDatime) (key : chars) (st : load_state)
           (line : chars) : option load_state :=
  match (if do_ignore st then Some (0, text st)
         else IsDBkey NDEBUG line key (text st)) with
  | None => None
  | Some (status, text') =>
    Some
      (if negb (status =? 0) then
         if 0 <? status
         then mkLoad true (do_ignore st) (keydate st) (keydate st) text'
         else mkLoad (found st) (do_ignore st) (keydate st) (prevdate st) text'
       else
         match IsDBdate line with
         | Some d =>
           mkLoad (found st) ((date <? d) || (d <? prevdate st)) d
             (prevdate st) (text st)
         | None => st
         end)
  end.

Section Textvars.

(** What [gHaTextvars->Substitute] makes of a line: the line itself when
    there are no text variables, several lines for a variable with several
    values. *)
Variable Substitute : chars -> list chars.

(** The body of [while( ReadDBline(file, buf, bufsiz, dbline) != EOF )]. *)
Definition load_dbline (date : TDatime) (key : chars) (st : load_state)
           (dbline : chars) : option load_state :=
  match dbline with
  | [] => Some st
  | _ => fold_opt (load_line date key) (Substitute dbline) st
  end.

(** [LoadDBvalue(file, date, key, text)] for a file and a key that are not
    null and no I/O error: the value returned and [text] afterwards, [None]
    when an assertion fails.  [dblines] are the lines that [ReadDBline]
    returns from the rewound file until it reports EOF. *)
Definition LoadDBvalue (dblines : list chars) (date : TDatime) (key : chars)
           (text0 : chars) : option (Z * chars) :=
  match fold_opt (load_dbline date key) dblines
          (mkLoad false false epoch epoch text0) with
  | Some st => Some (if found st then 0 else 1, text st)
  | None => None
  end.

End Textvars.

End Build.

(** The lines the inner loop sees, in order. *)
Definition inner_lines (Substitute : chars -> list chars)
           (dblines : list chars) : list chars :=
  flat_map (fun dbline => match dbline with
                          | [] => []
                          | _ => Substitute dbline
                          end) dblines.

(** ** Reading a database file as dated sections *)

(** The time stamp [SeekDBdate] reads from one result of [fgets], if any. *)
Definition seek_tag (chunk : chars) : option TDatime :=
  match seek_line chunk with
  | Some line => IsDBdate line
  | None => None
  end.

(** The number of characters in some results of [fgets]. *)
Definition span (chunks : list chars) : Z :=
  Z.of_nat (length (concat chunks)).

(** A date that can be accepted for the requested [date]. *)
Definition eligible (date d : TDatime) : Prop := epoch <= d <= date.

(** What a line is to [LoadDBvalue] looking for [key]: a value of the key,
    a time stamp, or neither; the assertion of [IsDBkey] is left aside
    here. *)
Inductive entry : Type :=
| Value (v : chars)
| Tag (d : TDatime)
| Other.

Definition classify (key line : chars) : entry :=
  match IsDBkey true line key [] with
  | Some (status, v) =>
    if 0 <? status then Value v
    else if status <? 0 then Other
    else match IsDBdate line with
         | Some d => Tag d
         | None => Other
         end
  | None => Other
  end.

(** The values of the key with the date of the section each stands in;
    [cur] is the date of the section the first line stands in. *)
Fixpoint occurrences (key : chars) (cur : TDatime) (lines : list chars)
  : list (TDatime * chars) :=
  match lines with
  | [] => []
  | line :: lines' =>
    match classify key line with
    | Value v => (cur, v) :: occurrences key cur lines'
    | Tag d => occurrences key d lines'
    | Other => occurrences key cur lines'
    end
  end.

(** No line is an assignment and a time stamp at once. *)
Definition unambiguous (lines : list chars) : Prop :=
  forall line, In line lines -> IsDBdate line <> None ->
               ~ In "="%char line.

(** [x] is the last element of [l] with the greatest date that does not
    exceed [date], [l = pre ++ x :: post]. *)
Definition last_latest {A : Type} (dated : A -> option TDatime)
           (date : TDatime) (pre : list A) (d : TDatime) (post : list A)
  : Prop :=
  eligible date d /\
  (forall x d', In x pre -> dated x = Some d' -> d' <= date -> d' <= d) /\
  (forall x d', In x post -> dated x = Some d' -> d' <= date -> d' < d).

(** The date of an occurrence. *)
Definition occ_date (x : TDatime * chars) : option TDatime := Some (fst x).

(** What holds of the locals after the results [scanned] of [fgets]. *)
Definition seek_inv (pos : Z) (date : TDatime) (end_on_tag : bool)
           (st : seek_state) (scanned : list chars) : Prop :=
  offset st = pos + span scanned /\
  (quit st = true -> end_on_tag = true) /\
  epoch <= seek_prevdate st /\
  if seek_found st then
    exists pre c post d,
      scanned = pre ++ c :: post /\ seek_tag c = Some d /\
      seek_prevdate st = d /\ foundpos st = pos + span (pre ++ [c]) /\
      last_latest seek_tag date pre d post
  else
    seek_prevdate st = epoch /\
    forall c d, In c scanned -> seek_tag c = Some d -> ~ eligible date d.

(** What holds of the locals after the lines that hold the occurrences
    [occ]. *)
Definition load_inv (date : TDatime) (text0 : chars) (st : load_state)
           (occ : list (TDatime * chars)) : Prop :=
  (do_ignore st = false ->
   keydate st <= date /\ prevdate st <= keydate st) /\
  (do_ignore st = true ->
   date < keydate st \/ keydate st < prevdate st) /\
  epoch <= prevdate st /\
  if found st then
    exists pre d v post,
      occ = pre ++ (d, v) :: post /\ prevdate st = d /\ text st = v /\
      last_latest occ_date date pre d post
  else
    prevdate st = epoch /\ text st = text0 /\
    forall x d, In x occ -> occ_date x = Some d -> ~ eligible date d.

(** ** A small database file *)

Module Sample.
Import String.
Local Open Scope string_scope.

Definition of_string (s : string) : chars := list_ascii_of_string s.

(** Four sections: undated, 2020, 2019 and 2022, each with a value of
    [a]. *)
Definition sample_lines : list chars :=
  map of_string
    ["a = 1"; "[ 2020-01-01 00:00:00 ]"; "a = 2";
     "[ 2019-01-01 00:00:00 ]"; "a = 3";
     "[ 2022-01-01 00:00:00 ]"; "a = 4"].

Definition key_a : chars := of_string "a".
Definition value_2 : chars := of_string "2".

End Sample.

Definition sample_lines : list chars := Sample.sample_lines.
Definition key_a : chars := Sample.key_a.
Definition value_2 : chars := Sample.value_2.

Definition sample_file : chars :=
  concat (map (fun line => line ++ [newline]) sample_lines).

(** No text variables. *)
Definition no_substitution (line : chars) : list chars := [line].

End Database.

Module EventBlocks.
Import Pipelining.

(** One event of a block: the number its event header carries and the data
    words that follow the header. *)
Definition event : Type := (Z * list Z)%type.

(** The data words of an event: the first is tagged with a data type, each
    later one is tagged so or continues the type of the word before it. *)
Definition payload_ok (p : list Z) : Prop :=
  match p with
  | [] => True
  | w :: p' => tagged_data w /\ Forall (fun x => tagged_data x \/ untagged x) p'
  end.

Definition event_ok (e : event) : Prop :=
  0 <= fst e < 2 ^ 22 /\ payload_ok (snd e).

Definition event_words (slot : Z) (e : event) : list Z :=
  EventHeader slot (fst e) :: snd e.

(** A block of events for one slot as it arrives: block header with the
    number of events, the events, block trailer. *)
Definition block_words (slot : Z) (events : list event) (nwords : Z)
  : list Z :=
  BlockHeader slot (Z.of_nat (length events))
  :: flat_map (event_words slot) events ++ [BlockTrailer slot nwords].

(** The sub-buffers of such a block: every event behind a copy of the block
    header, the last one closed by the block trailer. *)
Fixpoint sub_buffers (BH BT slot : Z) (events : list event)
  : list (list Z) :=
  match events with
  | [] => []
  | e :: events' =>
    match events' with
    | [] => [BH :: event_words slot e ++ [BT]]
    | _ :: _ => (BH :: event_words slot e) :: sub_buffers BH BT slot events'
    end
  end.

(** The split state while an event of the module's slot is open. *)
Definition open_event (crate slot dbg : Z) (done : bool) (bs nw BH dtd : Z)
           (ft : bool) (eb : list (list Z)) (ib : Z) (ce : list diag)
           (oeb : list Z) (start : Z) : split_state :=
  mkSplit (mkModule crate slot dbg true done bs nw BH dtd ft eb ib ce)
    oeb slot slot start.

(** The number of multiples of 100 in [[n0, n1)]. *)
Definition hundreds (n0 n1 : Z) : nat :=
  Z.to_nat ((n1 + 99) / 100 - (n0 + 99) / 100).

End EventBlocks.

Module FastbusCalls.
Import Fastbus.

(** A world without what a call may leave behind in [fChan], [fData] and
    [fRawData], the members [Decode] writes. *)
Definition without_decoded (w : world) : world :=
  on_this (set_decoded 0 0 0) w.

(** What an earlier call may have left in the members a call starts by
    resetting or overwrites: [fWordsSeen], [fHeader], and the three of
    [Decode]. *)
Definition stale (seen header chan data raw : Z) (w : world) : world :=
  on_this (fun m => set_fHeader header
                      (set_fWordsSeen seen (set_decoded chan data raw m))) w.

End FastbusCalls.

Module DBText.
Import Ascii Database.

Definition dot : ascii := "."%char.

(** [s.rfind(c, pos)]: the index of the last [c] at or before [pos]. *)
Fixpoint rfind (c : ascii) (s : chars) (pos : nat) : option nat :=
  match s with
  | [] => None
  | x :: s' =>
    let here := if Ascii.eqb x c then Some O else None in
    match pos with
    | O => here
    | S pos' =>
      match rfind c s' pos' with
      | Some i => Some (S i)
      | None => here
      end
    end
  end.

(** [std::count(s.begin(), s.end(), c)]. *)
Definition count (c : ascii) (s : chars) : nat :=
  length (filter (Ascii.eqb c) s).

Definition kMaxInt : Z := 2 ^ 31 - 1.

(** [ChopPrefix(s)]: the value returned and [s] afterwards. *)
Definition ChopPrefix (s : chars) : Z * chars :=
  let len := length s in
  let chopped :=
    if (2 <=? len)%nat then
      match rfind dot s (len - 2) with
      | Some pos =>
        let s' := firstn (pos + 1) s in
        let ndot := Z.of_nat (count dot s') in
        if ndot <=? kMaxInt then Some (ndot, s') else None
      | None => None
      end
    else None in
  match chopped with
  | Some r => r
  | None => (0, [])
  end.

(** Equality of two strings. *)
Fixpoint chars_eqb (s t : chars) : bool :=
  match s, t with
  | [], [] => true
  | x :: s', y :: t' => Ascii.eqb x y && chars_eqb s' t'
  | _, _ => false
  end.

End DBText.

Module DBTextSample.
Import String.
Local Open Scope string_scope.
Definition prefix_L_vdc : Database.chars := list_ascii_of_string "L.vdc.".
End DBTextSample.

Module DBSamples.
Import String.
Local Open Scope string_scope.
Definition of_string (s : string) : Database.chars := list_ascii_of_string s.
Definition line_nw : Database.chars := of_string "nw = 5".
Definition key_nwires : Database.chars := of_string "nwires".
Definition value_5 : Database.chars := of_string "5".
End DBSamples.

Module DBStamps.
Import Ascii Database.

(** The character of a decimal digit. *)
Definition digit_char (d : Z) : ascii := ascii_of_N (Z.to_N (48 + d)).

Definition two_digits (n : Z) : chars :=
  [digit_char (n / 10); digit_char (n mod 10)].

Definition four_digits (n : Z) : chars :=
  [digit_char (n / 1000); digit_char (n / 100 mod 10);
   digit_char (n / 10 mod 10); digit_char (n mod 10)].

(** A time stamp as the database files write it, [[ yyyy-mm-dd hh:mi:ss ]],
    with blanks [b1] after the opening and [b2] before the closing
    bracket. *)
Definition time_stamp (b1 b2 : chars) (yy mm dd hh mi ss : Z) : chars :=
  "["%char :: b1 ++ four_digits yy ++ "-"%char :: two_digits mm
  ++ "-"%char :: two_digits dd ++ " "%char :: two_digits hh
  ++ ":"%char :: two_digits mi ++ ":"%char :: two_digits ss
  ++ b2 ++ ["]"%char].

End DBStamps.

Module DBConfig.
Import Ascii Database DBText.









End DBConfig.

Module DBConfigSample.
Import String.
Local Open Scope string_scope.
Definition of_string (s : string) : Database.chars := list_ascii_of_string s.
Definition line_b : Database.chars := (of_string "b = 2" ++ [Database.newline])%list.
End DBConfigSample.

Module DBHere.
Import Ascii Database.

Definition quote : ascii := "034"%char.
Definition colons : chars := [":"; ":"]%char.

(** [strstr(s, sub)]: the index of the first place where [sub] occurs. *)
Fixpoint strstr (sub s : chars) : option nat :=
  if is_prefix sub s then Some O
  else match s with
       | [] => None
       | _ :: s' => option_map S (strstr sub s')
       end.

(** [full_prefix]: the prefix without a dot at its end, in parentheses and
    quotes. *)
Definition full_prefix (prefix : chars) : chars :=
  let p := match rev prefix with
           | x :: r => if Ascii.eqb x "."%char then rev r else prefix
           | [] => prefix
           end in
  ["("%char; quote] ++ p ++ [quote; ")"%char].

(** [Here(method, prefix)]: the text the pointer returned points to.
    [None] is a null pointer. *)
Definition Here (method prefix : option chars) : chars :=
  let with_prefix :=
    match prefix with
    | Some (c :: p) =>
      let fp := full_prefix (c :: p) in
      match method with
      | Some (m0 :: m) =>
        match strstr colons (m0 :: m) with
        | Some pos =>
          Some (firstn pos (m0 :: m) ++ fp ++ skipn pos (m0 :: m), None)
        | None => Some (fp ++ colons, method)
        end
      | _ => Some (fp ++ colons, method)
      end
    | _ => None
    end in
  let (txt, method) :=
    match with_prefix with
    | Some r => r
    | None => ([], method)
    end in
  match method with
  | Some m => txt ++ m
  | None => txt
  end.

End DBHere.

Module DBRead.
Import Ascii Database.

Definition tab : ascii := "009"%char.

(** [EOF]. *)
Definition EOF : Z := -1.

(** What [fgets(buf, bufsiz, file)] reads: at most [room = bufsiz - 1]
    characters, ending behind a newline; and what is left of the file. *)
Fixpoint fgets_chunk (room : nat) (file : chars) : chars * chars :=
  match room, file with
  | S room', c :: file' =>
    if Ascii.eqb c newline then ([c], file')
    else let (chunk, rest) := fgets_chunk room' file' in (c :: chunk, rest)
  | _, _ => ([], file)
  end.

(** [fgets]: [None] is the null pointer at end of file. *)
Definition fgets (bufsiz : nat) (file : chars) : option (chars * chars) :=
  match file with
  | [] => None
  | _ => Some (fgets_chunk (bufsiz - 1) file)
  end.

(** [while( (p = strchr(p, '\t')) ) *(p++) = ' ';] *)
Definition tabs_to_spaces (s : chars) : chars :=
  map (fun c => if Ascii.eqb c tab then " "%char else c) s.

(** The loop of [GetLine]: [line] so far and the file from the current
    position on; the result is [r != nullptr], [line] and the file behind
    what was read.  Every turn reads at least one character when [bufsiz]
    is 2 or more, so [fuel] beyond the length of the file is never used
    up; [None] stands for a loop that does not end. *)
Fixpoint GetLine_loop (fuel : nat) (bufsiz : nat) (line file : chars)
  : option (bool * chars * chars) :=
  match fgets bufsiz file with
  | None => Some (false, line, file)
  | Some (chunk, rest) =>
    let buf := c_str chunk in
    match split_at newline buf with
    | Some (before, _) =>
      Some (true, line ++ tabs_to_spaces before, rest)
    | None =>
      match fuel with
      | O => None
      | S fuel' =>
        GetLine_loop fuel' bufsiz (line ++ tabs_to_spaces buf) rest
      end
    end
  end.

(** [GetLine(file, buf, bufsiz, line)]: the value returned, [line], and the
    file behind what was read. *)
Definition GetLine (bufsiz : nat) (file : chars) : option (Z * chars * chars) :=
  match GetLine_loop (length file) bufsiz [] file with
  | None => None
  | Some (r, line, rest) =>
    Some (if negb r && (length line =? 0)%nat then EOF else 0, line, rest)
  end.

End DBRead.

Module DBLines.
Import Ascii Database DBRead.

Definition hash : ascii := "#"%char.
Definition backslash : ascii := "\"%char.
Definition equals : ascii := "="%char.
Definition blank : ascii := " "%char.

Definition one_of (cs : chars) (c : ascii) : bool := existsb (Ascii.eqb c) cs.

(** [std::string::find_first_of] and [find_first_not_of]; [None] is
    [npos]. *)
Fixpoint find_first_of (cs s : chars) : option nat :=
  match s with
  | [] => None
  | c :: s' => if one_of cs c then Some O
               else option_map S (find_first_of cs s')
  end.

Fixpoint find_first_not_of (cs s : chars) : option nat :=
  match s with
  | [] => None
  | c :: s' => if one_of cs c then option_map S (find_first_not_of cs s')
               else Some O
  end.

Definition same_pos (a : option nat) (pos : nat) : bool :=
  match a with
  | Some n => Nat.eqb n pos
  | None => false
  end.

(** [IsAssignment(str)]; [None] is the failed [assert(pos > 0)]. *)
Definition IsAssignment (str : chars) : option bool :=
  match find_from equals 0 str with
  | None => Some false
  | Some pos =>
    if same_pos (find_first_not_of [blank; tab] str) pos then Some false
    else if Nat.eqb pos 0 then None
    else
      let before := nth (pos - 1) str nul in
      Some (negb (Ascii.eqb before "!"%char || Ascii.eqb before "<"%char ||
                  Ascii.eqb before ">"%char ||
                  ((pos + 1 <? length str)%nat &&
                   Ascii.eqb (nth (pos + 1) str nul) equals)))
  end.

Definition empty (s : chars) : bool :=
  match s with
  | [] => true
  | _ => false
  end.

Definition ends_with_blank (s : chars) : bool :=
  negb (empty s) && Ascii.eqb (last s nul) blank.

Section ReadDBline.

(** [Trim], which takes the white space off both ends of a string, is
    defined in another file. *)
Variable Trim : chars -> chars.
Variable bufsiz : nat.

(** How one turn of the loop of [ReadDBline] ends: with the next turn
    ([continue], or the end of the body), with [break], where [rewind]
    tells whether [fsetpos(file, &oldpos)] came first, or with a failed
    assertion. *)
Inductive turn : Type :=
| Next (line : chars) (maybe_continued unfinished : bool)
| Done (rewind : bool)
| Assert.

(** The body of the loop, for the [linbuf] that [GetLine] has read. *)
Definition ReadDBline_turn (line : chars) (maybe_continued : bool)
           (linbuf : chars) : turn :=
  let pos := find_first_of [hash; backslash] linbuf in
  let continued :=
    match pos with
    | Some p => Ascii.eqb (nth p linbuf nul) backslash
    | None => false
    end in
  let comment :=
    match pos with
    | Some p => negb (Ascii.eqb (nth p linbuf nul) backslash)
    | None => false
    end in
  let linbuf :=
    match pos with
    | Some p => firstn p linbuf
    | None => linbuf
    end in
  let leading_space :=
    match linbuf with
    | c :: _ => Ascii.eqb c blank
    | [] => false
    end in
  let trailing_space := ends_with_blank linbuf in
  let linbuf :=
    if leading_space || trailing_space then Trim linbuf else linbuf in
  if empty line && empty linbuf then Next line maybe_continued true
  else if empty linbuf then
    if continued || comment then Next line maybe_continued true
    else Done false
  else
    match IsAssignment linbuf with
    | None => Assert
    | Some is_assignment =>
      if maybe_continued && is_assignment then
        if empty line then Assert else Done true
      else
        let maybe_continued :=
          if empty line && negb continued && is_assignment then true
          else maybe_continued in
        let unfinished := continued || maybe_continued in
        let linbuf :=
          if maybe_continued || (trailing_space && continued)
          then linbuf ++ [blank] else linbuf in
        let line :=
          if leading_space && negb (empty line) &&
             negb (Ascii.eqb (last line nul) blank)
          then line ++ [blank] else line in
        Next (line ++ linbuf) maybe_continued unfinished
    end.

(** The state at the end of the loop of [ReadDBline]: [line],
    [maybe_continued], [r], the file from [oldpos] on and the file from the
    current position on. *)
Definition loop_result : Type := (chars * bool * Z * chars * chars)%type.

(** The loop of [ReadDBline], with [fgetpos] taken to succeed.  A turn that
    is followed by another has read at least one character, so [fuel]
    beyond the length of the file is never used up.  [None] is a failed
    assertion, or a loop that does not end. *)
Fixpoint ReadDBline_loop (fuel : nat) (line : chars)
         (maybe_continued unfinished : bool) (r : Z) (oldpos file : chars)
  : option loop_result :=
  if negb unfinished then Some (line, maybe_continued, r, oldpos, file)
  else
    match GetLine bufsiz file with
    | None => None
    | Some (r', linbuf, file') =>
      if negb (r' =? 0) then Some (line, maybe_continued, r', file, file')
      else
        match ReadDBline_turn line maybe_continued linbuf with
        | Assert => None
        | Done rewind =>
          Some (line, maybe_continued, r', file,
                if rewind then file else file')
        | Next line' maybe_continued' unfinished' =>
          match fuel with
          | O => None
          | S fuel' =>
            ReadDBline_loop fuel' line' maybe_continued' unfinished' r'
                            file file'
          end
        end
    end.

(** [ReadDBline(file, buf, bufsiz, line)]: the value returned, [line] and
    the file from the position on at which the call leaves it. *)
Definition ReadDBline (file : chars) : option (Z * chars * chars) :=
  match ReadDBline_loop (length file) [] false true 0 file file with
  | None => None
  | Some (line, maybe_continued, r, oldpos, file) =>
    if maybe_continued then
      let (r, file) := if r =? EOF then (0, oldpos) else (r, file) in
      if empty line then None
      else Some (r, if Ascii.eqb (last line nul) blank
                    then removelast line else line, file)
    else Some (r, line, file)
  end.

(** The loop of [LoadDBvalue] around [ReadDBline]:
    [while( ReadDBline(file, buf, bufsiz, dbline) != EOF )
    { if( dbline.empty() ) continue; ... }], the lines it hands on one
    after the other.  [None] as for [ReadDBline], or a loop that does not
    end within [fuel] turns. *)
Fixpoint read_dblines (fuel : nat) (file : chars) : option (list chars) :=
  match ReadDBline file with
  | None => None
  | Some (r, dbline, file') =>
    if r =? EOF then Some []
    else
      match fuel with
      | O => None
      | S fuel' =>
        match read_dblines fuel' file' with
        | None => None
        | Some dblines =>
          Some (if empty dbline then dblines else dbline :: dblines)
        end
      end
  end.

End ReadDBline.

(** A database line of the plain kind: some text without comment or
    continuation mark, without a blank at either end, and without tabs,
    newlines or NUL. *)
Definition plain (l : chars) : Prop :=
  l <> [] /\ hd nul l <> blank /\ last l nul <> blank /\
  Forall (fun c => one_of [hash; backslash; tab; newline; nul] c = false) l.

(** A line that holds nothing or a comment only. *)
Definition comment_or_empty (c : chars) : Prop :=
  c = [] \/
  exists t, c = hash :: t /\ ~ In newline t /\ ~ In nul t.

(** The lines of a text, each with its newline. *)
Definition text_of (lines : list chars) : chars :=
  concat (map (fun l => l ++ [newline]) lines).

(** The lines with a blank between each two of them. *)
Fixpoint joined (lines : list chars) : chars :=
  match lines with
  | [] => []
  | [l] => l
  | l :: rest => l ++ blank :: joined rest
  end.

(** What may stand behind an entry: the end of the file, an empty line, or
    the next assignment. *)
Definition entry_end (tail after : chars) : Prop :=
  (tail = [] /\ after = []) \/
  (exists rest, tail = newline :: rest /\ after = rest) \/
  (exists l rest, tail = l ++ newline :: rest /\ plain l /\
                  IsAssignment l = Some true /\ after = tail).

(** An entry of a database file: an assignment, the lines that continue
    it, and whether an empty line follows. *)
Definition db_entry : Type := (chars * list chars * bool)%type.

Definition db_entry_ok (e : db_entry) : Prop :=
  let '(l, more, _) := e in
  plain l /\ IsAssignment l = Some true /\
  Forall (fun c => plain c /\ IsAssignment c = Some false) more.

Definition entry_line (e : db_entry) : chars :=
  let '(l, more, _) := e in joined (l :: more).

Fixpoint entries_text (es : list db_entry) : chars :=
  match es with
  | [] => []
  | (l, more, gap) :: es' =>
    text_of (l :: more) ++ (if gap then [newline] else [])
    ++ entries_text es'
  end.

(** What the loop keeps: a tentative continuation has at least an
    assignment and the blank behind it in [line], and a finished line is
    not empty. *)
Definition kept (line : chars) (maybe unfinished : bool) : Prop :=
  (maybe = true -> (2 <= length line)%nat) /\
  (unfinished = false -> (1 <= length line)%nat).

End DBLines.

Module DBLinesSample.
Import Ascii String.
Local Open Scope string_scope.
Definition of_string (s : string) : Database.chars := list_ascii_of_string s.
Definition line_nw : Database.chars := of_string "nw = 2".
Definition line_34 : Database.chars := of_string "3 4".
Definition line_comment : Database.chars := of_string "# wires".
Definition line_stamp : Database.chars :=
  of_string "[ 2021-01-01 00:00:00 ]".
Definition line_b : Database.chars := of_string "b = 1".
Definition tail_b : Database.chars := (line_b ++ [Database.newline])%list.
End DBLinesSample.

Module DBValues.
Import Ascii Database DBStamps.

Definition INT_MIN : Z := - 2 ^ 31.
Definition INT_MAX : Z := 2 ^ 31 - 1.

(** An optional sign. *)
Definition sign_of (s : chars) : bool * chars :=
  match s with
  | x :: s' =>
    if Ascii.eqb x "-"%char then (true, s')
    else if Ascii.eqb x "+"%char then (false, s')
    else (false, s)
  | [] => (false, [])
  end.

(** [inp >> dval] for an [int] on the rest [s] of the stream, with
    [inp.good()] afterwards: white space is skipped, then a sign and the
    decimal digits that follow are read.  The stream is not good, [None],
    when there is no digit, when the value does not fit an [int], or when
    the digits run to the end of the stream. *)
Definition extract_int (s : chars) : option (Z * chars) :=
  let s := skip_while isspace s in
  let (negative, s) := sign_of s in
  let '(v, count, rest) := scan_digits (length s) 0 O s in
  match count, rest with
  | O, _ => None
  | _, [] => None
  | _, _ :: _ =>
    let r := if negative then - v else v in
    if (INT_MIN <=? r) && (r <=? INT_MAX) then Some (r, rest) else None
  end.

(** [while( true ) { inp >> dval; if( inp.good() ) values.push_back(dval);
    else break; }]: every turn that goes on reads at least one character,
    so the fuel [LoadDBarray] gives, the length of the stream, is not used
    up. *)
Fixpoint extract_all (fuel : nat) (s : chars) : list Z :=
  match fuel with
  | O => []
  | S fuel' =>
    match extract_int s with
    | Some (v, rest) => v :: extract_all fuel' rest
    | None => []
    end
  end.

Section Textvars.

Variable NDEBUG : bool.
Variable Substitute : chars -> list chars.

(** [LoadDBarray<Int_t>(file, date, key, values)]: the value returned and
    [values] afterwards; [None] when an assertion fails in
    [LoadDBvalue]. *)
Definition LoadDBarray (dblines : list chars) (date : TDatime) (key : chars)
           (values : list Z) : option (Z * list Z) :=
  match LoadDBvalue NDEBUG Substitute dblines date key [] with
  | None => None
  | Some (err, text) =>
    if negb (err =? 0) then Some (err, values)
    else
      let text := text ++ [" "%char] in
      Some (0, extract_all (length text) text)
  end.

(** The elements of [l] that are all there. *)
Fixpoint all_some {A : Type} (l : list (option A)) : option (list A) :=
  match l with
  | [] => Some []
  | Some a :: l' =>
    match all_some l' with
    | Some r => Some (a :: r)
    | None => None
    end
  | None :: _ => None
  end.

(** The two loops of [LoadDBmatrix]; [tmpval.at(i)] throws, [None], for an
    index that is not there. *)
Definition matrix_row {A : Type} (tmpval : list A) (ncols irow : nat)
  : option (list A) :=
  all_some (map (fun i => nth_error tmpval (i + irow * ncols)) (seq 0 ncols)).

Definition matrix_rows {A : Type} (tmpval : list A) (ncols nrows : nat)
  : option (list (list A)) :=
  all_some (map (matrix_row tmpval ncols) (seq 0 nrows)).

(** [LoadDBmatrix<Int_t>(file, date, key, values, ncols)]: the value
    returned and [values] afterwards; [None] when [ncols] is zero, a
    division by zero, when an exception leaves the function, or when an
    assertion fails in [LoadDBvalue]. *)
Definition LoadDBmatrix (dblines : list chars) (date : TDatime)
           (key : chars) (values : list (list Z)) (ncols : Z)
  : option (Z * list (list Z)) :=
  match LoadDBarray dblines date key [] with
  | None => None
  | Some (err, tmpval) =>
    if negb (err =? 0) then Some (err, values)
    else if ncols =? 0 then None
    else
      let size := Z.of_nat (length tmpval) in
      if negb (size mod ncols =? 0) then Some (-129, values)
      else
        match matrix_rows tmpval (Z.to_nat ncols) (Z.to_nat (size / ncols))
        with
        | Some rows => Some (0, rows)
        | None => None
        end
  end.

End Textvars.

(** A number as the files write it: an optional minus sign and decimal
    digits; its text, its value. *)
Definition number : Type := (bool * list Z)%type.

Definition number_text (n : number) : chars :=
  (if fst n then ["-"%char] else []) ++ map digit_char (snd n).

Definition digits_value (ds : list Z) : Z :=
  fold_left (fun acc d => 10 * acc + d) ds 0.

Definition number_value (n : number) : Z :=
  if fst n then - digits_value (snd n) else digits_value (snd n).

Definition number_ok (n : number) : Prop :=
  snd n <> [] /\ Forall (fun d => 0 <= d <= 9) (snd n) /\
  INT_MIN <= number_value n <= INT_MAX.

(** Numbers with one blank between them. *)
Fixpoint numbers_text (ns : list number) : chars :=
  match ns with
  | [] => []
  | n :: ns' =>
    match ns' with
    | [] => number_text n
    | _ :: _ => number_text n ++ " "%char :: numbers_text ns'
    end
  end.

(** What stops the loop: the end of the stream, or a character that starts
    no number. *)
Definition no_number (s : chars) : Prop :=
  match skip_while isspace s with
  | [] => True
  | c :: _ =>
    isdigit c = false /\ c <> "-"%char /\ c <> "+"%char
  end.

(** The numbers of a stream, each followed by a blank. *)
Fixpoint numbers_stream (ns : list number) (tail : chars) : chars :=
  match ns with
  | [] => tail
  | n :: ns' => number_text n ++ " "%char :: numbers_stream ns' tail
  end.

End DBValues.

Module DBValuesSample.
Import String.
Local Open Scope string_scope.
Definition matrix_lines : list Database.chars :=
  [list_ascii_of_string "m = 1 2 3 4 5 6"].
Definition key_m : Database.chars := list_ascii_of_string "m".
End DBValuesSample.

Module DBRequests.
Import Ascii Database DBText.

(** Messages of [LoadDatabase]: a required key is missing; a read failed
    with a negative code. *)
Inductive db_error : Type :=
| ErrMissing (key : chars)
| ErrLoad (ret : Z) (key : chars).

Section Load.

(** What a request says about the variable to fill, [var], [type], [nelem]
    and [descript], is looked at by the typed reads only; [A] stands for
    it.  [store] stands for the variables the requests point to. *)
Variables A store : Type.

(** An entry of the request array; [has_var] says that [var] is not
    null. *)
Record DBRequest : Type := mkRequest {
  name : chars;
  has_var : bool;
  what : A;
  optional : bool;
  search : Z
}.

Definition set_search (v : Z) (item : DBRequest) : DBRequest :=
  mkRequest (name item) (has_var item) (what item) (optional item) v.

(** [item->search], next to the parameter [search] of the function. *)
Definition item_search (item : DBRequest) : Z := search item.

(** The typed read of one entry under the key [key], the chain of
    [if( item->type == ... )] with its calls of [LoadDBvalue],
    [LoadDBarray] and [LoadDBmatrix]: the value it leaves in [ret], which
    is 0 when the key is found and read, positive when the key is not
    found and negative for an error, and the variables afterwards. *)
Variable load : chars -> A -> store -> Z * store.

(** The variables and the messages written so far. *)
Definition world : Type := (store * list db_error)%type.

Definition report (e : db_error) (w : world) : world :=
  (fst w, snd w ++ [e]).

Section Items.

(** The nested call [LoadDatabase(f, date, newreq, newprefix, newsearch,
    here)]. *)
Variable LoadDatabase_up :
  list DBRequest -> chars -> Z -> world -> option (Z * world).

(** The decision to look one level up: the prefix and the search level to
    go on with. *)
Definition level_up (prefix : chars) (search : Z) (item : DBRequest)
  : option (chars * Z) :=
  let newsearch := if negb (item_search item =? 0)
                   then item_search item else search in
  if negb (newsearch =? 0) && negb (length prefix =? 0)%nat then
    let (ndot, newprefix) := ChopPrefix prefix in
    let newlevel := ndot + 1 in
    if (newsearch <? 0) || (newsearch <=? newlevel)
    then Some (newprefix, if newsearch <? 0 then newsearch + 1 else newsearch)
    else None
  else None.

(** The loop [while( item->name )] from the entry of index [index] on. *)
Fixpoint load_items (prefix : chars) (search : Z) (req : list DBRequest)
         (index : Z) (w : world) : option (Z * world) :=
  match req with
  | [] => Some (0, w)
  | item :: req' =>
    if negb (has_var item) then load_items prefix search req' (index + 1) w
    else
      let key := prefix ++ name item in
      let (ret, vars) := load key (what item) (fst w) in
      let w := (vars, snd w) in
      if ret =? 0 then load_items prefix search req' (index + 1) w
      else if 0 <? ret then
        match level_up prefix search item with
        | Some (newprefix, newsearch) =>
          match LoadDatabase_up [set_search 0 item] newprefix newsearch w with
          | None => None
          | Some (ret, w) =>
            if ret =? 0 then load_items prefix search req' (index + 1) w
            else Some (ret, w)
          end
        | None =>
          if optional item then load_items prefix search req' (index + 1) w
          else Some (1 + index, report (ErrMissing key) w)
        end
      else Some (ret, report (ErrLoad ret key) w)
  end.

End Items.

(** [LoadDatabase] with a bound on the depth of the nested calls. *)
Fixpoint LoadDatabase_depth (depth : nat)
  : list DBRequest -> chars -> Z -> world -> option (Z * world) :=
  match depth with
  | O => fun _ _ _ _ => None
  | S depth' =>
    fun req prefix search w =>
      load_items (LoadDatabase_depth depth') prefix search req 0 w
  end.

(** [LoadDatabase(f, date, req, prefix, search, here)] for a request array
    that is not null: the value returned, the variables and the messages
    afterwards.  Every nested call has a shorter prefix, so the depth
    given is never used up. *)
Definition LoadDatabase (req : list DBRequest) (prefix : chars) (search : Z)
           (w : world) : option (Z * world) :=
  LoadDatabase_depth (S (length prefix)) req prefix search w.

(** The keys tried one after the other for one entry, until one is found
    or a read fails. *)
Fixpoint try_keys (keys : list chars) (item : DBRequest) (w : world)
  : Z * world :=
  match keys with
  | [] => (0, w)
  | key :: keys' =>
    let (ret, vars) := load key (what item) (fst w) in
    let w := (vars, snd w) in
    if ret =? 0 then (0, w)
    else if 0 <? ret then
      match keys' with
      | [] => if optional item then (0, w)
              else (1, report (ErrMissing key) w)
      | _ :: _ => try_keys keys' item w
      end
    else (ret, report (ErrLoad ret key) w)
  end.

(** The entries of a request one after the other, each with the keys
    [keys_of] gives for it; [index] is the index of the first. *)
Fixpoint run_requests (keys_of : DBRequest -> list chars)
         (req : list DBRequest) (index : Z) (w : world) : Z * world :=
  match req with
  | [] => (0, w)
  | item :: req' =>
    if negb (has_var item) then run_requests keys_of req' (index + 1) w
    else
      let (ret, w') := try_keys (keys_of item) item w in
      if ret =? 0 then run_requests keys_of req' (index + 1) w'
      else if (0 <? ret) && (length (keys_of item) <=? 1)%nat
           then (1 + index, w')
           else (ret, w')
  end.

End Load.

Arguments mkRequest {A}.
Arguments name {A}.
Arguments has_var {A}.
Arguments what {A}.
Arguments optional {A}.
Arguments search {A}.
Arguments set_search {A}.
Arguments item_search {A}.
Arguments report {store}.
Arguments level_up {A}.
Arguments load_items {A store}.
Arguments LoadDatabase_depth {A store}.
Arguments LoadDatabase {A store}.
Arguments try_keys {A store}.
Arguments run_requests {A store}.

(** A prefix of [n] levels: every component followed by a dot. *)
Definition dotted (components : list chars) : chars :=
  concat (map (fun c => c ++ [dot]) components).

(** The lowest number of levels that a search from [n] levels comes down
    to. *)
Definition lowest_level (n : nat) (search : Z) : nat :=
  if search =? 0 then n
  else if search <? 0 then Z.to_nat (Z.max 0 (Z.of_nat n + search))
  else Nat.min n (Z.to_nat (search - 1)).

(** The keys from [n] levels down to [lo] levels. *)
Fixpoint keys_down (components : list chars) (name : chars) (lo n : nat)
  : list chars :=
  (dotted (firstn n components) ++ name) ::
  match n with
  | O => []
  | S n' => if (lo <=? n')%nat then keys_down components name lo n' else []
  end.

(** The search level that holds for an entry: its own, or else the one
    given to the function. *)
Definition effective {A : Type} (item : DBRequest A) (search : Z) : Z :=
  if negb (item_search item =? 0) then item_search item else search.

(** The keys tried for an entry under a prefix of the given components. *)
Definition keys_of {A : Type} (components : list chars) (search : Z)
           (item : DBRequest A) : list chars :=
  keys_down components (name item)
    (lowest_level (length components) (effective item search))
    (length components).

(** A component of a prefix: not empty, without dot. *)
Definition component (c : chars) : Prop := c <> [] /\ ~ In dot c.

End DBRequests.

Module DBRequestsSample.
Import Ascii String.
Local Open Scope string_scope.
Definition of_string (s : string) : Database.chars := list_ascii_of_string s.
Definition prefix_u1 : list Database.chars :=
  [of_string "L"; of_string "vdc"; of_string "u1"].
Definition request_nw : DBRequests.DBRequest unit :=
  DBRequests.mkRequest (of_string "nw") true tt false 0.
Definition request_a : DBRequests.DBRequest unit :=
  DBRequests.mkRequest (of_string "a") true tt false 0.
(** A database that has [nw] at the top level only; the store counts the
    reads. *)
Definition load_top (key : Database.chars) (_ : unit) (st : nat) : Z * nat :=
  (if (List.length key =? 2)%nat then 0 else 1, S st).
(** A database that has the key [a] at every level and no other. *)
Definition load_a (key : Database.chars) (_ : unit) (st : unit) : Z * unit :=
  (if Ascii.eqb (List.last key Database.nul) "a"%char then 0 else 1, st).
End DBRequestsSample.

Module DBFiles.
Import Ascii Database DBText.

(** [TDatime::GetDate] of the ROOT library: the date as the number
    yyyymmdd. *)
Definition GetDate (date : TDatime) : Z :=
  (Z.shiftr date 26 + 1995) * 10000
  + Z.land (Z.shiftr date 22) 15 * 100
  + Z.land (Z.shiftr date 17) 31.

(** [a < b] on strings: the first character that differs decides, a
    proper beginning comes first. *)
Fixpoint string_ltb (a b : chars) : bool :=
  match a, b with
  | _, [] => false
  | [], _ :: _ => true
  | x :: a', y :: b' =>
    if (N_of_ascii x <? N_of_ascii y)%N then true
    else if (N_of_ascii y <? N_of_ascii x)%N then false
    else string_ltb a' b'
  end.

(** [sort( time_dirs.begin(), time_dirs.end() )]. *)
Fixpoint insert_sorted (x : chars) (l : list chars) : list chars :=
  match l with
  | [] => [x]
  | y :: l' => if string_ltb y x then y :: insert_sorted x l' else x :: l
  end.

Definition sort (l : list chars) : list chars :=
  fold_right insert_sorted [] l.

(** [atoi] of a string of digits that fits an [int]. *)
Definition atoi_digits (s : chars) : Z :=
  fst (fst (scan_digits (length s) 0 O s)).

(** An entry of the database directory that names a date: eight digits. *)
Definition is_time_dir (item : chars) : bool :=
  (length item =? 8)%nat && forallb isdigit item.

Definition slash : chars := ["/"%char].
Definition defaultdir : chars :=
  ["D"; "E"; "F"; "A"; "U"; "L"; "T"]%char.
Definition db_ : chars := ["d"; "b"; "_"]%char.
Definition dat : chars := ["d"; "a"; "t"]%char.
Definition dot_dat : chars := ["."; "d"; "a"; "t"]%char.

(** The loop over the sorted date directories: the directory for [date],
    if there is one.  [prev] is the entry before the current one. *)
Fixpoint date_dir (date : Z) (prev : option chars) (time_dirs : list chars)
  : option chars :=
  match time_dirs with
  | [] => None
  | item :: rest =>
    let item_date := atoi_digits item in
    if date <? item_date then prev
    else match rest with
         | [] => Some item
         | _ :: _ => date_dir date (Some item) rest
         end
  end.

(** The name of the database file: "db_" in front and ".dat" behind,
    unless they are there.  [None] when the name is shorter than four
    characters then. *)
Definition db_filename (name : chars) : option chars :=
  let filename :=
    if chars_eqb (firstn 3 name) db_ then name else db_ ++ name in
  if (length filename <? 4)%nat then None
  else if Ascii.eqb (last filename nul) "."%char then Some (filename ++ dat)
  else if negb (chars_eqb (skipn (length filename - 4) filename) dot_dat)
       then Some (filename ++ dot_dat)
       else Some filename.

Section FileSystem.

(** The environment: the value of [DB_DIR]; the entries of a directory
    that can be opened; the files that can be opened. *)
Variable DB_DIR : option chars.
Variable OpenDirectory : chars -> option (list chars).
Variable fopen : chars -> bool.

(** Whether the assertions are compiled out. *)
Variable NDEBUG : bool.

(** The first directory of the search list that can be opened, with its
    entries. *)
Fixpoint first_directory (dnames : list chars)
  : option (chars * list chars) :=
  match dnames with
  | [] => None
  | d :: dnames' =>
    match OpenDirectory d with
    | Some entries => Some (d, entries)
    | None => first_directory dnames'
    end
  end.

Definition search_list : list chars :=
  match DB_DIR with
  | Some dbdir => [dbdir]
  | None => []
  end ++ [["D"; "B"]%char; ["d"; "b"]%char; ["."%char]].

(** [GetDBFileList(name, date, here)]: the list returned, or [None] when
    the assertion on the length of the file name fails.  An empty [name]
    stands for a null or empty one. *)
Definition GetDBFileList (name : chars) (date : TDatime)
  : option (list chars) :=
  match name with
  | [] => Some []
  | _ =>
    if existsb (Ascii.eqb "/"%char) name then Some [name]
    else
      match first_directory search_list with
      | None => Some []
      | Some (thedir, entries) =>
        let time_dirs := filter is_time_dir entries in
        let have_defaultdir :=
          existsb (fun item => negb (length item =? 8)%nat
                               && chars_eqb item defaultdir) entries in
        let found := date_dir (GetDate date) None (sort time_dirs) in
        match db_filename name with
        | None => if NDEBUG then Some [] else None
        | Some filename =>
          Some ([filename]
                ++ match found with
                   | Some it => [thedir ++ slash ++ it ++ slash ++ filename]
                   | None => []
                   end
                ++ (if have_defaultdir
                    then [thedir ++ slash ++ defaultdir ++ slash ++ filename]
                    else [])
                ++ [thedir ++ slash ++ filename])
        end
      end
  end.

(** [OpenDBFile(name, date, here, filemode, debug_flag, openpath)]: the
    path of the file opened, [None] for a null pointer. *)
Definition OpenDBFile (name : chars) (date : TDatime)
  : option (option chars) :=
  match name with
  | [] => Some None
  | _ =>
    match GetDBFileList name date with
    | None => None
    | Some fnames => Some (find fopen fnames)
    end
  end.

End FileSystem.

(** The value of a string of digits, read from the left. *)
Definition digits_val (acc : Z) (s : chars) : Z :=
  fold_left (fun a c => 10 * a + digit_value c) s acc.

(** Ascending dates. *)
Definition by_date (a b : chars) : Prop := atoi_digits a <= atoi_digits b.

Fixpoint ascending (l : list chars) : Prop :=
  match l with
  | [] => True
  | x :: l' => Forall (by_date x) l' /\ ascending l'
  end.

End DBFiles.

Module DBFilesSample.
Import Ascii String.
Local Open Scope string_scope.
Definition of_string (s : string) : Database.chars := list_ascii_of_string s.
Definition name_run : Database.chars := of_string "run".
Definition file_run : Database.chars := of_string "db_run.dat".
Definition dir_DB : Database.chars := of_string "DB".
Definition entries_DB : list Database.chars :=
  [of_string "20210101"; of_string "DEFAULT"; of_string "20200101";
   of_string "notes"].
(** Only [DB] can be opened. *)
Definition open_DB (d : Database.chars) : option (list Database.chars) :=
  if DBText.chars_eqb d dir_DB then Some entries_DB else None.
(** Only the file in [DB/20200101] can be opened. *)
Definition fopen_2020 (path : Database.chars) : bool :=
  DBText.chars_eqb path (of_string "DB/20200101/db_run.dat").
Definition date_june : Database.TDatime :=
  Database.TDatime_Set 2020 6 1 0 0 0.
End DBFilesSample.

(** * [LoadDBvalue] on the text of a file *)

Module DBLoad.
Import Ascii Database DBLines.

Section Externals.

Variable Trim : chars -> chars.
Variable NDEBUG : bool.
Variable Substitute : chars -> list chars.

(** [LoadDBvalue(file, date, key, text)] from [rewind(file)] on: the lines
    are those [ReadDBline] returns, one call after the other, with the
    buffer of 256 characters the function allocates.  The loop gets as
    many turns as the file has characters, which is more than it makes;
    [None] is a failed assertion in [IsDBkey]. *)
Definition LoadDBvalue_file (file : chars) (date : TDatime)
           (key text0 : chars) : option (Z * chars) :=
  match read_dblines Trim 256 (length file) file with
  | None => None
  | Some dblines => LoadDBvalue NDEBUG Substitute dblines date key text0
  end.

End Externals.

End DBLoad.

Module DBLoadSample.
Import Ascii String.
Local Open Scope string_scope.

Definition of_string (s : string) : Database.chars := list_ascii_of_string s.

(** The lines of [Database.sample_file] as [ReadDBline] hands them on. *)
Definition glued_lines : list Database.chars :=
  map of_string
    ["a = 1 [ 2020-01-01 00:00:00 ]"; "a = 2 [ 2019-01-01 00:00:00 ]";
     "a = 3 [ 2022-01-01 00:00:00 ]"; "a = 4"].

Definition value_4 : Database.chars := of_string "4".

(** The sections of [Database.sample_file] with an empty line after each
    value. *)
Definition spaced_lines : list Database.chars :=
  map of_string
    ["a = 1"; ""; "[ 2020-01-01 00:00:00 ]"; "a = 2"; "";
     "[ 2019-01-01 00:00:00 ]"; "a = 3"; "";
     "[ 2022-01-01 00:00:00 ]"; "a = 4"; ""].

Definition spaced_file : Database.chars :=
  List.concat
    (map (fun line => (line ++ [Database.newline])%list) spaced_lines).

(** An assignment whose line ends with a blank and a continuation mark,
    and an empty line behind it. *)
Definition continued_file : Database.chars :=
  (of_string "a = 1 \" ++ [Database.newline; Database.newline])%list.

Definition line_a1 : Database.chars := of_string "a = 1".
Definition line_a1_blank : Database.chars := of_string "a = 1 ".

End DBLoadSample.
(* ================================================================== *)
(** * Shared facts *)

Lemma UInt_t_small (x : Z) : 0 <= x < 2 ^ 32 -> UInt_t x = x.
Proof. intros H. unfold UInt_t. apply Z.mod_small. exact H. Qed.

(* ================================================================== *)
(** * PipeliningModule: properties *)

Module PipeliningFacts.
Import Pipelining.

(** ** Facts about the iteration interface *)

Lemma size_nonneg (m : PipeliningModule) : 0 <= size m.
Proof. unfold size. lia. Qed.

(** A call of [GetNextBlock] with the cursor inside the accumulator returns
    the sub-buffer under the cursor and advances the cursor by one; the done
    flag is raised on the last sub-buffer. *)
Lemma GetNextBlock_step (m : PipeliningModule) :
  fMultiBlockMode m = true ->
  0 <= index_buffer m < size m ->
  size m < 2 ^ 32 ->
  GetNextBlock m =
  (nth (Z.to_nat (index_buffer m)) (eventblock m) [],
   set_index_buffer (index_buffer m + 1)
     (if index_buffer m =? size m - 1 then set_fBlockIsDone true m else m)).
Proof.
  intros Hmb Hi Hsz.
  unfold GetNextBlock, IsMultiBlockMode.
  destruct (eventblock m) as [|b bs] eqn:Heb.
  - unfold size in Hi. rewrite Heb in Hi. simpl in Hi. lia.
  - rewrite Hmb. simpl negb. cbv iota.
    assert (Hu : UInt_t (index_buffer m + 1) = index_buffer m + 1)
      by (apply UInt_t_small; lia).
    assert (Hu' : UInt_t (index_buffer m + 1 - 1) = index_buffer m)
      by (replace (index_buffer m + 1 - 1) with (index_buffer m) by lia;
          apply UInt_t_small; lia).
    destruct (index_buffer m =? size m - 1) eqn:Hlast;
      unfold GetIndex; cbn [index_buffer set_index_buffer set_fBlockIsDone];
      rewrite Hu, Hu';
      replace (size (set_index_buffer _ _)) with (size m)
        by (unfold size; reflexivity);
      (replace (0 <? index_buffer m + 1) with true by (symmetry; apply Z.ltb_lt; lia));
      (replace (index_buffer m <? size m) with true by (symmetry; apply Z.ltb_lt; lia));
      cbn [andb eventblock set_index_buffer set_fBlockIsDone];
      rewrite Heb; reflexivity.
Qed.

(** With nothing in the accumulator, [GetNextBlock] never raises the done
    flag, so the loop of [PrintBlocks] runs into its guard. *)
Lemma PrintBlocks_loop_empty (fuel : nat) :
  forall icnt m,
    eventblock m = [] -> fBlockIsDone m = false ->
    PrintBlocks_loop fuel icnt m = None.
Proof.
  induction fuel as [|fuel IH]; intros icnt m Heb Hnd; simpl;
    unfold BlockIsDone; rewrite Hnd.
  - destruct (maxloops <? icnt); reflexivity.
  - destruct (maxloops <? icnt); [reflexivity|].
    apply IH; unfold GetNextBlock; rewrite Heb; simpl; assumption.
Qed.

Lemma PrintBlocks_empty (m : PipeliningModule) :
  fMultiBlockMode m = true -> eventblock m = [] -> PrintBlocks m = None.
Proof.
  intros Hmb Heb. unfold PrintBlocks, IsMultiBlockMode. rewrite Hmb.
  cbn [negb]. rewrite PrintBlocks_loop_empty; [reflexivity| |reflexivity].
  destruct m; simpl in *; assumption.
Qed.

(** With [k] sub-buffers still ahead of the cursor, the loop of
    [PrintBlocks] ends after [k] calls with the cursor at the end. *)
Lemma PrintBlocks_loop_done (k : nat) :
  forall fuel icnt m,
    fMultiBlockMode m = true ->
    fBlockIsDone m = false ->
    0 <= index_buffer m ->
    size m = index_buffer m + Z.of_nat (S k) ->
    size m < 2 ^ 32 ->
    icnt + Z.of_nat k <= maxloops ->
    (S k <= fuel)%nat ->
    PrintBlocks_loop fuel icnt m =
    Some (set_index_buffer (size m) (set_fBlockIsDone true m)).
Proof.
  induction k as [|k IH]; intros fuel icnt m Hmb Hnd Hi Hsz Hlt Hic Hfuel;
    (destruct fuel as [|fuel]; [lia|]);
    cbn [PrintBlocks_loop]; unfold BlockIsDone; rewrite Hnd;
    (replace (maxloops <? icnt) with false by (symmetry; apply Z.ltb_ge; lia));
    rewrite GetNextBlock_step by (try assumption; lia); cbn [snd].
  - replace (index_buffer m =? size m - 1) with true
      by (symmetry; apply Z.eqb_eq; lia).
    destruct fuel; cbn [PrintBlocks_loop BlockIsDone fBlockIsDone
                        set_index_buffer set_fBlockIsDone];
      replace (index_buffer m + 1) with (size m) by lia;
      destruct m; reflexivity.
  - replace (index_buffer m =? size m - 1) with false
      by (symmetry; apply Z.eqb_neq; lia).
    rewrite IH; try (destruct m; simpl in *; unfold size in *; simpl in *;
                     first [assumption | lia]).
    destruct m; reflexivity.
Qed.

(** [PrintBlocks] on a multiblock module with between one and
    [maxloops + 1] sub-buffers walks through them and rewinds. *)
Lemma PrintBlocks_nonempty (m : PipeliningModule) :
  fMultiBlockMode m = true ->
  0 < size m <= maxloops + 1 ->
  PrintBlocks m = Some (ReStart m).
Proof.
  intros Hmb Hsz. unfold PrintBlocks, IsMultiBlockMode. rewrite Hmb.
  cbn [negb].
  rewrite (PrintBlocks_loop_done (Z.to_nat (size m - 1))).
  - destruct m; reflexivity.
  - destruct m; assumption.
  - reflexivity.
  - destruct m; simpl; lia.
  - replace (size (ReStart m)) with (size m) by (destruct m; reflexivity).
    replace (index_buffer (ReStart m)) with 0 by (destruct m; reflexivity).
    lia.
  - replace (size (ReStart m)) with (size m) by (destruct m; reflexivity).
    unfold maxloops in *. lia.
  - unfold maxloops in *. lia.
  - unfold maxloops in *. lia.
Qed.

Arguments PrintBlocks : simpl never.
Arguments data_type_id : simpl never.
Arguments type_field : simpl never.
Arguments slot_field : simpl never.
Arguments size_field : simpl never.
Arguments UInt_t : simpl never.

(** ** Facts about the scan *)

Lemma data_type_id_cases (data : Z) :
  data_type_id data = 0 \/ data_type_id data = 1.
Proof.
  unfold data_type_id.
  change 1 with (Z.ones 1) at 1 2. rewrite Z.land_ones by lia.
  assert (H := Z.mod_pos_bound (Z.shiftr data 31) (2 ^ 1) ltac:(lia)).
  change (2 ^ 1) with 2 in *. lia.
Qed.

Ltac pm_proj :=
  cbv beta iota delta
    [push_event on_self set_oneEventBuffer set_slot_blk_hdr
     set_slot_evt_hdr set_BlockStart set_fMultiBlockMode set_fBlockIsDone
     set_block_size set_fNWarnings set_fBlockHeader set_data_type_def
     set_fFirstTime set_eventblock set_index_buffer log
     self oneEventBuffer slot_blk_hdr slot_evt_hdr BlockStart
     fCrate fSlot fDebug fMultiBlockMode fBlockIsDone block_size fNWarnings
     fBlockHeader data_type_def fFirstTime eventblock index_buffer cerr
     andb negb fst snd].

Ltac pm_if :=
  match goal with
  | |- context [if ?c then _ else _] =>
    lazymatch c with
    | context [if _ then _ else _] => fail
    | _ => destruct c eqn:?
    end
  end.

(** Runs one loop iteration symbolically, splitting on each test as soon as
    its condition is known, one function body at a time. *)
Ltac pm_crunch :=
  repeat first
    [ progress pm_proj
    | pm_if
    | progress cbv zeta
    | progress (cbv delta [split_word]; cbv beta)
    | progress (cbv delta [dispatch]; cbv beta)
    | progress (cbv delta [case_block_header case_block_trailer
                           case_event_header case_default]; cbv beta) ].

Lemma fold_left_invariant {A B : Type} (f : A -> B -> A) (P : A -> Prop)
      (l : list B) :
  forall a, P a -> (forall a b, In b l -> P a -> P (f a b)) ->
            P (fold_left f l a).
Proof.
  induction l as [|b l IH]; intros a Ha Hstep; simpl.
  - exact Ha.
  - apply IH.
    + apply Hstep; [left; reflexivity | exact Ha].
    + intros a' b' Hin. apply Hstep. right. exact Hin.
Qed.

Lemma split_word_frame (s : split_state) (data : Z) :
  frame (self (split_word s data)) = frame (self s).
Proof.
  destruct s as [m oeb sbh seh bs]; destruct m. unfold frame.
  pm_crunch; reflexivity.
Qed.

Lemma split_scan_frame (m : PipeliningModule) (buf : list Z) :
  frame (self (split_scan m buf)) =
  (fCrate m, fSlot m, fDebug m, false, fFirstTime m, index_buffer m).
Proof.
  unfold split_scan.
  apply (fold_left_invariant split_word
           (fun s => frame (self s) =
                     (fCrate m, fSlot m, fDebug m, false, fFirstTime m,
                      index_buffer m))).
  - destruct m; reflexivity.
  - intros a b _ Ha. rewrite split_word_frame. exact Ha.
Qed.




(** In legacy mode a word that is no such header leaves the flag down and
    the accumulator untouched. *)
Lemma split_word_legacy (s : split_state) (data : Z) :
  fMultiBlockMode (self s) = false ->
  (is_block_header data = true -> size_field data <= 1) ->
  fMultiBlockMode (self (split_word s data)) = false /\
  eventblock (self (split_word s data)) = eventblock (self s).
Proof.
  intros Hmb Hw.
  destruct s as [m oeb sbh seh bs]; destruct m. simpl in Hmb. subst.
  destruct (data_type_id_cases data) as [Hid|Hid].
  - assert (Hid1 : (data_type_id data =? 1) = false) by (rewrite Hid; reflexivity).
    assert (Hid0 : (data_type_id data =? 0) = true) by (rewrite Hid; reflexivity).
    cbv delta [split_word dispatch]; cbv beta. rewrite Hid1. cbv zeta. pm_proj.
    destruct (data_type_def0 =? 0).
    + cbv delta [case_block_header]; cbv beta. rewrite Hid0.
      split; reflexivity.
    + pm_crunch; split; reflexivity.
  - unfold is_block_header in Hw. rewrite Hid in Hw.
    assert (Hid1 : (data_type_id data =? 1) = true) by (rewrite Hid; reflexivity).
    assert (Hid0 : (data_type_id data =? 0) = false) by (rewrite Hid; reflexivity).
    cbv delta [split_word dispatch]; cbv beta. rewrite Hid1. cbv zeta. pm_proj.
    destruct (type_field data =? 0) eqn:Ht.
    + specialize (Hw eq_refl).
      cbv delta [case_block_header]; cbv beta. rewrite Hid0.
      cbv zeta. pm_proj.
      replace (1 <? size_field data) with false
        by (symmetry; apply Z.ltb_ge; exact Hw).
      pm_proj. split; reflexivity.
    + pm_crunch; split; reflexivity.
Qed.

Lemma split_scan_legacy (m : PipeliningModule) (buf : list Z) :
  fMultiBlockMode m = false ->
  (forall w, In w buf -> is_block_header w = true -> size_field w <= 1) ->
  fMultiBlockMode (self (split_scan m buf)) = false /\
  eventblock (self (split_scan m buf)) = [].
Proof.
  intros Hmb Hbuf. unfold split_scan.
  apply (fold_left_invariant split_word
           (fun s => fMultiBlockMode (self s) = false /\
                     eventblock (self s) = [])).
  - destruct m; split; [exact Hmb | reflexivity].
  - intros a b Hin [Ha1 Ha2].
    destruct (split_word_legacy a b Ha1 (Hbuf b Hin)) as [H1 H2].
    split; [exact H1 | rewrite H2; exact Ha2].
Qed.

(** ** Frame words and their fields *)

Lemma land_low_high (a b n : Z) :
  0 <= n -> 0 <= b < 2 ^ n -> Z.land (a * 2 ^ n) b = 0.
Proof.
  intros Hn Hb. apply Z.bits_inj'. intros i Hi.
  rewrite Z.land_spec, Z.bits_0.
  destruct (Z.ltb_spec i n) as [Hlt|Hge].
  - rewrite Z.mul_pow2_bits_low by lia. reflexivity.
  - destruct (Z.eq_dec b 0) as [->|Hb0].
    + rewrite Z.bits_0. apply andb_false_r.
    + rewrite (Z.bits_above_log2 b i); [apply andb_false_r | lia |].
      apply Z.log2_lt_pow2; [lia|].
      apply Z.lt_le_trans with (2 ^ n); [lia|].
      apply Z.pow_le_mono_r; lia.
Qed.

Lemma lor_low_high (a b n : Z) :
  0 <= n -> 0 <= b < 2 ^ n -> Z.lor (a * 2 ^ n) b = a * 2 ^ n + b.
Proof.
  intros Hn Hb.
  rewrite <- Z.lxor_lor by (apply land_low_high; assumption).
  symmetry. apply Z.add_nocarry_lxor. apply land_low_high; assumption.
Qed.

Lemma frame_word_sum (t slot x : Z) :
  0 <= t < 16 -> 0 <= slot < 32 -> 0 <= x < 2 ^ 22 ->
  Z.lor (Z.shiftl 1 31) (Z.lor (Z.shiftl t 27) (Z.lor (Z.shiftl slot 22) x))
  = 2 ^ 31 + t * 2 ^ 27 + slot * 2 ^ 22 + x.
Proof.
  intros Ht Hs Hx.
  rewrite !Z.shiftl_mul_pow2 by lia.
  rewrite (lor_low_high slot x 22) by lia.
  rewrite (lor_low_high t _ 27) by lia.
  rewrite (lor_low_high 1 _ 31) by lia.
  lia.
Qed.

Lemma data_type_id_div (w : Z) : data_type_id w = (w / 2147483648) mod 2.
Proof.
  unfold data_type_id. rewrite Z.shiftr_div_pow2 by lia.
  change (Z.land (w / 2 ^ 31) 1) with (Z.land (w / 2 ^ 31) (Z.ones 1)).
  rewrite Z.land_ones by lia. reflexivity.
Qed.

Lemma type_field_div (w : Z) : type_field w = (w / 134217728) mod 16.
Proof.
  unfold type_field. rewrite Z.shiftr_div_pow2 by lia.
  change (Z.land (w / 2 ^ 27) 15) with (Z.land (w / 2 ^ 27) (Z.ones 4)).
  rewrite Z.land_ones by lia. reflexivity.
Qed.

Lemma slot_field_div (w : Z) : slot_field w = (w / 4194304) mod 32.
Proof.
  unfold slot_field. rewrite Z.shiftr_div_pow2 by lia.
  change (Z.land (w / 2 ^ 22) 31) with (Z.land (w / 2 ^ 22) (Z.ones 5)).
  rewrite Z.land_ones by lia. reflexivity.
Qed.

Lemma frame_word_fields (t slot x : Z) :
  0 <= t < 16 -> 0 <= slot < 32 -> 0 <= x < 2 ^ 22 ->
  let w := Z.lor (Z.shiftl 1 31)
             (Z.lor (Z.shiftl t 27) (Z.lor (Z.shiftl slot 22) x)) in
  data_type_id w = 1 /\ type_field w = t /\ slot_field w = slot.
Proof.
  intros Ht Hs Hx w. subst w. rewrite frame_word_sum by assumption.
  rewrite data_type_id_div, type_field_div, slot_field_div.
  change (2 ^ 31) with 2147483648. change (2 ^ 27) with 134217728.
  change (2 ^ 22) with 4194304 in *.
  repeat split; Z.div_mod_to_equations; lia.
Qed.
(** Decides a test whose condition is closed. *)
Ltac pm_eval_cond :=
  match goal with
  | |- context [if ?c then _ else _] =>
    let v := eval vm_compute in c in
    lazymatch v with
    | true => change c with true
    | false => change c with false
    end
  end.

Lemma tagged_data_tests (w : Z) :
  tagged_data w ->
  (data_type_id w =? 1) = true /\
  (type_field w =? 0) = false /\ (type_field w =? 1) = false /\
  (type_field w =? 2) = false.
Proof.
  intros [Hid Ht]. rewrite Hid.
  repeat split; try reflexivity; apply Z.eqb_neq; lia.
Qed.

(** Runs the innermost pending loop iteration, with [tac] supplying what is
    known about the word. *)
Ltac pm_run tac :=
  repeat first
    [ progress pm_proj
    | progress tac
    | pm_eval_cond
    | progress cbv zeta
    | progress (cbv delta [split_word]; cbv beta)
    | progress (cbv delta [dispatch]; cbv beta)
    | progress (cbv delta [case_block_header case_block_trailer
                           case_event_header case_default]; cbv beta) ].

Ltac pm_next tac :=
  match goal with
  | |- context [split_word (mkSplit ?a ?b ?c ?d ?e) ?w] =>
    let H := fresh in
    eassert (H : split_word (mkSplit a b c d e) w = _)
      by (pm_run tac; cbn [app]; reflexivity);
    rewrite H; clear H
  end.

Lemma two_events_scan (crate dbg blk n D1 D2 D3 : Z) :
  0 <= n < 2 ^ 22 ->
  tagged_data D1 -> tagged_data D2 \/ untagged D2 -> tagged_data D3 ->
  exists dtd,
    self (split_scan (new_PipeliningModule crate 3 dbg blk)
            [BlockHeader 3 2; EventHeader 3 0; D1; D2; EventHeader 3 1; D3;
             BlockTrailer 3 n]) =
    mkModule crate 3 dbg true false 2 0 (BlockHeader 3 2) dtd true
      [[BlockHeader 3 2; EventHeader 3 0; D1; D2];
       [BlockHeader 3 2; EventHeader 3 1; D3; BlockTrailer 3 n]] 0 [].
Proof.
  intros Hn HD1 HD2 HD3.
  destruct (frame_word_fields 1 3 n ltac:(lia) ltac:(lia) Hn)
    as (Bid & Bt & Bs).
  fold (BlockTrailer 3 n) in Bid, Bt, Bs.
  set (BT := BlockTrailer 3 n) in *. clearbody BT.
  destruct (tagged_data_tests D1 HD1) as (A1 & A2 & A3 & A4).
  destruct (tagged_data_tests D3 HD3) as (C1 & C2 & C3 & C4).
  unfold split_scan, new_PipeliningModule, ReStart, split_init.
  cbn [fold_left]. pm_proj.
  assert (B : ((data_type_id D2 =? 1) = true /\
               (type_field D2 =? 0) = false /\ (type_field D2 =? 1) = false /\
               (type_field D2 =? 2) = false) \/ (data_type_id D2 =? 1) = false).
  { destruct HD2 as [H|H]; [left; apply tagged_data_tests; exact H|].
    right. unfold untagged in H. rewrite H. reflexivity. }
  destruct B as [(B1 & B2 & B3 & B4)|B1]; eexists.
  - do 7 pm_next ltac:(rewrite ?A1, ?A2, ?A3, ?A4, ?B1, ?B2, ?B3, ?B4,
                               ?C1, ?C2, ?C3, ?C4, ?Bid, ?Bt, ?Bs).
    pm_proj. reflexivity.
  - do 7 pm_next ltac:(rewrite ?A1, ?A2, ?A3, ?A4, ?B1,
                               ?C1, ?C2, ?C3, ?C4, ?Bid, ?Bt, ?Bs).
    pm_proj. reflexivity.
Qed.


(** ** The two-event scenario *)

(** C1 (amended): a module for slot 3 that receives BlockHeader(slot 3,
    size 2), EventHeader 0, D1, D2, EventHeader 1, D3, BlockTrailer(slot 3),
    where D1 and D3 are tagged words of a data type (type field 3 to 15) and
    D2 is such a word or an untagged continuation word, is split into exactly
    the two sub-buffers [BlockHeader, EventHeader 0, D1, D2] and
    [BlockHeader, EventHeader 1, D3, BlockTrailer]; two calls of
    [GetNextBlock] return them in that order and the done flag is raised by
    the second call, not before.  No diagnostic is written. *)
Theorem split_two_events (crate dbg blk n D1 D2 D3 : Z) :
  0 <= n < 2 ^ 22 ->
  tagged_data D1 -> tagged_data D2 \/ untagged D2 -> tagged_data D3 ->
  let BH := BlockHeader 3 2 in
  let EH0 := EventHeader 3 0 in
  let EH1 := EventHeader 3 1 in
  let BT := BlockTrailer 3 n in
  exists m1 m2 m3,
    SplitBuffer (new_PipeliningModule crate 3 dbg blk)
      [BH; EH0; D1; D2; EH1; D3; BT] = Some (m1, 0) /\
    eventblock m1 = [[BH; EH0; D1; D2]; [BH; EH1; D3; BT]] /\
    cerr m1 = [] /\
    BlockIsDone m1 = false /\
    GetNextBlock m1 = ([BH; EH0; D1; D2], m2) /\
    BlockIsDone m2 = false /\
    GetNextBlock m2 = ([BH; EH1; D3; BT], m3) /\
    BlockIsDone m3 = true.
Proof.
  intros Hn HD1 HD2 HD3 BH EH0 EH1 BT.
  destruct (two_events_scan crate dbg blk n D1 D2 D3 Hn HD1 HD2 HD3)
    as [dtd Hscan].
  fold BH EH0 EH1 BT in Hscan.
  set (mf := mkModule crate 3 dbg true false 2 0 BH dtd false
               [[BH; EH0; D1; D2]; [BH; EH1; D3; BT]] 0 []).
  assert (Hsplit : SplitBuffer (new_PipeliningModule crate 3 dbg blk)
                     [BH; EH0; D1; D2; EH1; D3; BT] = Some (mf, 0)).
  { unfold SplitBuffer. rewrite Hscan.
    change (negb (fFirstTime _) && _) with false. cbv iota.
    change (negb (IsMultiBlockMode _)) with false. cbv iota.
    change (set_fFirstTime false _) with mf.
    change (block_size mf =? size mf) with true. cbv iota.
    change (fDebug mf) with dbg.
    destruct (1 <=? dbg); [|reflexivity].
    rewrite PrintBlocks_nonempty; [reflexivity|reflexivity|].
    unfold size, maxloops; simpl; lia. }
  exists mf.
  exists (set_index_buffer 1 mf).
  exists (set_index_buffer 2 (set_fBlockIsDone true (set_index_buffer 1 mf))).
  split; [exact Hsplit|].
  repeat split.
Qed.

(** The scenario of [split_two_events] at concrete words: D1 and D3 carry
    type 4, D2 is an untagged continuation word. *)
Lemma split_two_events_witness :
  exists m1 m2 m3,
    SplitBuffer (new_PipeliningModule 1 3 0 0)
      [BlockHeader 3 2; EventHeader 3 0; 2684354577; 34; EventHeader 3 1;
       2684354611; BlockTrailer 3 7] = Some (m1, 0) /\
    eventblock m1 =
      [[BlockHeader 3 2; EventHeader 3 0; 2684354577; 34];
       [BlockHeader 3 2; EventHeader 3 1; 2684354611; BlockTrailer 3 7]] /\
    cerr m1 = [] /\
    BlockIsDone m1 = false /\
    GetNextBlock m1 =
      ([BlockHeader 3 2; EventHeader 3 0; 2684354577; 34], m2) /\
    BlockIsDone m2 = false /\
    GetNextBlock m2 =
      ([BlockHeader 3 2; EventHeader 3 1; 2684354611; BlockTrailer 3 7], m3) /\
    BlockIsDone m3 = true.
Proof.
  apply (split_two_events 1 0 0 7 2684354577 34 2684354611).
  - lia.
  - split; [reflexivity | vm_compute; discriminate].
  - right. reflexivity.
  - split; [reflexivity | vm_compute; discriminate].
Defined.

(** C1 as stated fails for plain words: with D1 = 17, D2 = 34, D3 = 51, all
    untagged, every word after an event header is handled as one more event
    header, and five sub-buffers come out instead of two. *)
Lemma split_two_events_untagged_counterexample :
  let BH := BlockHeader 3 2 in
  let EH0 := EventHeader 3 0 in
  let EH1 := EventHeader 3 1 in
  let BT := BlockTrailer 3 7 in
  untagged 17 /\ untagged 34 /\ untagged 51 /\
  exists m1,
    SplitBuffer (new_PipeliningModule 1 3 0 0)
      [BH; EH0; 17; 34; EH1; 51; BT] = Some (m1, 0) /\
    eventblock m1 =
      [[BH; EH0]; [BH; 17]; [BH; 34]; [BH; EH1]; [BH; 51; BT]] /\
    eventblock m1 <> [[BH; EH0; 17; 34]; [BH; EH1; 51; BT]] /\
    cerr m1 = [ErrBlockCount 2 5] /\
    fst (GetNextBlock m1) = [BH; EH0] /\
    fst (GetNextBlock m1) <> [BH; EH0; 17; 34].
Proof.
  cbv zeta. repeat split.
  eexists. split; [lazy; reflexivity|].
  repeat split; try (lazy; reflexivity); lazy; discriminate.
Qed.

(** ** Legacy mode *)

(** C2: a module that has not entered multiblock mode, given a buffer in
    which every block header declares at most one event, returns 1 from
    [SplitBuffer] and holds exactly one sub-buffer, the input buffer itself;
    [GetNextBlock] hands that buffer out. *)
Theorem single_block_passthrough (m : PipeliningModule) (buf : list Z) :
  fMultiBlockMode m = false ->
  (forall w, In w buf -> is_block_header w = true -> size_field w <= 1) ->
  exists m',
    SplitBuffer m buf = Some (m', 1) /\
    eventblock m' = [buf] /\
    index_buffer m' = 1 /\
    fMultiBlockMode m' = false /\
    fst (GetNextBlock m') = buf.
Proof.
  intros Hmb Hbuf.
  destruct (split_scan_legacy m buf Hmb Hbuf) as [Hflag Heb].
  unfold SplitBuffer.
  destruct (fFirstTime m) eqn:Hft.
  - replace (negb (fFirstTime (set_fBlockIsDone false (set_eventblock [] m))))
      with false by (destruct m; simpl in *; subst; reflexivity).
    cbn [andb].
    replace (IsMultiBlockMode
               (set_fFirstTime false (self (split_scan m buf)))) with false
      by (unfold IsMultiBlockMode; destruct (self (split_scan m buf));
          simpl in *; congruence).
    cbn [negb]. eexists. split; [reflexivity|].
    destruct (self (split_scan m buf)); simpl in *; subst.
    unfold GetNextBlock, IsMultiBlockMode. simpl. repeat split.
  - replace (negb (fFirstTime (set_fBlockIsDone false (set_eventblock [] m))))
      with true by (destruct m; simpl in *; subst; reflexivity).
    replace (IsMultiBlockMode (set_fBlockIsDone false (set_eventblock [] m)))
      with false by (destruct m; simpl in *; subst; reflexivity).
    cbn [negb andb]. eexists. split; [reflexivity|].
    destruct m; simpl in *; subst.
    unfold GetNextBlock, IsMultiBlockMode. simpl. repeat split.
Qed.

(** [single_block_passthrough] on a fresh module and a one-event block of
    slot 3. *)
Lemma single_block_passthrough_witness :
  exists m',
    SplitBuffer (new_PipeliningModule 1 3 0 0)
      [BlockHeader 3 1; EventHeader 3 0; 17; BlockTrailer 3 4] = Some (m', 1) /\
    eventblock m' = [[BlockHeader 3 1; EventHeader 3 0; 17; BlockTrailer 3 4]] /\
    index_buffer m' = 1 /\
    fMultiBlockMode m' = false /\
    fst (GetNextBlock m') =
      [BlockHeader 3 1; EventHeader 3 0; 17; BlockTrailer 3 4].
Proof.
  apply (single_block_passthrough (new_PipeliningModule 1 3 0 0)).
  - reflexivity.
  - intros w Hin Hh. simpl in Hin.
    destruct Hin as [<-|[<-|[<-|[<-|[]]]]];
      first [vm_compute; discriminate | vm_compute in Hh; discriminate].
Defined.

(** ** Multiblock mode: what a call keeps and what it rebuilds *)

(** A loop iteration only ever appends to the accumulator. *)
Lemma split_word_grows (s : split_state) (data : Z) :
  exists l, eventblock (self (split_word s data)) = eventblock (self s) ++ l.
Proof.
  destruct s as [m oeb sbh seh bs]; destruct m.
  pm_crunch;
    first [ exists []; rewrite app_nil_r; reflexivity
          | eexists; reflexivity ].
Qed.

Lemma fold_split_grows (buf : list Z) :
  forall s, exists l,
    eventblock (self (fold_left split_word buf s)) = eventblock (self s) ++ l.
Proof.
  induction buf as [|w buf IH]; intros s; simpl.
  - exists []. rewrite app_nil_r. reflexivity.
  - destruct (IH (split_word s w)) as [l1 H1].
    destruct (split_word_grows s w) as [l2 H2].
    exists (l2 ++ l1). rewrite H1, H2, app_assoc. reflexivity.
Qed.



Lemma skipn_nth_cons {A : Type} (d : A) (l : list A) :
  forall i, (i < length l)%nat -> skipn i l = nth i l d :: skipn (S i) l.
Proof.
  induction l as [|a l IH]; intros i Hi; simpl in Hi; [lia|].
  destruct i as [|i]; [reflexivity|].
  simpl. apply IH. lia.
Qed.

(** Draining from the cursor to the end returns the sub-buffers from the
    cursor on, in order, and leaves the done flag raised. *)
Lemma drain_from_cursor (k : nat) :
  forall m,
    fMultiBlockMode m = true ->
    0 <= index_buffer m ->
    size m = index_buffer m + Z.of_nat k ->
    size m < 2 ^ 32 ->
    fst (drain k m) = skipn (Z.to_nat (index_buffer m)) (eventblock m) /\
    (k <> O -> fBlockIsDone (snd (drain k m)) = true).
Proof.
  induction k as [|k IH]; intros m Hmb Hi Hsz Hlt.
  - simpl. split; [|congruence].
    rewrite skipn_all2; [reflexivity|]. unfold size in Hsz. lia.
  - cbn [drain]. rewrite GetNextBlock_step by (try assumption; lia).
    set (m1 := set_index_buffer (index_buffer m + 1)
                 (if index_buffer m =? size m - 1
                  then set_fBlockIsDone true m else m)).
    assert (Hm1 : fMultiBlockMode m1 = true /\
                  index_buffer m1 = index_buffer m + 1 /\
                  size m1 = size m /\ eventblock m1 = eventblock m).
    { subst m1. destruct (index_buffer m =? size m - 1); destruct m;
        repeat split; assumption. }
    destruct Hm1 as (H1 & H2 & H3 & H4).
    destruct (IH m1 H1 ltac:(lia) ltac:(lia) ltac:(lia)) as [IHa IHb].
    destruct (drain k m1) as [bs m2] eqn:Hd. cbn [fst snd] in *.
    split.
    + rewrite IHa, H2, H4.
      rewrite (skipn_nth_cons [] (eventblock m) (Z.to_nat (index_buffer m)))
        by (unfold size in Hsz; lia).
      replace (Z.to_nat (index_buffer m + 1))
        with (S (Z.to_nat (index_buffer m))) by lia.
      reflexivity.
    + intros _. destruct k as [|k].
      * simpl in Hd. injection Hd as _ <-. subst m1.
        replace (index_buffer m =? size m - 1) with true
          by (symmetry; apply Z.eqb_eq; lia).
        destruct m; reflexivity.
      * apply IHb. congruence.
Qed.

(** After [ReStart], as many calls as there are sub-buffers return all of
    them in the order of production. *)
Lemma drain_all (m : PipeliningModule) :
  fMultiBlockMode m = true -> size m < 2 ^ 32 ->
  fst (drain (length (eventblock m)) (ReStart m)) = eventblock m.
Proof.
  intros Hmb Hlt.
  assert (H := drain_from_cursor (length (eventblock m)) (ReStart m)).
  replace (fMultiBlockMode (ReStart m)) with true in H
    by (destruct m; simpl in *; congruence).
  replace (index_buffer (ReStart m)) with 0 in H by (destruct m; reflexivity).
  replace (size (ReStart m)) with (size m) in H by (destruct m; reflexivity).
  replace (eventblock (ReStart m)) with (eventblock m) in H
    by (destruct m; reflexivity).
  destruct H as [H _];
    [reflexivity | lia | unfold size; lia | exact Hlt | exact H].
Qed.

(** What [SplitBuffer] does once the loop has left the module in multiblock
    mode. *)
Lemma SplitBuffer_multiblock (m : PipeliningModule) (buf : list Z) :
  fFirstTime m = true \/ fMultiBlockMode m = true ->
  fMultiBlockMode (self (split_scan m buf)) = true ->
  let m1 := set_fFirstTime false (self (split_scan m buf)) in
  let m2 := if block_size m1 =? size m1 then m1
            else log (ErrBlockCount (block_size m1) (size m1)) m1 in
  SplitBuffer m buf =
  if 1 <=? fDebug m
  then match PrintBlocks m2 with Some m3 => Some (m3, 0) | None => None end
  else Some (m2, 0).
Proof.
  intros Hpath Hmb m1 m2. unfold SplitBuffer.
  replace (negb (fFirstTime (set_fBlockIsDone false (set_eventblock [] m))) &&
           negb (IsMultiBlockMode
                   (set_fBlockIsDone false (set_eventblock [] m))))
    with false
    by (unfold IsMultiBlockMode; destruct m; simpl in *;
        destruct Hpath; subst; simpl; rewrite ?andb_false_r; reflexivity).
  fold m1.
  replace (IsMultiBlockMode m1) with true
    by (subst m1; unfold IsMultiBlockMode;
        destruct (self (split_scan m buf)); simpl in *; congruence).
  cbn [negb]. fold m2.
  replace (fDebug m2) with (fDebug m); [reflexivity|].
  assert (Hf := split_scan_frame m buf). unfold frame in Hf.
  subst m2 m1. destruct (self (split_scan m buf)); simpl in *.
  destruct (block_size0 =? _); simpl; congruence.
Qed.

(** X29: when a buffer is split in multiblock mode and the blocks are not
    printed ([fDebug < 1]), or [PrintBlocks] has between one and
    [maxloops + 1] sub-buffers to walk through, [SplitBuffer] returns 0 and
    the module holds every sub-buffer the loop produced, in the order of
    production, whether or not their number equals the declared
    [block_size]; a mismatch only adds one error message.  Sub-buffers
    produced after any prefix of the buffer are still there at the end, and
    after [ReStart] the iteration hands all of them out. *)
Theorem block_count_mismatch_keeps_subbuffers
        (m : PipeliningModule) (buf : list Z) :
  let s := self (split_scan m buf) in
  fFirstTime m = true \/ fMultiBlockMode m = true ->
  fMultiBlockMode s = true ->
  fDebug m < 1 \/ 0 < size s <= maxloops + 1 ->
  exists m',
    SplitBuffer m buf = Some (m', 0) /\
    eventblock m' = eventblock s /\
    cerr m' = cerr s ++ (if block_size s =? size s then []
                         else [ErrBlockCount (block_size s) (size s)]) /\
    fMultiBlockMode m' = true /\
    (forall p q, buf = p ++ q ->
       exists l, eventblock m' = eventblock (self (split_scan m p)) ++ l) /\
    (size m' < 2 ^ 32 ->
       fst (drain (length (eventblock m')) (ReStart m')) = eventblock m').
Proof.
  intros s Hpath Hmb Hdbg.
  set (m1 := set_fFirstTime false s).
  set (m2 := if block_size m1 =? size m1 then m1
             else log (ErrBlockCount (block_size m1) (size m1)) m1).
  assert (H2 : eventblock m2 = eventblock s /\
               cerr m2 = cerr s ++ (if block_size s =? size s then []
                                    else [ErrBlockCount (block_size s) (size s)]) /\
               fMultiBlockMode m2 = true /\ size m2 = size s).
  { subst m2 m1. unfold size. destruct s; simpl in *.
    destruct (block_size0 =? _); simpl; rewrite ?app_nil_r; repeat split;
      assumption. }
  destruct H2 as (He & Hc & Hf & Hs).
  assert (Hgrow : forall m', eventblock m' = eventblock s ->
            forall p q, buf = p ++ q ->
              exists l, eventblock m' = eventblock (self (split_scan m p)) ++ l).
  { intros m' Hm' p q ->. rewrite Hm'. subst s. unfold split_scan.
    rewrite fold_left_app. apply fold_split_grows. }
  assert (Hsplit : SplitBuffer m buf = Some (m2, 0) \/
                   SplitBuffer m buf = Some (ReStart m2, 0)).
  { rewrite (SplitBuffer_multiblock m buf Hpath Hmb). fold s m1 m2.
    destruct (1 <=? fDebug m) eqn:Hd; [|left; reflexivity].
    right. rewrite PrintBlocks_nonempty; [reflexivity | exact Hf |].
    rewrite Hs. destruct Hdbg as [Hdbg|Hdbg]; [|exact Hdbg].
    apply Z.leb_le in Hd. lia. }
  destruct Hsplit as [Hsplit|Hsplit].
  - exists m2. split; [exact Hsplit|]. split; [exact He|].
    split; [exact Hc|]. split; [exact Hf|]. split.
    + apply Hgrow. exact He.
    + intros Hlt. apply drain_all; assumption.
  - exists (ReStart m2).
    assert (He' : eventblock (ReStart m2) = eventblock m2)
      by (destruct m2; reflexivity).
    assert (Hc' : cerr (ReStart m2) = cerr m2) by (destruct m2; reflexivity).
    assert (Hf' : fMultiBlockMode (ReStart m2) = fMultiBlockMode m2)
      by (destruct m2; reflexivity).
    split; [exact Hsplit|]. split; [congruence|]. split; [congruence|].
    split; [congruence|]. split.
    + apply Hgrow. congruence.
    + intros Hlt. apply drain_all; [congruence | exact Hlt].
Qed.

(** [block_count_mismatch_keeps_subbuffers] where the block declares three
    events and carries two: both are kept and handed out. *)
Lemma block_count_mismatch_witness :
  let buf := [BlockHeader 3 3; EventHeader 3 0; 2684354577;
              EventHeader 3 1; 2684354611; BlockTrailer 3 6] in
  let m := new_PipeliningModule 1 3 0 0 in
  exists m',
    SplitBuffer m buf = Some (m', 0) /\
    eventblock m' = eventblock (self (split_scan m buf)) /\
    cerr m' = cerr (self (split_scan m buf)) ++
              (if block_size (self (split_scan m buf)) =?
                  size (self (split_scan m buf))
               then []
               else [ErrBlockCount (block_size (self (split_scan m buf)))
                                   (size (self (split_scan m buf)))]) /\
    fMultiBlockMode m' = true /\
    (forall p q, buf = p ++ q ->
       exists l, eventblock m' = eventblock (self (split_scan m p)) ++ l) /\
    (size m' < 2 ^ 32 ->
       fst (drain (length (eventblock m')) (ReStart m')) = eventblock m').
Proof.
  intros buf m.
  apply (block_count_mismatch_keeps_subbuffers m buf).
  - left. reflexivity.
  - reflexivity.
  - left. simpl. lia.
Defined.

(** C3: a module for slot 3 that receives a block header of slot 5
    declaring two events enters multiblock mode and produces no sub-buffer,
    a mismatch with the declared 2.  At debug level 0 [SplitBuffer] logs
    the mismatch and returns 0.  At debug level 1 it logs the mismatch and
    then does not return: [PrintBlocks] asks [GetNextBlock] for the next
    sub-buffer until the done flag is up, [GetNextBlock] leaves the flag
    down when there is no sub-buffer at all, and the guard of the loop
    throws. *)
Theorem block_count_mismatch_debug_throws :
  let buf := [BlockHeader 5 2] in
  let quiet := new_PipeliningModule 1 3 0 0 in
  let debug := new_PipeliningModule 1 3 1 0 in
  let s := self (split_scan debug buf) in
  fMultiBlockMode s = true /\
  block_size s = 2 /\ size s = 0 /\
  (exists m',
      SplitBuffer quiet buf = Some (m', 0) /\
      eventblock m' = [] /\ cerr m' = [ErrBlockCount 2 0]) /\
  SplitBuffer debug buf = None.
Proof.
  intros buf quiet debug s.
  assert (Hs : s = mkModule 1 3 1 true false 2 0 (BlockHeader 5 2) 0 true
                     [] 0 []) by (lazy; reflexivity).
  split; [rewrite Hs; reflexivity|].
  split; [rewrite Hs; reflexivity|].
  split; [rewrite Hs; reflexivity|].
  split.
  - assert (Hq : self (split_scan quiet buf)
                 = mkModule 1 3 0 true false 2 0 (BlockHeader 5 2) 0 true
                            [] 0 []) by (lazy; reflexivity).
    eexists. split.
    + rewrite SplitBuffer_multiblock;
        [|left; reflexivity | rewrite Hq; reflexivity].
      rewrite Hq. change (1 <=? fDebug quiet) with false. cbv iota.
      reflexivity.
    + split; reflexivity.
  - rewrite SplitBuffer_multiblock;
      [|left; reflexivity | fold debug; fold s; rewrite Hs; reflexivity].
    fold debug. fold s. rewrite Hs.
    change (1 <=? fDebug debug) with true. cbv iota.
    rewrite PrintBlocks_empty; reflexivity.
Qed.











End PipeliningFacts.

(* ================================================================== *)
(** * FastbusModule: properties *)

Module FastbusFacts.
Import Fastbus.

Lemma IsSlot_config (m m' : FastbusModule) (word : Z) :
  config m = config m' -> IsSlot m word = IsSlot m' word.
Proof.
  unfold config, IsSlot. destruct m, m'; simpl. intros [=]; subst. reflexivity.
Qed.

Lemma decoded_config (m m' : FastbusModule) (word : Z) :
  config m = config m' -> decoded m word = decoded m' word.
Proof.
  unfold config, decoded, Chan, Data. destruct m, m'; simpl.
  intros [=]; subst. reflexivity.
Qed.

Lemma take_while_ext {A : Type} (f g : A -> bool) (l : list A) :
  (forall a, f a = g a) -> take_while f l = take_while g l.
Proof.
  intros H. induction l as [|a l IH]; simpl; [reflexivity|].
  rewrite H, IH. reflexivity.
Qed.

Lemma slot_run_config (m m' : FastbusModule) (buf : list Z) (pstop : Z) :
  config m = config m' -> slot_run m buf pstop = slot_run m' buf pstop.
Proof.
  intros H. unfold slot_run. apply take_while_ext.
  intros a. apply IsSlot_config. exact H.
Qed.

(** What a line written to the debug file leaves alone. *)
Lemma to_debug_keeps (d : debug_msg) (w : world) :
  first_load (to_debug d w) = first_load w /\
  this (to_debug d w) = this w /\
  sldat (to_debug d w) = sldat w /\
  cerr (to_debug d w) = cerr w.
Proof.
  unfold to_debug. destruct (fDebugFile (this w)); repeat split.
Qed.

(** A word that is decoded: one call of [loadData], one more word seen. *)
Lemma scan_word_hit (word : Z) (w : world) :
  fHasHeader (this w) = false \/ fWordsSeen (this w) <> 0 ->
  let w' := scan_word word w in
  first_load w' = first_load w /\
  cerr w' = cerr w /\
  sldat w' = sldat w ++ [decoded (this w) word] /\
  config (this w') = config (this w) /\
  fHeader (this w') = fHeader (this w) /\
  fWordsSeen (this w') = UInt_t (fWordsSeen (this w) + 1).
Proof.
  intros H w'. subst w'.
  destruct w as [fl m sl ce db]; destruct m; simpl in H.
  unfold scan_word. cbn [this fHasHeader fWordsSeen].
  replace (fHasHeader0 && (fWordsSeen0 =? 0)) with false.
  2:{ destruct H as [H|H]; [rewrite H; reflexivity|].
      apply Z.eqb_neq in H. rewrite H. symmetry. apply andb_false_r. }
  unfold to_debug, on_this, loadData, Decode, set_decoded, set_fWordsSeen,
    decoded, config. simpl.
  destruct fDebugFile0; simpl; repeat split.
Qed.

(** The first word of a module with a header word: kept as header, no call
    of [loadData]. *)
Lemma scan_word_header (word : Z) (w : world) :
  fHasHeader (this w) = true -> fWordsSeen (this w) = 0 ->
  let w' := scan_word word w in
  first_load w' = first_load w /\
  cerr w' = cerr w /\
  sldat w' = sldat w /\
  config (this w') = config (this w) /\
  fHeader (this w') = word /\
  fWordsSeen (this w') = 1.
Proof.
  intros Hh Hs w'. subst w'.
  destruct w as [fl m sl ce db]; destruct m; simpl in Hh, Hs. subst.
  unfold scan_word, to_debug, on_this, set_fHeader, set_fWordsSeen, config.
  simpl. destruct fDebugFile0; simpl; repeat split.
Qed.

(** The loop past the first word: every word of the run is decoded and
    handed to [loadData], in buffer order. *)
Lemma scan_hits (rest : list Z) :
  forall p pstop w,
    0 < p + 1 -> p <= pstop -> pstop < 2 ^ 32 - 1 ->
    pstop - p < Z.of_nat (length rest) ->
    fWordsSeen (this w) = p ->
    fHasHeader (this w) = false \/ fWordsSeen (this w) <> 0 ->
    let run := take_while (IsSlot (this w))
                 (firstn (Z.to_nat (pstop - p + 1)) rest) in
    exists w',
      scan rest p pstop w = Some w' /\
      first_load w' = first_load w /\
      cerr w' = cerr w /\
      sldat w' = sldat w ++ map (decoded (this w)) run /\
      config (this w') = config (this w) /\
      fHeader (this w') = fHeader (this w) /\
      fWordsSeen (this w') = p + Z.of_nat (length run).
Proof.
  induction rest as [|word rest IH]; intros p pstop w Hp Hle Hmax Hlen Hseen Hhit;
    simpl in Hlen; [lia|].
  replace (Z.to_nat (pstop - p + 1)) with (S (Z.to_nat (pstop - p))) by lia.
  cbn [firstn take_while scan].
  destruct (IsSlot (this w) word) eqn:Hslot.
  - destruct (scan_word_hit word w Hhit) as (S1 & S2 & S3 & S4 & S5 & S6).
    set (w1 := scan_word word w) in *.
    rewrite Hseen in S6. rewrite UInt_t_small in S6 by lia.
    destruct (pstop <? p + 1) eqn:Hstop.
    + apply Z.ltb_lt in Hstop.
      replace (Z.to_nat (pstop - p)) with O by lia.
      cbn [firstn take_while map length].
      exists w1. repeat split; try assumption; try congruence; try lia.
    + apply Z.ltb_ge in Hstop.
      destruct (IH (p + 1) pstop w1) as (w' & R0 & R1 & R2 & R3 & R4 & R5 & R6);
        try lia.
      replace (pstop - (p + 1) + 1) with (pstop - p) in * by lia.
      rewrite (take_while_ext (IsSlot (this w1)) (IsSlot (this w))) in *
        by (intros a; apply IsSlot_config; exact S4).
      exists w'. split; [exact R0|]. split; [congruence|]. split; [congruence|].
      split.
      { rewrite R3, S3, <- app_assoc. cbn [app map]. do 2 f_equal.
        apply map_ext. intros a. apply decoded_config. exact S4. }
      split; [congruence|]. split; [congruence|].
      rewrite R6. cbn [length]. lia.
  - exists w. cbn [map length]. rewrite app_nil_r.
    repeat split; try reflexivity; try lia.
Qed.

(** The whole loop, started on a module whose counters were just reset. *)
Lemma scan_from_start (evbuffer : list Z) (pstop : Z) (w : world) :
  0 <= pstop < Z.of_nat (length evbuffer) -> pstop < 2 ^ 32 - 1 ->
  fWordsSeen (this w) = 0 -> fHeader (this w) = 0 ->
  let run := slot_run (this w) evbuffer pstop in
  exists w',
    scan evbuffer 0 pstop w = Some w' /\
    first_load w' = first_load w /\
    cerr w' = cerr w /\
    sldat w' = sldat w ++ map (decoded (this w))
                            (if fHasHeader (this w) then tl run else run) /\
    config (this w') = config (this w) /\
    fHeader (this w') = (if fHasHeader (this w) then hd 0 run else 0) /\
    fWordsSeen (this w') = Z.of_nat (length run).
Proof.
  intros Hp Hmax Hseen Hhdr run. subst run. unfold slot_run.
  destruct (fHasHeader (this w)) eqn:Hh.
  - destruct evbuffer as [|word rest]; simpl in Hp; [lia|].
    replace (Z.to_nat (pstop + 1)) with (S (Z.to_nat pstop)) by lia.
    cbn [firstn take_while scan].
    destruct (IsSlot (this w) word) eqn:Hslot.
    + destruct (scan_word_header word w Hh Hseen)
        as (S1 & S2 & S3 & S4 & S5 & S6).
      set (w1 := scan_word word w) in *.
      cbn [tl hd length].
      destruct (pstop <? 0 + 1) eqn:Hstop.
      * apply Z.ltb_lt in Hstop.
        replace (Z.to_nat pstop) with O by lia.
        cbn [firstn take_while map length].
        exists w1. rewrite app_nil_r. repeat split; try assumption.
      * apply Z.ltb_ge in Hstop.
        destruct (scan_hits rest 1 pstop w1)
          as (w' & R0 & R1 & R2 & R3 & R4 & R5 & R6); try lia.
        replace (pstop - 1 + 1) with pstop in * by lia.
        rewrite (take_while_ext (IsSlot (this w1)) (IsSlot (this w))) in *
          by (intros a; apply IsSlot_config; exact S4).
        exists w'. split; [exact R0|]. split; [congruence|].
        split; [congruence|]. split.
        { rewrite R3, S3. f_equal. apply map_ext. intros a.
          apply decoded_config. exact S4. }
        split; [congruence|]. split; [congruence|].
        rewrite R6. lia.
    + exists w. cbn [tl hd map length]. rewrite app_nil_r.
      repeat split; try reflexivity; assumption.
  - destruct (scan_hits evbuffer 0 pstop w)
      as (w' & R0 & R1 & R2 & R3 & R4 & R5 & R6); try lia.
    { left. exact Hh. }
    replace (pstop - 0 + 1) with (pstop + 1) in * by lia.
    exists w'. repeat split; try assumption; try congruence.
Qed.

Section Bounds.

Variables MAXROC MAXSLOT_FB : Z.


(** The bounds check touches crate, slot, [first_load] and [cerr] only. *)
Lemma check_bounds_keeps (w : world) :
  let w0 := check_bounds MAXROC MAXSLOT_FB w in
  first_load w0 = false /\
  sldat w0 = sldat w /\
  debug w0 = debug w /\
  fHasHeader (this w0) = fHasHeader (this w) /\
  fDebugFile (this w0) = fDebugFile (this w) /\
  (first_load w = false -> w0 = w).
Proof.
  unfold check_bounds.
  destruct w as [fl m sl ce db]; destruct m; simpl.
  destruct fl; simpl.
  - destruct (MAXROC <=? fCrate0); simpl;
      destruct (MAXSLOT_FB <? fSlot0); simpl; repeat split; discriminate.
  - repeat split.
Qed.

Lemma check_word_count_keeps (w : world) :
  let w' := check_word_count w in
  first_load w' = first_load w /\ this w' = this w /\
  sldat w' = sldat w /\ cerr w' = cerr w /\
  debug w' = debug w ++ word_count_lines (this w).
Proof.
  unfold check_word_count, word_count_lines, to_debug.
  destruct w as [fl m sl ce db]; destruct m; simpl.
  destruct (fHeader0 =? 0); simpl;
    [rewrite andb_false_r, app_nil_r; repeat split|].
  destruct fDebugFile0; simpl;
    destruct (Z.land fHeader0 fWdcntMask0 =? fWordsSeen0); simpl;
    rewrite ?app_nil_r, <- ?app_assoc; repeat split.
Qed.

Lemma before_scan_keeps (w : world) :
  let w0 := check_bounds MAXROC MAXSLOT_FB w in
  let w1 := before_scan MAXROC MAXSLOT_FB w in
  first_load w1 = false /\ cerr w1 = cerr w0 /\ sldat w1 = sldat w /\
  config (this w1) = config (this w0) /\
  fWordsSeen (this w1) = 0 /\ fHeader (this w1) = 0.
Proof.
  destruct (check_bounds_keeps w) as (B1 & B2 & _).
  unfold before_scan.
  set (w0 := check_bounds MAXROC MAXSLOT_FB w) in *. cbv zeta.
  set (wa := on_this (fun m => set_fHeader 0 (set_fWordsSeen 0 m)) w0).
  set (wb := to_debug DbgLoadSlot wa).
  set (wc := to_debug (DbgHasHeader (fHasHeader (this wb))) wb).
  destruct (to_debug_keeps DbgLoadSlot wa) as (a1 & a2 & a3 & a4).
  destruct (to_debug_keeps (DbgHasHeader (fHasHeader (this wb))) wb)
    as (b1 & b2 & b3 & b4).
  destruct (to_debug_keeps (DbgModelNum (fModelNum (this wc))) wc)
    as (c1 & c2 & c3 & c4).
  fold wb in a1, a2, a3, a4. fold wc in b1, b2, b3, b4.
  rewrite c1, c2, c3, c4, b1, b2, b3, b4, a1, a2, a3, a4.
  subst wa. destruct w0 as [fl m sl ce db]; destruct m; simpl in *.
  repeat split; assumption.
Qed.

Lemma LoadSlot_unfold (w : world) (evbuffer : list Z) (pstop : Z) :
  LoadSlot MAXROC MAXSLOT_FB w evbuffer pstop =
  match scan evbuffer 0 pstop (before_scan MAXROC MAXSLOT_FB w) with
  | None => None
  | Some ws => Some (check_word_count ws, fWordsSeen (this ws))
  end.
Proof.
  unfold LoadSlot, before_scan. cbv zeta.
  destruct (scan evbuffer 0 pstop _) as [ws|]; [|reflexivity].
  destruct (check_word_count_keeps ws) as (_ & -> & _). reflexivity.
Qed.

(** A call of [LoadSlot] whose bound lies inside the buffer: it returns the
    length of the run, and the calls of [loadData] are the decoded words of
    the run, without its first word when the module has a header word. *)
Lemma LoadSlot_run (w : world) (evbuffer : list Z) (pstop : Z) :
  0 <= pstop < Z.of_nat (length evbuffer) -> pstop < 2 ^ 32 - 1 ->
  let m := this (check_bounds MAXROC MAXSLOT_FB w) in
  let run := slot_run m evbuffer pstop in
  exists ws,
    scan evbuffer 0 pstop (before_scan MAXROC MAXSLOT_FB w) = Some ws /\
    LoadSlot MAXROC MAXSLOT_FB w evbuffer pstop
    = Some (check_word_count ws, Z.of_nat (length run)) /\
    first_load ws = false /\
    cerr ws = cerr (check_bounds MAXROC MAXSLOT_FB w) /\
    sldat ws = sldat w ++ map (decoded m)
                            (if fHasHeader m then tl run else run) /\
    config (this ws) = config m /\
    fHeader (this ws) = (if fHasHeader m then hd 0 run else 0) /\
    fWordsSeen (this ws) = Z.of_nat (length run).
Proof.
  intros Hp Hmax m run.
  destruct (before_scan_keeps w) as (K1 & K2 & K3 & K4 & K5 & K6).
  fold m in K4.
  destruct (scan_from_start evbuffer pstop (before_scan MAXROC MAXSLOT_FB w) Hp Hmax K5 K6)
    as (ws & R0 & R1 & R2 & R3 & R4 & R5 & R6).
  assert (Hh : fHasHeader (this (before_scan MAXROC MAXSLOT_FB w)) = fHasHeader m)
    by (unfold config in K4; congruence).
  rewrite (slot_run_config _ m) in * by exact K4. fold run in R3, R5, R6.
  rewrite Hh in *.
  exists ws. split; [exact R0|]. split.
  { rewrite LoadSlot_unfold, R0, R6. reflexivity. }
  split; [congruence|]. split; [congruence|]. split.
  { rewrite R3, K3. f_equal. apply map_ext. intros a.
    apply decoded_config. exact K4. }
  split; [congruence|]. split; [exact R5 | exact R6].
Qed.

End Bounds.

(** The run is the longest stretch of words of the slot at the start of the
    bounded buffer: it is a prefix, all its words match, and the word after
    it, if any lies within the bound, does not. *)
Lemma take_while_prefix {A : Type} (f : A -> bool) (l : list A) :
  exists rest,
    l = take_while f l ++ rest /\
    Forall (fun a => f a = true) (take_while f l) /\
    match rest with [] => True | a :: _ => f a = false end.
Proof.
  induction l as [|a l (rest & H1 & H2 & H3)]; simpl.
  - exists []. repeat split. constructor.
  - destruct (f a) eqn:Hf.
    + exists rest. simpl. split; [congruence|].
      split; [constructor; assumption | exact H3].
    + exists (a :: l). repeat split; [constructor | exact Hf].
Qed.

(** C5: for a module with a header word and a bound inside the buffer,
    [LoadSlot] keeps the first word of the run as header without a call of
    [loadData], decodes every later word of the run and hands it to
    [loadData] in buffer order, and returns the length of the run; the run
    ends at the first word that is not of the slot or at [pstop], whichever
    comes first. *)
Theorem LoadSlot_header_then_hits (MAXROC MAXSLOT_FB : Z) (w : world)
        (evbuffer : list Z) (pstop : Z) :
  fHasHeader (this w) = true ->
  0 <= pstop < Z.of_nat (length evbuffer) -> pstop < 2 ^ 32 - 1 ->
  let m := this (check_bounds MAXROC MAXSLOT_FB w) in
  let run := slot_run m evbuffer pstop in
  exists w',
    LoadSlot MAXROC MAXSLOT_FB w evbuffer pstop
    = Some (w', Z.of_nat (length run)) /\
    fHeader (this w') = hd 0 run /\
    sldat w' = sldat w ++ map (decoded m) (tl run) /\
    fWordsSeen (this w') = Z.of_nat (length run) /\
    exists rest,
      firstn (Z.to_nat (pstop + 1)) evbuffer = run ++ rest /\
      Forall (fun word => IsSlot m word = true) run /\
      match rest with [] => True | word :: _ => IsSlot m word = false end.
Proof.
  intros Hh Hp Hmax m run.
  destruct (LoadSlot_run MAXROC MAXSLOT_FB w evbuffer pstop Hp Hmax)
    as (ws & _ & R1 & _ & _ & R3 & _ & R5 & R6).
  fold m in R3, R5, R6. fold run in R1, R3, R5, R6.
  destruct (check_bounds_keeps MAXROC MAXSLOT_FB w) as (_ & _ & _ & B & _).
  fold m in B. rewrite B, Hh in *.
  destruct (check_word_count_keeps ws) as (_ & C2 & C3 & _).
  exists (check_word_count ws).
  split; [exact R1|]. rewrite C2, C3.
  split; [exact R5|]. split; [exact R3|]. split; [exact R6|].
  apply take_while_prefix.
Qed.

(** [LoadSlot_header_then_hits] on a module of slot 5 with a header word:
    of the buffer [header, hit, hit, other slot] with the bound on the last
    word, the first word is the header and the next two are the hits. *)
Lemma LoadSlot_header_then_hits_witness :
  let m := mkFastbus 1 5 true 4160749568 27 2031616 16 65535 127 1877
             0 0 0 0 0 false in
  let w := mkWorld true m [] [] [] in
  let evbuffer := [671088643; 671154467; 671220258; 134217728] in
  exists w',
    LoadSlot 32 26 w evbuffer 3 = Some (w', 3) /\
    fHeader (this w') = 671088643 /\
    sldat w' = [(1, 291, 671154467); (2, 546, 671220258)] /\
    fWordsSeen (this w') = 3 /\
    exists rest,
      evbuffer = [671088643; 671154467; 671220258] ++ rest /\
      Forall (fun word => IsSlot m word = true)
        [671088643; 671154467; 671220258] /\
      match rest with [] => True | word :: _ => IsSlot m word = false end.
Proof.
  intros m w evbuffer.
  exact (LoadSlot_header_then_hits 32 26 w evbuffer 3 eq_refl
           ltac:(simpl; lia) ltac:(lia)).
Defined.

(** ** The word count of the header *)

Lemma check_bounds_mask (MAXROC MAXSLOT_FB k : Z) (w : world) :
  let w0 := check_bounds MAXROC MAXSLOT_FB w in
  let wk := check_bounds MAXROC MAXSLOT_FB (on_this (set_fWdcntMask k) w) in
  this wk = set_fWdcntMask k (this w0) /\ cerr wk = cerr w0 /\
  sldat wk = sldat w0.
Proof.
  unfold check_bounds. destruct w as [fl m sl ce db]; destruct m; simpl.
  destruct fl; simpl; [|repeat split].
  destruct (MAXROC <=? fCrate0); simpl;
    destruct (MAXSLOT_FB <? fSlot0); simpl; repeat split.
Qed.

Lemma slot_run_mask (k : Z) (m : FastbusModule) (buf : list Z) (pstop : Z) :
  slot_run (set_fWdcntMask k m) buf pstop = slot_run m buf pstop.
Proof.
  unfold slot_run. apply take_while_ext. intros a. destruct m; reflexivity.
Qed.

Lemma decoded_mask (k : Z) (m : FastbusModule) (word : Z) :
  decoded (set_fWdcntMask k m) word = decoded m word.
Proof. destruct m; reflexivity. Qed.

(** C6: a call of [LoadSlot] with its bound inside the buffer returns, and
    the check of the header's word count after the loop changes nothing but
    the debug file: module, calls of [loadData], [cerr] and return value are
    those the loop left, and the debug file gains the lines of
    [word_count_lines], the mismatch line among them when the counts
    differ.  The calls of [loadData] and the return value are the same for
    every word-count mask and for every header word of the slot, that is,
    whatever count the header declares. *)
Theorem word_count_mismatch_only_diagnostic (MAXROC MAXSLOT_FB : Z)
        (w : world) (evbuffer : list Z) (pstop : Z) :
  0 <= pstop < Z.of_nat (length evbuffer) -> pstop < 2 ^ 32 - 1 ->
  exists ws w' seen,
    scan evbuffer 0 pstop (before_scan MAXROC MAXSLOT_FB w) = Some ws /\
    LoadSlot MAXROC MAXSLOT_FB w evbuffer pstop = Some (w', seen) /\
    seen = fWordsSeen (this ws) /\
    this w' = this ws /\ sldat w' = sldat ws /\ cerr w' = cerr ws /\
    first_load w' = first_load ws /\
    debug w' = debug ws ++ word_count_lines (this ws) /\
    (forall k, exists wk,
        LoadSlot MAXROC MAXSLOT_FB (on_this (set_fWdcntMask k) w) evbuffer pstop
        = Some (wk, seen) /\
        sldat wk = sldat w' /\ cerr wk = cerr w') /\
    (forall h h' rest,
        fHasHeader (this w) = true -> evbuffer = h :: rest ->
        IsSlot (this (check_bounds MAXROC MAXSLOT_FB w)) h = true ->
        IsSlot (this (check_bounds MAXROC MAXSLOT_FB w)) h' = true ->
        exists wh,
          LoadSlot MAXROC MAXSLOT_FB w (h' :: rest) pstop = Some (wh, seen) /\
          sldat wh = sldat w' /\ cerr wh = cerr w').
Proof.
  intros Hp Hmax.
  destruct (LoadSlot_run MAXROC MAXSLOT_FB w evbuffer pstop Hp Hmax)
    as (ws & R0 & R1 & R2 & R3 & R4 & R5 & R6 & R7).
  destruct (check_word_count_keeps ws) as (C1 & C2 & C3 & C4 & C5).
  exists ws, (check_word_count ws),
    (Z.of_nat (length (slot_run (this (check_bounds MAXROC MAXSLOT_FB w))
                         evbuffer pstop))).
  split; [exact R0|]. split; [exact R1|]. split; [congruence|].
  split; [exact C2|]. split; [exact C3|]. split; [exact C4|].
  split; [exact C1|]. split; [exact C5|]. split.
  - intros k.
    destruct (LoadSlot_run MAXROC MAXSLOT_FB (on_this (set_fWdcntMask k) w)
                evbuffer pstop Hp Hmax)
      as (wk & _ & K1 & _ & K3 & K4 & _).
    destruct (check_bounds_mask MAXROC MAXSLOT_FB k w) as (M1 & M2 & M3).
    destruct (check_word_count_keeps wk) as (_ & _ & D3 & D4 & _).
    rewrite M1, slot_run_mask in K1, K4.
    exists (check_word_count wk). split; [exact K1|].
    rewrite D3, D4, C3, C4, K3, K4, R3, R4, M2. split; [|reflexivity].
    replace (fHasHeader (set_fWdcntMask k
               (this (check_bounds MAXROC MAXSLOT_FB w))))
      with (fHasHeader (this (check_bounds MAXROC MAXSLOT_FB w)))
      by (destruct (this (check_bounds MAXROC MAXSLOT_FB w)); reflexivity).
    replace (sldat (on_this (set_fWdcntMask k) w)) with (sldat w)
      by (destruct w; reflexivity).
    first [ reflexivity
          | f_equal; apply map_ext; intros a; apply decoded_mask ].
  - intros h h' rest Hh -> Hs Hs'.
    assert (Hp' : 0 <= pstop < Z.of_nat (length (h' :: rest)))
      by (simpl in *; lia).
    destruct (LoadSlot_run MAXROC MAXSLOT_FB w (h' :: rest) pstop Hp' Hmax)
      as (wh & _ & H1 & _ & H3 & H4 & _).
    destruct (check_word_count_keeps wh) as (_ & _ & D3 & D4 & _).
    destruct (check_bounds_keeps MAXROC MAXSLOT_FB w) as (_ & _ & _ & B & _).
    rewrite B, Hh in *.
    unfold slot_run in *.
    replace (Z.to_nat (pstop + 1)) with (S (Z.to_nat pstop)) in * by lia.
    cbn [firstn take_while] in *. rewrite Hs in *. rewrite Hs' in *.
    cbn [tl length] in *.
    exists (check_word_count wh). split; [exact H1|].
    rewrite D3, D4, C3, C4, H3, H4, R3, R4. split; reflexivity.
Qed.

(** [word_count_mismatch_only_diagnostic] on a module of slot 5 whose header
    declares 7 words where 3 are seen. *)
Lemma word_count_mismatch_witness :
  let m := mkFastbus 1 5 true 4160749568 27 2031616 16 65535 127 1877
             0 0 0 0 0 true in
  let w := mkWorld true m [] [] [] in
  let evbuffer := [671088647; 671154467; 671220258; 134217728] in
  exists ws w' seen,
    scan evbuffer 0 3 (before_scan 32 26 w) = Some ws /\
    LoadSlot 32 26 w evbuffer 3 = Some (w', seen) /\
    seen = fWordsSeen (this ws) /\
    this w' = this ws /\ sldat w' = sldat ws /\ cerr w' = cerr ws /\
    first_load w' = first_load ws /\
    debug w' = debug ws ++ word_count_lines (this ws) /\
    (forall k, exists wk,
        LoadSlot 32 26 (on_this (set_fWdcntMask k) w) evbuffer 3
        = Some (wk, seen) /\
        sldat wk = sldat w' /\ cerr wk = cerr w') /\
    (forall h h' rest,
        fHasHeader (this w) = true -> evbuffer = h :: rest ->
        IsSlot (this (check_bounds 32 26 w)) h = true ->
        IsSlot (this (check_bounds 32 26 w)) h' = true ->
        exists wh,
          LoadSlot 32 26 w (h' :: rest) 3 = Some (wh, seen) /\
          sldat wh = sldat w' /\ cerr wh = cerr w').
Proof.
  intros m w evbuffer.
  exact (word_count_mismatch_only_diagnostic 32 26 w evbuffer 3
           ltac:(simpl; lia) ltac:(lia)).
Defined.

(** At that input the header declares 7 words, 3 are seen, the mismatch is
    written to the debug file and both hits stand. *)
Example word_count_mismatch_example :
  let m := mkFastbus 1 5 true 4160749568 27 2031616 16 65535 127 1877
             0 0 0 0 0 true in
  let w := mkWorld true m [] [] [] in
  exists w',
    LoadSlot 32 26 w [671088647; 671154467; 671220258; 134217728] 3
    = Some (w', 3) /\
    sldat w' = [(1, 291, 671154467); (2, 546, 671220258)] /\
    last (debug w') DbgLoadSlot = DbgWordCountMismatch 1 5 7 3.
Proof. cbv zeta. eexists. split; [vm_compute; reflexivity|]. split; reflexivity. Qed.

(** ** The bounds check and [first_load] *)

Lemma scan_word_keeps (word : Z) (w : world) :
  first_load (scan_word word w) = first_load w /\
  cerr (scan_word word w) = cerr w /\
  config (this (scan_word word w)) = config (this w).
Proof.
  destruct (fHasHeader (this w)) eqn:Hh.
  - destruct (Z.eq_dec (fWordsSeen (this w)) 0) as [Hs|Hs].
    + destruct (scan_word_header word w Hh Hs) as (A & B & _ & C & _).
      repeat split; assumption.
    + destruct (scan_word_hit word w (or_intror Hs)) as (A & B & _ & C & _).
      repeat split; assumption.
  - destruct (scan_word_hit word w (or_introl Hh)) as (A & B & _ & C & _).
    repeat split; assumption.
Qed.

Lemma scan_keeps (rest : list Z) :
  forall p pstop w w',
    scan rest p pstop w = Some w' ->
    first_load w' = first_load w /\ cerr w' = cerr w /\
    config (this w') = config (this w).
Proof.
  induction rest as [|word rest IH]; intros p pstop w w'; cbn [scan];
    [discriminate|].
  destruct (IsSlot (this w) word); [|intros [= <-]; repeat split].
  destruct (scan_word_keeps word w) as (A & B & C).
  destruct (pstop <? p + 1).
  - intros [= <-]. repeat split; assumption.
  - intros H. destruct (IH _ _ _ _ H) as (A' & B' & C').
    repeat split; congruence.
Qed.

(** Once [first_load] is down, no call of [LoadSlot], by whatever module,
    checks crate or slot again: both stay as they are and nothing is
    written to [cerr]. *)
Lemma LoadSlot_later_call_no_check (MAXROC MAXSLOT_FB : Z) (w : world)
      (evbuffer : list Z) (pstop : Z) (w' : world) (r : Z) :
  first_load w = false ->
  LoadSlot MAXROC MAXSLOT_FB w evbuffer pstop = Some (w', r) ->
  first_load w' = false /\
  fCrate (this w') = fCrate (this w) /\ fSlot (this w') = fSlot (this w) /\
  cerr w' = cerr w.
Proof.
  intros Hfl. rewrite LoadSlot_unfold.
  destruct (scan evbuffer 0 pstop _) as [ws|] eqn:Hscan; [|discriminate].
  intros [= <- <-].
  destruct (scan_keeps _ _ _ _ _ Hscan) as (A & B & C).
  destruct (before_scan_keeps MAXROC MAXSLOT_FB w) as (K1 & K2 & _ & K4 & _).
  destruct (check_bounds_keeps MAXROC MAXSLOT_FB w) as (_ & _ & _ & _ & _ & E).
  rewrite (E Hfl) in K2, K4.
  destruct (check_word_count_keeps ws) as (C1 & C2 & _ & C4 & _).
  rewrite C1, C2, C4, A, B, K1, K2.
  unfold config in C, K4.
  assert (Hc : fCrate (this ws) = fCrate (this w) /\
               fSlot (this ws) = fSlot (this w)) by (split; congruence).
  destruct Hc. repeat split; assumption.
Qed.

(** Every call leaves [first_load] down. *)
Lemma LoadSlot_clears_first_load (MAXROC MAXSLOT_FB : Z) (w : world)
      (evbuffer : list Z) (pstop : Z) (w' : world) (r : Z) :
  LoadSlot MAXROC MAXSLOT_FB w evbuffer pstop = Some (w', r) ->
  first_load w' = false.
Proof.
  rewrite LoadSlot_unfold.
  destruct (scan evbuffer 0 pstop _) as [ws|] eqn:Hscan; [|discriminate].
  intros [= <- <-].
  destruct (scan_keeps _ _ _ _ _ Hscan) as (A & _).
  destruct (before_scan_keeps MAXROC MAXSLOT_FB w) as (K1 & _).
  destruct (check_word_count_keeps ws) as (C1 & _).
  congruence.
Qed.

(** C7, the code at the failing input.  With limits 32 and 26, a module of
    crate 1, slot 5 is loaded first; then a second module of crate 40, slot
    27, both out of bounds, is loaded for the first time: its crate and slot
    are not clamped and nothing is written to [cerr].  Had the second module
    been the first to be loaded, both would have been set to 0 and both
    messages written. *)
Theorem first_load_shared_by_all_modules :
  let a := mkFastbus 1 5 false 4160749568 27 2031616 16 65535 0 1877
             0 0 0 0 0 false in
  let b := mkFastbus 40 27 false 4160749568 27 2031616 16 65535 0 1881
             0 0 0 0 0 false in
  let buf_a := [671154467; 134217728] in
  let buf_b := [3623944483; 134217728] in
  exists wa wb wb',
    LoadSlot 32 26 (mkWorld true a [] [] []) buf_a 1 = Some (wa, 1) /\
    first_load wa = false /\ cerr wa = [] /\
    LoadSlot 32 26 (mkWorld (first_load wa) b [] (cerr wa) []) buf_b 1
    = Some (wb, 1) /\
    fCrate (this wb) = 40 /\ fSlot (this wb) = 27 /\ cerr wb = [] /\
    sldat wb = [(1, 291, 3623944483)] /\
    LoadSlot 32 26 (mkWorld true b [] [] []) buf_b 1 = Some (wb', 0) /\
    fCrate (this wb') = 0 /\ fSlot (this wb') = 0 /\
    cerr wb' = [ErrCrateOutOfBounds; ErrSlotOutOfBounds].
Proof.
  cbv zeta. do 3 eexists.
  split; [vm_compute; reflexivity|]. split; [reflexivity|].
  split; [reflexivity|].
  split; [vm_compute; reflexivity|].
  split; [reflexivity|]. split; [reflexivity|]. split; [reflexivity|].
  split; [reflexivity|].
  split; [vm_compute; reflexivity|].
  repeat split.
Qed.

End FastbusFacts.

(* ================================================================== *)
(** * THaEtClient: properties *)

Module EtClientFacts.
Import EtClient.

Lemma check_lengths_fit (MAXEVLEN : Z) (evs : list et_event) :
  MAXEVLEN < 2 ^ 31 - 1 ->
  Forall (fits MAXEVLEN) evs -> check_lengths MAXEVLEN evs = Some true.
Proof.
  intros Hmax H. induction H as [|e evs (word0 & rest & Hd & Hle) _ IH];
    cbn [check_lengths]; [reflexivity|].
  rewrite Hd.
  replace (word0 =? 2 ^ 31 - 1) with false by (symmetry; apply Z.eqb_neq; lia).
  replace (MAXEVLEN <? word0 + 1) with false by (symmetry; apply Z.ltb_ge; lia).
  exact IH.
Qed.

Lemma check_lengths_too_long (MAXEVLEN : Z) (pre post : list et_event)
      (e : et_event) (word0 : Z) (rest : list Z) :
  MAXEVLEN < 2 ^ 31 - 1 ->
  Forall (fits MAXEVLEN) pre ->
  ev_data e = word0 :: rest -> MAXEVLEN < word0 + 1 < 2 ^ 31 ->
  check_lengths MAXEVLEN (pre ++ e :: post) = Some false.
Proof.
  intros Hmax H Hd Hlt.
  induction H as [|e' evs (w' & r' & Hd' & Hle') _ IH];
    cbn [check_lengths app].
  - rewrite Hd.
    replace (word0 =? 2 ^ 31 - 1) with false
      by (symmetry; apply Z.eqb_neq; lia).
    replace (MAXEVLEN <? word0 + 1) with true by (symmetry; apply Z.ltb_lt; lia).
    reflexivity.
  - rewrite Hd'.
    replace (w' =? 2 ^ 31 - 1) with false by (symmetry; apply Z.eqb_neq; lia).
    replace (MAXEVLEN <? w' + 1) with false by (symmetry; apply Z.ltb_ge; lia).
    exact IH.
Qed.

(** Copying a whole number of words. *)
Lemma memcpy_words (pc : Z -> Z -> Z -> Z) (dst src : list Z) (n : Z) :
  0 <= n ->
  n <= Z.of_nat (length src) -> n <= Z.of_nat (length dst) ->
  memcpy pc dst src (bpi * n)
  = Some (firstn (Z.to_nat n) src ++ skipn (Z.to_nat n) dst).
Proof.
  intros Hn Hs Hd. unfold memcpy, bpi.
  replace (4 * n <? 0) with false by (symmetry; apply Z.ltb_ge; lia).
  replace ((4 * n) mod 4) with 0
    by (symmetry; rewrite Z.mul_comm; apply Z.mod_mul; lia).
  replace (4 * n / 4) with n by (rewrite Z.mul_comm, Z.div_mul by lia; lia).
  cbn [Z.eqb].
  replace (Z.to_nat n <=? length src)%nat with true
    by (symmetry; apply Nat.leb_le; lia).
  replace (Z.to_nat n <=? length dst)%nat with true
    by (symmetry; apply Nat.leb_le; lia).
  reflexivity.
Qed.

Lemma firstn_copy {A : Type} (n : nat) (l r : list A) :
  length l = n -> firstn n (firstn n l ++ r) = l.
Proof.
  intros <-. rewrite firstn_all, firstn_app, firstn_all, Nat.sub_diag.
  cbn [firstn]. apply app_nil_r.
Qed.

Lemma init_ok (EXISTS : Z) (a : et_answers) (c c' : THaEtClient) :
  init EXISTS a c = (c', CODA_OK) -> c' = c.
Proof.
  unfold init.
  repeat match goal with
         | |- context [if ?b then _ else _] => destruct b
         end; intros [=]; congruence.
Qed.

Lemma codaRead_ready (MAXEVLEN EXISTS : Z) (pc : Z -> Z -> Z -> Z)
      (a : et_answers) (c : THaEtClient) :
  ready EXISTS a c ->
  codaRead MAXEVLEN EXISTS pc a c = fetch MAXEVLEN pc a (set_firstread 0 c).
Proof.
  unfold ready, codaRead. intros [H|H].
  - rewrite H. cbn [Z.eqb negb].
    replace (set_firstread 0 c) with c
      by (destruct c; simpl in *; subst; reflexivity).
    reflexivity.
  - destruct (negb (firstread c =? 0)) eqn:Hf.
    + destruct (init EXISTS a (set_firstread 0 c)) as [c' st] eqn:Hi.
      simpl in H. subst st. apply init_ok in Hi. subst c'. reflexivity.
    + apply negb_false_iff, Z.eqb_eq in Hf.
      replace (set_firstread 0 c) with c
        by (destruct c; simpl in *; subst; reflexivity).
      reflexivity.
Qed.

(** C8: a client that is connected and has used up its chunk fetches a new
    one.  When the first event of the chunk declares [word0 + 1 = MAXEVLEN]
    (and is that long, and the other events fit), [codaRead] returns
    [CODA_OK] with the whole event in the event buffer.  When the chunk
    holds an event that declares [word0 + 1 = MAXEVLEN + 1], [codaRead]
    returns [CODA_ERROR] and the event buffer is as it was: no event is
    handed on. *)
Theorem event_length_boundary (MAXEVLEN EXISTS : Z) (pc : Z -> Z -> Z -> Z)
        (a a' : et_answers) (c : THaEtClient) (body body' : list Z)
        (nbytes' : Z) (others pre post : list et_event) :
  0 < MAXEVLEN < 2 ^ 31 - 1 ->
  ready EXISTS a c -> ready EXISTS a' c ->
  nread c <= nused c ->
  MAXEVLEN <= Z.of_nat (length (evbuffer c)) ->
  Z.of_nat (length body) = MAXEVLEN - 1 ->
  ET_OK <= et_events_get_res a ->
  et_events_got a
  = mkEvent ((MAXEVLEN - 1) :: body) (bpi * MAXEVLEN) :: others ->
  Forall (fits MAXEVLEN) others ->
  ET_OK <= et_events_put_res a ->
  ET_OK <= et_events_get_res a' ->
  et_events_got a' = pre ++ mkEvent (MAXEVLEN :: body') nbytes' :: post ->
  Forall (fits MAXEVLEN) pre ->
  (exists c1,
      codaRead MAXEVLEN EXISTS pc a c = Returned c1 CODA_OK /\
      firstn (Z.to_nat MAXEVLEN) (evbuffer c1) = (MAXEVLEN - 1) :: body /\
      nused c1 = 1) /\
  (exists c2,
      codaRead MAXEVLEN EXISTS pc a' c = Returned c2 CODA_ERROR /\
      evbuffer c2 = evbuffer c).
Proof.
  intros Hmax Hr Hr' Hused Hbuf Hbody Hget Hgot Hothers Hput Hget' Hgot' Hpre.
  split.
  - rewrite (codaRead_ready _ _ _ _ _ Hr). unfold fetch.
    replace (nread (set_firstread 0 c) <=? nused (set_firstread 0 c))
      with true
      by (destruct c; simpl in *; symmetry; apply Z.leb_le; assumption).
    replace (et_events_get_res a <? ET_OK) with false
      by (symmetry; apply Z.ltb_ge; assumption).
    rewrite Hgot.
    rewrite check_lengths_fit; [|lia|].
    2:{ constructor; [|exact Hothers].
        exists (MAXEVLEN - 1), body. split; [reflexivity | lia]. }
    unfold deliver.
    cbn [nused set_nused Z.to_nat nth_error ev_length ev_data].
    replace (bpi * MAXEVLEN <? bpi * MAXEVLEN) with false
      by (symmetry; apply Z.ltb_irrefl).
    rewrite memcpy_words;
      [| lia | cbn [length]; lia | destruct c; simpl in *; lia].
    cbn [nused set_nused set_evbuffer nread set_nread].
    set (dst := evbuffer _).
    assert (Hcopy : firstn (Z.to_nat MAXEVLEN)
                      (firstn (Z.to_nat MAXEVLEN) ((MAXEVLEN - 1) :: body) ++
                       skipn (Z.to_nat MAXEVLEN) dst)
                    = (MAXEVLEN - 1) :: body)
      by (apply firstn_copy; cbn [length]; lia).
    clearbody dst.
    destruct (_ <=? 0 + 1);
      [replace (et_events_put_res a <? ET_OK) with false
         by (symmetry; apply Z.ltb_ge; assumption)|];
      eexists; (split; [reflexivity|]); (split; [exact Hcopy | reflexivity]).
  - rewrite (codaRead_ready _ _ _ _ _ Hr'). unfold fetch.
    replace (nread (set_firstread 0 c) <=? nused (set_firstread 0 c))
      with true
      by (destruct c; simpl in *; symmetry; apply Z.leb_le; assumption).
    replace (et_events_get_res a' <? ET_OK) with false
      by (symmetry; apply Z.ltb_ge; assumption).
    rewrite Hgot'.
    rewrite (check_lengths_too_long MAXEVLEN pre post _ MAXEVLEN body');
      [| lia | exact Hpre | reflexivity | lia].
    eexists. split; [reflexivity|]. destruct c; reflexivity.
Qed.

(** [event_length_boundary] with [MAXEVLEN = 4]: an event of four words
    declaring 3 is delivered, an event declaring 4 is refused. *)
Lemma event_length_boundary_witness :
  let pc := fun (_ src _ : Z) => src in
  let c := mkClient 0 0 0 0 0 0 [0; 0; 0; 0] in
  let a := mkAnswers true 0 0 0 0 [mkEvent [3; 10; 20; 30] 16] 0 0 0 in
  let a' := mkAnswers true 0 0 0 0 [mkEvent [4; 10; 20; 30; 40] 20] 0 0 0 in
  (exists c1,
      codaRead 4 (-3) pc a c = Returned c1 CODA_OK /\
      firstn 4 (evbuffer c1) = [3; 10; 20; 30] /\
      nused c1 = 1) /\
  (exists c2,
      codaRead 4 (-3) pc a' c = Returned c2 CODA_ERROR /\
      evbuffer c2 = evbuffer c).
Proof.
  intros pc c a a'.
  exact (event_length_boundary 4 (-3) pc a a' c [10; 20; 30] [10; 20; 30; 40]
           20 [] [] []
           ltac:(lia) (or_introl eq_refl) (or_introl eq_refl)
           ltac:(simpl; lia) ltac:(simpl; lia) eq_refl
           ltac:(simpl; unfold ET_OK; lia) eq_refl (Forall_nil _)
           ltac:(simpl; unfold ET_OK; lia) ltac:(simpl; unfold ET_OK; lia)
           eq_refl (Forall_nil _)).
Defined.

(** ** isOpen *)

Lemma deliver_flags (MAXEVLEN : Z) (pc : Z -> Z -> Z -> Z) (a : et_answers)
      (evs : option (list et_event)) (c c' : THaEtClient) (st : coda_status) :
  deliver MAXEVLEN pc a evs c = Returned c' st ->
  notopened c' = notopened c /\ didclose c' = didclose c.
Proof.
  unfold deliver.
  repeat match goal with
         | |- context [match ?x with _ => _ end] => destruct x
         end;
    try discriminate; intros [= <- <-]; destruct c; split; reflexivity.
Qed.

Lemma fetch_flags (MAXEVLEN : Z) (pc : Z -> Z -> Z -> Z) (a : et_answers)
      (c c' : THaEtClient) (st : coda_status) :
  fetch MAXEVLEN pc a c = Returned c' st ->
  notopened c' = notopened c /\ didclose c' = didclose c.
Proof.
  unfold fetch.
  destruct (nread c <=? nused c).
  - destruct (et_events_get_res a <? ET_OK).
    + intros [= <- <-]. destruct c; split; reflexivity.
    + destruct (check_lengths MAXEVLEN (et_events_got a)) as [[|]|];
        try discriminate.
      * intros H. apply deliver_flags in H. destruct c; exact H.
      * intros [= <- <-]. destruct c; split; reflexivity.
  - intros H. apply deliver_flags in H. exact H.
Qed.

(** C10: [isOpen] is true exactly when [notopened] is 1 and [didclose] is
    0.  A new client is not open in that sense; a successful [init] of a
    client whose [notopened] is 0 leaves it so; [init] raises the flag only
    when [et_open] fails, and [codaRead] only on a first read whose
    [et_open] fails, and both then return [CODA_ERROR]; [codaClose] never makes [isOpen] true and makes it false
    once a read has been tried; [codaOpen] does not change it. *)
Theorem isOpen_iff_failed_open_not_closed :
  (forall c, isOpen c = true <-> notopened c = 1 /\ didclose c = 0) /\
  (forall smode buf, isOpen (new_THaEtClient smode buf) = false) /\
  (forall EXISTS a c c',
      init EXISTS a c = (c', CODA_OK) -> notopened c = 0 ->
      isOpen c' = false) /\
  (forall EXISTS a c c' st,
      init EXISTS a c = (c', st) -> notopened c = 0 -> isOpen c' = true ->
      station_ok a = true /\ et_open_res a <> ET_OK /\ st = CODA_ERROR) /\
  (forall MAXEVLEN EXISTS pc a c c' st,
      codaRead MAXEVLEN EXISTS pc a c = Returned c' st ->
      notopened c = 0 -> isOpen c' = true ->
      firstread c <> 0 /\ station_ok a = true /\ et_open_res a <> ET_OK /\
      st = CODA_ERROR) /\
  (forall a c c' st,
      codaClose a c = (c', st) ->
      (isOpen c = false -> isOpen c' = false) /\
      (firstread c = 0 -> isOpen c' = false)) /\
  (forall smode c, isOpen (fst (codaOpen smode c)) = isOpen c).
Proof.
  split.
  { intros c. unfold isOpen. rewrite andb_true_iff, !Z.eqb_eq. tauto. }
  split.
  { intros smode buf. reflexivity. }
  split.
  { intros EXISTS a c c' Hi Hn. apply init_ok in Hi. subst c'.
    unfold isOpen. rewrite Hn. reflexivity. }
  split.
  { intros EXISTS a c c' st Hi Hn Ho.
    assert (Hclosed : isOpen c = false)
      by (unfold isOpen; rewrite Hn; reflexivity).
    unfold init in Hi.
    destruct (station_ok a); cbn [negb] in Hi;
      [|injection Hi as <- <-; congruence].
    destruct (et_open_res a =? ET_OK) eqn:Hopen; cbn [negb] in Hi.
    - exfalso.
      repeat match type of Hi with
             | context [if ?b then _ else _] => destruct b
             end; injection Hi as <- <-; congruence.
    - injection Hi as <- <-. apply Z.eqb_neq in Hopen. repeat split.
      exact Hopen. }
  split.
  { intros MAXEVLEN EXISTS pc a c c' st Hr Hn Ho.
    assert (Hclosed : forall x, notopened x = 0 -> isOpen x = false)
      by (intros x Hx; unfold isOpen; rewrite Hx; reflexivity).
    unfold codaRead in Hr.
    destruct (negb (firstread c =? 0)) eqn:Hf.
    - apply negb_true_iff, Z.eqb_neq in Hf.
      unfold init in Hr.
      destruct (station_ok a); cbn [negb] in Hr.
      + destruct (et_open_res a =? ET_OK) eqn:Hopen; cbn [negb] in Hr.
        * exfalso.
          assert (Hfetch : fetch MAXEVLEN pc a (set_firstread 0 c)
                           = Returned c' st \/
                           Returned (set_firstread 0 c) CODA_ERROR
                           = Returned c' st).
          { destruct ((et_station_create_res a <? ET_OK) &&
                      negb (et_station_create_res a =? EXISTS));
              [right; exact Hr|].
            destruct (et_station_attach_res a <? 0);
              [right; exact Hr | left; exact Hr]. }
          destruct Hfetch as [Hfetch|Hfetch].
          -- apply fetch_flags in Hfetch. destruct Hfetch as [H1 _].
             rewrite Hclosed in Ho; [discriminate|].
             rewrite H1. destruct c; exact Hn.
          -- injection Hfetch as <- <-.
             rewrite Hclosed in Ho; [discriminate|]. destruct c; exact Hn.
        * injection Hr as <- <-. apply Z.eqb_neq in Hopen.
          repeat split; assumption.
      + exfalso. injection Hr as <- <-.
        rewrite Hclosed in Ho; [discriminate|]. destruct c; exact Hn.
    - exfalso. apply fetch_flags in Hr. destruct Hr as [H1 _].
      rewrite Hclosed in Ho; [discriminate|]. congruence. }
  split.
  { intros a c c' st Hc. unfold codaClose in Hc.
    destruct (didclose c =? 0) eqn:Hd; cbn [negb orb] in Hc.
    - destruct (firstread c =? 0) eqn:Hf; cbn [negb] in Hc.
      + assert (Hc' : didclose c' = 1).
        { repeat match type of Hc with
                 | context [if ?b then _ else _] => destruct b
                 end; injection Hc as <- <-; destruct c; reflexivity. }
        assert (Ho : isOpen c' = false)
          by (unfold isOpen; rewrite Hc'; apply andb_false_r).
        split; intros _; exact Ho.
      + injection Hc as <- <-. split; [tauto|].
        apply Z.eqb_neq in Hf. intros; contradiction.
    - injection Hc as <- <-.
      assert (Ho : isOpen c = false)
        by (unfold isOpen; rewrite Hd; apply andb_false_r).
      split; intros _; exact Ho. }
  intros smode c. destruct c; reflexivity.
Qed.

End EtClientFacts.

(* ================================================================== *)
(** * Database support functions: properties *)

Module DatabaseFacts.
Import Ascii.
Import Database.

Lemma span_app (a b : list chars) : span (a ++ b) = span a + span b.
Proof. unfold span. rewrite concat_app, length_app. lia. Qed.

Lemma span_one (c : chars) : span [c] = Z.of_nat (length c).
Proof. unfold span. simpl. rewrite app_nil_r. reflexivity. Qed.

(** Adding an element at the end that is dated before [d], or after the
    requested date, keeps [d] the last latest. *)
Lemma last_latest_snoc {A : Type} (dated : A -> option TDatime)
      (date : TDatime) (pre : list A) (d : TDatime) (post : list A) (x : A) :
  last_latest dated date pre d post ->
  (forall d', dated x = Some d' -> d' <= date -> d' < d) ->
  last_latest dated date pre d (post ++ [x]).
Proof.
  intros (He & Hpre & Hpost) Hx. split; [exact He|]. split; [exact Hpre|].
  intros y d' Hin Hy Hle. apply in_app_or in Hin. destruct Hin as [Hin|Hin].
  - exact (Hpost y d' Hin Hy Hle).
  - destruct Hin as [<-|[]]. exact (Hx d' Hy Hle).
Qed.

(** An element at the end that is dated no earlier than the last latest
    [d], and not after the requested date, is the new last latest. *)
Lemma last_latest_new {A : Type} (dated : A -> option TDatime)
      (date : TDatime) (pre : list A) (d : TDatime) (post : list A)
      (x : A) (dx : TDatime) :
  last_latest dated date pre d post ->
  forall y, dated y = Some d ->
  d <= dx <= date ->
  last_latest dated date (pre ++ y :: post) dx [].
Proof.
  intros ((He1 & He2) & Hpre & Hpost) y Hy Hdx.
  split; [unfold eligible; lia|]. split; [|intros z d' []].
  intros z d' Hin Hz Hle. apply in_app_or in Hin.
  destruct Hin as [Hin|[<-|Hin]].
  - specialize (Hpre z d' Hin Hz Hle). lia.
  - assert (d' = d) by congruence. lia.
  - specialize (Hpost z d' Hin Hz Hle). lia.
Qed.

(** With nothing eligible before it, an eligible element at the end is the
    last latest. *)
Lemma last_latest_first {A : Type} (dated : A -> option TDatime)
      (date : TDatime) (l : list A) (dx : TDatime) :
  (forall x d, In x l -> dated x = Some d -> ~ eligible date d) ->
  eligible date dx ->
  last_latest dated date l dx [].
Proof.
  intros Hnone He. split; [exact He|]. split; [|intros z d' []].
  intros z d' Hin Hz Hle.
  specialize (Hnone z d' Hin Hz). unfold eligible in *. lia.
Qed.

(** ** SeekDBdate *)

Lemma seek_inv_skip (pos : Z) (date : TDatime) (end_on_tag : bool)
      (st : seek_state) (scanned : list chars) (c : chars) (q : bool) :
  seek_inv pos date end_on_tag st scanned ->
  (q = true -> end_on_tag = true) ->
  (forall d, seek_tag c = Some d -> d <= date -> d < seek_prevdate st) ->
  seek_inv pos date end_on_tag
    (mkSeek (seek_prevdate st) (foundpos st) (seek_found st) q
       (offset st + Z.of_nat (length c)))
    (scanned ++ [c]).
Proof.
  intros (Hoff & Hquit & Hep & Hrest) Hq Hc.
  split; [cbn [offset]; rewrite span_app, span_one; lia|].
  split; [exact Hq|]. split; [exact Hep|].
  cbn [seek_found seek_prevdate foundpos].
  destruct (seek_found st).
  - destruct Hrest as (pre & c0 & post & d & -> & Htag & Hprev & Hfp & Hll).
    exists pre, c0, (post ++ [c]), d.
    split; [rewrite <- app_assoc; reflexivity|].
    split; [exact Htag|]. split; [exact Hprev|]. split; [exact Hfp|].
    apply last_latest_snoc; [exact Hll|].
    intros d' Hd' Hle. rewrite <- Hprev. exact (Hc d' Hd' Hle).
  - destruct Hrest as (Hprev & Hnone). split; [exact Hprev|].
    intros x d Hin Hx He. apply in_app_or in Hin.
    destruct Hin as [Hin|[<-|[]]].
    + exact (Hnone x d Hin Hx He).
    + unfold eligible in He. specialize (Hc d Hx). lia.
Qed.

Lemma seek_step_inv (pos : Z) (date : TDatime) (end_on_tag : bool)
      (st : seek_state) (scanned : list chars) (c : chars) :
  quit st = false ->
  seek_inv pos date end_on_tag st scanned ->
  seek_inv pos date end_on_tag (seek_step date end_on_tag st c)
    (scanned ++ [c]).
Proof.
  intros Hq Hinv. unfold seek_step. rewrite Hq.
  destruct (seek_line c) as [line|] eqn:Hline.
  - assert (Htag : seek_tag c = IsDBdate line)
      by (unfold seek_tag; rewrite Hline; reflexivity).
    destruct (IsDBdate line) as [d|] eqn:Hd.
    + destruct ((d <=? date) && (seek_prevdate st <=? d)) eqn:Hacc.
      * apply andb_true_iff in Hacc. destruct Hacc as [H1 H2].
        apply Z.leb_le in H1, H2.
        destruct Hinv as (Hoff & Hquit & Hep & Hrest).
        split; [cbn [offset]; rewrite span_app, span_one; lia|].
        split; [discriminate|]. split; [cbn [seek_prevdate]; lia|].
        cbn [seek_found seek_prevdate foundpos].
        exists scanned, c, [], d.
        split; [reflexivity|]. split; [exact Htag|]. split; [reflexivity|].
        split; [rewrite span_app, span_one; lia|].
        destruct (seek_found st).
        -- destruct Hrest as (pre & c0 & post & d0 & -> & Ht0 & Hp0 & _ & Hll).
           apply (last_latest_new seek_tag date pre d0 post c d Hll c0 Ht0).
           lia.
        -- destruct Hrest as (Hprev & Hnone).
           apply last_latest_first; [exact Hnone|]. unfold eligible. lia.
      * apply seek_inv_skip; [exact Hinv | |].
        -- intros H. apply andb_true_iff in H. tauto.
        -- intros d' Hd' Hle. rewrite Htag in Hd'. injection Hd' as <-.
           apply andb_false_iff in Hacc. destruct Hacc as [H|H].
           ++ apply Z.leb_gt in H. lia.
           ++ apply Z.leb_gt in H. exact H.
    + apply seek_inv_skip; [exact Hinv | |].
      * intros H. apply andb_true_iff in H. tauto.
      * intros d' Hd'. rewrite Htag in Hd'. discriminate.
  - apply seek_inv_skip; [exact Hinv | discriminate |].
    intros d' Hd'. unfold seek_tag in Hd'. rewrite Hline in Hd'. discriminate.
Qed.

Lemma seek_quit_fold (date : TDatime) (end_on_tag : bool)
      (chunks : list chars) (st : seek_state) :
  quit st = true -> fold_left (seek_step date end_on_tag) chunks st = st.
Proof.
  intros Hq. induction chunks as [|c cs IH]; [reflexivity|].
  simpl. unfold seek_step at 2. rewrite Hq. exact IH.
Qed.

Lemma seek_fold_inv (pos : Z) (date : TDatime) (end_on_tag : bool)
      (chunks : list chars) :
  forall st scanned,
    quit st = false ->
    seek_inv pos date end_on_tag st scanned ->
    exists sc rest,
      chunks = sc ++ rest /\
      (end_on_tag = false -> rest = []) /\
      seek_inv pos date end_on_tag
        (fold_left (seek_step date end_on_tag) chunks st) (scanned ++ sc).
Proof.
  induction chunks as [|c cs IH]; intros st scanned Hq Hinv.
  - exists [], []. split; [reflexivity|]. split; [reflexivity|].
    rewrite app_nil_r. exact Hinv.
  - assert (Hstep := seek_step_inv pos date end_on_tag st scanned c Hq Hinv).
    cbn [fold_left].
    destruct (quit (seek_step date end_on_tag st c)) eqn:Hq'.
    + exists [c], cs. rewrite seek_quit_fold by exact Hq'.
      split; [reflexivity|]. split; [|exact Hstep].
      intros He. destruct Hstep as (_ & Hquit & _).
      rewrite (Hquit Hq') in He. discriminate.
    + destruct (IH _ _ Hq' Hstep) as (sc & rest & -> & Hrest & Hfin).
      exists (c :: sc), rest. split; [reflexivity|]. split; [exact Hrest|].
      rewrite <- app_assoc in Hfin. exact Hfin.
Qed.

(** ** LoadDBvalue *)

(** With [NDEBUG] no assertion fails. *)
Lemma IsDBkey_NDEBUG (line key t : chars) :
  exists r, IsDBkey true line key t = Some r.
Proof.
  unfold IsDBkey.
  destruct (split_at "="%char line) as [[lhs rhs]|]; [|eexists; reflexivity].
  destruct (skip_while is_blank lhs) as [|x ln]; [eexists; reflexivity|].
  destruct (negb (is_prefix _ key)); [eexists; reflexivity|].
  rewrite andb_false_r. eexists. reflexivity.
Qed.

(** What a call returns when its assertion holds is what it returns
    without the assertion. *)
Lemma IsDBkey_returned (NDEBUG : bool) (line key t : chars)
      (r : Z * chars) :
  IsDBkey NDEBUG line key t = Some r -> IsDBkey true line key t = Some r.
Proof.
  unfold IsDBkey.
  destruct (split_at "="%char line) as [[lhs rhs]|]; [|exact (fun H => H)].
  destruct (skip_while is_blank lhs) as [|x ln]; [exact (fun H => H)|].
  destruct (negb (is_prefix _ key)); [exact (fun H => H)|].
  rewrite andb_false_r.
  destruct (trailing_blank rhs && negb NDEBUG); [discriminate|].
  exact (fun H => H).
Qed.

Lemma load_line_returned (NDEBUG : bool) (date : TDatime) (key : chars)
      (st : load_state) (line : chars) (st' : load_state) :
  load_line NDEBUG date key st line = Some st' ->
  load_line true date key st line = Some st'.
Proof.
  unfold load_line. destruct (do_ignore st); [exact (fun H => H)|].
  destruct (IsDBkey NDEBUG line key (text st)) as [r|] eqn:E; [|discriminate].
  rewrite (IsDBkey_returned _ _ _ _ _ E). exact (fun H => H).
Qed.

Lemma fold_opt_app {A B : Type} (f : A -> B -> option A) (l1 l2 : list B) :
  forall a,
    fold_opt f (l1 ++ l2) a
    = match fold_opt f l1 a with
      | Some a' => fold_opt f l2 a'
      | None => None
      end.
Proof.
  induction l1 as [|b l1 IH]; intros a; [reflexivity|].
  cbn [app fold_opt]. destruct (f a b); [apply IH | reflexivity].
Qed.

Lemma fold_opt_returned {A B : Type} (f g : A -> B -> option A) :
  (forall a b a', f a b = Some a' -> g a b = Some a') ->
  forall l a a', fold_opt f l a = Some a' -> fold_opt g l a = Some a'.
Proof.
  intros Hfg. induction l as [|b l IH]; intros a a'; [exact (fun H => H)|].
  cbn [fold_opt]. destruct (f a b) as [a1|] eqn:E; [|discriminate].
  rewrite (Hfg _ _ _ E). apply IH.
Qed.

(** [IsDBkey] returns 0, -1 or 1 whatever [text] holds, and writes [text]
    only when it returns 1. *)
Lemma IsDBkey_text (line key t : chars) :
  exists status v,
    IsDBkey true line key [] = Some (status, v) /\
    ((status = 1 /\ In "="%char line /\
      IsDBkey true line key t = Some (1, v)) \/
     (status = -1 /\ In "="%char line /\
      IsDBkey true line key t = Some (-1, t)) \/
     (status = 0 /\ ~ In "="%char line /\
      IsDBkey true line key t = Some (0, t))).
Proof.
  unfold IsDBkey.
  destruct (split_at "="%char line) as [[lhs rhs]|] eqn:Es.
  - assert (Hin : In "="%char line).
    { clear - Es. revert lhs rhs Es.
      induction line as [|x line IH]; intros lhs rhs; cbn [split_at];
        [discriminate|].
      destruct (Ascii.eqb_spec x "="%char) as [->|_]; [left; reflexivity|].
      destruct (split_at "="%char line) as [[l r]|]; [|discriminate].
      intros _. right. exact (IH l r eq_refl). }
    destruct (skip_while is_blank lhs) as [|x ln].
    + exists (-1), []. split; [reflexivity|]. right. left. auto.
    + destruct (negb (is_prefix _ key)).
      * exists (-1), []. split; [reflexivity|]. right. left. auto.
      * rewrite andb_false_r. eexists 1, _. split; [reflexivity|]. left. auto.
  - assert (Hnot : ~ In "="%char line).
    { clear - Es. induction line as [|x line IH]; [intros []|].
      cbn [split_at] in Es.
      destruct (Ascii.eqb_spec x "="%char) as [->|Hx]; [discriminate|].
      destruct (split_at "="%char line) as [[l r]|]; [discriminate|].
      intros [H|H]; [congruence | exact (IH eq_refl H)]. }
    exists 0, []. split; [reflexivity|]. right. right. auto.
Qed.

(** A value in a section that is ignored. *)
Lemma load_inv_ignored (date : TDatime) (text0 : chars) (st : load_state)
      (occ : list (TDatime * chars)) (v : chars) :
  do_ignore st = true ->
  load_inv date text0 st occ ->
  load_inv date text0 st (occ ++ [(keydate st, v)]).
Proof.
  intros Hig (H1 & H2 & Hep & Hrest).
  split; [exact H1|]. split; [exact H2|]. split; [exact Hep|].
  specialize (H2 Hig).
  destruct (found st).
  - destruct Hrest as (pre & d & v0 & post & -> & Hp & Ht & Hll).
    exists pre, d, v0, (post ++ [(keydate st, v)]).
    split; [rewrite <- app_assoc; reflexivity|].
    split; [exact Hp|]. split; [exact Ht|].
    apply last_latest_snoc; [exact Hll|].
    intros d' [= <-] Hle. cbn [fst] in *. lia.
  - destruct Hrest as (Hp & Ht & Hnone). split; [exact Hp|]. split; [exact Ht|].
    intros x d Hin Hx He. apply in_app_or in Hin.
    destruct Hin as [Hin|[<-|[]]]; [exact (Hnone x d Hin Hx He)|].
    injection Hx as <-. cbn [fst] in *. unfold eligible in He. lia.
Qed.

(** A value in a section that is not ignored. *)
Lemma load_inv_accepted (date : TDatime) (text0 : chars) (st : load_state)
      (occ : list (TDatime * chars)) (v : chars) :
  do_ignore st = false ->
  load_inv date text0 st occ ->
  load_inv date text0
    (mkLoad true (do_ignore st) (keydate st) (keydate st) v)
    (occ ++ [(keydate st, v)]).
Proof.
  intros Hig (H1 & H2 & Hep & Hrest).
  destruct (H1 Hig) as [Hle Hge].
  cbn [load_inv do_ignore keydate prevdate found text]. unfold load_inv.
  cbn [do_ignore keydate prevdate found text].
  split; [intros _; lia|]. split; [congruence|]. split; [lia|].
  exists occ, (keydate st), v, [].
  split; [reflexivity|]. split; [reflexivity|]. split; [reflexivity|].
  destruct (found st).
  - destruct Hrest as (pre & d & v0 & post & -> & Hp & _ & Hll).
    apply (last_latest_new occ_date date pre d post (keydate st, v)
             (keydate st) Hll (d, v0) eq_refl).
    lia.
  - destruct Hrest as (Hp & _ & Hnone).
    apply last_latest_first; [exact Hnone|]. unfold eligible. lia.
Qed.

(** A time stamp. *)
Lemma load_inv_tag (date : TDatime) (text0 : chars) (st : load_state)
      (occ : list (TDatime * chars)) (d : TDatime) :
  load_inv date text0 st occ ->
  load_inv date text0
    (mkLoad (found st) ((date <? d) || (d <? prevdate st)) d (prevdate st)
       (text st))
    occ.
Proof.
  intros (H1 & H2 & Hep & Hrest). unfold load_inv.
  cbn [do_ignore keydate prevdate found text].
  split.
  { intros H. apply orb_false_iff in H. destruct H as [Ha Hb].
    apply Z.ltb_ge in Ha, Hb. lia. }
  split.
  { intros H. apply orb_true_iff in H. destruct H as [H|H];
      apply Z.ltb_lt in H; lia. }
  split; [exact Hep | exact Hrest].
Qed.

Lemma load_state_eta (st : load_state) :
  mkLoad (found st) (do_ignore st) (keydate st) (prevdate st) (text st) = st.
Proof. destruct st; reflexivity. Qed.

Lemma load_fold_inv (date : TDatime) (key text0 : chars)
      (lines : list chars) :
  forall st occ,
    unambiguous lines ->
    load_inv date text0 st occ ->
    exists st',
      fold_opt (load_line true date key) lines st = Some st' /\
      load_inv date text0 st' (occ ++ occurrences key (keydate st) lines).
Proof.
  induction lines as [|line lines IH]; intros st occ Hun Hinv.
  - exists st. cbn [fold_opt occurrences]. rewrite app_nil_r. auto.
  - assert (Hun' : unambiguous lines)
      by (intros l Hl; apply Hun; right; exact Hl).
    assert (Hline := Hun line (or_introl eq_refl)).
    cbn [fold_opt occurrences]. unfold classify, load_line.
    destruct (IsDBkey_text line key (text st))
      as (status & v & Hk & [(-> & Heq & Hkt)|[(-> & Heq & Hkt)
                                              |(-> & Heq & Hkt)]]);
      rewrite Hk.
    + (* a value of the key *)
      cbn [Z.ltb Z.compare].
      assert (Hnodate : IsDBdate line = None).
      { destruct (IsDBdate line); [|reflexivity].
        exfalso. apply Hline; [discriminate | exact Heq]. }
      destruct (do_ignore st) eqn:Hig.
      * cbn [Z.eqb negb]. rewrite Hnodate.
        replace (occ ++ (keydate st, v) :: occurrences key (keydate st) lines)
          with ((occ ++ [(keydate st, v)]) ++
                occurrences key (keydate st) lines)
          by (rewrite <- app_assoc; reflexivity).
        apply IH; [exact Hun'|]. apply load_inv_ignored; assumption.
      * rewrite Hkt. cbn [Z.eqb negb Z.ltb Z.compare].
        replace (occ ++ (keydate st, v) :: occurrences key (keydate st) lines)
          with ((occ ++ [(keydate st, v)]) ++
                occurrences key
                  (keydate (mkLoad true false (keydate st) (keydate st) v))
                  lines)
          by (rewrite <- app_assoc; reflexivity).
        apply IH; [exact Hun'|].
        rewrite <- Hig at 1. apply load_inv_accepted; assumption.
    + (* an assignment to another key *)
      cbn [Z.ltb Z.compare].
      assert (Hnodate : IsDBdate line = None).
      { destruct (IsDBdate line); [|reflexivity].
        exfalso. apply Hline; [discriminate | exact Heq]. }
      destruct (do_ignore st) eqn:Hig.
      * cbn [Z.eqb negb]. rewrite Hnodate. apply IH; assumption.
      * rewrite Hkt. cbn [Z.eqb negb Z.ltb Z.compare].
        rewrite <- Hig, load_state_eta. apply IH; assumption.
    + (* no assignment: a time stamp or nothing *)
      cbn [Z.ltb Z.compare].
      replace (if do_ignore st then Some (0, text st)
               else IsDBkey true line key (text st)) with (Some (0, text st))
        by (destruct (do_ignore st); [reflexivity | rewrite Hkt; reflexivity]).
      cbn [Z.eqb negb].
      destruct (IsDBdate line) as [d|].
      * apply (IH (mkLoad (found st) ((date <? d) || (d <? prevdate st)) d
                     (prevdate st) (text st)) occ Hun').
        apply load_inv_tag. exact Hinv.
      * apply IH; assumption.
Qed.

Lemma load_dblines_fold (NDEBUG : bool) (Substitute : chars -> list chars)
      (date : TDatime) (key : chars) (dblines : list chars) :
  forall st,
    fold_opt (load_dbline NDEBUG Substitute date key) dblines st =
    fold_opt (load_line NDEBUG date key) (inner_lines Substitute dblines) st.
Proof.
  induction dblines as [|l ls IH]; intros st; [reflexivity|].
  cbn [fold_opt inner_lines flat_map]. rewrite fold_opt_app.
  destruct l as [|c l].
  - cbn [load_dbline fold_opt]. apply IH.
  - cbn [load_dbline].
    destruct (fold_opt (load_line NDEBUG date key) (Substitute (c :: l)) st);
      [apply IH | reflexivity].
Qed.

(** ** The entry that is accepted *)

(** X30: [SeekDBdate] leaves the file right after the last time stamp,
    among those it scans, that carries the greatest date not after the
    requested one (and not before 1995), and returns 1; when there is no
    such time stamp it returns 0 and the position is unchanged.  Without
    [end_on_tag] it scans to the end of the file. *)
Theorem SeekDBdate_last_latest
        (file : chars) (pos : nat) (date : TDatime) (end_on_tag : bool) :
  exists scanned rest,
    fgets_all (skipn pos file) = scanned ++ rest /\
    (end_on_tag = false -> rest = []) /\
    ((SeekDBdate file pos date end_on_tag = (false, Z.of_nat pos) /\
      forall c d, In c scanned -> seek_tag c = Some d -> ~ eligible date d)
     \/
     (exists pre c post d,
         scanned = pre ++ c :: post /\ seek_tag c = Some d /\
         last_latest seek_tag date pre d post /\
         SeekDBdate file pos date end_on_tag
         = (true, Z.of_nat pos + span (pre ++ [c])))).
Proof.
  set (st0 := mkSeek epoch (-1) false false (Z.of_nat pos)).
  assert (H0 : seek_inv (Z.of_nat pos) date end_on_tag st0 []).
  { split; [cbn [offset st0]; unfold span; cbn; lia|].
    split; [discriminate|]. split; [cbn; lia|].
    split; [reflexivity|]. intros c d []. }
  destruct (seek_fold_inv (Z.of_nat pos) date end_on_tag
              (fgets_all (skipn pos file)) st0 [] eq_refl H0)
    as (sc & rest & Hsplit & Hrest & Hoff & _ & _ & Hfin).
  exists sc, rest. split; [exact Hsplit|]. split; [exact Hrest|].
  unfold SeekDBdate. fold st0. cbn [app] in Hfin.
  destruct (seek_found (fold_left _ _ st0)).
  - right. destruct Hfin as (pre & c & post & d & Hsc & Htag & _ & Hfp & Hll).
    exists pre, c, post, d. rewrite Hfp.
    split; [exact Hsc|]. split; [exact Htag|]. split; [exact Hll|].
    reflexivity.
  - left. destruct Hfin as (_ & Hnone). split; [reflexivity | exact Hnone].
Qed.

(** On the sample file, for the first of January 2021: the file is left
    after the time stamp of 2020, 30 characters in; the time stamps of 2019
    and 2022 are passed over. *)
Example SeekDBdate_sample :
  SeekDBdate sample_file 0 (TDatime_Set 2021 1 1 0 0 0) false = (true, 30).
Proof. vm_compute. reflexivity. Qed.

(** The loop of [LoadDBvalue] on the lines it is given, for a requested
    date not before 1995 and lines of which none is an assignment and a
    time stamp at once: a call that returns gives 0 and the value of the
    last occurrence of the key, among all occurrences, whose section
    carries the greatest date not after the requested one; when no
    occurrence stands in such a section it gives 1 and leaves [text]
    alone.  With [NDEBUG] every call returns.  The lines [ReadDBline]
    makes of a file in which a time stamp stands right behind an
    assignment are not of this kind. *)
Lemma LoadDBvalue_last_latest
      (NDEBUG : bool) (Substitute : chars -> list chars)
      (dblines : list chars) (date : TDatime) (key text0 : chars) :
  epoch <= date ->
  unambiguous (inner_lines Substitute dblines) ->
  (exists r, LoadDBvalue true Substitute dblines date key text0 = Some r) /\
  forall r,
    LoadDBvalue NDEBUG Substitute dblines date key text0 = Some r ->
    (r = (1, text0) /\
     forall x d,
       In x (occurrences key epoch (inner_lines Substitute dblines)) ->
       occ_date x = Some d -> ~ eligible date d)
    \/
    (exists pre d v post,
        occurrences key epoch (inner_lines Substitute dblines)
        = pre ++ (d, v) :: post /\
        last_latest occ_date date pre d post /\
        r = (0, v)).
Proof.
  intros Hdate Hun.
  set (st0 := mkLoad false false epoch epoch text0).
  assert (H0 : load_inv date text0 st0 []).
  { split; [intros _; cbn [keydate prevdate st0]; lia|].
    split; [discriminate|].
    split; [cbn [prevdate st0]; lia|].
    split; [reflexivity|]. split; [reflexivity|].
    intros x d []. }
  destruct (load_fold_inv date key text0 (inner_lines Substitute dblines)
              st0 [] Hun H0) as (st' & Hfold & Hfin).
  cbn [app] in Hfin. change (keydate st0) with epoch in Hfin.
  assert (Htrue : LoadDBvalue true Substitute dblines date key text0
                  = Some (if found st' then 0 else 1, text st')).
  { unfold LoadDBvalue. fold st0. rewrite load_dblines_fold, Hfold.
    reflexivity. }
  split; [eexists; exact Htrue|].
  intros r Hr.
  assert (Hr' : LoadDBvalue true Substitute dblines date key text0 = Some r).
  { revert Hr. unfold LoadDBvalue. fold st0. rewrite !load_dblines_fold.
    destruct (fold_opt (load_line NDEBUG date key) _ st0) as [st1|] eqn:E;
      [|discriminate].
    rewrite (fold_opt_returned _ (load_line true date key)
               (load_line_returned NDEBUG date key) _ _ _ E).
    exact (fun H => H). }
  rewrite Htrue in Hr'. injection Hr' as <-.
  destruct Hfin as (_ & _ & _ & Hfin).
  destruct (found st').
  - right. destruct Hfin as (pre & d & v & post & Hocc & _ & Ht & Hll).
    exists pre, d, v, post. rewrite Ht.
    split; [exact Hocc|]. split; [exact Hll|]. reflexivity.
  - left. destruct Hfin as (_ & Ht & Hnone). rewrite Ht.
    split; [reflexivity | exact Hnone].
Qed.

End DatabaseFacts.

Module EventBlocksFacts.
Import Pipelining PipeliningFacts EventBlocks.

Lemma size_field_mod (w : Z) : size_field w = w mod 256.
Proof.
  unfold size_field. rewrite Z.shiftr_0_r.
  change 255 with (Z.ones 8). rewrite Z.land_ones by lia. reflexivity.
Qed.

Lemma BlockHeader_fields (slot n : Z) :
  0 <= slot < 32 -> 0 <= n < 256 ->
  data_type_id (BlockHeader slot n) = 1 /\
  type_field (BlockHeader slot n) = 0 /\
  slot_field (BlockHeader slot n) = slot /\
  size_field (BlockHeader slot n) = n.
Proof.
  intros Hs Hn.
  destruct (frame_word_fields 0 slot n ltac:(lia) Hs ltac:(lia)) as (A & B & C).
  fold (BlockHeader slot n) in A, B, C.
  repeat split; try assumption.
  rewrite size_field_mod. unfold BlockHeader.
  rewrite frame_word_sum by lia.
  change (2 ^ 31) with (8388608 * 256). change (2 ^ 27) with (524288 * 256).
  change (2 ^ 22) with (16384 * 256).
  Z.div_mod_to_equations; lia.
Qed.

Lemma EventHeader_fields (slot idx : Z) :
  0 <= slot < 32 -> 0 <= idx < 2 ^ 22 ->
  data_type_id (EventHeader slot idx) = 1 /\
  type_field (EventHeader slot idx) = 2 /\
  slot_field (EventHeader slot idx) = slot.
Proof.
  intros Hs Hn.
  exact (frame_word_fields 2 slot idx ltac:(lia) Hs Hn).
Qed.

Lemma BlockTrailer_fields (slot n : Z) :
  0 <= slot < 32 -> 0 <= n < 2 ^ 22 ->
  data_type_id (BlockTrailer slot n) = 1 /\
  type_field (BlockTrailer slot n) = 1 /\
  slot_field (BlockTrailer slot n) = slot.
Proof.
  intros Hs Hn.
  exact (frame_word_fields 1 slot n ltac:(lia) Hs Hn).
Qed.

Lemma split_word_tagged_data crate slot dbg done bs nw BH dtd ft eb ib ce oeb start w :
  tagged_data w ->
  split_word (open_event crate slot dbg done bs nw BH dtd ft eb ib ce oeb start) w
  = open_event crate slot dbg done bs nw BH (type_field w) ft eb ib ce
      (oeb ++ [w]) start.
Proof.
  intros Hw. destruct (tagged_data_tests w Hw) as (A1 & A2 & A3 & A4).
  unfold open_event.
  pm_run ltac:(rewrite ?A1, ?A2, ?A3, ?A4, ?Z.eqb_refl). reflexivity.
Qed.

Lemma split_word_untagged crate slot dbg done bs nw BH dtd ft eb ib ce oeb start w :
  untagged w -> 3 <= dtd ->
  split_word (open_event crate slot dbg done bs nw BH dtd ft eb ib ce oeb start) w
  = open_event crate slot dbg done bs nw BH dtd ft eb ib ce (oeb ++ [w]) start.
Proof.
  intros Hw Hd. unfold untagged in Hw.
  assert (A1 : (data_type_id w =? 1) = false) by (rewrite Hw; reflexivity).
  assert (A2 : (dtd =? 0) = false) by (apply Z.eqb_neq; lia).
  assert (A3 : (dtd =? 1) = false) by (apply Z.eqb_neq; lia).
  assert (A4 : (dtd =? 2) = false) by (apply Z.eqb_neq; lia).
  unfold open_event.
  pm_run ltac:(rewrite ?A1, ?A2, ?A3, ?A4, ?Z.eqb_refl). reflexivity.
Qed.

Lemma fold_payload_tail crate slot dbg done bs nw BH ft eb ib ce start (p : list Z) :
  forall dtd oeb,
    Forall (fun x => tagged_data x \/ untagged x) p -> 3 <= dtd ->
    exists dtd',
      3 <= dtd' /\
      fold_left split_word p
        (open_event crate slot dbg done bs nw BH dtd ft eb ib ce oeb start)
      = open_event crate slot dbg done bs nw BH dtd' ft eb ib ce (oeb ++ p) start.
Proof.
  induction p as [|w p IH]; intros dtd oeb Hp Hd.
  - exists dtd. rewrite app_nil_r. split; [exact Hd | reflexivity].
  - inversion Hp as [|? ? Hw Hp']; subst. cbn [fold_left].
    destruct Hw as [Hw|Hw].
    + rewrite split_word_tagged_data by exact Hw.
      destruct (IH (type_field w) (oeb ++ [w]) Hp' ltac:(destruct Hw; lia))
        as (dtd' & Hd' & E).
      exists dtd'. rewrite E, <- app_assoc. split; [exact Hd' | reflexivity].
    + rewrite split_word_untagged by assumption.
      destruct (IH dtd (oeb ++ [w]) Hp' Hd) as (dtd' & Hd' & E).
      exists dtd'. rewrite E, <- app_assoc. split; [exact Hd' | reflexivity].
Qed.

Lemma fold_payload crate slot dbg done bs nw BH ft eb ib ce start (p : list Z) :
  forall oeb,
    payload_ok p ->
    exists dtd',
      2 <= dtd' /\
      fold_left split_word p
        (open_event crate slot dbg done bs nw BH 2 ft eb ib ce oeb start)
      = open_event crate slot dbg done bs nw BH dtd' ft eb ib ce (oeb ++ p) start.
Proof.
  intros oeb Hp. destruct p as [|w p].
  - exists 2. rewrite app_nil_r. split; [lia | reflexivity].
  - destruct Hp as [Hw Hp]. cbn [fold_left].
    rewrite split_word_tagged_data by exact Hw.
    destruct (fold_payload_tail crate slot dbg done bs nw BH ft eb ib ce start
                p (type_field w) (oeb ++ [w]) Hp ltac:(destruct Hw; lia))
      as (dtd' & Hd' & E).
    exists dtd'. rewrite E, <- app_assoc. split; [lia | reflexivity].
Qed.

Lemma split_word_event_header crate slot dbg done bs nw BH dtd ft eb ib ce oeb
      sev start idx :
  0 <= slot < 32 -> 0 <= idx < 2 ^ 22 ->
  split_word
    (mkSplit (mkModule crate slot dbg true done bs nw BH dtd ft eb ib ce)
       oeb slot sev start)
    (EventHeader slot idx)
  = open_event crate slot dbg done bs nw BH 2 ft
      (if start + 1 =? 2 then eb else eb ++ [oeb]) ib ce
      ((if start + 1 =? 2 then oeb else []) ++ [BH; EventHeader slot idx])
      (start + 1).
Proof.
  intros Hs Hi.
  destruct (EventHeader_fields slot idx Hs Hi) as (A & B & C).
  set (EH := EventHeader slot idx) in *. clearbody EH.
  unfold open_event.
  destruct (start + 1 =? 2) eqn:E;
  pm_run ltac:(rewrite ?A, ?B, ?C, ?Z.eqb_refl, ?E); reflexivity.
Qed.

Lemma split_word_block_header (m : PipeliningModule) (slot n : Z) :
  0 <= slot < 32 -> 0 <= n < 256 -> fSlot m = slot ->
  fMultiBlockMode m = true \/ 2 <= n ->
  split_word (split_init m) (BlockHeader slot n)
  = mkSplit (mkModule (fCrate m) slot (fDebug m) true false n (fNWarnings m)
               (BlockHeader slot n) 0 (fFirstTime m) [] (index_buffer m)
               (cerr m))
      [] slot 0 1.
Proof.
  intros Hs Hn Hslot Hmb.
  destruct (BlockHeader_fields slot n Hs Hn) as (A & B & C & D).
  set (BH := BlockHeader slot n) in *. clearbody BH.
  destruct m as [crate slot' dbg mb done bs nw bh dtd ft eb ib ce].
  cbn [fSlot fMultiBlockMode] in Hslot, Hmb. subst slot'.
  unfold split_init. cbn [fCrate fDebug fNWarnings fFirstTime index_buffer cerr].
  assert (E : (if 1 <? n then true else mb) = true).
  { destruct (Z.ltb_spec 1 n); [reflexivity|]. destruct Hmb; [assumption | lia]. }
  pm_proj.
  cbv delta [split_word]; cbv beta. rewrite A. cbn [Z.eqb Pos.eqb]. pm_proj.
  cbv delta [dispatch]; cbv beta. pm_proj. rewrite B. cbn [Z.eqb].
  cbv delta [case_block_header]; cbv beta. rewrite A. cbn [Z.eqb]. cbv zeta.
  pm_proj. rewrite C, D.
  destruct (1 <? n); pm_proj; rewrite ?Z.eqb_refl; pm_proj;
    [reflexivity | rewrite E; rewrite ?Z.eqb_refl; reflexivity].
Qed.

Lemma split_word_block_trailer crate slot dbg done bs nw BH dtd ft eb ib ce oeb
      start n :
  0 <= slot < 32 -> 0 <= n < 2 ^ 22 ->
  split_word
    (open_event crate slot dbg done bs nw BH dtd ft eb ib ce oeb start)
    (BlockTrailer slot n)
  = open_event crate slot dbg done bs nw BH 1 ft
      (eb ++ [oeb ++ [BlockTrailer slot n]]) ib ce [] (start + 1).
Proof.
  intros Hs Hn.
  destruct (BlockTrailer_fields slot n Hs Hn) as (A & B & C).
  set (BT := BlockTrailer slot n) in *. clearbody BT.
  unfold open_event.
  pm_run ltac:(rewrite ?A, ?B, ?C, ?Z.eqb_refl). reflexivity.
Qed.

(** From an open event on, the remaining events and the trailer. *)
Lemma fold_events crate slot dbg done bs nw BH ft ib ce n (rest : list event) :
  0 <= slot < 32 -> 0 <= n < 2 ^ 22 ->
  forall cur eb dtd start,
    Forall event_ok rest -> 2 <= start ->
    fold_left split_word
      (flat_map (event_words slot) rest ++ [BlockTrailer slot n])
      (open_event crate slot dbg done bs nw BH dtd ft eb ib ce
         (BH :: event_words slot cur) start)
    = open_event crate slot dbg done bs nw BH 1 ft
        (eb ++ sub_buffers BH (BlockTrailer slot n) slot (cur :: rest))
        ib ce [] (start + Z.of_nat (length rest) + 1).
Proof.
  intros Hs Hn.
  induction rest as [|e rest IH]; intros cur eb dtd start Hok Hstart.
  - cbn [flat_map app fold_left length Z.of_nat sub_buffers].
    rewrite split_word_block_trailer by assumption.
    rewrite Z.add_0_r. reflexivity.
  - inversion Hok as [|? ? [Hidx Hpay] Hok']; subst.
    cbn [flat_map]. unfold event_words at 1. cbn [app fold_left].
    rewrite <- app_assoc, fold_left_app.
    unfold open_event at 1.
    rewrite split_word_event_header by assumption.
    replace (start + 1 =? 2) with false by (symmetry; apply Z.eqb_neq; lia).
    cbn [app].
    destruct (fold_payload crate slot dbg done bs nw BH ft
                (eb ++ [BH :: event_words slot cur]) ib ce (start + 1)
                (snd e) [BH; EventHeader slot (fst e)] Hpay)
      as (dtd' & _ & E).
    rewrite E. change ([BH; EventHeader slot (fst e)] ++ snd e)
      with (BH :: event_words slot e).
    rewrite IH by (try assumption; lia).
    rewrite <- app_assoc.
    unfold open_event. cbn [length]. rewrite Nat2Z.inj_succ.
    replace (start + 1 + Z.of_nat (length rest) + 1)
      with (start + Z.succ (Z.of_nat (length rest)) + 1) by lia.
    reflexivity.
Qed.

Lemma sub_buffers_length BH BT slot (events : list event) :
  length (sub_buffers BH BT slot events) = length events.
Proof.
  induction events as [|e [|e' rest] IH]; [reflexivity..|].
  change (sub_buffers BH BT slot (e :: e' :: rest))
    with ((BH :: event_words slot e) :: sub_buffers BH BT slot (e' :: rest)).
  cbn [length] in *. rewrite IH. reflexivity.
Qed.

Lemma block_scan (m : PipeliningModule) (slot nwords : Z)
      (events : list event) :
  0 <= slot < 32 -> fSlot m = slot ->
  0 < Z.of_nat (length events) < 256 ->
  fMultiBlockMode m = true \/ 2 <= Z.of_nat (length events) ->
  Forall event_ok events -> 0 <= nwords < 2 ^ 22 ->
  self (split_scan m (block_words slot events nwords))
  = mkModule (fCrate m) slot (fDebug m) true false
      (Z.of_nat (length events)) (fNWarnings m)
      (BlockHeader slot (Z.of_nat (length events))) 1 (fFirstTime m)
      (sub_buffers (BlockHeader slot (Z.of_nat (length events)))
         (BlockTrailer slot nwords) slot events)
      (index_buffer m) (cerr m).
Proof.
  intros Hs Hslot Hlen Hmb Hok Hn.
  destruct events as [|e rest]; [simpl in Hlen; lia|].
  set (n := Z.of_nat (length (e :: rest))) in *.
  unfold split_scan, block_words. fold n. cbn [fold_left].
  rewrite split_word_block_header by (try assumption; lia).
  destruct (Forall_inv Hok) as [Hidx Hpay].
  pose proof (Forall_inv_tail Hok) as Hok'.
  cbn [flat_map]. unfold event_words at 1. cbn [app fold_left].
  rewrite <- app_assoc, fold_left_app.
  rewrite split_word_event_header by assumption.
  change (1 + 1 =? 2) with true. cbv iota. cbn [app].
  destruct (fold_payload (fCrate m) slot (fDebug m) false n (fNWarnings m)
              (BlockHeader slot n) (fFirstTime m) [] (index_buffer m) (cerr m)
              (1 + 1) (snd e) [BlockHeader slot n; EventHeader slot (fst e)]
              Hpay) as (dtd' & _ & E).
  rewrite E.
  change ([BlockHeader slot n; EventHeader slot (fst e)] ++ snd e)
    with (BlockHeader slot n :: event_words slot e).
  rewrite fold_events by (try assumption; lia).
  reflexivity.
Qed.

(** X1: a block of [n] events for the module's slot, [1 <= n <= 255], is
    split into [n] sub-buffers, one per event: each starts with a copy of
    the block header followed by the event's own header and data, and the
    last also holds the block trailer.  Nothing is written to [cerr].  With
    the cursor at the start, [n] calls of [GetNextBlock] return the
    sub-buffers in order and the last of them raises the done flag. *)
Theorem block_of_events_split (m : PipeliningModule) (slot nwords : Z)
        (events : list event) :
  0 <= slot < 32 -> fSlot m = slot ->
  0 < Z.of_nat (length events) < 256 ->
  fMultiBlockMode m = true \/
  (fFirstTime m = true /\ 2 <= Z.of_nat (length events)) ->
  Forall event_ok events -> 0 <= nwords < 2 ^ 22 ->
  let BH := BlockHeader slot (Z.of_nat (length events)) in
  let subs := sub_buffers BH (BlockTrailer slot nwords) slot events in
  exists m',
    SplitBuffer m (block_words slot events nwords) = Some (m', 0) /\
    eventblock m' = subs /\
    cerr m' = cerr m /\
    fMultiBlockMode m' = true /\
    BlockIsDone m' = false /\
    (index_buffer m = 0 \/ 1 <= fDebug m ->
     fst (drain (length events) m') = subs /\
     BlockIsDone (snd (drain (length events) m')) = true).
Proof.
  intros Hs Hslot Hlen Hmode Hok Hn BH subs.
  assert (Hscan := block_scan m slot nwords events Hs Hslot Hlen
                     ltac:(tauto) Hok Hn).
  fold BH in Hscan. fold subs in Hscan.
  assert (Hsize : Z.of_nat (length subs) = Z.of_nat (length events))
    by (unfold subs; rewrite sub_buffers_length; reflexivity).
  rewrite SplitBuffer_multiblock
    by (first [tauto | rewrite Hscan; reflexivity]).
  rewrite Hscan. cbv zeta.
  set (m1 := set_fFirstTime false _).
  assert (Hm1 : m1 = mkModule (fCrate m) slot (fDebug m) true false
                       (Z.of_nat (length events)) (fNWarnings m) BH 1 false
                       subs (index_buffer m) (cerr m)) by reflexivity.
  assert (Hbs : (block_size m1 =? size m1) = true).
  { rewrite Hm1. unfold size. cbn [block_size eventblock].
    apply Z.eqb_eq. lia. }
  rewrite Hbs.
  assert (Hdrain : forall mm,
             fMultiBlockMode mm = true -> eventblock mm = subs ->
             index_buffer mm = 0 ->
             fst (drain (length events) mm) = subs /\
             BlockIsDone (snd (drain (length events) mm)) = true).
  { intros mm Hmb Heb Hib.
    destruct (drain_from_cursor (length events) mm Hmb) as [D1 D2].
    - lia.
    - unfold size. rewrite Heb, Hib. lia.
    - unfold size. rewrite Heb. lia.
    - rewrite Hib, Heb in D1. split; [exact D1|].
      apply D2. intros E. rewrite E in Hlen. simpl in Hlen. lia. }
  destruct (Z.leb_spec 1 (fDebug m)) as [Hd|Hd].
  - rewrite PrintBlocks_nonempty
      by (rewrite Hm1; unfold size, maxloops; cbn [fMultiBlockMode eventblock];
          first [reflexivity | lia]).
    exists (ReStart m1). rewrite Hm1.
    do 5 (split; [reflexivity|]). intros _. apply Hdrain; reflexivity.
  - exists m1. rewrite Hm1.
    do 5 (split; [reflexivity|]). intros [Hib|Hib]; [|lia].
    apply Hdrain; try reflexivity. exact Hib.
Qed.

(** [block_of_events_split] for a new module of slot 3 and three events,
    the last without data. *)
Lemma block_of_events_split_witness :
  let events := [(0, [2684354577; 34]); (1, [2684354611]); (2, [])] in
  let BH := BlockHeader 3 (Z.of_nat (length events)) in
  let subs := sub_buffers BH (BlockTrailer 3 9) 3 events in
  exists m',
    SplitBuffer (new_PipeliningModule 1 3 0 0) (block_words 3 events 9)
    = Some (m', 0) /\
    eventblock m' = subs /\
    cerr m' = cerr (new_PipeliningModule 1 3 0 0) /\
    fMultiBlockMode m' = true /\
    BlockIsDone m' = false /\
    (index_buffer (new_PipeliningModule 1 3 0 0) = 0 \/
     1 <= fDebug (new_PipeliningModule 1 3 0 0) ->
     fst (drain (length events) m') = subs /\
     BlockIsDone (snd (drain (length events) m')) = true).
Proof.
  intros events.
  apply (block_of_events_split (new_PipeliningModule 1 3 0 0) 3 9 events).
  - lia.
  - reflexivity.
  - simpl; lia.
  - right. split; [reflexivity | simpl; lia].
  - assert (T : forall w, data_type_id w = 1 -> (3 <=? type_field w) = true ->
                         tagged_data w)
      by (intros w H1 H2; split; [exact H1 | apply Z.leb_le; exact H2]).
    repeat apply Forall_cons; try apply Forall_nil;
      (split; [simpl; lia|]); simpl.
    + split; [apply T; reflexivity|].
      apply Forall_cons; [right; reflexivity | apply Forall_nil].
    + split; [apply T; reflexivity | apply Forall_nil].
    + exact I.
  - lia.
Defined.

End EventBlocksFacts.

Module IterationFacts.
Import Pipelining PipeliningFacts EventBlocks.

Lemma hundreds_refl (n : Z) : hundreds n n = O.
Proof. unfold hundreds. rewrite Z.sub_diag. reflexivity. Qed.

Lemma hundreds_step (n0 n : Z) :
  0 <= n0 <= n ->
  hundreds n0 (n + 1)
  = (hundreds n0 n + (if (n mod 100 =? 0)%Z then 1 else 0))%nat.
Proof.
  intros H. unfold hundreds.
  destruct (Z.eqb_spec (n mod 100) 0) as [E|E].
  - replace ((n + 1 + 99) / 100) with ((n + 99) / 100 + 1)
      by (Z.div_mod_to_equations; lia).
    rewrite <- Z2Nat.inj_add with (m := 1) by (Z.div_mod_to_equations; lia).
    f_equal. lia.
  - replace ((n + 1 + 99) / 100) with ((n + 99) / 100)
      by (Z.div_mod_to_equations; lia).
    rewrite Nat.add_0_r. reflexivity.
Qed.

(** One loop iteration either leaves the warning counter and [cerr] alone
    or counts one inconsistency, and writes the warning when the count
    before it was a multiple of 100. *)
Lemma split_word_warns (s : split_state) (w : Z) :
  let s' := split_word s w in
  (fNWarnings (self s') = fNWarnings (self s) /\
   cerr (self s') = cerr (self s)) \/
  (fNWarnings (self s') = UInt_t (fNWarnings (self s) + 1) /\
   cerr (self s') = cerr (self s)
                    ++ (if fNWarnings (self s) mod 100 =? 0
                        then [WarnInconsistentSlot] else [])).
Proof.
  destruct s as [m oeb sbh seh bs]; destruct m. cbv zeta.
  pm_crunch;
    first [ left; split; reflexivity
          | right; split;
            [reflexivity | cbn [app]; rewrite ?app_nil_r; reflexivity]
          | exfalso; congruence ].
Qed.

Lemma fold_split_warns (buf : list Z) :
  forall s n0,
    0 <= n0 <= fNWarnings (self s) ->
    fNWarnings (self s) + Z.of_nat (length buf) < 2 ^ 32 ->
    let s' := fold_left split_word buf s in
    fNWarnings (self s) <= fNWarnings (self s')
      <= fNWarnings (self s) + Z.of_nat (length buf) /\
    forall pre,
      cerr (self s) = pre ++ repeat WarnInconsistentSlot
                               (hundreds n0 (fNWarnings (self s))) ->
      cerr (self s') = pre ++ repeat WarnInconsistentSlot
                                (hundreds n0 (fNWarnings (self s'))).
Proof.
  induction buf as [|w buf IH]; intros s n0 Hn Hlen; cbv zeta.
  - simpl. split; [lia | auto].
  - cbn [fold_left]. cbn [length] in Hlen. rewrite Nat2Z.inj_succ in Hlen.
    destruct (split_word_warns s w) as [[E1 E2]|[E1 E2]].
    + destruct (IH (split_word s w) n0) as [I1 I2]; try (rewrite E1; lia).
      rewrite E1 in I1. split; [cbn [length]; lia|].
      intros pre Hpre. apply I2. rewrite E1, E2. exact Hpre.
    + rewrite UInt_t_small in E1 by lia.
      destruct (IH (split_word s w) n0) as [I1 I2]; try (rewrite E1; lia).
      rewrite E1 in I1. split; [cbn [length]; lia|].
      intros pre Hpre. apply I2. rewrite E1, E2, Hpre.
      rewrite hundreds_step by lia. rewrite repeat_app, <- app_assoc.
      destruct (fNWarnings (self s) mod 100 =? 0); reflexivity.
Qed.

(** X2: the warning about inconsistent slot numbers is written once per
    hundred inconsistent words, counted by [fNWarnings] over the lifetime
    of the module: a call with the debug level below 1 adds to [cerr] one
    warning for every multiple of 100 the counter passes, followed at most
    by the one error about the number of events. *)
Theorem inconsistent_slot_warning_every_100th
        (m : PipeliningModule) (buf : list Z) (m' : PipeliningModule) (r : Z) :
  0 <= fNWarnings m ->
  fNWarnings m + Z.of_nat (length buf) < 2 ^ 32 ->
  fDebug m < 1 ->
  SplitBuffer m buf = Some (m', r) ->
  fNWarnings m <= fNWarnings m' <= fNWarnings m + Z.of_nat (length buf) /\
  exists tail,
    cerr m' = cerr m
              ++ repeat WarnInconsistentSlot
                   (hundreds (fNWarnings m) (fNWarnings m'))
              ++ tail /\
    (tail = [] \/ tail = [ErrBlockCount (block_size m') (size m')]).
Proof.
  intros Hn Hlen Hdbg Hsplit.
  unfold SplitBuffer in Hsplit.
  destruct (negb (fFirstTime _) && negb (IsMultiBlockMode _)).
  - injection Hsplit as <- <-.
    replace (fNWarnings (set_index_buffer _ _)) with (fNWarnings m)
      by (destruct m; reflexivity).
    replace (cerr (set_index_buffer _ _)) with (cerr m)
      by (destruct m; reflexivity).
    split; [lia|]. exists []. rewrite hundreds_refl.
    cbn [repeat app]. rewrite app_nil_r. auto.
  - assert (Hs : fNWarnings m <= fNWarnings (self (split_scan m buf))
                   <= fNWarnings m + Z.of_nat (length buf) /\
                 cerr (self (split_scan m buf))
                 = cerr m ++ repeat WarnInconsistentSlot
                               (hundreds (fNWarnings m)
                                  (fNWarnings (self (split_scan m buf))))).
    { unfold split_scan.
      destruct (fold_split_warns buf (split_init m) (fNWarnings m)) as [I1 I2];
        try (destruct m; cbn in *; lia).
      replace (fNWarnings (self (split_init m))) with (fNWarnings m) in *
        by (destruct m; reflexivity).
      split; [exact I1|]. apply I2.
      rewrite hundreds_refl. cbn [repeat]. rewrite app_nil_r.
      destruct m; reflexivity. }
    destruct Hs as [Hs1 Hs2].
    set (s := self (split_scan m buf)) in *.
    assert (Hdbg' : fDebug s = fDebug m).
    { pose proof (split_scan_frame m buf) as F. fold s in F.
      unfold frame in F. congruence. }
    destruct (negb (IsMultiBlockMode (set_fFirstTime false s))).
    + injection Hsplit as <- <-.
      replace (fNWarnings (set_index_buffer _ _)) with (fNWarnings s)
        by (destruct s; reflexivity).
      replace (cerr (set_index_buffer _ _)) with (cerr s)
        by (destruct s; reflexivity).
      split; [exact Hs1|]. exists []. rewrite app_nil_r. auto.
    + destruct (block_size (set_fFirstTime false s)
                =? size (set_fFirstTime false s)) eqn:Hbs.
      * replace (1 <=? fDebug (set_fFirstTime false s)) with false in Hsplit
          by (symmetry; apply Z.leb_gt; destruct s; cbn in *; lia).
        injection Hsplit as <- <-.
        replace (fNWarnings (set_fFirstTime false s)) with (fNWarnings s)
          by (destruct s; reflexivity).
        replace (cerr (set_fFirstTime false s)) with (cerr s)
          by (destruct s; reflexivity).
        split; [exact Hs1|]. exists []. rewrite app_nil_r. auto.
      * replace (1 <=? fDebug (log _ (set_fFirstTime false s))) with false
          in Hsplit
          by (symmetry; apply Z.leb_gt; destruct s; cbn in *; lia).
        injection Hsplit as <- <-.
        replace (fNWarnings (log _ (set_fFirstTime false s)))
          with (fNWarnings s) by (destruct s; reflexivity).
        split; [exact Hs1|].
        exists [ErrBlockCount (block_size (set_fFirstTime false s))
                  (size (set_fFirstTime false s))].
        split; [|right; destruct s; reflexivity].
        rewrite app_assoc, <- Hs2. destruct s; reflexivity.
Qed.

(** [inconsistent_slot_warning_every_100th] for a new module of slot 3 and
    an event header that names slot 4: the first inconsistent data word is
    the one that is reported. *)
Lemma inconsistent_slot_warning_witness :
  let m := new_PipeliningModule 1 3 0 0 in
  let buf := [BlockHeader 3 2; EventHeader 4 0; 2684354577; 34] in
  exists m' r,
    SplitBuffer m buf = Some (m', r) /\
    fNWarnings m <= fNWarnings m' <= fNWarnings m + Z.of_nat (length buf) /\
    exists tail,
      cerr m' = cerr m
                ++ repeat WarnInconsistentSlot
                     (hundreds (fNWarnings m) (fNWarnings m'))
                ++ tail /\
      (tail = [] \/ tail = [ErrBlockCount (block_size m') (size m')]).
Proof.
  intros m buf.
  destruct (SplitBuffer m buf) as [[m' r]|] eqn:E;
    [|lazy in E; discriminate].
  exists m', r. split; [reflexivity|].
  apply (inconsistent_slot_warning_every_100th m buf m' r).
  - simpl; lia.
  - simpl; lia.
  - simpl; lia.
  - exact E.
Defined.

(** Once the cursor is too far from the end for the remaining turns, the
    loop of [PrintBlocks] runs into its guard. *)
Lemma PrintBlocks_loop_overrun (fuel : nat) :
  forall icnt m,
    fMultiBlockMode m = true ->
    fBlockIsDone m = false ->
    0 <= index_buffer m ->
    maxloops + 1 - icnt < size m - index_buffer m ->
    size m < 2 ^ 32 ->
    PrintBlocks_loop fuel icnt m = None.
Proof.
  induction fuel as [|fuel IH]; intros icnt m Hmb Hnd Hi Hfar Hsz;
    cbn [PrintBlocks_loop]; unfold BlockIsDone; rewrite Hnd;
    destruct (Z.ltb_spec maxloops icnt) as [Hic|Hic]; try reflexivity.
  rewrite GetNextBlock_step by (try assumption; lia). cbn [snd].
  replace (index_buffer m =? size m - 1) with false
    by (symmetry; apply Z.eqb_neq; lia).
  assert (E1 : index_buffer (set_index_buffer (index_buffer m + 1) m)
               = index_buffer m + 1) by (destruct m; reflexivity).
  assert (E2 : size (set_index_buffer (index_buffer m + 1) m) = size m)
    by (destruct m; reflexivity).
  apply IH.
  - rewrite <- Hmb. destruct m; reflexivity.
  - rewrite <- Hnd. destruct m; reflexivity.
  - rewrite E1. lia.
  - rewrite E1, E2. lia.
  - rewrite E2. exact Hsz.
Qed.

(** X3: [PrintBlocks] does nothing in single-block mode; in multiblock mode
    it walks through between one and [maxloops + 1] sub-buffers and leaves
    the module rewound, cursor 0 and done flag down, whatever the cursor was
    before; with no sub-buffer, or with more than [maxloops + 1] of them, it
    throws. *)
Theorem PrintBlocks_rewinds_or_throws (m : PipeliningModule) :
  size m < 2 ^ 32 ->
  PrintBlocks m
  = if negb (fMultiBlockMode m) then Some m
    else if (0 <? size m) && (size m <=? maxloops + 1) then Some (ReStart m)
    else None.
Proof.
  intros Hsz.
  destruct (fMultiBlockMode m) eqn:Hmb; cbn [negb].
  - destruct (Z.ltb_spec 0 (size m)) as [H0|H0]; cbn [andb].
    + destruct (Z.leb_spec (size m) (maxloops + 1)) as [H1|H1].
      * apply PrintBlocks_nonempty; [exact Hmb | lia].
      * unfold PrintBlocks, IsMultiBlockMode. rewrite Hmb. cbn [negb].
        assert (E1 : index_buffer (ReStart m) = 0)
          by (destruct m; reflexivity).
        assert (E2 : size (ReStart m) = size m) by (destruct m; reflexivity).
        rewrite PrintBlocks_loop_overrun; [reflexivity | | | | |].
        -- rewrite <- Hmb. destruct m; reflexivity.
        -- destruct m; reflexivity.
        -- rewrite E1. lia.
        -- rewrite E1, E2. lia.
        -- rewrite E2. exact Hsz.
    + apply PrintBlocks_empty; [exact Hmb|].
      unfold size in H0. destruct (eventblock m); [reflexivity|].
      cbn [length] in H0. lia.
  - unfold PrintBlocks, IsMultiBlockMode. rewrite Hmb. reflexivity.
Qed.

(** [PrintBlocks_rewinds_or_throws] in the middle of an iteration over two
    sub-buffers. *)
Lemma PrintBlocks_rewinds_witness :
  let m := mkModule 1 3 0 true false 2 0 0 1 false [[1; 2]; [3]] 1 [] in
  PrintBlocks m = Some (ReStart m).
Proof.
  intros m. apply (PrintBlocks_rewinds_or_throws m).
  unfold size; simpl; lia.
Defined.

(** X4: [GetNextBlock] always returns: with nothing in the accumulator it
    returns an empty vector and writes an error; in single-block mode it
    returns the first sub-buffer any number of times and touches nothing, so
    the done flag never rises; in multiblock mode with the cursor at or past
    the end it returns the first sub-buffer again, advances the cursor and
    writes a warning. *)
Theorem GetNextBlock_always_returns (m : PipeliningModule) :
  (eventblock m = [] ->
   GetNextBlock m = ([], log ErrNoEventBuffers m)) /\
  (forall b bs k,
      eventblock m = b :: bs -> fMultiBlockMode m = false ->
      drain k m = (repeat b k, m)) /\
  (forall b bs,
      eventblock m = b :: bs -> fMultiBlockMode m = true ->
      size m <= index_buffer m < 2 ^ 32 - 1 ->
      GetNextBlock m
      = (b, log (WarnIndexProblem (index_buffer m) (size m))
              (set_index_buffer (index_buffer m + 1) m))).
Proof.
  split; [|split].
  - intros Heb. unfold GetNextBlock. rewrite Heb. reflexivity.
  - intros b bs k Heb Hmb.
    assert (Hone : GetNextBlock m = (b, m))
      by (unfold GetNextBlock, IsMultiBlockMode; rewrite Heb, Hmb; reflexivity).
    induction k as [|k IH]; [reflexivity|].
    cbn [drain repeat]. rewrite Hone, IH. reflexivity.
  - intros b bs Heb Hmb Hi.
    pose proof (size_nonneg m) as Hsz.
    unfold GetNextBlock, IsMultiBlockMode. rewrite Heb, Hmb. cbn [negb].
    replace (index_buffer m =? size m - 1) with false
      by (symmetry; apply Z.eqb_neq; lia).
    rewrite UInt_t_small by lia.
    unfold GetIndex. cbn [index_buffer set_index_buffer].
    replace (index_buffer m + 1 - 1) with (index_buffer m) by lia.
    rewrite UInt_t_small by lia.
    replace (size (set_index_buffer _ m)) with (size m) by reflexivity.
    replace (0 <? index_buffer m + 1) with true
      by (symmetry; apply Z.ltb_lt; lia).
    replace (index_buffer m <? size m) with false
      by (symmetry; apply Z.ltb_ge; lia).
    cbn [andb]. cbn [eventblock log set_index_buffer].
    rewrite Heb. reflexivity.
Qed.

End IterationFacts.

Module FastbusCallsFacts.
Import Fastbus FastbusFacts FastbusCalls.

Lemma scan_bound (rest : list Z) :
  forall p pstop w,
    p <= pstop ->
    scan rest p pstop w
    = scan (firstn (Z.to_nat (pstop - p + 1)) rest) p pstop w.
Proof.
  induction rest as [|word rest IH]; intros p pstop w Hp.
  - rewrite firstn_nil. reflexivity.
  - replace (Z.to_nat (pstop - p + 1)) with (S (Z.to_nat (pstop - p)))
      by lia.
    cbn [firstn scan].
    destruct (IsSlot (this w) word); [|reflexivity].
    destruct (Z.ltb_spec pstop (p + 1)) as [H|H]; [reflexivity|].
    rewrite IH by lia.
    replace (pstop - (p + 1) + 1) with (pstop - p) by lia. reflexivity.
Qed.

Lemma scan_bound_before (rest : list Z) (pstop : Z) (w : world) :
  pstop <= 0 -> scan rest 0 pstop w = scan (firstn 1 rest) 0 0 w.
Proof.
  intros Hp. destruct rest as [|word rest]; [reflexivity|].
  cbn [firstn scan].
  destruct (IsSlot (this w) word); [|reflexivity].
  replace (pstop <? 0 + 1) with true by (symmetry; apply Z.ltb_lt; lia).
  reflexivity.
Qed.

(** X5: [LoadSlot] reads the words [evbuffer[0]] to
    [evbuffer[max(pstop, 0)]] and no others: the result is the same when
    only those words are there.  The word at [evbuffer] is tested before the
    bound is, so a bound that lies before the buffer acts like a bound at
    its first word. *)
Theorem LoadSlot_reads_up_to_bound (MAXROC MAXSLOT_FB : Z) (w : world)
        (evbuffer : list Z) (pstop : Z) :
  LoadSlot MAXROC MAXSLOT_FB w evbuffer pstop
  = LoadSlot MAXROC MAXSLOT_FB w
      (firstn (Z.to_nat (Z.max pstop 0 + 1)) evbuffer) (Z.max pstop 0).
Proof.
  rewrite !LoadSlot_unfold.
  destruct (Z.max_spec pstop 0) as [[H E]|[H E]]; rewrite E.
  - rewrite scan_bound_before by lia. reflexivity.
  - rewrite scan_bound by lia.
    replace (pstop - 0 + 1) with (pstop + 1) by lia. reflexivity.
Qed.

(** X6: a module without header word forwards every word of its slot's run
    as a hit, decoded with the channel and data masks, and returns their
    number; no header is captured. *)
Theorem LoadSlot_without_header_all_hits (MAXROC MAXSLOT_FB : Z) (w : world)
        (evbuffer : list Z) (pstop : Z) :
  fHasHeader (this w) = false ->
  0 <= pstop < Z.of_nat (length evbuffer) -> pstop < 2 ^ 32 - 1 ->
  let m := this (check_bounds MAXROC MAXSLOT_FB w) in
  let run := slot_run m evbuffer pstop in
  exists w',
    LoadSlot MAXROC MAXSLOT_FB w evbuffer pstop
    = Some (w', Z.of_nat (length run)) /\
    sldat w' = sldat w ++ map (decoded m) run /\
    Z.of_nat (length (sldat w')) = Z.of_nat (length (sldat w))
                                   + Z.of_nat (length run) /\
    fHeader (this w') = 0.
Proof.
  intros Hh Hp Hp' m run.
  destruct (LoadSlot_run MAXROC MAXSLOT_FB w evbuffer pstop Hp Hp')
    as (ws & _ & HL & _ & _ & Hsl & _ & Hhd & _).
  fold m in HL, Hsl, Hhd. fold run in HL, Hsl, Hhd.
  assert (Hm : fHasHeader m = false).
  { destruct (check_bounds_keeps MAXROC MAXSLOT_FB w) as (_ & _ & _ & H & _).
    unfold m. rewrite H. exact Hh. }
  rewrite Hm in Hsl, Hhd.
  destruct (check_word_count_keeps ws) as (_ & Ht & Hs & _).
  exists (check_word_count ws).
  split; [exact HL|]. rewrite Ht, Hs, Hsl, Hhd.
  split; [reflexivity|]. split; [|reflexivity].
  rewrite length_app, length_map. lia.
Qed.

Lemma LoadSlot_without_header_witness :
  let m := mkFastbus 1 5 false 4160749568 27 2031616 16 65535 127 1877
             0 0 0 0 0 false in
  let w := mkWorld true m [] [] [] in
  let evbuffer := [671154467; 671220258; 134217728] in
  let run := slot_run (this (check_bounds 32 26 w)) evbuffer 2 in
  exists w',
    LoadSlot 32 26 w evbuffer 2 = Some (w', Z.of_nat (length run)) /\
    sldat w' = sldat w ++ map (decoded (this (check_bounds 32 26 w))) run /\
    Z.of_nat (length (sldat w')) = Z.of_nat (length (sldat w))
                                   + Z.of_nat (length run) /\
    fHeader (this w') = 0.
Proof.
  intros m w evbuffer.
  apply (LoadSlot_without_header_all_hits 32 26 w evbuffer 2).
  - reflexivity.
  - simpl; lia.
  - lia.
Defined.

(** The calls on the module and the world evaluated, the arithmetic left as
    it is. *)
Ltac fb_eval :=
  cbv beta iota zeta delta
      [before_scan check_bounds check_word_count scan_word stale
       without_decoded to_debug to_cerr loadData set_first_load on_this
       Decode set_decoded set_fHeader set_fWordsSeen set_fCrate set_fSlot
       this first_load sldat cerr debug fCrate fSlot fHasHeader fSlotMask
       fSlotShift fChanMask fChanShift fDataMask fWdcntMask fModelNum fChan
       fData fRawData fWordsSeen fHeader fDebugFile] in *.

Lemma without_decoded_inv (w1 w2 : world) :
  without_decoded w1 = without_decoded w2 ->
  exists c d r, w2 = on_this (set_decoded c d r) w1.
Proof.
  destruct w1 as [fl1 m1 s1 c1 d1], w2 as [fl2 m2 s2 c2 d2].
  destruct m1, m2. fb_eval.
  intros H. injection H as -> -> -> -> -> -> -> -> -> -> -> -> -> -> -> -> ->.
  do 3 eexists. reflexivity.
Qed.

Lemma scan_word_without_decoded (word : Z) (w : world) (c d r : Z) :
  without_decoded (scan_word word (on_this (set_decoded c d r) w))
  = without_decoded (scan_word word w).
Proof.
  destruct w as [fl m s ce de]. destruct m.
  fb_eval.
  destruct (fHasHeader0 && (fWordsSeen0 =? 0)); destruct fDebugFile0;
    fb_eval; reflexivity.
Qed.

Lemma scan_without_decoded (rest : list Z) :
  forall p pstop w1 w2,
    without_decoded w1 = without_decoded w2 ->
    option_map without_decoded (scan rest p pstop w1)
    = option_map without_decoded (scan rest p pstop w2).
Proof.
  induction rest as [|word rest IH]; intros p pstop w1 w2 H; [reflexivity|].
  destruct (without_decoded_inv w1 w2 H) as (c & d & r & ->).
  cbn [scan].
  replace (IsSlot (this (on_this (set_decoded c d r) w1)) word)
    with (IsSlot (this w1) word)
    by (destruct w1 as [fl m s ce de]; destruct m; reflexivity).
  destruct (IsSlot (this w1) word).
  - destruct (pstop <? p + 1).
    + cbn [option_map]. rewrite scan_word_without_decoded. reflexivity.
    + apply IH. symmetry. apply scan_word_without_decoded.
  - cbn [option_map]. congruence.
Qed.

Lemma check_word_count_without_decoded (w1 w2 : world) :
  without_decoded w1 = without_decoded w2 ->
  without_decoded (check_word_count w1) = without_decoded (check_word_count w2)
  /\ fWordsSeen (this w1) = fWordsSeen (this w2).
Proof.
  intros H. destruct (without_decoded_inv w1 w2 H) as (c & d & r & ->).
  destruct w1 as [fl m s ce de]. destruct m.
  fb_eval.
  destruct (fHeader0 =? 0); [split; reflexivity|].
  destruct fDebugFile0; fb_eval;
    destruct (Z.land fHeader0 fWdcntMask0 =? fWordsSeen0); fb_eval;
    split; reflexivity.
Qed.

(** The bounds check neither reads nor writes what [stale] sets. *)
Lemma check_bounds_stale (MAXROC MAXSLOT_FB : Z) (w : world)
      (seen header chan data raw : Z) :
  check_bounds MAXROC MAXSLOT_FB (stale seen header chan data raw w)
  = stale seen header chan data raw (check_bounds MAXROC MAXSLOT_FB w).
Proof.
  destruct w as [fl m s ce de]. destruct m.
  destruct fl; [|reflexivity].
  unfold check_bounds, stale. simpl.
  destruct (MAXROC <=? fCrate0); simpl;
    destruct (MAXSLOT_FB <? fSlot0); reflexivity.
Qed.

(** X7: a call of [LoadSlot] starts afresh.  Whatever an earlier call left
    in [fWordsSeen], [fHeader], [fChan], [fData] and [fRawData] has no
    effect on the value returned, on the hits forwarded, on the header and
    word count found or on the output; only [fChan], [fData] and [fRawData]
    themselves keep their old values when the call decodes no hit. *)
Theorem LoadSlot_starts_afresh (MAXROC MAXSLOT_FB : Z) (w : world)
        (evbuffer : list Z) (pstop seen header chan data raw : Z) :
  option_map (fun wr => (without_decoded (fst wr), snd wr))
    (LoadSlot MAXROC MAXSLOT_FB (stale seen header chan data raw w)
       evbuffer pstop)
  = option_map (fun wr => (without_decoded (fst wr), snd wr))
      (LoadSlot MAXROC MAXSLOT_FB w evbuffer pstop).
Proof.
  rewrite !LoadSlot_unfold.
  assert (H0 : without_decoded
                 (before_scan MAXROC MAXSLOT_FB
                    (stale seen header chan data raw w))
               = without_decoded (before_scan MAXROC MAXSLOT_FB w)).
  { unfold before_scan. cbv zeta. rewrite check_bounds_stale.
    generalize (check_bounds MAXROC MAXSLOT_FB w). intros w0.
    destruct w0 as [fl m s ce de]. destruct m.
    destruct fDebugFile0; fb_eval; reflexivity. }
  pose proof (scan_without_decoded evbuffer 0 pstop _ _ H0) as H1.
  destruct (scan evbuffer 0 pstop
              (before_scan MAXROC MAXSLOT_FB
                 (stale seen header chan data raw w))) as [ws1|];
    destruct (scan evbuffer 0 pstop (before_scan MAXROC MAXSLOT_FB w))
      as [ws2|]; cbn [option_map] in *; try discriminate; [|reflexivity].
  assert (H2 : without_decoded ws1 = without_decoded ws2) by congruence.
  destruct (check_word_count_without_decoded ws1 ws2 H2) as [E1 E2].
  cbn [fst snd]. rewrite E1, E2. reflexivity.
Qed.

End FastbusCallsFacts.

Module EtClientCallsFacts.
Import EtClient EtClientFacts.

(** X8: [codaClose] can be called again at no cost: after one call, a
    further call changes nothing and returns [CODA_OK], whatever the first
    call returned.  On a client that has not read yet the first call itself
    does nothing: it does not even mark the client closed. *)
Theorem codaClose_only_once (a a' : et_answers) (c : THaEtClient) :
  codaClose a' (fst (codaClose a c)) = (fst (codaClose a c), CODA_OK) /\
  (firstread c <> 0 -> codaClose a c = (c, CODA_OK)).
Proof.
  split.
  - unfold codaClose.
    destruct c as [nr nu wf dc no fr buf].
    cbn [didclose firstread notopened set_didclose].
    destruct (dc =? 0) eqn:E1; destruct (fr =? 0) eqn:E2;
      cbn [negb orb fst]; cbn [didclose firstread];
      rewrite ?E1, ?E2; cbn [negb orb]; try reflexivity.
    destruct (negb (no =? 0)); [reflexivity|].
    destruct (negb (et_station_detach_res a =? ET_OK)); [reflexivity|].
    destruct (negb (et_close_res a =? ET_OK)); reflexivity.
  - intros H. unfold codaClose.
    replace (firstread c =? 0) with false by (symmetry; apply Z.eqb_neq; exact H).
    rewrite orb_true_r. reflexivity.
Qed.

(** X9: when [et_events_get] fails, [codaRead] returns [CODA_ERROR], sets
    [nread] and [nused] to zero and leaves the event buffer as it was; the
    client is then in a state that a further failure does not change. *)
Theorem codaRead_get_failure (MAXEVLEN EXISTS : Z) (pc : Z -> Z -> Z -> Z)
        (a : et_answers) (c : THaEtClient) :
  ready EXISTS a c ->
  nread c <= nused c ->
  et_events_get_res a < ET_OK ->
  exists c',
    codaRead MAXEVLEN EXISTS pc a c = Returned c' CODA_ERROR /\
    nread c' = 0 /\ nused c' = 0 /\ firstread c' = 0 /\
    evbuffer c' = evbuffer c /\
    forall a',
      et_events_get_res a' < ET_OK ->
      codaRead MAXEVLEN EXISTS pc a' c' = Returned c' CODA_ERROR.
Proof.
  intros Hready Hn Hget.
  rewrite codaRead_ready by exact Hready.
  exists (set_nused 0 (set_nread 0 (set_firstread 0 c))).
  split.
  - unfold fetch. cbn [nread nused set_firstread].
    replace (nread c <=? nused c) with true by (symmetry; apply Z.leb_le; lia).
    cbn [et_events_get_res].
    replace (et_events_get_res a <? ET_OK) with true
      by (symmetry; apply Z.ltb_lt; lia).
    destruct c; reflexivity.
  - do 4 (split; [destruct c; reflexivity|]).
    intros a' Hagain. unfold codaRead.
    replace (firstread (set_nused 0 (set_nread 0 (set_firstread 0 c))))
      with 0 by (destruct c; reflexivity).
    cbn [Z.eqb negb]. unfold fetch.
    replace (nread (set_nused 0 (set_nread 0 (set_firstread 0 c)))
             <=? nused (set_nused 0 (set_nread 0 (set_firstread 0 c))))
      with true by (destruct c; reflexivity).
    replace (et_events_get_res a' <? ET_OK) with true
      by (symmetry; apply Z.ltb_lt; lia).
    destruct c; reflexivity.
Qed.

Lemma codaRead_get_failure_witness :
  let pc := fun (_ src _ : Z) => src in
  let c := mkClient 0 0 0 0 0 0 [7; 7; 7; 7] in
  let a := mkAnswers true 0 0 0 (-1) [] 0 0 0 in
  exists c',
    codaRead 4 (-3) pc a c = Returned c' CODA_ERROR /\
    nread c' = 0 /\ nused c' = 0 /\ firstread c' = 0 /\
    evbuffer c' = evbuffer c /\
    forall a',
      et_events_get_res a' < ET_OK ->
      codaRead 4 (-3) pc a' c' = Returned c' CODA_ERROR.
Proof.
  intros pc c a.
  apply (codaRead_get_failure 4 (-3) pc a c).
  - left. reflexivity.
  - simpl; lia.
  - unfold ET_OK; simpl; lia.
Defined.

(** X10: [codaRead] hands out the first event of a chunk only.  The array
    [evs] that [et_events_get] fills is local to the call, so a call that
    does not ask for events, because some of the last chunk are still
    unused, reads event pointers that it never set: after a call that got a
    chunk of two or more events and returned, every further call is
    undefined. *)
Theorem codaRead_rest_of_chunk_undefined
        (MAXEVLEN EXISTS : Z) (pc : Z -> Z -> Z -> Z)
        (a : et_answers) (c c1 : THaEtClient) (st : coda_status) :
  ready EXISTS a c ->
  nread c <= nused c ->
  ET_OK <= et_events_get_res a ->
  (2 <= length (et_events_got a))%nat ->
  codaRead MAXEVLEN EXISTS pc a c = Returned c1 st ->
  nused c1 < nread c1 /\
  forall a', codaRead MAXEVLEN EXISTS pc a' c1 = Undefined.
Proof.
  intros Hready Hn Hget Hlen Hret.
  rewrite codaRead_ready in Hret by exact Hready.
  assert (H1 : firstread c1 = 0 /\ nused c1 < nread c1).
  { unfold fetch in Hret. cbn [nread nused set_firstread] in Hret.
    replace (nread c <=? nused c) with true in Hret
      by (symmetry; apply Z.leb_le; lia).
    replace (et_events_get_res a <? ET_OK) with false in Hret
      by (symmetry; apply Z.ltb_ge; lia).
    destruct (check_lengths MAXEVLEN (et_events_got a)) as [[|]|];
      [| |discriminate].
    - unfold deliver in Hret.
      destruct (nth_error _ _) as [e|]; [|discriminate].
      destruct (memcpy _ _ _ _) as [buf|]; [|discriminate].
      cbv zeta in Hret.
      destruct (bpi * MAXEVLEN <? ev_length e).
      + injection Hret as <- <-. destruct c; cbn. split; [reflexivity|lia].
      + match type of Hret with
        | (if ?b then _ else _) = _ => destruct b eqn:Hb
        end.
        * exfalso. apply Z.leb_le in Hb. destruct c; cbn in Hb. lia.
        * injection Hret as <- <-. destruct c; cbn. split; [reflexivity|lia].
    - injection Hret as <- <-. destruct c; cbn. split; [reflexivity|lia]. }
  destruct H1 as [Hf Hu]. split; [exact Hu|].
  intros a'. unfold codaRead. rewrite Hf. cbn [Z.eqb negb].
  unfold fetch.
  replace (nread c1 <=? nused c1) with false by (symmetry; apply Z.leb_gt; lia).
  reflexivity.
Qed.

Lemma codaRead_rest_of_chunk_witness :
  let pc := fun (_ src _ : Z) => src in
  let c := mkClient 0 0 0 0 0 0 [0; 0; 0; 0] in
  let a := mkAnswers true 0 0 0 0
             [mkEvent [1; 10] 8; mkEvent [1; 20] 8] 0 0 0 in
  let c1 := mkClient 2 1 0 0 0 0 [1; 10; 0; 0] in
  nused c1 < nread c1 /\
  forall a', codaRead 4 (-3) pc a' c1 = Undefined.
Proof.
  intros pc c a c1.
  apply (codaRead_rest_of_chunk_undefined 4 (-3) pc a c c1 CODA_OK).
  - left. reflexivity.
  - simpl; lia.
  - unfold ET_OK; simpl; lia.
  - simpl; lia.
  - reflexivity.
Defined.

(** X11: the connection is tried once.  When the first [codaRead] cannot
    connect it returns [CODA_ERROR] without asking for events; [firstread]
    is cleared all the same, so later calls do not call [init] again and go
    on to [et_events_get]. *)
Theorem codaRead_connects_once (MAXEVLEN EXISTS : Z) (pc : Z -> Z -> Z -> Z)
        (a : et_answers) (c : THaEtClient) :
  firstread c <> 0 ->
  snd (init EXISTS a (set_firstread 0 c)) = CODA_ERROR ->
  exists c',
    codaRead MAXEVLEN EXISTS pc a c = Returned c' CODA_ERROR /\
    firstread c' = 0 /\
    nread c' = nread c /\ nused c' = nused c /\ evbuffer c' = evbuffer c /\
    (notopened c' = notopened c \/ notopened c' = 1) /\
    forall a', codaRead MAXEVLEN EXISTS pc a' c' = fetch MAXEVLEN pc a' c'.
Proof.
  intros Hf Hinit. unfold codaRead.
  replace (firstread c =? 0) with false by (symmetry; apply Z.eqb_neq; exact Hf).
  cbn [negb].
  destruct (init EXISTS a (set_firstread 0 c)) as [c' st] eqn:E.
  cbn [snd] in Hinit. subst st.
  exists c'. split; [reflexivity|].
  assert (H : c' = set_firstread 0 c \/ c' = set_notopened 1 (set_firstread 0 c)).
  { unfold init in E.
    repeat match type of E with
           | (if ?b then _ else _) = _ => destruct b
           end; injection E as <-; auto. }
  destruct H as [-> | ->]; destruct c; cbn;
    repeat split; auto.
Qed.

Lemma codaRead_connects_once_witness :
  let pc := fun (_ src _ : Z) => src in
  let c := new_THaEtClient 0 [0; 0; 0; 0] in
  let a := mkAnswers true (-1) 0 0 0 [] 0 0 0 in
  exists c',
    codaRead 4 (-3) pc a c = Returned c' CODA_ERROR /\
    firstread c' = 0 /\
    nread c' = nread c /\ nused c' = nused c /\ evbuffer c' = evbuffer c /\
    (notopened c' = notopened c \/ notopened c' = 1) /\
    forall a', codaRead 4 (-3) pc a' c' = fetch 4 pc a' c'.
Proof.
  intros pc c a.
  apply (codaRead_connects_once 4 (-3) pc a c).
  - simpl; lia.
  - reflexivity.
Defined.

(** X12: an event whose byte length exceeds the event buffer, although the
    length word it declares fits, is cut: the first [MAXEVLEN] words are
    copied, the event counts as used and [codaRead] returns [CODA_ERROR]
    without putting the chunk back. *)
Theorem codaRead_cuts_long_event (MAXEVLEN EXISTS : Z)
        (pc : Z -> Z -> Z -> Z) (a : et_answers) (c : THaEtClient)
        (e : et_event) (others : list et_event) :
  0 < MAXEVLEN < 2 ^ 31 - 1 ->
  ready EXISTS a c ->
  nread c <= nused c ->
  ET_OK <= et_events_get_res a ->
  et_events_got a = e :: others ->
  Forall (fits MAXEVLEN) (e :: others) ->
  bpi * MAXEVLEN < ev_length e ->
  MAXEVLEN <= Z.of_nat (length (ev_data e)) ->
  MAXEVLEN <= Z.of_nat (length (evbuffer c)) ->
  exists c',
    codaRead MAXEVLEN EXISTS pc a c = Returned c' CODA_ERROR /\
    firstn (Z.to_nat MAXEVLEN) (evbuffer c')
    = firstn (Z.to_nat MAXEVLEN) (ev_data e) /\
    skipn (Z.to_nat MAXEVLEN) (evbuffer c')
    = skipn (Z.to_nat MAXEVLEN) (evbuffer c) /\
    nused c' = 1 /\ nread c' = Z.of_nat (length (e :: others)).
Proof.
  intros HM Hready Hn Hget Hgot Hfits Hlong Hsrc Hdst.
  rewrite codaRead_ready by exact Hready.
  unfold fetch. cbn [nread nused set_firstread].
  replace (nread c <=? nused c) with true by (symmetry; apply Z.leb_le; lia).
  replace (et_events_get_res a <? ET_OK) with false
    by (symmetry; apply Z.ltb_ge; lia).
  rewrite Hgot.
  rewrite check_lengths_fit by (try assumption; lia).
  unfold deliver. cbn [nused set_nused set_nread nth_error Z.to_nat].
  replace (ev_length e <? bpi * MAXEVLEN) with false
    by (symmetry; apply Z.ltb_ge; lia).
  replace (evbuffer (set_nused 0 _)) with (evbuffer c)
    by (destruct c; reflexivity).
  rewrite memcpy_words by lia.
  cbv zeta.
  replace (bpi * MAXEVLEN <? ev_length e) with true
    by (symmetry; apply Z.ltb_lt; lia).
  eexists. split; [reflexivity|].
  cbn [evbuffer set_nused set_evbuffer nused nread set_nread set_firstread].
  assert (L : length (firstn (Z.to_nat MAXEVLEN) (ev_data e))
              = Z.to_nat MAXEVLEN) by (rewrite length_firstn; lia).
  split; [|split; [|split]].
  - rewrite firstn_app, L, Nat.sub_diag, firstn_O, app_nil_r.
    rewrite firstn_firstn, Nat.min_id. reflexivity.
  - rewrite skipn_app, L, Nat.sub_diag, skipn_O.
    rewrite skipn_all2 by lia. reflexivity.
  - reflexivity.
  - destruct c; reflexivity.
Qed.

Lemma codaRead_cuts_long_event_witness :
  let pc := fun (_ src _ : Z) => src in
  let c := mkClient 0 0 0 0 0 0 [0; 0; 0; 0; 9] in
  let e := mkEvent [3; 10; 20; 30; 40; 50] 24 in
  let a := mkAnswers true 0 0 0 0 [e] 0 0 0 in
  exists c',
    codaRead 4 (-3) pc a c = Returned c' CODA_ERROR /\
    firstn (Z.to_nat 4) (evbuffer c') = firstn (Z.to_nat 4) (ev_data e) /\
    skipn (Z.to_nat 4) (evbuffer c') = skipn (Z.to_nat 4) (evbuffer c) /\
    nused c' = 1 /\ nread c' = Z.of_nat (length [e]).
Proof.
  intros pc c e a.
  apply (codaRead_cuts_long_event 4 (-3) pc a c e []).
  - lia.
  - left. reflexivity.
  - simpl; lia.
  - unfold ET_OK; simpl; lia.
  - reflexivity.
  - constructor; [|constructor]. exists 3, [10; 20; 30; 40; 50].
    split; [reflexivity | lia].
  - unfold bpi; simpl; lia.
  - simpl; lia.
  - simpl; lia.
Defined.

End EtClientCallsFacts.

Module DBTextFacts.
Import Ascii Database DBText DBTextSample.

Lemma rfind_spec (c : ascii) (s : chars) :
  forall pos,
    match rfind c s pos with
    | Some i =>
      (i <= pos)%nat /\ (i < length s)%nat /\ nth_error s i = Some c /\
      forall j, (i < j <= pos)%nat -> nth_error s j <> Some c
    | None => forall j, (j <= pos)%nat -> nth_error s j <> Some c
    end.
Proof.
  induction s as [|x s IH]; intros pos.
  - cbn. intros j _. destruct j; discriminate.
  - cbn [rfind]. destruct pos as [|pos].
    + destruct (Ascii.eqb_spec x c) as [->|Hne].
      * split; [lia|]. split; [cbn; lia|]. split; [reflexivity|].
        intros j Hj. lia.
      * intros j Hj. replace j with O by lia. cbn. congruence.
    + specialize (IH pos). destruct (rfind c s pos) as [i|].
      * destruct IH as (H1 & H2 & H3 & H4).
        split; [lia|]. split; [cbn; lia|]. split; [exact H3|].
        intros j Hj. destruct j as [|j]; [lia|]. cbn. apply H4. lia.
      * destruct (Ascii.eqb_spec x c) as [->|Hne].
        -- split; [lia|]. split; [cbn; lia|]. split; [reflexivity|].
           intros j Hj. destruct j as [|j]; [lia|]. cbn. apply IH. lia.
        -- intros j Hj. destruct j as [|j]; cbn; [congruence|].
           apply IH. lia.
Qed.

Lemma count_le_length (c : ascii) (s : chars) : (count c s <= length s)%nat.
Proof. unfold count. apply filter_length_le. Qed.

Lemma count_app (c : ascii) (s t : chars) :
  count c (s ++ t) = (count c s + count c t)%nat.
Proof. unfold count. rewrite filter_app, length_app. reflexivity. Qed.

Lemma firstn_snoc_nth {A : Type} (l : list A) (i : nat) (x : A) :
  nth_error l i = Some x -> firstn (i + 1) l = firstn i l ++ [x].
Proof.
  revert i. induction l as [|a l IH]; intros i H.
  - destruct i; discriminate.
  - destruct i as [|i]; cbn in *.
    + injection H as ->. reflexivity.
    + rewrite (IH i H). reflexivity.
Qed.

(** X13: [ChopPrefix] removes the last level of a prefix.  What is left is
    a proper beginning of a non-empty [s] and is empty or ends with a dot;
    what is removed holds no dot before its last character; the value
    returned is the number of dots left, and it is zero exactly when nothing
    is left. *)
Theorem ChopPrefix_removes_last_level (s : chars) :
  Z.of_nat (length s) <= kMaxInt ->
  let n := fst (ChopPrefix s) in
  let s' := snd (ChopPrefix s) in
  exists t,
    s = s' ++ t /\
    (s <> [] -> t <> []) /\
    (s' = [] \/ exists u, s' = u ++ [dot]) /\
    (forall i, (i + 1 < length t)%nat -> nth_error t i <> Some dot) /\
    n = Z.of_nat (count dot s') /\
    (n = 0 <-> s' = []).
Proof.
  intros Hlen n s'. subst n s'. unfold ChopPrefix.
  destruct (Nat.leb_spec 2 (length s)) as [H2|H2].
  - pose proof (rfind_spec dot s (length s - 2)) as R.
    destruct (rfind dot s (length s - 2)) as [pos|].
    + destruct R as (R1 & R2 & R3 & R4).
      assert (Hc : Z.of_nat (count dot (firstn (pos + 1) s)) <= kMaxInt).
      { pose proof (count_le_length dot (firstn (pos + 1) s)) as C.
        rewrite length_firstn in C. lia. }
      replace (Z.of_nat (count dot (firstn (pos + 1) s)) <=? kMaxInt)
        with true by (symmetry; apply Z.leb_le; exact Hc).
      cbn [fst snd].
      exists (skipn (pos + 1) s).
      split; [symmetry; apply firstn_skipn|].
      split.
      { intros _ E. apply (f_equal (@length _)) in E.
        rewrite length_skipn in E. cbn in E. lia. }
      split.
      { right. exists (firstn pos s). apply firstn_snoc_nth. exact R3. }
      split.
      { intros i Hi E. rewrite length_skipn in Hi.
        rewrite nth_error_skipn in E.
        apply (R4 (pos + 1 + i)%nat); [lia | exact E]. }
      split; [reflexivity|].
      rewrite (firstn_snoc_nth s pos dot R3), count_app.
      cbn. split; [lia|].
      intros E. apply (f_equal (@length _)) in E.
      rewrite length_app in E. cbn in E. lia.
    + cbn [fst snd]. exists s. split; [reflexivity|].
      split; [auto|]. split; [left; reflexivity|].
      split; [|split; [reflexivity | split; reflexivity]].
      intros i Hi. apply R. lia.
  - cbn [fst snd]. exists s. split; [reflexivity|].
    split; [auto|]. split; [left; reflexivity|].
    split; [|split; [reflexivity | split; reflexivity]].
    intros i Hi. lia.
Qed.

Lemma ChopPrefix_removes_last_level_witness :
  let s := prefix_L_vdc in
  Z.of_nat (length s) <= kMaxInt /\
  exists t,
    s = snd (ChopPrefix s) ++ t /\
    (s <> [] -> t <> []) /\
    (snd (ChopPrefix s) = [] \/ exists u, snd (ChopPrefix s) = u ++ [dot]) /\
    (forall i, (i + 1 < length t)%nat -> nth_error t i <> Some dot) /\
    fst (ChopPrefix s) = Z.of_nat (count dot (snd (ChopPrefix s))) /\
    (fst (ChopPrefix s) = 0 <-> snd (ChopPrefix s) = []).
Proof.
  assert (H : Z.of_nat (length prefix_L_vdc) <= kMaxInt)
    by (vm_compute; discriminate).
  split; [exact H|].
  exact (ChopPrefix_removes_last_level prefix_L_vdc H).
Defined.

End DBTextFacts.

Module DBKeysFacts.
Import Ascii Database.

Lemma skip_until (k : ascii) (s : chars) :
  match skip_while (fun c => negb (Ascii.eqb c k)) s with
  | [] => ~ In k s
  | x :: rest => x = k /\ exists a, s = a ++ k :: rest /\ ~ In k a
  end.
Proof.
  induction s as [|x s IH]; cbn [skip_while].
  - intros [].
  - destruct (Ascii.eqb_spec x k) as [->|Hne]; cbn [negb].
    + split; [reflexivity|]. exists []. split; [reflexivity | intros []].
    + destruct (skip_while _ s) as [|y rest].
      * intros [H|H]; [congruence | exact (IH H)].
      * destruct IH as (-> & a & -> & Ha). split; [reflexivity|].
        exists (x :: a). split; [reflexivity|].
        intros [H|H]; [congruence | exact (Ha H)].
Qed.

Lemma skip_until_app (k : ascii) (a rest : chars) :
  ~ In k a ->
  skip_while (fun c => negb (Ascii.eqb c k)) (a ++ k :: rest) = k :: rest.
Proof.
  induction a as [|x a IH]; intros Ha; cbn [app skip_while].
  - rewrite Ascii.eqb_refl. reflexivity.
  - destruct (Ascii.eqb_spec x k) as [->|Hne]; cbn [negb].
    + exfalso. apply Ha. left. reflexivity.
    + apply IH. intros H. apply Ha. right. exact H.
Qed.

(** X14: [IsTag] is true exactly for a buffer in which the first opening
    bracket is followed by a character other than a closing bracket and,
    later, by a closing bracket. *)
Theorem IsTag_first_bracket_pair (buf : chars) :
  IsTag buf = true <->
  exists a x b c,
    buf = a ++ "["%char :: x :: b ++ "]"%char :: c /\
    ~ In "["%char a /\ x <> "]"%char.
Proof.
  unfold IsTag. split.
  - pose proof (skip_until "["%char buf) as H1.
    destruct (skip_while _ buf) as [|y p]; [discriminate|].
    destruct H1 as (-> & a & -> & Ha).
    destruct p as [|x p']; [discriminate|].
    destruct (Ascii.eqb_spec x "]"%char) as [->|Hx]; [discriminate|].
    pose proof (skip_until "]"%char p') as H2.
    destruct (skip_while _ p') as [|z rest]; [discriminate|].
    destruct H2 as (-> & b & -> & _). intros _.
    exists a, x, b, rest. auto.
  - intros (a & x & b & c & -> & Ha & Hx).
    rewrite skip_until_app by exact Ha.
    destruct (Ascii.eqb_spec x "]"%char) as [->|_]; [congruence|].
    pose proof (skip_until "]"%char (b ++ "]"%char :: c)) as H2.
    destruct (skip_while _ (b ++ "]"%char :: c)) as [|z rest];
      [|reflexivity].
    exfalso. apply H2. apply in_or_app. right. left. reflexivity.
Qed.

Lemma split_at_app (k : ascii) (a rest : chars) :
  ~ In k a -> split_at k (a ++ k :: rest) = Some (a, rest).
Proof.
  induction a as [|x a IH]; intros Ha; cbn [app split_at].
  - rewrite Ascii.eqb_refl. reflexivity.
  - destruct (Ascii.eqb_spec x k) as [->|Hne].
    + exfalso. apply Ha. left. reflexivity.
    + rewrite IH; [reflexivity|]. intros H. apply Ha. right. exact H.
Qed.

Lemma split_at_none (k : ascii) (s : chars) :
  split_at k s = None <-> ~ In k s.
Proof.
  induction s as [|x s IH]; cbn [split_at].
  - split; [intros _ [] | reflexivity].
  - destruct (Ascii.eqb_spec x k) as [->|Hne].
    + split; [discriminate|]. intros H. exfalso. apply H. left. reflexivity.
    + destruct (split_at k s) as [[l r]|].
      * split; [discriminate|]. intros H. exfalso.
        assert (H' : ~ In k s) by (intros H'; apply H; right; exact H').
        apply IH in H'. discriminate.
      * split; [|reflexivity]. intros _ [H|H]; [congruence|].
        destruct IH as [IH _]. exact (IH eq_refl H).
Qed.

Lemma skip_blanks_app (pad s : chars) :
  Forall (fun c => c = " "%char) pad ->
  skip_while is_blank (pad ++ s) = skip_while is_blank s.
Proof.
  induction pad as [|x pad IH]; intros H; [reflexivity|].
  inversion H as [|? ? -> H']; subst. cbn [app skip_while].
  unfold is_blank at 1. rewrite Ascii.eqb_refl. exact (IH H').
Qed.

Lemma skip_blanks_head (x : ascii) (s : chars) :
  x <> " "%char -> skip_while is_blank (x :: s) = x :: s.
Proof.
  intros H. cbn [skip_while]. unfold is_blank.
  destruct (Ascii.eqb_spec x " "%char); [congruence | reflexivity].
Qed.

Lemma blanks_no_equals (pad : chars) :
  Forall (fun c => c = " "%char) pad -> ~ In "="%char pad.
Proof.
  intros H Hin. rewrite Forall_forall in H. apply H in Hin. discriminate.
Qed.

Lemma skip_blanks_all (pad : chars) :
  Forall (fun c => c = " "%char) pad -> skip_while is_blank pad = [].
Proof.
  intros H. rewrite <- (app_nil_r pad). rewrite skip_blanks_app by exact H.
  reflexivity.
Qed.

Lemma is_prefix_app (k more : chars) : is_prefix k (k ++ more) = true.
Proof.
  induction k as [|x k IH]; [reflexivity|].
  cbn. rewrite Ascii.eqb_refl. exact IH.
Qed.

Lemma IsDBkey_key_value (NDEBUG : bool) (key text pad1 k pad2 rhs : chars)
      (x : ascii) :
  Forall (fun c => c = " "%char) pad1 ->
  Forall (fun c => c = " "%char) pad2 ->
  hd_error k = Some x -> x <> " "%char -> last k x <> " "%char ->
  ~ In "="%char k ->
  IsDBkey NDEBUG (pad1 ++ k ++ pad2 ++ "="%char :: rhs) key text
  = if negb (is_prefix k key) then Some (-1, text)
    else if trailing_blank rhs && negb NDEBUG then None
    else Some (1, skip_while is_blank rhs).
Proof.
  intros H1 H2 Hhd Hx Hlast Hk.
  destruct k as [|x' k']; [discriminate|]. injection Hhd as ->.
  unfold IsDBkey.
  replace (pad1 ++ (x :: k') ++ pad2 ++ "="%char :: rhs)
    with ((pad1 ++ (x :: k') ++ pad2) ++ "="%char :: rhs)
    by (rewrite <- !app_assoc; reflexivity).
  rewrite split_at_app.
  2:{ intros Hin. apply in_app_or in Hin. destruct Hin as [Hin|Hin].
      - exact (blanks_no_equals pad1 H1 Hin).
      - apply in_app_or in Hin. destruct Hin as [Hin|Hin].
        + exact (Hk Hin).
        + exact (blanks_no_equals pad2 H2 Hin). }
  rewrite skip_blanks_app by exact H1.
  cbn [app]. rewrite skip_blanks_head by exact Hx.
  assert (E : rev (skip_while is_blank (rev (x :: k' ++ pad2))) = x :: k').
  { change (x :: k' ++ pad2) with ((x :: k') ++ pad2).
    rewrite rev_app_distr.
    rewrite skip_blanks_app by (apply Forall_rev; exact H2).
    destruct (exists_last (l := x :: k') ltac:(discriminate)) as (l' & y & E).
    rewrite E in Hlast |- *. rewrite last_last in Hlast.
    rewrite rev_app_distr. cbn [rev app].
    rewrite skip_blanks_head by exact Hlast.
    change (y :: rev l') with (rev [y] ++ rev l').
    rewrite <- rev_app_distr, rev_involutive. reflexivity. }
  rewrite E. reflexivity.
Qed.

Lemma trailing_blank_last (r : chars) :
  trailing_blank (r ++ [" "%char]) = true.
Proof.
  unfold trailing_blank. rewrite rev_app_distr. reflexivity.
Qed.

Lemma trailing_blank_spec (rhs : chars) :
  trailing_blank rhs = true <-> exists r, rhs = r ++ [" "%char].
Proof.
  split.
  - unfold trailing_blank. intros H.
    destruct (rev rhs) as [|c l] eqn:E; [discriminate|].
    unfold is_blank in H. apply Ascii.eqb_eq in H. subst c.
    exists (rev l). apply (f_equal (@rev _)) in E.
    rewrite rev_involutive in E. exact E.
  - intros (r & ->). apply trailing_blank_last.
Qed.

(** X15: what [IsDBkey] makes of a line.  Without an equals sign it returns
    0; with nothing but blanks before the first equals sign it returns -1;
    otherwise the text [k] before the sign, without the blanks around it, is
    compared with as many characters of [key].  When [k] is not a beginning
    of [key], -1 is returned.  When [k] is a beginning of [key], not only
    when it equals [key], the key counts as found, and the function asserts
    that the right-hand side does not end with a blank: for a right-hand
    side without a blank at its end 1 is returned and [text] becomes the
    right-hand side without its leading blanks; for one that ends with a
    blank the assertion fails and nothing is returned, and only a build
    without assertions returns 1 there as well.  Whenever the function
    returns something other than 1, [text] is as before. *)
Theorem IsDBkey_accepts_beginning_of_key (NDEBUG : bool) (key text : chars) :
  (forall line,
      ~ In "="%char line -> IsDBkey NDEBUG line key text = Some (0, text)) /\
  (forall pad rhs,
      Forall (fun c => c = " "%char) pad ->
      IsDBkey NDEBUG (pad ++ "="%char :: rhs) key text = Some (-1, text)) /\
  (forall pad1 k pad2 rhs x,
      Forall (fun c => c = " "%char) pad1 ->
      Forall (fun c => c = " "%char) pad2 ->
      hd_error k = Some x -> x <> " "%char -> last k x <> " "%char ->
      ~ In "="%char k ->
      (is_prefix k key = false ->
       IsDBkey NDEBUG (pad1 ++ k ++ pad2 ++ "="%char :: rhs) key text
       = Some (-1, text)) /\
      (is_prefix k key = true -> (forall r, rhs <> r ++ [" "%char]) ->
       IsDBkey NDEBUG (pad1 ++ k ++ pad2 ++ "="%char :: rhs) key text
       = Some (1, skip_while is_blank rhs)) /\
      (is_prefix k key = true -> (exists r, rhs = r ++ [" "%char]) ->
       IsDBkey false (pad1 ++ k ++ pad2 ++ "="%char :: rhs) key text
       = None /\
       IsDBkey true (pad1 ++ k ++ pad2 ++ "="%char :: rhs) key text
       = Some (1, skip_while is_blank rhs))) /\
  (forall line r t,
      IsDBkey NDEBUG line key text = Some (r, t) -> r = 1 \/ t = text).
Proof.
  split; [|split; [|split]].
  - intros line Hl. unfold IsDBkey.
    apply split_at_none in Hl. rewrite Hl. reflexivity.
  - intros pad rhs Hp. unfold IsDBkey.
    rewrite split_at_app by (apply blanks_no_equals; exact Hp).
    rewrite skip_blanks_all by exact Hp. reflexivity.
  - intros pad1 k pad2 rhs x H1 H2 Hhd Hx Hlast Hk.
    split; [|split].
    + intros Hp.
      rewrite (IsDBkey_key_value NDEBUG key text pad1 k pad2 rhs x)
        by assumption.
      rewrite Hp. reflexivity.
    + intros Hp Hr.
      rewrite (IsDBkey_key_value NDEBUG key text pad1 k pad2 rhs x)
        by assumption.
      rewrite Hp. cbn [negb].
      destruct (trailing_blank rhs) eqn:Et; [|reflexivity].
      apply trailing_blank_spec in Et. destruct Et as (r & Er).
      exfalso. exact (Hr r Er).
    + intros Hp Hr. apply trailing_blank_spec in Hr.
      rewrite (IsDBkey_key_value false key text pad1 k pad2 rhs x)
        by assumption.
      rewrite (IsDBkey_key_value true key text pad1 k pad2 rhs x)
        by assumption.
      rewrite Hp, Hr. split; reflexivity.
  - intros line r t. unfold IsDBkey.
    destruct (split_at "="%char line) as [[lhs rhs]|];
      [|intros [= <- <-]; right; reflexivity].
    destruct (skip_while is_blank lhs);
      [intros [= <- <-]; right; reflexivity|].
    destruct (negb _); [intros [= <- <-]; right; reflexivity|].
    destruct (_ && _); [discriminate|].
    intros [= <- <-]. left. reflexivity.
Qed.

(** The line "nw = 5" is accepted for the key "nwires". *)
Example IsDBkey_nw_for_nwires :
  forall NDEBUG,
    IsDBkey NDEBUG DBSamples.line_nw DBSamples.key_nwires []
    = Some (1, DBSamples.value_5).
Proof. intros NDEBUG. vm_compute. reflexivity. Qed.

(** With a blank at the end of the right-hand side the assertion fails:
    the line "nw = 5 " for the key "nwires". *)
Example IsDBkey_trailing_blank :
  IsDBkey false (DBSamples.line_nw ++ [" "%char]) DBSamples.key_nwires []
  = None /\
  IsDBkey true (DBSamples.line_nw ++ [" "%char]) DBSamples.key_nwires []
  = Some (1, DBSamples.value_5 ++ [" "%char]).
Proof. split; reflexivity. Qed.

End DBKeysFacts.

Module DBStampsFacts.
Import Ascii Database DBStamps.

Lemma digit_cases (d : Z) :
  0 <= d <= 9 ->
  d = 0 \/ d = 1 \/ d = 2 \/ d = 3 \/ d = 4 \/ d = 5 \/ d = 6 \/ d = 7 \/
  d = 8 \/ d = 9.
Proof. lia. Qed.

Ltac by_digit H :=
  destruct (digit_cases _ H) as
    [->|[->|[->|[->|[->|[->|[->|[->|[->| ->]]]]]]]]]; reflexivity.

Lemma digit_char_isdigit (d : Z) : 0 <= d <= 9 -> isdigit (digit_char d) = true.
Proof. intros H. by_digit H. Qed.
Lemma digit_char_value (d : Z) : 0 <= d <= 9 -> digit_value (digit_char d) = d.
Proof. intros H. by_digit H. Qed.
Lemma digit_char_isspace (d : Z) : 0 <= d <= 9 -> isspace (digit_char d) = false.
Proof. intros H. by_digit H. Qed.
Lemma digit_char_minus (d : Z) :
  0 <= d <= 9 -> Ascii.eqb (digit_char d) "-"%char = false.
Proof. intros H. by_digit H. Qed.
Lemma digit_char_plus (d : Z) :
  0 <= d <= 9 -> Ascii.eqb (digit_char d) "+"%char = false.
Proof. intros H. by_digit H. Qed.
Lemma digit_char_lbrk (d : Z) :
  0 <= d <= 9 -> Ascii.eqb (digit_char d) "["%char = false.
Proof. intros H. by_digit H. Qed.
Lemma digit_char_rbrk (d : Z) :
  0 <= d <= 9 -> Ascii.eqb (digit_char d) "]"%char = false.
Proof. intros H. by_digit H. Qed.

Lemma skip_space_blanks (b rest : chars) :
  Forall (fun c => c = " "%char) b ->
  skip_while isspace (b ++ rest) = skip_while isspace rest.
Proof.
  induction b as [|x b IH]; intros H; [reflexivity|].
  inversion H as [|? ? -> H']; subst. cbn [app skip_while].
  change (isspace " "%char) with true. cbv iota. exact (IH H').
Qed.

Lemma scan_two (n : Z) (rest : chars) :
  0 <= n <= 99 -> scan_int 2 (two_digits n ++ rest) = Some (n, rest).
Proof.
  intros H.
  assert (H1 : 0 <= n / 10 <= 9) by (Z.div_mod_to_equations; lia).
  assert (H2 : 0 <= n mod 10 <= 9) by (Z.div_mod_to_equations; lia).
  unfold scan_int, two_digits. cbn [app skip_while].
  rewrite (digit_char_isspace _ H1).
  rewrite (digit_char_minus _ H1), (digit_char_plus _ H1).
  cbn [scan_digits].
  rewrite (digit_char_isdigit _ H1), (digit_char_isdigit _ H2).
  rewrite (digit_char_value _ H1), (digit_char_value _ H2).
  f_equal. f_equal. Z.div_mod_to_equations; lia.
Qed.

Lemma scan_four (n : Z) (rest : chars) :
  0 <= n <= 9999 -> scan_int 4 (four_digits n ++ rest) = Some (n, rest).
Proof.
  intros H.
  assert (H1 : 0 <= n / 1000 <= 9) by (Z.div_mod_to_equations; lia).
  assert (H2 : 0 <= n / 100 mod 10 <= 9) by (Z.div_mod_to_equations; lia).
  assert (H3 : 0 <= n / 10 mod 10 <= 9) by (Z.div_mod_to_equations; lia).
  assert (H4 : 0 <= n mod 10 <= 9) by (Z.div_mod_to_equations; lia).
  unfold scan_int, four_digits. cbn [app skip_while].
  rewrite (digit_char_isspace _ H1).
  rewrite (digit_char_minus _ H1), (digit_char_plus _ H1).
  cbn [scan_digits].
  rewrite (digit_char_isdigit _ H1), (digit_char_isdigit _ H2),
    (digit_char_isdigit _ H3), (digit_char_isdigit _ H4).
  rewrite (digit_char_value _ H1), (digit_char_value _ H2),
    (digit_char_value _ H3), (digit_char_value _ H4).
  f_equal. f_equal. Z.div_mod_to_equations; lia.
Qed.

Lemma scan_int_blanks (width : nat) (b rest : chars) :
  Forall (fun c => c = " "%char) b ->
  scan_int width (b ++ rest) = scan_int width rest.
Proof.
  intros H. unfold scan_int. rewrite skip_space_blanks by exact H.
  reflexivity.
Qed.

Lemma find_from_first (c : ascii) (a rest : chars) :
  ~ In c a -> find_from c 0 (a ++ c :: rest) = Some (length a).
Proof.
  induction a as [|x a IH]; intros Ha; cbn [app find_from].
  - rewrite Ascii.eqb_refl. reflexivity.
  - destruct (Ascii.eqb_spec x c) as [->|Hne].
    + exfalso. apply Ha. left. reflexivity.
    + rewrite IH by (intros H; apply Ha; right; exact H). reflexivity.
Qed.

Lemma find_from_skip (c : ascii) (pre s : chars) (k : nat) :
  find_from c (length pre + k) (pre ++ s)
  = option_map (Nat.add (length pre)) (find_from c k s).
Proof.
  induction pre as [|x pre IH]; cbn [length app Nat.add].
  - destruct (find_from c k s); reflexivity.
  - cbn [find_from]. rewrite IH.
    destruct (find_from c k s); reflexivity.
Qed.

(** The text of a time stamp between its brackets. *)
Lemma time_stamp_inner (b1 b2 : chars) (yy mm dd hh mi ss : Z) :
  exists inner,
    time_stamp b1 b2 yy mm dd hh mi ss = "["%char :: inner ++ ["]"%char] /\
    inner = b1 ++ four_digits yy ++ "-"%char :: two_digits mm
            ++ "-"%char :: two_digits dd ++ " "%char :: two_digits hh
            ++ ":"%char :: two_digits mi ++ ":"%char :: two_digits ss ++ b2.
Proof.
  eexists. split; [|reflexivity]. unfold time_stamp.
  repeat (rewrite <- ?app_assoc; cbn [app]). reflexivity.
Qed.

Lemma sscanf_time_stamp (b1 b2 : chars) (yy mm dd hh mi ss : Z) :
  Forall (fun c => c = " "%char) b1 ->
  0 <= yy <= 9999 -> 0 <= mm <= 99 -> 0 <= dd <= 99 -> 0 <= hh <= 99 ->
  0 <= mi <= 99 -> 0 <= ss <= 99 ->
  sscanf_date (b1 ++ four_digits yy ++ "-"%char :: two_digits mm
               ++ "-"%char :: two_digits dd ++ " "%char :: two_digits hh
               ++ ":"%char :: two_digits mi ++ ":"%char :: two_digits ss
               ++ b2)
  = Some (yy, mm, dd, hh, mi, ss).
Proof.
  intros Hb Hy Hm Hd Hh Hi Hs. unfold sscanf_date.
  rewrite scan_int_blanks by exact Hb.
  rewrite scan_four by exact Hy. cbn [expect]. rewrite Ascii.eqb_refl.
  rewrite scan_two by exact Hm. cbn [expect]. rewrite Ascii.eqb_refl.
  rewrite scan_two by exact Hd.
  cbn [skip_while]. change (isspace " "%char) with true. cbv iota.
  assert (E : forall n rest, 0 <= n <= 99 ->
                skip_while isspace (two_digits n ++ rest)
                = two_digits n ++ rest).
  { intros n rest Hn. unfold two_digits. cbn [app skip_while].
    rewrite digit_char_isspace by (Z.div_mod_to_equations; lia).
    reflexivity. }
  rewrite E by exact Hh.
  rewrite scan_two by exact Hh. cbn [expect]. rewrite Ascii.eqb_refl.
  rewrite scan_two by exact Hi. cbn [expect]. rewrite Ascii.eqb_refl.
  rewrite scan_two by exact Hs. reflexivity.
Qed.

Lemma no_rbrk_digits (n : Z) :
  0 <= n <= 99 -> ~ In "]"%char (two_digits n).
Proof.
  intros H [E|[E|[]]];
    [pose proof (digit_char_rbrk (n / 10)) as R
    |pose proof (digit_char_rbrk (n mod 10)) as R];
    rewrite E in R; specialize (R ltac:(Z.div_mod_to_equations; lia));
    discriminate.
Qed.

Lemma no_rbrk_four (n : Z) :
  0 <= n <= 9999 -> ~ In "]"%char (four_digits n).
Proof.
  intros H [E|[E|[E|[E|[]]]]];
    [pose proof (digit_char_rbrk (n / 1000)) as R
    |pose proof (digit_char_rbrk (n / 100 mod 10)) as R
    |pose proof (digit_char_rbrk (n / 10 mod 10)) as R
    |pose proof (digit_char_rbrk (n mod 10)) as R];
    rewrite E in R; specialize (R ltac:(Z.div_mod_to_equations; lia));
    discriminate.
Qed.

Lemma no_rbrk_blanks (b : chars) :
  Forall (fun c => c = " "%char) b -> ~ In "]"%char b.
Proof.
  intros H Hin. rewrite Forall_forall in H. apply H in Hin. discriminate.
Qed.

(** X16: [IsDBdate] accepts a time stamp written
    [[ yyyy-mm-dd hh:mi:ss ]], with or without blanks inside the brackets,
    wherever it stands in a line that has no opening bracket before it, and
    returns the date with these six fields, for every year from 1995 to
    9999 and every month, day, hour, minute and second in their ranges. *)
Theorem IsDBdate_reads_time_stamp
        (pre post b1 b2 : chars) (yy mm dd hh mi ss : Z) :
  ~ In "["%char pre ->
  Forall (fun c => c = " "%char) b1 -> Forall (fun c => c = " "%char) b2 ->
  1995 <= yy <= 9999 -> 1 <= mm <= 12 -> 1 <= dd <= 31 ->
  0 <= hh <= 23 -> 0 <= mi <= 59 -> 0 <= ss <= 59 ->
  let line := pre ++ time_stamp b1 b2 yy mm dd hh mi ss ++ post in
  Z.of_nat (length line) < 2 ^ 64 ->
  IsDBdate line = Some (TDatime_Set yy mm dd hh mi ss).
Proof.
  intros Hpre Hb1 Hb2 Hy Hm Hd Hh Hi Hs line Hlen.
  destruct (time_stamp_inner b1 b2 yy mm dd hh mi ss) as (inner & E & Einner).
  assert (Hinner : ~ In "]"%char inner).
  { assert (A : forall l1 l2 : chars,
               ~ In "]"%char l1 -> ~ In "]"%char l2 ->
               ~ In "]"%char (l1 ++ l2)).
    { intros l1 l2 H1 H2 H. apply in_app_or in H. tauto. }
    assert (C : forall (c : ascii) (l : chars),
               c <> "]"%char -> ~ In "]"%char l -> ~ In "]"%char (c :: l)).
    { intros c l H1 H2 [H|H]; [congruence | tauto]. }
    rewrite Einner.
    apply A; [apply no_rbrk_blanks; exact Hb1|].
    apply A; [apply no_rbrk_four; lia|].
    apply C; [discriminate|]. apply A; [apply no_rbrk_digits; lia|].
    apply C; [discriminate|]. apply A; [apply no_rbrk_digits; lia|].
    apply C; [discriminate|]. apply A; [apply no_rbrk_digits; lia|].
    apply C; [discriminate|]. apply A; [apply no_rbrk_digits; lia|].
    apply C; [discriminate|]. apply A; [apply no_rbrk_digits; lia|].
    apply no_rbrk_blanks; exact Hb2. }
  assert (Hlong : (19 <= length inner)%nat).
  { rewrite Einner. unfold two_digits, four_digits.
    repeat (rewrite ?length_app; cbn [length app]). lia. }
  assert (Hscan : sscanf_date inner = Some (yy, mm, dd, hh, mi, ss))
    by (rewrite Einner; apply sscanf_time_stamp; (exact Hb1 || lia)).
  assert (EL : line = pre ++ "["%char :: inner ++ "]"%char :: post).
  { subst line. rewrite E. cbn [app]. rewrite <- app_assoc. reflexivity. }
  clearbody line. subst line. clear E Einner.
  assert (Hsize : Z.of_nat (length (pre ++ "["%char :: inner
                                        ++ "]"%char :: post))
                  = Z.of_nat (length pre) + 1 + Z.of_nat (length inner) + 1
                    + Z.of_nat (length post)).
  { rewrite length_app. cbn [length]. rewrite length_app. cbn [length]. lia. }
  unfold IsDBdate.
  rewrite find_from_first by exact Hpre.
  rewrite Hsize in *.
  replace ((Z.of_nat (length pre) + 1 + Z.of_nat (length inner) + 1
            + Z.of_nat (length post) - 12) mod 2 ^ 64
           <=? Z.of_nat (length pre)) with false
    by (symmetry; apply Z.leb_gt; rewrite Z.mod_small; lia).
  replace (length pre) with (length pre + 0)%nat at 1 by lia.
  rewrite find_from_skip. cbn [find_from].
  change (Ascii.eqb "["%char "]"%char) with false. cbv iota.
  rewrite find_from_first by exact Hinner. cbn [option_map].
  replace (length pre + S (length inner) <=? length pre + 11)%nat with false
    by (symmetry; apply Nat.leb_gt; lia).
  replace (substr (pre ++ "["%char :: inner ++ "]"%char :: post)
             (length pre + 1) (length pre + S (length inner) - length pre - 1))
    with inner.
  2:{ unfold substr.
      replace (length pre + S (length inner) - length pre - 1)%nat
        with (length inner) by lia.
      replace (pre ++ "["%char :: inner ++ "]"%char :: post)
        with ((pre ++ ["["%char]) ++ inner ++ "]"%char :: post)
        by (rewrite <- app_assoc; reflexivity).
      rewrite skipn_app.
      replace (length pre + 1)%nat with (length (pre ++ ["["%char]))
        by (rewrite length_app; reflexivity).
      rewrite skipn_all, Nat.sub_diag, skipn_O. cbn [app].
      rewrite firstn_app, Nat.sub_diag, firstn_O, app_nil_r, firstn_all.
      reflexivity. }
  rewrite Hscan.
  replace (yy <? 1995) with false by (symmetry; apply Z.ltb_ge; lia).
  replace (mm <? 1) with false by (symmetry; apply Z.ltb_ge; lia).
  replace (12 <? mm) with false by (symmetry; apply Z.ltb_ge; lia).
  replace (dd <? 1) with false by (symmetry; apply Z.ltb_ge; lia).
  replace (31 <? dd) with false by (symmetry; apply Z.ltb_ge; lia).
  replace (hh <? 0) with false by (symmetry; apply Z.ltb_ge; lia).
  replace (23 <? hh) with false by (symmetry; apply Z.ltb_ge; lia).
  replace (mi <? 0) with false by (symmetry; apply Z.ltb_ge; lia).
  replace (59 <? mi) with false by (symmetry; apply Z.ltb_ge; lia).
  replace (ss <? 0) with false by (symmetry; apply Z.ltb_ge; lia).
  replace (59 <? ss) with false by (symmetry; apply Z.ltb_ge; lia).
  reflexivity.
Qed.

Lemma IsDBdate_reads_time_stamp_witness :
  IsDBdate (["-"; "-"; " "]%char
            ++ time_stamp [" "%char] [" "%char] 2020 3 4 5 6 7
            ++ [" "; "x"]%char)
  = Some (TDatime_Set 2020 3 4 5 6 7).
Proof.
  apply IsDBdate_reads_time_stamp.
  - vm_compute. intuition discriminate.
  - repeat constructor.
  - repeat constructor.
  - lia.
  - lia.
  - lia.
  - lia.
  - lia.
  - lia.
  - vm_compute. reflexivity.
Defined.

End DBStampsFacts.

Module DBConfigFacts.
Import Ascii Database DBText DatabaseFacts DBConfig DBConfigSample.
















End DBConfigFacts.

Module DBHereFacts.
Import Ascii Database DBHere.

Lemma is_prefix_self (k more : chars) : is_prefix k (k ++ more) = true.
Proof.
  induction k as [|x k IH]; [reflexivity|].
  cbn. rewrite Ascii.eqb_refl. exact IH.
Qed.

Lemma strstr_colons_first (cls rest : chars) :
  ~ In ":"%char cls ->
  strstr colons (cls ++ colons ++ rest) = Some (length cls).
Proof.
  induction cls as [|x cls IH]; intros H.
  - reflexivity.
  - cbn [app strstr length].
    assert (Hx : x <> ":"%char) by (intros ->; apply H; left; reflexivity).
    unfold colons at 1. cbn [is_prefix].
    destruct (Ascii.eqb_spec ":"%char x) as [E|_]; [congruence|].
    cbn [andb]. rewrite IH; [reflexivity|].
    intros G. apply H. right. exact G.
Qed.

Lemma strstr_colons_none (m : chars) :
  ~ In ":"%char m -> strstr colons m = None.
Proof.
  induction m as [|x m IH]; intros H; [reflexivity|].
  cbn [strstr]. unfold colons at 1. cbn [is_prefix].
  destruct (Ascii.eqb_spec ":"%char x) as [E|_].
  - exfalso. apply H. left. congruence.
  - cbn [andb]. rewrite IH; [reflexivity|].
    intros G. apply H. right. exact G.
Qed.

(** X18: [Here] puts the prefix, in parentheses and quotes and without a
    dot at its end, in front of the scope operator: behind the class name
    when [method] has the form [Class::method], in front of "::" and the
    method otherwise.  Without a prefix the method comes back as it is. *)
Theorem Here_places_prefix (c : ascii) (p : chars) :
  let prefix := c :: p in
  (forall cls m,
      cls <> [] -> ~ In ":"%char cls ->
      Here (Some (cls ++ colons ++ m)) (Some prefix)
      = cls ++ full_prefix prefix ++ colons ++ m) /\
  (forall m,
      ~ In ":"%char m ->
      Here (Some m) (Some prefix) = full_prefix prefix ++ colons ++ m) /\
  Here None (Some prefix) = full_prefix prefix ++ colons /\
  (forall m, Here (Some m) None = m /\ Here (Some m) (Some []) = m) /\
  (forall q, ~ In "."%char q -> q <> [] ->
             full_prefix (q ++ ["."%char]) = full_prefix q /\
             full_prefix q = ["("%char; quote] ++ q ++ [quote; ")"%char]).
Proof.
  intros prefix. split; [|split; [|split; [|split]]].
  - intros cls m Hne Hc. unfold Here. fold prefix.
    destruct (cls ++ colons ++ m) as [|m0 m'] eqn:E.
    + destruct cls; [congruence | discriminate].
    + rewrite <- E. rewrite strstr_colons_first by exact Hc.
      rewrite firstn_app, firstn_all, Nat.sub_diag, firstn_O, app_nil_r.
      rewrite skipn_app, skipn_all, Nat.sub_diag, skipn_O. cbn [app].
      reflexivity.
  - intros m Hm. unfold Here. fold prefix.
    destruct m as [|m0 m'].
    + subst prefix. cbv beta iota. rewrite <- app_assoc. reflexivity.
    + rewrite strstr_colons_none by exact Hm.
      subst prefix. cbv beta iota. rewrite <- app_assoc. reflexivity.
  - reflexivity.
  - intros m. split; reflexivity.
  - intros q Hq Hne. unfold full_prefix.
    rewrite rev_app_distr. cbn [rev app]. rewrite Ascii.eqb_refl.
    rewrite rev_involutive.
    destruct (rev q) as [|x r] eqn:E.
    + apply (f_equal (@rev _)) in E. rewrite rev_involutive in E.
      cbn in E. congruence.
    + assert (Hx : x <> "."%char).
      { intros ->. apply Hq. apply in_rev. rewrite E. left. reflexivity. }
      destruct (Ascii.eqb_spec x "."%char); [congruence|].
      split; reflexivity.
Qed.

End DBHereFacts.

Module DBReadFacts.
Import Ascii Database DBRead.

Lemma fgets_chunk_spec (room : nat) :
  forall file chunk rest,
    fgets_chunk room file = (chunk, rest) ->
    file = chunk ++ rest /\ (length chunk <= room)%nat /\
    ((exists l, chunk = l ++ [newline] /\ ~ In newline l) \/
     (~ In newline chunk /\ (rest = [] \/ length chunk = room))).
Proof.
  induction room as [|room IH]; intros file chunk rest H.
  - cbn in H. injection H as <- <-.
    split; [reflexivity|]. split; [cbn; lia|]. right. split; [intros []|].
    right. reflexivity.
  - destruct file as [|c file]; cbn [fgets_chunk] in H.
    + injection H as <- <-. split; [reflexivity|]. split; [cbn; lia|].
      right. split; [intros [] | left; reflexivity].
    + destruct (Ascii.eqb_spec c newline) as [->|Hc].
      * injection H as <- <-. split; [reflexivity|]. split; [cbn; lia|].
        left. exists []. split; [reflexivity | intros []].
      * destruct (fgets_chunk room file) as [chunk' rest'] eqn:E.
        injection H as <- <-.
        destruct (IH _ _ _ E) as (-> & Hl & Hcase).
        split; [reflexivity|]. split; [cbn; lia|].
        destruct Hcase as [(l & -> & Hn)|(Hn & Hr)].
        -- left. exists (c :: l). split; [reflexivity|].
           intros [G|G]; [congruence | tauto].
        -- right. split; [intros [G|G]; [congruence | tauto]|].
           destruct Hr as [Hr|Hr]; [left; exact Hr | right; cbn; lia].
Qed.

Lemma c_str_clean (s : chars) : ~ In nul s -> c_str s = s.
Proof.
  induction s as [|x s IH]; intros H; [reflexivity|].
  cbn. destruct (Ascii.eqb_spec x nul) as [->|_].
  - exfalso. apply H. left. reflexivity.
  - rewrite IH; [reflexivity|]. intros Hin. apply H. right. exact Hin.
Qed.

Lemma split_at_first (k : ascii) (a rest : chars) :
  ~ In k a -> split_at k (a ++ k :: rest) = Some (a, rest).
Proof.
  induction a as [|x a IH]; intros Ha; cbn [app split_at].
  - rewrite Ascii.eqb_refl. reflexivity.
  - destruct (Ascii.eqb_spec x k) as [->|Hne].
    + exfalso. apply Ha. left. reflexivity.
    + rewrite IH; [reflexivity|]. intros H. apply Ha. right. exact H.
Qed.

Lemma split_at_absent (k : ascii) (s : chars) :
  ~ In k s -> split_at k s = None.
Proof.
  induction s as [|x s IH]; intros H; [reflexivity|].
  cbn [split_at]. destruct (Ascii.eqb_spec x k) as [->|_].
  - exfalso. apply H. left. reflexivity.
  - rewrite IH; [reflexivity|]. intros Hin. apply H. right. exact Hin.
Qed.

(** Where the first newline stands is determined by the text. *)
Lemma first_newline_unique (a1 a2 r1 r2 : chars) :
  a1 ++ newline :: r1 = a2 ++ newline :: r2 ->
  ~ In newline a1 -> ~ In newline a2 -> a1 = a2 /\ r1 = r2.
Proof.
  revert a2. induction a1 as [|x a1 IH]; intros a2 E H1 H2.
  - destruct a2 as [|y a2]; cbn in E.
    + injection E as ->. auto.
    + injection E as <- _. exfalso. apply H2. left. reflexivity.
  - destruct a2 as [|y a2]; cbn in E.
    + injection E as -> _. exfalso. apply H1. left. reflexivity.
    + injection E as -> E.
      destruct (IH a2 E) as [-> ->]; [| |auto];
        intros G; [apply H1 | apply H2]; right; exact G.
Qed.

Lemma prefix_before_newline (chunk rest' l rest : chars) :
  chunk ++ rest' = l ++ newline :: rest ->
  ~ In newline chunk -> exists l2, l = chunk ++ l2.
Proof.
  revert l. induction chunk as [|x chunk IH]; intros l E H.
  - exists l. reflexivity.
  - destruct l as [|y l]; cbn in E.
    + injection E as -> _. exfalso. apply H. left. reflexivity.
    + injection E as -> E.
      destruct (IH l E) as (l2 & ->); [intros G; apply H; right; exact G|].
      exists l2. reflexivity.
Qed.

Lemma tabs_to_spaces_app (s t : chars) :
  tabs_to_spaces (s ++ t) = tabs_to_spaces s ++ tabs_to_spaces t.
Proof. unfold tabs_to_spaces. apply map_app. Qed.

Lemma GetLine_loop_unfold (fuel bufsiz : nat) (line file : chars) :
  GetLine_loop fuel bufsiz line file
  = match fgets bufsiz file with
    | None => Some (false, line, file)
    | Some (chunk, rest) =>
      match split_at newline (c_str chunk) with
      | Some (before, _) => Some (true, line ++ tabs_to_spaces before, rest)
      | None =>
        match fuel with
        | O => None
        | S fuel' =>
          GetLine_loop fuel' bufsiz (line ++ tabs_to_spaces (c_str chunk)) rest
        end
      end
    end.
Proof. destruct fuel; reflexivity. Qed.

Lemma fgets_nonempty (bufsiz : nat) (file : chars) :
  file <> [] -> fgets bufsiz file = Some (fgets_chunk (bufsiz - 1) file).
Proof. destruct file; [congruence | reflexivity]. Qed.

Lemma GetLine_loop_line (bufsiz : nat) (fuel : nat) :
  (2 <= bufsiz)%nat ->
  forall l line rest,
    (length l <= fuel)%nat ->
    ~ In newline l -> ~ In nul l ->
    GetLine_loop fuel bufsiz line (l ++ newline :: rest)
    = Some (true, line ++ tabs_to_spaces l, rest).
Proof.
  intros Hb. induction fuel as [|fuel IH]; intros l line rest Hf Hn Hz;
    rewrite GetLine_loop_unfold;
    rewrite fgets_nonempty by (destruct l; discriminate);
    destruct (fgets_chunk (bufsiz - 1) (l ++ newline :: rest))
      as [chunk rest'] eqn:E;
    destruct (fgets_chunk_spec _ _ _ _ E) as (Hsplit & Hlen & Hcase);
    destruct Hcase as [(l' & -> & Hl')|(Hc & Hr)].
  1,3: rewrite <- app_assoc in Hsplit; cbn [app] in Hsplit;
       destruct (first_newline_unique _ _ _ _ Hsplit Hn Hl') as [<- <-];
       rewrite c_str_clean
         by (intros G; apply in_app_or in G; destruct G as [G|[G|[]]];
             [exact (Hz G) | discriminate]);
       rewrite split_at_first by exact Hn; reflexivity.
  all: destruct (prefix_before_newline _ _ _ _ (eq_sym Hsplit) Hc)
         as (l2 & ->);
       rewrite <- app_assoc in Hsplit;
       apply app_inv_head in Hsplit; subst rest';
       assert (Hchunk : chunk <> [])
         by (destruct Hr as [Hr|Hr]; [destruct l2; discriminate|];
             intros ->; cbn in Hr; lia);
       rewrite length_app in Hf;
       (destruct chunk as [|c0 chunk0] eqn:Ec; [congruence|]);
       rewrite <- Ec in *.
  - rewrite Ec in Hf. cbn in Hf. lia.
  - rewrite c_str_clean
      by (intros G; apply Hz; apply in_or_app; left; exact G).
    rewrite split_at_absent by exact Hc.
    rewrite IH.
    + rewrite tabs_to_spaces_app, app_assoc. reflexivity.
    + rewrite Ec in Hf. cbn in Hf. lia.
    + intros G. apply Hn. apply in_or_app. right. exact G.
    + intros G. apply Hz. apply in_or_app. right. exact G.
Qed.

Lemma GetLine_loop_last (bufsiz : nat) (fuel : nat) :
  (2 <= bufsiz)%nat ->
  forall l line,
    (length l <= fuel)%nat ->
    ~ In newline l -> ~ In nul l ->
    GetLine_loop fuel bufsiz line l
    = Some (false, line ++ tabs_to_spaces l, []).
Proof.
  intros Hb. induction fuel as [|fuel IH]; intros l line Hf Hn Hz;
    rewrite GetLine_loop_unfold;
    (destruct l as [|c0 l0] eqn:El;
     [cbn; rewrite app_nil_r; reflexivity|]);
    rewrite <- El in *;
    rewrite fgets_nonempty by (rewrite El; discriminate);
    destruct (fgets_chunk (bufsiz - 1) l) as [chunk rest'] eqn:E;
    destruct (fgets_chunk_spec _ _ _ _ E) as (Hsplit & Hlen & Hcase);
    destruct Hcase as [(l' & -> & Hl')|(Hc & Hr)].
  1,3: exfalso; apply Hn; rewrite Hsplit; apply in_or_app; left;
       apply in_or_app; right; left; reflexivity.
  all: assert (Hchunk : chunk <> [])
         by (destruct Hr as [Hr|Hr];
             [subst rest'; rewrite app_nil_r in Hsplit; subst chunk l;
              discriminate
             |intros ->; cbn in Hr; lia]);
       (destruct chunk as [|d0 chunk0] eqn:Ec; [congruence|]);
       rewrite <- Ec in *.
  - rewrite Hsplit, length_app, Ec in Hf. cbn in Hf. lia.
  - rewrite c_str_clean
      by (intros G; apply Hz; rewrite Hsplit; apply in_or_app; left;
          exact G).
    rewrite split_at_absent by exact Hc.
    rewrite IH.
    + replace (tabs_to_spaces l) with (tabs_to_spaces (chunk ++ rest'))
        by (rewrite <- Hsplit; reflexivity).
      rewrite tabs_to_spaces_app, app_assoc. reflexivity.
    + rewrite Hsplit, length_app, Ec in Hf. cbn in Hf. lia.
    + intros G. apply Hn. rewrite Hsplit. apply in_or_app. right. exact G.
    + intros G. apply Hz. rewrite Hsplit. apply in_or_app. right. exact G.
Qed.

(** A line with its newline. *)
Lemma GetLine_line (bufsiz : nat) (l rest : chars) :
  (2 <= bufsiz)%nat -> ~ In newline l -> ~ In nul l ->
  GetLine bufsiz (l ++ newline :: rest) = Some (0, tabs_to_spaces l, rest).
Proof.
  intros Hb Hn Hz. unfold GetLine.
  rewrite GetLine_loop_line; try assumption; [reflexivity|].
  rewrite length_app. lia.
Qed.

(** X19: [GetLine] returns the text up to the next newline, however long,
    with tabs turned into blanks, and leaves the file behind that newline,
    for every buffer size of 2 or more; a last line without newline is
    returned likewise; [EOF] is returned only when nothing is left. *)
Theorem GetLine_whole_line (bufsiz : nat) (l rest : chars) :
  (2 <= bufsiz)%nat -> ~ In newline l -> ~ In nul l ->
  GetLine bufsiz (l ++ newline :: rest) = Some (0, tabs_to_spaces l, rest) /\
  GetLine bufsiz l
  = Some (match l with [] => EOF | _ => 0 end, tabs_to_spaces l, []).
Proof.
  intros Hb Hn Hz. unfold GetLine. split.
  - rewrite GetLine_loop_line; try assumption.
    + reflexivity.
    + rewrite length_app. lia.
  - rewrite GetLine_loop_last; try assumption; [|lia].
    cbn [app]. destruct l; reflexivity.
Qed.

Lemma GetLine_whole_line_witness :
  let l := ["n"; "w"; " "; "="; " "; "5"]%char in
  let rest := ["x"; newline]%char in
  GetLine 4 (l ++ newline :: rest) = Some (0, tabs_to_spaces l, rest) /\
  GetLine 4 l = Some (0, tabs_to_spaces l, []).
Proof.
  apply (GetLine_whole_line 4 ["n"; "w"; " "; "="; " "; "5"]%char
                            ["x"; newline]%char).
  - lia.
  - vm_compute. intuition discriminate.
  - vm_compute. intuition discriminate.
Defined.

End DBReadFacts.

Module DBLinesFacts.
Import Ascii Database DBRead DBReadFacts DBLines DBLinesSample.

Lemma IsAssignment_total (s : chars) : IsAssignment s <> None.
Proof.
  unfold IsAssignment.
  destruct (find_from equals 0 s) as [pos|] eqn:E; [|discriminate].
  destruct (same_pos _ pos) eqn:Es; [discriminate|].
  destruct pos as [|pos]; [|discriminate].
  exfalso. destruct s as [|c s]; [discriminate|].
  cbn [find_from] in E.
  destruct (Ascii.eqb_spec c equals) as [->|Hc].
  - cbn in Es. discriminate.
  - destruct (find_from equals 0 s); discriminate.
Qed.

Lemma ReadDBline_loop_unfold (Trim : chars -> chars) (bufsiz fuel : nat)
      (line : chars) (maybe unfinished : bool) (r : Z) (oldpos file : chars) :
  ReadDBline_loop Trim bufsiz fuel line maybe unfinished r oldpos file
  = if negb unfinished then Some (line, maybe, r, oldpos, file)
    else
      match GetLine bufsiz file with
      | None => None
      | Some (r', linbuf, file') =>
        if negb (r' =? 0) then Some (line, maybe, r', file, file')
        else
          match ReadDBline_turn Trim line maybe linbuf with
          | Assert => None
          | Done rewind =>
            Some (line, maybe, r', file, if rewind then file else file')
          | Next line' maybe' unfinished' =>
            match fuel with
            | O => None
            | S fuel' =>
              ReadDBline_loop Trim bufsiz fuel' line' maybe' unfinished' r'
                              file file'
            end
          end
      end.
Proof. destruct fuel; reflexivity. Qed.

(** [GetLine] ends for every file, and a call that returns 0 has moved the
    position forward. *)
Lemma GetLine_loop_total (bufsiz : nat) (fuel : nat) :
  (2 <= bufsiz)%nat ->
  forall file line,
    (length file <= fuel)%nat ->
    exists b line' rest,
      GetLine_loop fuel bufsiz line file = Some (b, line', rest) /\
      (length rest <= length file)%nat /\
      (file <> [] -> (length rest < length file)%nat) /\
      (file = [] -> b = false /\ line' = line).
Proof.
  intros Hb. induction fuel as [|fuel IH]; intros file line Hf;
    rewrite GetLine_loop_unfold.
  - destruct file; [|cbn in Hf; lia].
    exists false, line, []. cbn. repeat split; auto. congruence.
  - destruct file as [|c0 file0] eqn:Ef.
    + exists false, line, []. cbn. repeat split; auto. congruence.
    + rewrite <- Ef in *.
      rewrite fgets_nonempty by (rewrite Ef; discriminate).
      destruct (fgets_chunk (bufsiz - 1) file) as [chunk rest] eqn:E.
      destruct (fgets_chunk_spec _ _ _ _ E) as (Hsplit & Hlen & Hcase).
      assert (Hchunk : (1 <= length chunk)%nat).
      { destruct Hcase as [(l & -> & _)|(_ & [Hr|Hr])].
        - rewrite length_app. cbn. lia.
        - subst rest. rewrite app_nil_r in Hsplit. subst chunk.
          rewrite Ef. cbn. lia.
        - lia. }
      assert (Hrest : (length rest < length file)%nat).
      { apply (f_equal (@length _)) in Hsplit.
        rewrite length_app in Hsplit. lia. }
      destruct (split_at newline (c_str chunk)) as [[before after]|].
      * exists true, (line ++ tabs_to_spaces before), rest.
        split; [reflexivity|]. split; [lia|]. split; [intros _; exact Hrest|].
        rewrite Ef. discriminate.
      * destruct (IH rest (line ++ tabs_to_spaces (c_str chunk)))
          as (b & line' & rest' & -> & Hle & _ & _); [lia|].
        exists b, line', rest'. split; [reflexivity|].
        split; [lia|]. split; [intros _; lia|].
        rewrite Ef. discriminate.
Qed.

Lemma GetLine_total (bufsiz : nat) (file : chars) :
  (2 <= bufsiz)%nat ->
  exists r line rest,
    GetLine bufsiz file = Some (r, line, rest) /\
    (r = 0 \/ r = EOF) /\
    (r = 0 -> (length rest < length file)%nat).
Proof.
  intros Hb. unfold GetLine.
  destruct (GetLine_loop_total bufsiz (length file) Hb file [] (le_n _))
    as (b & line & rest & -> & Hle & Hlt & Hnil).
  eexists _, line, rest. split; [reflexivity|].
  destruct file as [|c file].
  - destruct (Hnil eq_refl) as [-> ->]. cbn. split; [right; reflexivity|].
    unfold EOF. discriminate.
  - split.
    + destruct (negb b && (length line =? 0)%nat); [right | left]; reflexivity.
    + intros _. apply Hlt. discriminate.
Qed.

Lemma empty_length (s : chars) : empty s = false -> (1 <= length s)%nat.
Proof. destruct s; [discriminate | cbn; lia]. Qed.

Lemma empty_false (s : chars) : (1 <= length s)%nat -> empty s = false.
Proof. destruct s; [cbn; lia | reflexivity]. Qed.

Lemma length_if_app (b : bool) (s t : chars) :
  (length s <= length (if b then s ++ t else s))%nat.
Proof. destruct b; [rewrite length_app|]; lia. Qed.

Lemma ReadDBline_turn_kept (Trim : chars -> chars) (line linbuf : chars)
      (maybe : bool) :
  (maybe = true -> (2 <= length line)%nat) ->
  match ReadDBline_turn Trim line maybe linbuf with
  | Assert => False
  | Done _ => (1 <= length line)%nat
  | Next line' maybe' unfinished' => kept line' maybe' unfinished'
  end.
Proof.
  intros Hm. unfold ReadDBline_turn.
  set (pos := find_first_of [hash; backslash] linbuf).
  set (continued := match pos with Some p => _ | None => false end).
  set (comment := match pos with Some p => negb _ | None => false end).
  set (cut := match pos with Some p => firstn p linbuf | None => linbuf end).
  set (leading := match cut with c :: _ => _ | [] => false end).
  set (trailing := ends_with_blank cut).
  set (lb := if leading || trailing then Trim cut else cut).
  destruct (empty line) eqn:El; destruct (empty lb) eqn:Eb; cbn [andb].
  - split; [exact Hm | discriminate].
  - destruct (IsAssignment lb) as [a|] eqn:Ea;
      [|exact (IsAssignment_total _ Ea)].
    assert (Hmf : maybe = false).
    { destruct maybe; [|reflexivity]. specialize (Hm eq_refl).
      destruct line; [cbn in Hm; lia | discriminate]. }
    subst maybe. cbn [andb].
    apply empty_length in Eb.
    split.
    + destruct (negb continued && a) eqn:E1; intros H; [|discriminate H].
      cbn [orb]. rewrite !length_app. cbn. lia.
    + intros _. rewrite !length_app.
      match goal with
      | |- context [length (if ?b then lb ++ [blank] else lb)] =>
        pose proof (length_if_app b lb [blank])
      end. lia.
  - destruct (continued || comment).
    + split; [exact Hm | discriminate].
    + apply empty_length. exact El.
  - destruct (IsAssignment lb) as [a|] eqn:Ea;
      [|exact (IsAssignment_total _ Ea)].
    apply empty_length in El.
    destruct (maybe && a) eqn:Ema; [exact El|].
    cbn [andb]. split.
    + intros Hm'. specialize (Hm Hm'). rewrite !length_app.
      match goal with
      | |- context [length (if ?b then line ++ [blank] else line)] =>
        pose proof (length_if_app b line [blank])
      end; lia.
    + intros _. rewrite !length_app.
      match goal with
      | |- context [length (if ?b then line ++ [blank] else line)] =>
        pose proof (length_if_app b line [blank])
      end; lia.
Qed.

Lemma ReadDBline_loop_total (Trim : chars -> chars) (bufsiz : nat) :
  (2 <= bufsiz)%nat ->
  forall fuel line maybe unfinished r oldpos file,
    (length file <= fuel)%nat ->
    kept line maybe unfinished -> r = 0 ->
    exists line' maybe' r' oldpos' file',
      ReadDBline_loop Trim bufsiz fuel line maybe unfinished r oldpos file
      = Some (line', maybe', r', oldpos', file') /\
      (maybe' = true -> (2 <= length line')%nat) /\
      (r' = 0 /\ (1 <= length line')%nat \/ r' = EOF).
Proof.
  intros Hb. induction fuel as [|fuel IH];
    intros line maybe unfinished r oldpos file Hf [Hm Hu] Hr;
    rewrite ReadDBline_loop_unfold;
    (destruct unfinished; cbn [negb];
     [|exists line, maybe, r, oldpos, file;
       split; [reflexivity|]; split; [exact Hm|]; left; auto]);
    destruct (GetLine_total bufsiz file Hb)
      as (r' & linbuf & file' & -> & Hr' & Hlt);
    (destruct Hr' as [->| ->];
     [|exists line, maybe, EOF, file, file';
       split; [reflexivity|]; split; [exact Hm|]; right; reflexivity]);
    specialize (Hlt eq_refl); cbn [Z.eqb negb];
    pose proof (ReadDBline_turn_kept Trim line linbuf maybe Hm) as Ht;
    destruct (ReadDBline_turn Trim line maybe linbuf)
      as [line' maybe' unf'|rewind|]; try contradiction.
  - lia.
  - eexists line, maybe, 0, file, _. split; [reflexivity|].
    split; [exact Hm|]. left. auto.
  - apply IH; [lia | exact Ht | reflexivity].
  - eexists line, maybe, 0, file, _. split; [reflexivity|].
    split; [exact Hm|]. left. auto.
Qed.

(** X20: [ReadDBline] comes back from every file, for every buffer of 2
    characters or more and whatever [Trim] does: no assertion fails and the
    loop ends.  It returns 0 or [EOF], and never 0 with an empty line. *)
Theorem ReadDBline_line_or_EOF (Trim : chars -> chars) (bufsiz : nat)
        (file : chars) :
  (2 <= bufsiz)%nat ->
  exists r line pos,
    ReadDBline Trim bufsiz file = Some (r, line, pos) /\
    (r = 0 /\ line <> [] \/ r = EOF).
Proof.
  intros Hb. unfold ReadDBline.
  destruct (ReadDBline_loop_total Trim bufsiz Hb (length file) [] false true
              0 file file (le_n _))
    as (line & maybe & r & oldpos & pos & -> & Hm & Hr).
  { split; discriminate. }
  { reflexivity. }
  destruct maybe.
  - specialize (Hm eq_refl).
    rewrite empty_false by lia.
    assert (Hne : (if Ascii.eqb (last line nul) blank
                   then removelast line else line) <> []).
    { destruct (Ascii.eqb (last line nul) blank).
      - destruct line as [|a [|b line]]; cbn in Hm; try lia. discriminate.
      - destruct line; [cbn in Hm; lia | discriminate]. }
    destruct (r =? EOF) eqn:E.
    + eexists 0, _, oldpos. split; [reflexivity|]. left. auto.
    + eexists r, _, pos. split; [reflexivity|].
      destruct Hr as [[-> _]| ->]; [left; auto | discriminate].
  - exists r, line, pos. split; [reflexivity|].
    destruct Hr as [[-> Hl]| ->]; [left | right; reflexivity].
    split; [reflexivity|]. destruct line; [cbn in Hl; lia | discriminate].
Qed.

Lemma plain_no (k : ascii) (c : chars) :
  plain c -> one_of [hash; backslash; tab; newline; nul] k = true ->
  ~ In k c.
Proof.
  intros (_ & _ & _ & Hall) Hk Hin.
  rewrite Forall_forall in Hall. specialize (Hall k Hin). congruence.
Qed.

Lemma tabs_to_spaces_none (c : chars) : ~ In tab c -> tabs_to_spaces c = c.
Proof.
  induction c as [|x c IH]; intros H; [reflexivity|].
  cbn. destruct (Ascii.eqb_spec x tab) as [->|_].
  - exfalso. apply H. left. reflexivity.
  - f_equal. apply IH. intros G. apply H. right. exact G.
Qed.

Lemma GetLine_plain (bufsiz : nat) (c rest : chars) :
  (2 <= bufsiz)%nat -> plain c ->
  GetLine bufsiz (c ++ newline :: rest) = Some (0, c, rest).
Proof.
  intros Hb Hc.
  rewrite GetLine_line;
    [|exact Hb | apply (plain_no _ _ Hc); reflexivity
     | apply (plain_no _ _ Hc); reflexivity].
  rewrite tabs_to_spaces_none; [reflexivity|].
  apply (plain_no _ _ Hc). reflexivity.
Qed.

Lemma GetLine_empty_line (bufsiz : nat) (rest : chars) :
  (2 <= bufsiz)%nat -> GetLine bufsiz (newline :: rest) = Some (0, [], rest).
Proof.
  intros Hb.
  exact (GetLine_line bufsiz [] rest Hb (fun H => H) (fun H => H)).
Qed.

Lemma GetLine_end (bufsiz : nat) : GetLine bufsiz [] = Some (EOF, [], []).
Proof. reflexivity. Qed.

Lemma find_first_of_none (cs c : chars) :
  Forall (fun x => one_of cs x = false) c -> find_first_of cs c = None.
Proof.
  induction 1 as [|x c Hx _ IH]; [reflexivity|].
  cbn [find_first_of]. rewrite Hx, IH. reflexivity.
Qed.

Lemma plain_no_mark (c : chars) :
  plain c -> find_first_of [hash; backslash] c = None.
Proof.
  intros (_ & _ & _ & Hall). apply find_first_of_none.
  eapply Forall_impl; [|exact Hall].
  intros x. unfold one_of. cbn [existsb].
  intros H. apply orb_false_iff in H. destruct H as [H1 H].
  apply orb_false_iff in H. destruct H as [H2 _].
  rewrite H1, H2. reflexivity.
Qed.

(** A turn on a plain line. *)
Lemma ReadDBline_turn_plain (Trim : chars -> chars) (line c : chars)
      (maybe a : bool) :
  plain c -> IsAssignment c = Some a ->
  ReadDBline_turn Trim line maybe c
  = if maybe && a then (if empty line then Assert else Done true)
    else
      let maybe' := if empty line && a then true else maybe in
      Next (line ++ (if maybe' then c ++ [blank] else c)) maybe' maybe'.
Proof.
  intros Hc Ha. unfold ReadDBline_turn.
  rewrite (plain_no_mark c Hc).
  destruct Hc as (Hne & Hhd & Hlast & _).
  assert (Hlead : match c with x :: _ => Ascii.eqb x blank | [] => false end
                  = false).
  { destruct c as [|x c']; [reflexivity|]. cbn in Hhd.
    destruct (Ascii.eqb_spec x blank); congruence. }
  assert (Htrail : ends_with_blank c = false).
  { unfold ends_with_blank.
    destruct (Ascii.eqb_spec (last c nul) blank); [congruence|].
    apply andb_false_r. }
  rewrite Hlead, Htrail. cbn [orb].
  assert (He : empty c = false) by (destruct c; [congruence | reflexivity]).
  rewrite He, andb_false_r, Ha.
  destruct (maybe && a); [reflexivity|].
  cbn [negb andb orb]. rewrite andb_true_r, orb_false_r. reflexivity.
Qed.

(** A turn on an empty line, with data in [line]. *)
Lemma ReadDBline_turn_empty (Trim : chars -> chars) (line : chars)
      (maybe : bool) :
  line <> [] -> ReadDBline_turn Trim line maybe [] = Done false.
Proof.
  intros H. unfold ReadDBline_turn. cbn.
  destruct line; [congruence | reflexivity].
Qed.

Lemma joined_cons (l : chars) (more : list chars) :
  joined (l :: more) = l ++ concat (map (cons blank) more).
Proof.
  revert l. induction more as [|c more IH]; intros l.
  - cbn. rewrite app_nil_r. reflexivity.
  - change (joined (l :: c :: more)) with (l ++ blank :: joined (c :: more)).
    rewrite IH. reflexivity.
Qed.

Lemma text_of_cons (l : chars) (more : list chars) (tail : chars) :
  text_of (l :: more) ++ tail = l ++ newline :: (text_of more ++ tail).
Proof.
  unfold text_of. cbn [map concat]. rewrite <- !app_assoc. reflexivity.
Qed.

(** The loop on the lines behind an assignment. *)
Lemma ReadDBline_loop_entry (Trim : chars -> chars) (bufsiz : nat)
      (tail after : chars) :
  (2 <= bufsiz)%nat -> entry_end tail after ->
  forall more fuel acc oldpos,
    Forall (fun c => plain c /\ IsAssignment c = Some false) more ->
    (length (text_of more ++ tail) <= fuel)%nat ->
    exists r oldpos' file',
      ReadDBline_loop Trim bufsiz fuel (acc ++ [blank]) true true 0 oldpos
                      (text_of more ++ tail)
      = Some (acc ++ concat (map (cons blank) more) ++ [blank], true, r,
              oldpos', file') /\
      (if r =? EOF then (0, oldpos') else (r, file')) = (0, after).
Proof.
  intros Hb Hend. induction more as [|c more IH];
    intros fuel acc oldpos Hmore Hf.
  - cbn [text_of map concat app]. rewrite ReadDBline_loop_unfold.
    cbn [negb]. destruct Hend as [[-> ->]|[(rest & -> & ->)|
                                           (l & rest & -> & Hl & Ha & ->)]].
    + rewrite GetLine_end. exists EOF, [], []. split; reflexivity.
    + rewrite GetLine_empty_line by exact Hb. cbn [Z.eqb negb].
      rewrite ReadDBline_turn_empty by (destruct acc; discriminate).
      exists 0, (newline :: rest), rest. split; reflexivity.
    + rewrite GetLine_plain by assumption. cbn [Z.eqb negb].
      rewrite (ReadDBline_turn_plain Trim _ l true true Hl Ha).
      cbn [andb].
      replace (empty (acc ++ [blank])) with false
        by (destruct acc; reflexivity).
      eexists 0, _, _. split; reflexivity.
  - rewrite text_of_cons in *.
    apply Forall_cons_iff in Hmore. destruct Hmore as [[Hc Ha] Hmore].
    rewrite ReadDBline_loop_unfold. cbn [negb].
    rewrite GetLine_plain by assumption. cbn [Z.eqb negb].
    rewrite (ReadDBline_turn_plain Trim _ c true false Hc Ha).
    cbn [andb]. rewrite andb_false_r. cbv zeta.
    destruct fuel as [|fuel].
    { rewrite length_app in Hf. cbn in Hf. lia. }
    rewrite <- app_assoc.
    replace ([blank] ++ c ++ [blank]) with ((blank :: c) ++ [blank])
      by reflexivity.
    rewrite app_assoc.
    destruct (IH fuel (acc ++ blank :: c) (c ++ newline :: text_of more ++ tail)
                 Hmore) as (r & oldpos' & file' & -> & Hr).
    { rewrite length_app in Hf. cbn in Hf. lia. }
    exists r, oldpos', file'. split; [|exact Hr].
    cbn [map concat]. rewrite <- !app_assoc. reflexivity.
Qed.

(** The loop from the first line of an entry on, whatever fuel is left. *)
Lemma ReadDBline_loop_assignment (Trim : chars -> chars) (bufsiz : nat)
      (l : chars) (more : list chars) (tail after : chars) :
  (2 <= bufsiz)%nat ->
  plain l -> IsAssignment l = Some true ->
  Forall (fun c => plain c /\ IsAssignment c = Some false) more ->
  entry_end tail after ->
  forall fuel r oldpos,
    (length (text_of (l :: more) ++ tail) <= fuel)%nat ->
    exists r' oldpos' file',
      ReadDBline_loop Trim bufsiz fuel [] false true r oldpos
                      (text_of (l :: more) ++ tail)
      = Some ((l ++ concat (map (cons blank) more)) ++ [blank], true, r',
              oldpos', file') /\
      (if r' =? EOF then (0, oldpos') else (r', file')) = (0, after).
Proof.
  intros Hb Hl Ha Hmore Hend fuel r oldpos Hf.
  rewrite text_of_cons in *.
  rewrite ReadDBline_loop_unfold. cbn [negb].
  rewrite GetLine_plain by assumption. cbn [Z.eqb negb].
  rewrite (ReadDBline_turn_plain Trim _ l false true Hl Ha).
  cbn [andb empty]. cbv zeta. cbn [app].
  rewrite length_app in Hf. cbn [length] in Hf.
  destruct fuel as [|fuel]; [lia|].
  rewrite <- app_assoc.
  apply (ReadDBline_loop_entry Trim bufsiz tail after Hb Hend more fuel l _
                               Hmore).
  lia.
Qed.

(** What [ReadDBline] makes of the state in which the loop ends an
    entry. *)
Lemma ReadDBline_of_loop (Trim : chars -> chars) (bufsiz : nat)
      (file line : chars) (r : Z) (oldpos file' after : chars) :
  ReadDBline_loop Trim bufsiz (length file) [] false true 0 file file
  = Some (line ++ [blank], true, r, oldpos, file') ->
  (if r =? EOF then (0, oldpos) else (r, file')) = (0, after) ->
  ReadDBline Trim bufsiz file = Some (0, line, after).
Proof.
  intros E Hr. unfold ReadDBline. rewrite E, Hr.
  replace (empty (line ++ [blank])) with false
    by (destruct line; reflexivity).
  rewrite last_last, Ascii.eqb_refl, removelast_last. reflexivity.
Qed.

(** One call of [ReadDBline] at the beginning of an entry. *)
Lemma ReadDBline_entry (Trim : chars -> chars) (bufsiz : nat)
      (l : chars) (more : list chars) (tail after : chars) :
  (2 <= bufsiz)%nat ->
  plain l -> IsAssignment l = Some true ->
  Forall (fun c => plain c /\ IsAssignment c = Some false) more ->
  entry_end tail after ->
  ReadDBline Trim bufsiz (text_of (l :: more) ++ tail)
  = Some (0, joined (l :: more), after).
Proof.
  intros Hb Hl Ha Hmore Hend.
  destruct (ReadDBline_loop_assignment Trim bufsiz l more tail after Hb Hl Ha
              Hmore Hend (length (text_of (l :: more) ++ tail)) 0
              (text_of (l :: more) ++ tail) (le_n _))
    as (r & oldpos & file' & E & Hr).
  rewrite joined_cons.
  exact (ReadDBline_of_loop Trim bufsiz _ _ r oldpos file' after E Hr).
Qed.

Lemma comment_or_empty_clean (c : chars) :
  comment_or_empty c -> ~ In newline c /\ ~ In nul c.
Proof.
  intros [->|(t & -> & Hn & Hz)].
  - split; intros [].
  - split; intros [H|H]; try discriminate; tauto.
Qed.

(** A turn on an empty line or a comment, with nothing in [line]. *)
Lemma ReadDBline_turn_skipped (Trim : chars -> chars) (c : chars) :
  comment_or_empty c ->
  ReadDBline_turn Trim [] false (tabs_to_spaces c) = Next [] false true.
Proof. intros [->|(t & -> & _)]; reflexivity. Qed.

Lemma ReadDBline_loop_skip (Trim : chars -> chars) (bufsiz : nat)
      (c rest : chars) (fuel : nat) (r : Z) (oldpos : chars) :
  (2 <= bufsiz)%nat -> comment_or_empty c ->
  ReadDBline_loop Trim bufsiz (S fuel) [] false true r oldpos
                  (c ++ newline :: rest)
  = ReadDBline_loop Trim bufsiz fuel [] false true 0 (c ++ newline :: rest)
                    rest.
Proof.
  intros Hb Hc. destruct (comment_or_empty_clean c Hc) as [Hn Hz].
  rewrite ReadDBline_loop_unfold. cbn [negb].
  rewrite GetLine_line by assumption. cbn [Z.eqb negb].
  rewrite ReadDBline_turn_skipped by exact Hc. reflexivity.
Qed.

Lemma ReadDBline_loop_skips (Trim : chars -> chars) (bufsiz : nat)
      (skips : list chars) :
  (2 <= bufsiz)%nat -> Forall comment_or_empty skips ->
  forall fuel r oldpos file,
    exists r' oldpos',
      ReadDBline_loop Trim bufsiz (length skips + fuel) [] false true r oldpos
                      (text_of skips ++ file)
      = ReadDBline_loop Trim bufsiz fuel [] false true r' oldpos' file.
Proof.
  intros Hb. induction 1 as [|c skips Hc _ IH]; intros fuel r oldpos file.
  - exists r, oldpos. reflexivity.
  - rewrite text_of_cons. cbn [length Nat.add].
    rewrite ReadDBline_loop_skip by assumption. apply IH.
Qed.

Lemma text_of_length (lines : list chars) :
  (length lines <= length (text_of lines))%nat.
Proof.
  induction lines as [|c lines IH]; [cbn; lia|].
  rewrite <- (app_nil_r (text_of (c :: lines))), text_of_cons, app_nil_r.
  rewrite length_app. cbn [length]. lia.
Qed.

(** X21: [ReadDBline] passes over empty lines and comment lines and
    returns the entry that follows, that is an assignment and the lines
    behind it up to the end of the file, an empty line or the next
    assignment, as one line with one blank between its lines.  The file is
    left at the line behind the entry; an empty line that ends it is read
    as well. *)
Theorem ReadDBline_reads_entry (Trim : chars -> chars) (bufsiz : nat)
        (skips : list chars) (l : chars) (more : list chars)
        (tail after : chars) :
  (2 <= bufsiz)%nat ->
  Forall comment_or_empty skips ->
  plain l -> IsAssignment l = Some true ->
  Forall (fun c => plain c /\ IsAssignment c = Some false) more ->
  entry_end tail after ->
  ReadDBline Trim bufsiz (text_of skips ++ text_of (l :: more) ++ tail)
  = Some (0, joined (l :: more), after).
Proof.
  intros Hb Hskips Hl Ha Hmore Hend.
  set (entry := text_of (l :: more) ++ tail).
  set (file := text_of skips ++ entry).
  pose proof (text_of_length skips) as Hlen.
  assert (Hfuel : length file
                  = (length skips + (length file - length skips))%nat).
  { unfold file. rewrite length_app. lia. }
  destruct (ReadDBline_loop_skips Trim bufsiz skips Hb Hskips
              (length file - length skips) 0 file entry)
    as (r0 & oldpos0 & Eskip).
  destruct (ReadDBline_loop_assignment Trim bufsiz l more tail after Hb Hl Ha
              Hmore Hend (length file - length skips) r0 oldpos0)
    as (r & oldpos & file' & E & Hr).
  { fold entry. unfold file. rewrite length_app. lia. }
  fold entry in E. rewrite joined_cons.
  apply (ReadDBline_of_loop Trim bufsiz file _ r oldpos file' after);
    [|exact Hr].
  rewrite Hfuel. fold file in Eskip. rewrite Eskip. exact E.
Qed.

Lemma entries_text_length (es : list db_entry) :
  (length es <= length (entries_text es))%nat.
Proof.
  induction es as [|[[l more] gap] es IH]; [cbn; lia|].
  cbn [entries_text length]. rewrite text_of_cons.
  rewrite length_app. cbn [length]. rewrite !length_app. lia.
Qed.

(** X22: a database file made of entries, each an assignment with the lines
    that continue it, with or without an empty line behind it, is handed to
    [LoadDBvalue] as one line for each entry, in the order of the file. *)
Theorem read_dblines_entries (Trim : chars -> chars) (bufsiz : nat)
        (es : list db_entry) :
  (2 <= bufsiz)%nat -> Forall db_entry_ok es ->
  read_dblines Trim bufsiz (length (entries_text es)) (entries_text es)
  = Some (map entry_line es).
Proof.
  intros Hb Hes.
  assert (G : forall fuel, (length es <= fuel)%nat ->
                read_dblines Trim bufsiz fuel (entries_text es)
                = Some (map entry_line es)).
  { induction Hes as [|[[l more] gap] es [Hl [Ha Hmore]] Hes IH];
      intros fuel Hf.
    - destruct fuel; reflexivity.
    - cbn [entries_text].
      assert (Hend : entry_end ((if gap then [newline] else [])
                                ++ entries_text es) (entries_text es)).
      { destruct gap.
        - right. left. exists (entries_text es). split; reflexivity.
        - cbn [app]. destruct Hes as [|[[l' more'] gap'] es' [Hl' [Ha' _]] _].
          + left. split; reflexivity.
          + right. right. cbn [entries_text].
            exists l', (text_of more' ++ (if gap' then [newline] else [])
                        ++ entries_text es').
            rewrite text_of_cons.
            split; [reflexivity|]. split; [exact Hl'|].
            split; [exact Ha'|]. reflexivity. }
      destruct fuel as [|fuel]; [cbn in Hf; lia|].
      cbn [read_dblines].
      rewrite (ReadDBline_entry Trim bufsiz l more _ _ Hb Hl Ha Hmore Hend).
      cbn [Z.eqb]. rewrite IH by (cbn in Hf; lia).
      cbn [map entry_line]. rewrite joined_cons.
      destruct Hl as (Hne & _). destruct l; [congruence | reflexivity]. }
  apply G. apply entries_text_length.
Qed.

Lemma ReadDBline_line_or_EOF_witness :
  exists r line pos,
    ReadDBline (fun s => s) 256 (text_of [line_nw; line_34] ++ tail_b)
    = Some (r, line, pos) /\
    (r = 0 /\ line <> [] \/ r = EOF).
Proof. apply ReadDBline_line_or_EOF. lia. Defined.

Lemma plain_by_check (c : chars) :
  c <> [] -> hd nul c <> blank -> last c nul <> blank ->
  forallb (fun x => negb (one_of [hash; backslash; tab; newline; nul] x)) c
  = true ->
  plain c.
Proof.
  intros H1 H2 H3 H4. repeat split; try assumption.
  rewrite forallb_forall in H4. apply Forall_forall. intros x Hx.
  apply negb_true_iff. exact (H4 x Hx).
Qed.

Lemma ReadDBline_reads_entry_witness :
  ReadDBline (fun s => s) 256
             (text_of [line_comment; []]
              ++ text_of (line_nw :: [line_34; line_stamp]) ++ tail_b)
  = Some (0, joined (line_nw :: [line_34; line_stamp]), tail_b).
Proof.
  apply ReadDBline_reads_entry.
  - lia.
  - constructor; [|constructor; [left; reflexivity | constructor]].
    right. eexists. split; [reflexivity|].
    split; vm_compute; intuition discriminate.
  - apply plain_by_check;
      [discriminate | discriminate | discriminate | reflexivity].
  - reflexivity.
  - repeat (constructor;
            [split; [apply plain_by_check;
                     [discriminate | discriminate | discriminate
                      | reflexivity]
                    | reflexivity]|]).
    constructor.
  - right. right. exists line_b, [].
    split; [reflexivity|]. split; [|split; reflexivity].
    apply plain_by_check;
      [discriminate | discriminate | discriminate | reflexivity].
Defined.

Lemma read_dblines_entries_witness :
  let es := [(line_nw, [line_34], true); (line_b, [], false)] in
  read_dblines (fun s => s) 256 (length (entries_text es)) (entries_text es)
  = Some (map entry_line es).
Proof.
  apply read_dblines_entries.
  - lia.
  - repeat (constructor;
            [split; [apply plain_by_check;
                     [discriminate | discriminate | discriminate
                      | reflexivity]
                    | split; [reflexivity|]]|]).
    + repeat (constructor;
              [split; [apply plain_by_check;
                       [discriminate | discriminate | discriminate
                        | reflexivity]
                      | reflexivity]|]).
      constructor.
    + constructor.
    + constructor.
Defined.

End DBLinesFacts.

Module DBValuesFacts.
Import Ascii Database DBStamps DBStampsFacts DBValues DBValuesSample.

Lemma scan_digits_run (ds : list Z) :
  forall width acc count c rest,
    (length ds <= width)%nat ->
    Forall (fun d => 0 <= d <= 9) ds ->
    isdigit c = false ->
    scan_digits width acc count (map digit_char ds ++ c :: rest)
    = (fold_left (fun a d => 10 * a + d) ds acc,
       (count + length ds)%nat, c :: rest).
Proof.
  induction ds as [|d ds IH]; intros width acc count c rest Hw Hd Hc.
  - cbn [map app fold_left length]. rewrite Nat.add_0_r.
    destruct width; cbn [scan_digits]; [reflexivity|]. rewrite Hc. reflexivity.
  - inversion Hd as [|? ? Hd0 Hd']; subst.
    destruct width as [|width]; [cbn in Hw; lia|].
    cbn [map app scan_digits fold_left length].
    rewrite (digit_char_isdigit _ Hd0), (digit_char_value _ Hd0).
    rewrite IH by (try assumption; cbn in Hw; lia).
    f_equal. f_equal. lia.
Qed.

Lemma skip_space (ws s : chars) :
  Forall (fun c => isspace c = true) ws ->
  skip_while isspace (ws ++ s) = skip_while isspace s.
Proof.
  induction ws as [|x ws IH]; intros H; [reflexivity|].
  inversion H as [|? ? Hx H']; subst. cbn [app skip_while].
  rewrite Hx. exact (IH H').
Qed.

(** A number followed by a character that is no digit is read, and the
    stream stays good. *)
Lemma extract_int_number (ws : chars) (n : number) (c : ascii)
      (rest : chars) :
  Forall (fun c => isspace c = true) ws ->
  number_ok n -> isdigit c = false ->
  extract_int (ws ++ number_text n ++ c :: rest)
  = Some (number_value n, c :: rest).
Proof.
  intros Hws (Hne & Hds & Hrange) Hc.
  destruct n as [neg ds]. cbn [fst snd] in *.
  destruct ds as [|d ds]; [congruence|].
  pose proof (Forall_inv Hds) as Hd0.
  unfold extract_int. rewrite skip_space by exact Hws.
  unfold number_text, number_value in *. cbn [fst snd] in *.
  assert (Hrun : forall width,
             (length (d :: ds) <= width)%nat ->
             scan_digits width 0 O (map digit_char (d :: ds) ++ c :: rest)
             = (digits_value (d :: ds), length (d :: ds), c :: rest)).
  { intros width Hw. rewrite scan_digits_run by assumption. reflexivity. }
  destruct neg; cbn [app map skip_while].
  - change (isspace "-"%char) with false. cbv iota.
    cbn [sign_of]. rewrite Ascii.eqb_refl.
    change (digit_char d :: map digit_char ds ++ c :: rest)
      with (map digit_char (d :: ds) ++ c :: rest).
    rewrite Hrun by (rewrite length_app, length_map; cbn; lia).
    cbn [length].
    replace ((INT_MIN <=? - digits_value (d :: ds))
             && (- digits_value (d :: ds) <=? INT_MAX)) with true
      by (symmetry; apply andb_true_iff; split; apply Z.leb_le; lia).
    reflexivity.
  - rewrite (digit_char_isspace _ Hd0). cbn [sign_of].
    rewrite (digit_char_minus _ Hd0), (digit_char_plus _ Hd0).
    change (digit_char d :: map digit_char ds ++ c :: rest)
      with (map digit_char (d :: ds) ++ c :: rest).
    rewrite Hrun by (rewrite length_app, length_map; cbn; lia).
    cbn [length].
    replace ((INT_MIN <=? digits_value (d :: ds))
             && (digits_value (d :: ds) <=? INT_MAX)) with true
      by (symmetry; apply andb_true_iff; split; apply Z.leb_le; lia).
    reflexivity.
Qed.

Lemma extract_int_no_number (s : chars) : no_number s -> extract_int s = None.
Proof.
  unfold no_number, extract_int.
  destruct (skip_while isspace s) as [|c s']; [reflexivity|].
  intros (Hd & Hm & Hp). cbn [sign_of].
  destruct (Ascii.eqb_spec c "-"%char); [congruence|].
  destruct (Ascii.eqb_spec c "+"%char); [congruence|].
  cbn [length scan_digits]. rewrite Hd. reflexivity.
Qed.

Lemma extract_all_numbers (ns : list number) :
  forall fuel ws tail,
    (length ns < fuel)%nat ->
    Forall (fun c => isspace c = true) ws ->
    Forall number_ok ns ->
    no_number tail ->
    extract_all fuel (ws ++ numbers_stream ns tail) = map number_value ns.
Proof.
  induction ns as [|n ns IH]; intros fuel ws tail Hf Hws Hok Ht;
    (destruct fuel as [|fuel]; [cbn in Hf; lia|]); cbn [extract_all].
  - cbn [numbers_stream map]. rewrite extract_int_no_number; [reflexivity|].
    unfold no_number in *. rewrite skip_space by exact Hws. exact Ht.
  - inversion Hok as [|? ? Hn Hok']; subst. cbn [numbers_stream map].
    rewrite extract_int_number by (try assumption; reflexivity).
    change (" "%char :: numbers_stream ns tail)
      with ([" "%char] ++ numbers_stream ns tail).
    rewrite IH; try assumption; [reflexivity | cbn in Hf; lia|].
    constructor; [reflexivity | constructor].
Qed.

Lemma numbers_text_stream (ns : list number) (tail : chars) :
  ns <> [] ->
  numbers_text ns ++ " "%char :: tail = numbers_stream ns tail.
Proof.
  induction ns as [|n ns IH]; intros H; [congruence|].
  destruct ns as [|n' ns].
  - reflexivity.
  - change (numbers_text (n :: n' :: ns))
      with (number_text n ++ " "%char :: numbers_text (n' :: ns)).
    cbn [numbers_stream]. rewrite <- app_assoc. cbn [app].
    rewrite IH by discriminate. reflexivity.
Qed.

Lemma numbers_stream_length (ns : list number) (tail : chars) :
  Forall number_ok ns ->
  (2 * length ns + length tail <= length (numbers_stream ns tail))%nat.
Proof.
  induction ns as [|n ns IH]; intros H; cbn [numbers_stream length]; [lia|].
  inversion H as [|? ? (Hne & _) H']; subst. specialize (IH H').
  rewrite length_app. cbn [length]. unfold number_text.
  rewrite length_app, length_map. destruct (snd n); [congruence|].
  cbn [length]. lia.
Qed.

(** X23: [LoadDBarray] reads the numbers of the value found, written in
    decimal with blanks between them, in their order.  It stops without an
    error at the first entry that is no number: the entries from there on
    are dropped and 0 is returned all the same.  When the key is not found
    the vector is left as it was. *)
Theorem LoadDBarray_reads_numbers (NDEBUG : bool)
        (Substitute : chars -> list chars)
        (dblines : list chars) (date : TDatime) (key : chars)
        (values : list Z) :
  (forall ns,
      Forall number_ok ns ->
      LoadDBvalue NDEBUG Substitute dblines date key []
      = Some (0, numbers_text ns) ->
      LoadDBarray NDEBUG Substitute dblines date key values
      = Some (0, map number_value ns)) /\
  (forall ns c junk,
      Forall number_ok ns -> ns <> [] ->
      isdigit c = false -> isspace c = false ->
      c <> "-"%char -> c <> "+"%char ->
      LoadDBvalue NDEBUG Substitute dblines date key []
      = Some (0, numbers_text ns ++ " "%char :: c :: junk) ->
      LoadDBarray NDEBUG Substitute dblines date key values
      = Some (0, map number_value ns)) /\
  (forall err text,
      LoadDBvalue NDEBUG Substitute dblines date key [] = Some (err, text) ->
      err <> 0 ->
      LoadDBarray NDEBUG Substitute dblines date key values
      = Some (err, values)).
Proof.
  split; [|split].
  - intros ns Hok E. unfold LoadDBarray. rewrite E. cbn [Z.eqb negb].
    do 2 f_equal. destruct ns as [|n ns].
    + reflexivity.
    + rewrite (numbers_text_stream (n :: ns) []) by discriminate.
      apply (extract_all_numbers (n :: ns) _ []);
        [|constructor | exact Hok | exact I].
      pose proof (numbers_stream_length (n :: ns) [] Hok) as L.
      cbn [length] in *. lia.
  - intros ns c junk Hok Hne Hd Hs Hm Hp E.
    unfold LoadDBarray. rewrite E. cbn [Z.eqb negb]. do 2 f_equal.
    rewrite <- app_assoc. cbn [app].
    rewrite (numbers_text_stream ns) by exact Hne.
    apply (extract_all_numbers ns _ []); [|constructor | exact Hok|].
    + pose proof (numbers_stream_length ns (c :: junk ++ [" "%char]) Hok) as L.
      destruct ns; [congruence|]. cbn [length] in *. lia.
    + unfold no_number. cbn [skip_while]. rewrite Hs. auto.
  - intros err text E Herr. unfold LoadDBarray. rewrite E.
    replace (err =? 0) with false by (symmetry; apply Z.eqb_neq; exact Herr).
    reflexivity.
Qed.

Lemma all_some_nth {A : Type} (l : list A) (n : nat) :
  forall k,
    (k + n <= length l)%nat ->
    all_some (map (fun i => nth_error l i) (seq k n))
    = Some (firstn n (skipn k l)).
Proof.
  induction n as [|n IH]; intros k Hk; [reflexivity|].
  cbn [seq map all_some].
  destruct (nth_error l k) as [x|] eqn:E.
  2:{ apply nth_error_None in E. lia. }
  rewrite IH by lia.
  assert (Hs : skipn k l = x :: skipn (S k) l).
  { clear IH Hk. revert k E. induction l as [|y l IHl]; intros k E.
    - destruct k; discriminate.
    - destruct k as [|k]; cbn in *.
      + injection E as ->. reflexivity.
      + apply IHl. exact E. }
  rewrite Hs. reflexivity.
Qed.

Lemma map_seq_shift {B : Type} (f : nat -> B) (k n : nat) :
  forall a,
    map (fun i => f (i + k)%nat) (seq a n) = map f (seq (a + k) n).
Proof.
  induction n as [|n IH]; intros a; [reflexivity|].
  cbn [seq map]. rewrite IH. reflexivity.
Qed.

Lemma matrix_row_chunk {A : Type} (l : list A) (ncols irow : nat) :
  (irow * ncols + ncols <= length l)%nat ->
  matrix_row l ncols irow = Some (firstn ncols (skipn (irow * ncols) l)).
Proof.
  intros H. unfold matrix_row.
  rewrite (map_seq_shift (nth_error l) (irow * ncols) ncols 0).
  apply all_some_nth. lia.
Qed.

Lemma matrix_rows_chunks {A : Type} (l : list A) (ncols : nat) (n : nat) :
  forall a,
    ((a + n) * ncols <= length l)%nat ->
    all_some (map (matrix_row l ncols) (seq a n))
    = Some (map (fun r => firstn ncols (skipn (r * ncols) l)) (seq a n)).
Proof.
  induction n as [|n IH]; intros a H; [reflexivity|].
  cbn [seq map all_some].
  rewrite matrix_row_chunk by nia.
  rewrite IH by nia. reflexivity.
Qed.

Lemma firstn_plus {A : Type} (c m : nat) :
  forall t : list A, firstn (c + m) t = firstn c t ++ firstn m (skipn c t).
Proof.
  induction c as [|c IH]; intros t; [reflexivity|].
  destruct t as [|x t]; cbn [Nat.add firstn skipn app].
  - rewrite firstn_nil. reflexivity.
  - rewrite IH. reflexivity.
Qed.

Lemma concat_chunks {A : Type} (l : list A) (ncols : nat) (n : nat) :
  forall a,
    concat (map (fun r => firstn ncols (skipn (r * ncols) l)) (seq a n))
    = firstn (n * ncols) (skipn (a * ncols) l).
Proof.
  induction n as [|n IH]; intros a; [reflexivity|].
  cbn [seq map concat]. rewrite IH.
  replace (S n * ncols)%nat with (ncols + n * ncols)%nat by lia.
  rewrite firstn_plus, skipn_skipn.
  replace (ncols + a * ncols)%nat with (S a * ncols)%nat by lia.
  reflexivity.
Qed.

(** X24: [LoadDBmatrix] cuts the numbers that [LoadDBarray] reads into
    rows of [ncols] each: the rows put one after the other are the array
    again.  When the number of elements is no multiple of [ncols] it
    returns -129 and leaves the matrix as it was; with [ncols] zero the
    remainder it starts with is a division by zero. *)
Theorem LoadDBmatrix_rows (NDEBUG : bool) (Substitute : chars -> list chars)
        (dblines : list chars) (date : TDatime) (key : chars)
        (values : list (list Z)) (ncols : Z) (arr : list Z) :
  LoadDBarray NDEBUG Substitute dblines date key [] = Some (0, arr) ->
  (0 < ncols -> Z.of_nat (length arr) mod ncols = 0 ->
   exists rows,
     LoadDBmatrix NDEBUG Substitute dblines date key values ncols
     = Some (0, rows) /\
     concat rows = arr /\
     Forall (fun row => Z.of_nat (length row) = ncols) rows /\
     Z.of_nat (length rows) * ncols = Z.of_nat (length arr)) /\
  (0 < ncols -> Z.of_nat (length arr) mod ncols <> 0 ->
   LoadDBmatrix NDEBUG Substitute dblines date key values ncols
   = Some (-129, values)) /\
  (ncols = 0 ->
   LoadDBmatrix NDEBUG Substitute dblines date key values ncols = None).
Proof.
  intros E. unfold LoadDBmatrix. rewrite E. cbn [Z.eqb negb].
  split; [|split].
  - intros Hc Hmod.
    replace (ncols =? 0) with false by (symmetry; apply Z.eqb_neq; lia).
    rewrite Hmod. cbn [Z.eqb negb].
    set (c := Z.to_nat ncols). set (n := Z.to_nat (Z.of_nat (length arr) / ncols)).
    assert (Hn : (n * c = length arr)%nat).
    { subst n c. apply Nat2Z.inj. rewrite Nat2Z.inj_mul, !Z2Nat.id; try lia.
      - apply Z.div_exact in Hmod; lia.
      - apply Z.div_pos; lia. }
    unfold matrix_rows.
    rewrite (matrix_rows_chunks arr c n 0) by (cbn; lia).
    eexists. split; [reflexivity|].
    split; [|split].
    + rewrite (concat_chunks arr c n 0).
      cbn [Nat.mul skipn]. rewrite Hn. apply firstn_all.
    + apply Forall_forall. intros row Hin.
      apply in_map_iff in Hin. destruct Hin as (r & <- & Hr).
      apply in_seq in Hr.
      rewrite length_firstn, length_skipn.
      replace (Nat.min c (length arr - r * c)) with c by nia.
      subst c. lia.
    + rewrite length_map, length_seq.
      rewrite <- Hn, Nat2Z.inj_mul. subst c. lia.
  - intros Hc Hmod.
    replace (ncols =? 0) with false by (symmetry; apply Z.eqb_neq; lia).
    replace (Z.of_nat (length arr) mod ncols =? 0) with false
      by (symmetry; apply Z.eqb_neq; exact Hmod).
    reflexivity.
  - intros ->. reflexivity.
Qed.

Lemma LoadDBmatrix_rows_witness :
  LoadDBarray false no_substitution matrix_lines epoch key_m []
  = Some (0, [1; 2; 3; 4; 5; 6])
  /\
  exists rows,
    LoadDBmatrix false no_substitution matrix_lines epoch key_m [] 3
    = Some (0, rows) /\
    concat rows = [1; 2; 3; 4; 5; 6] /\
    Forall (fun row => Z.of_nat (length row) = 3) rows /\
    Z.of_nat (length rows) * 3 = Z.of_nat (length [1; 2; 3; 4; 5; 6]).
Proof.
  assert (H : LoadDBarray false no_substitution matrix_lines epoch key_m []
              = Some (0, [1; 2; 3; 4; 5; 6])) by (vm_compute; reflexivity).
  split; [exact H|].
  apply (proj1 (LoadDBmatrix_rows false no_substitution matrix_lines epoch
                                  key_m [] 3 [1; 2; 3; 4; 5; 6] H)).
  - lia.
  - reflexivity.
Defined.

End DBValuesFacts.

Module DBRequestsFacts.
Import Ascii Database DBText DBTextFacts DBRequests DBRequestsSample.

Lemma count_absent (c : ascii) (s : chars) : ~ In c s -> count c s = O.
Proof.
  unfold count. induction s as [|x s IH]; intros H; [reflexivity|].
  cbn [filter]. destruct (Ascii.eqb_spec c x) as [->|_].
  - exfalso. apply H. left. reflexivity.
  - apply IH. intros G. apply H. right. exact G.
Qed.

Lemma dotted_snoc (comps : list chars) (c : chars) :
  dotted (comps ++ [c]) = dotted comps ++ c ++ [dot].
Proof.
  unfold dotted. rewrite map_app, concat_app. cbn [map concat].
  rewrite app_nil_r. reflexivity.
Qed.

Lemma count_dotted (comps : list chars) :
  Forall component comps -> count dot (dotted comps) = length comps.
Proof.
  induction comps as [|c comps IH]; intros H; [reflexivity|].
  inversion H as [|? ? [_ Hc] H']; subst.
  unfold dotted in *. cbn [map concat length].
  rewrite !count_app, (count_absent dot c Hc), IH by exact H'.
  reflexivity.
Qed.

Lemma dotted_last_dot (comps : list chars) :
  comps <> [] ->
  exists d, dotted comps = d ++ [dot].
Proof.
  intros H. destruct (exists_last H) as (l & c & ->).
  rewrite dotted_snoc. exists (dotted l ++ c). rewrite <- app_assoc.
  reflexivity.
Qed.

Lemma ChopPrefix_dotted (comps : list chars) (c : chars) :
  Forall component comps -> component c ->
  Z.of_nat (length comps) <= kMaxInt ->
  ChopPrefix (dotted (comps ++ [c]))
  = (Z.of_nat (length comps), dotted comps).
Proof.
  intros Hcomps [Hc1 Hc2] Hmax.
  rewrite dotted_snoc. set (D := dotted comps).
  unfold ChopPrefix.
  assert (Hlen : length (D ++ c ++ [dot]) = (length D + length c + 1)%nat)
    by (rewrite !length_app; cbn; lia).
  assert (Hc : (1 <= length c)%nat) by (destruct c; [congruence | cbn; lia]).
  rewrite Hlen.
  replace (2 <=? length D + length c + 1)%nat with true
    by (symmetry; apply Nat.leb_le; lia).
  assert (Hin_c : forall j, (length D <= j < length D + length c)%nat ->
                            nth_error (D ++ c ++ [dot]) j <> Some dot).
  { intros j Hj E. rewrite nth_error_app2 in E by lia.
    rewrite nth_error_app1 in E by lia.
    apply nth_error_In in E. exact (Hc2 E). }
  pose proof (rfind_spec dot (D ++ c ++ [dot]) (length D + length c + 1 - 2))
    as R.
  assert (Hcases : comps = [] \/ comps <> [])
    by (destruct comps; [left; reflexivity | right; discriminate]).
  destruct Hcases as [Hnil|Hne].
  - assert (HD0 : D = []) by (unfold D; rewrite Hnil; reflexivity).
    rewrite HD0 in *. rewrite Hnil. cbn [length app Nat.add] in *.
    destruct (rfind dot (c ++ [dot]) (length c + 1 - 2)) as [i|].
    + exfalso. destruct R as (R1 & _ & R3 & _).
      apply (Hin_c i); [lia | exact R3].
    + reflexivity.
  - destruct (dotted_last_dot comps Hne) as (d & Hd). fold D in Hd.
    assert (HD : length D = (length d + 1)%nat)
      by (rewrite Hd, length_app; cbn; lia).
    assert (Hdot : nth_error (D ++ c ++ [dot]) (length d) = Some dot).
    { rewrite nth_error_app1 by lia. rewrite Hd.
      rewrite nth_error_app2 by lia. rewrite Nat.sub_diag. reflexivity. }
    destruct (rfind dot (D ++ c ++ [dot]) (length D + length c + 1 - 2))
      as [i|].
    + destruct R as (R1 & R2 & R3 & R4).
      assert (Hi : i = length d).
      { destruct (Nat.lt_trichotomy i (length d)) as [H|[H|H]].
        - exfalso. apply (R4 (length d)); [lia | exact Hdot].
        - exact H.
        - exfalso. apply (Hin_c i); [lia | exact R3]. }
      subst i.
      replace (firstn (length d + 1) (D ++ c ++ [dot])) with D.
      2:{ rewrite firstn_app. rewrite <- HD.
          rewrite firstn_all, Nat.sub_diag, firstn_O, app_nil_r.
          reflexivity. }
      assert (HcD : count dot D = length comps)
        by (unfold D; apply count_dotted; exact Hcomps).
      rewrite HcD.
      replace (Z.of_nat (length comps) <=? kMaxInt) with true
        by (symmetry; apply Z.leb_le; exact Hmax).
      reflexivity.
    + exfalso. apply (R (length d)); [lia | exact Hdot].
Qed.

Section Search.

Variables A store : Type.
Variable load : chars -> A -> store -> Z * store.

Lemma try_keys_set_search (keys : list chars) (v : Z) (item : DBRequest A)
      (w : world store) :
  try_keys load keys (set_search v item) w = try_keys load keys item w.
Proof.
  revert w. induction keys as [|key keys IH]; intros w; [reflexivity|].
  cbn [try_keys set_search what optional].
  destruct (load key (what item) (fst w)) as [ret vars].
  destruct (ret =? 0); [reflexivity|].
  destruct (0 <? ret); [|reflexivity].
  destruct keys; [reflexivity | apply IH].
Qed.

Lemma try_keys_positive (keys : list chars) (item : DBRequest A) :
  forall w, 0 < fst (try_keys load keys item w) ->
            fst (try_keys load keys item w) = 1.
Proof.
  induction keys as [|key keys IH]; intros w; cbn [try_keys].
  - cbn. lia.
  - destruct (load key (what item) (fst w)) as [ret vars].
    destruct (Z.eqb_spec ret 0); [cbn; lia|].
    destruct (Z.ltb_spec 0 ret); [|cbn; lia].
    destruct keys as [|key' keys'].
    + destruct (optional item); cbn; lia.
    + apply IH.
Qed.

Lemma run_single (keys : DBRequest A -> list chars) (item : DBRequest A)
      (w : world store) :
  has_var item = true ->
  run_requests load keys [item] 0 w = try_keys load (keys item) item w.
Proof.
  intros Hv. cbn [run_requests]. rewrite Hv. cbn [negb].
  pose proof (try_keys_positive (keys item) item w) as P.
  destruct (try_keys load (keys item) item w) as [ret w']. cbn [fst] in P.
  destruct (Z.eqb_spec ret 0) as [->|Hne]; [reflexivity|].
  destruct (Z.ltb_spec 0 ret) as [Hpos|_]; [|reflexivity].
  rewrite (P Hpos). destruct (length (keys item) <=? 1)%nat; reflexivity.
Qed.

Lemma keys_down_length (comps : list chars) (nm : chars) (lo n : nat) :
  (1 <= length (keys_down comps nm lo n))%nat.
Proof. destruct n; cbn; lia. Qed.

Lemma dotted_length_mono (comps : list chars) (j : nat) :
  Forall component comps -> (S j <= length comps)%nat ->
  (length (dotted (firstn j comps)) + 2
   <= length (dotted (firstn (S j) comps)))%nat.
Proof.
  intros Hc Hj.
  destruct (nth_error comps j) as [c|] eqn:E;
    [|apply nth_error_None in E; lia].
  assert (Hin : component c).
  { rewrite Forall_forall in Hc. apply Hc. eapply nth_error_In. exact E. }
  replace (S j) with (j + 1)%nat by lia.
  assert (F : firstn (j + 1) comps = firstn j comps ++ [c]).
  { clear Hc Hj Hin. revert j E.
    induction comps as [|x comps IH]; intros j E.
    - destruct j; discriminate.
    - destruct j as [|j]; cbn in *.
      + injection E as ->. reflexivity.
      + rewrite (IH j E). reflexivity. }
  rewrite F, dotted_snoc, !length_app. cbn [length].
  destruct Hin as [Hne _]. destruct c; [congruence|]. cbn [length]. lia.
Qed.

Lemma level_up_levels (comps : list chars) (j : nat) (search : Z)
      (item : DBRequest A) :
  Forall component comps -> (S j <= length comps)%nat ->
  Z.of_nat (length comps) <= kMaxInt ->
  let e := effective item search in
  level_up (dotted (firstn (S j) comps)) search item
  = if negb (e =? 0) && ((e <? 0) || (e <=? Z.of_nat (S j)))
    then Some (dotted (firstn j comps), if e <? 0 then e + 1 else e)
    else None.
Proof.
  intros Hc Hj Hmax e.
  destruct (nth_error comps j) as [c|] eqn:E;
    [|apply nth_error_None in E; lia].
  assert (Hin : component c).
  { rewrite Forall_forall in Hc. apply Hc. eapply nth_error_In. exact E. }
  assert (F : firstn (S j) comps = firstn j comps ++ [c]).
  { clear Hc Hj Hin Hmax. revert j E.
    induction comps as [|x comps IH]; intros j E.
    - destruct j; discriminate.
    - destruct j as [|j]; cbn in *.
      + injection E as ->. reflexivity.
      + rewrite (IH j E). reflexivity. }
  assert (Hf : Forall component (firstn j comps)).
  { rewrite Forall_forall in *. intros x Hx. apply Hc.
    rewrite <- (firstn_skipn j comps). apply in_or_app. left. exact Hx. }
  assert (Lj : length (firstn j comps) = j) by (rewrite length_firstn; lia).
  unfold level_up. fold (effective item search). fold e.
  rewrite F, ChopPrefix_dotted by (try assumption; rewrite Lj; lia).
  rewrite Lj.
  replace (length (dotted (firstn j comps ++ [c])) =? 0)%nat with false.
  2:{ symmetry. apply Nat.eqb_neq. rewrite dotted_snoc, !length_app.
      cbn [length]. lia. }
  cbn [negb]. rewrite andb_true_r.
  replace (Z.of_nat j + 1) with (Z.of_nat (S j)) by lia.
  destruct (negb (e =? 0)); reflexivity.
Qed.

Lemma level_up_top (search : Z) (item : DBRequest A) :
  level_up [] search item = None.
Proof.
  unfold level_up. cbn [length Nat.eqb negb]. rewrite andb_false_r.
  reflexivity.
Qed.

Lemma lowest_level_step (j : nat) (e : Z) :
  if negb (e =? 0) && ((e <? 0) || (e <=? Z.of_nat (S j)))
  then lowest_level (S j) e
       = lowest_level j (if e <? 0 then e + 1 else e) /\
       (lowest_level (S j) e <= j)%nat
  else lowest_level (S j) e = S j.
Proof.
  unfold lowest_level.
  destruct (Z.eqb_spec e 0) as [->|He]; cbn [negb andb]; [reflexivity|].
  destruct (Z.ltb_spec e 0) as [Hneg|Hpos]; cbn [orb].
  - destruct (Z.eqb_spec (e + 1) 0) as [E|E].
    + split; lia.
    + destruct (Z.ltb_spec (e + 1) 0); [|lia]. split; lia.
  - destruct (Z.leb_spec e (Z.of_nat (S j))) as [Hle|Hgt].
    + destruct (Z.eqb_spec e 0); [lia|].
      destruct (Z.ltb_spec e 0); [lia|]. split; lia.
    + lia.
Qed.

(** The loop under a prefix of [j] levels does what [run_requests] says
    with the keys from [j] levels down. *)
Lemma load_items_levels (comps : list chars) :
  Forall component comps -> Z.of_nat (length comps) <= kMaxInt ->
  forall j depth search req index w,
    (j <= length comps)%nat ->
    (length (dotted (firstn j comps)) <= depth)%nat ->
    load_items load (LoadDatabase_depth load depth)
      (dotted (firstn j comps)) search req index w
    = Some (run_requests load
              (fun item => keys_down comps (name item)
                             (lowest_level j (effective item search)) j)
              req index w).
Proof.
  intros Hc Hmax.
  induction j as [|j IHj]; intros depth search req index w Hj Hd;
    revert index w; induction req as [|item req IHreq]; intros index w;
    try reflexivity; cbn [load_items run_requests];
    (destruct (has_var item) eqn:Hv; cbn [negb]; [|apply IHreq]);
    cbn [keys_down try_keys];
    destruct (load _ (what item) (fst w)) as [ret vars];
    destruct (ret =? 0) eqn:Hz;
    try (apply Z.eqb_eq in Hz; subst ret; cbn [Z.eqb]; apply IHreq);
    destruct (0 <? ret) eqn:Hp;
    try (rewrite Hz, Hp; cbn [andb]; reflexivity).
  - (* no level above *)
    cbn [firstn dotted map concat]. rewrite level_up_top.
    destruct (optional item).
    + cbn [Z.eqb]. apply IHreq.
    + cbn [Z.eqb Z.ltb Z.compare length Nat.leb andb]. reflexivity.
  - rewrite level_up_levels by assumption. cbv zeta.
    pose proof (lowest_level_step j (effective item search)) as L.
    destruct (negb (effective item search =? 0)
              && ((effective item search <? 0)
                  || (effective item search <=? Z.of_nat (S j)))).
    + destruct L as [L1 L2].
      set (e' := if effective item search <? 0
                 then effective item search + 1
                 else effective item search) in *.
      rewrite L1 in *.
      replace (Nat.leb (lowest_level j e') j) with true
        by (symmetry; apply Nat.leb_le; lia).
      pose proof (dotted_length_mono comps j Hc Hj) as M.
      destruct depth as [|depth]; [lia|].
      cbn [LoadDatabase_depth].
      rewrite IHj by lia.
      rewrite run_single by exact Hv.
      cbn [set_search name].
      replace (effective (set_search 0 item) e') with e' by reflexivity.
      rewrite try_keys_set_search.
      pose proof (keys_down_length comps (name item) (lowest_level j e') j)
        as K.
      set (keys' := keys_down comps (name item) (lowest_level j e') j) in *.
      destruct keys' as [|k0 keys0] eqn:Ek; [cbn in K; lia|].
      rewrite <- Ek.
      destruct (try_keys load keys' item (vars, snd w)) as [r' w''].
      destruct (Z.eqb_spec r' 0) as [->|Hr']; [apply IHreq|].
      rewrite Ek. cbn [length Nat.leb]. rewrite andb_false_r. reflexivity.
    + rewrite L.
      replace (S j <=? j)%nat with false by (symmetry; apply Nat.leb_gt; lia).
      destruct (optional item).
      * cbn [Z.eqb]. apply IHreq.
      * cbn [Z.eqb Z.ltb Z.compare length Nat.leb andb]. reflexivity.
Qed.

Lemma run_requests_app (keys : DBRequest A -> list chars)
      (pre rest : list (DBRequest A)) :
  forall index w,
    0 <= index ->
    run_requests load keys (pre ++ rest) index w
    = let (r, w1) := run_requests load keys pre index w in
      if r =? 0
      then run_requests load keys rest (index + Z.of_nat (length pre)) w1
      else (r, w1).
Proof.
  induction pre as [|item pre IH]; intros index w Hi.
  - cbn [app run_requests length Z.of_nat Z.eqb]. rewrite Z.add_0_r.
    reflexivity.
  - cbn [app run_requests length]. rewrite Nat2Z.inj_succ.
    replace (index + Z.succ (Z.of_nat (length pre)))
      with (index + 1 + Z.of_nat (length pre)) by lia.
    destruct (negb (has_var item)); [apply IH; lia|].
    destruct (try_keys load (keys item) item w) as [ret w'].
    destruct (Z.eqb_spec ret 0) as [->|Hret]; [apply IH; lia|].
    destruct ((0 <? ret) && (length (keys item) <=? 1)%nat) eqn:E.
    + replace (1 + index =? 0) with false
        by (symmetry; apply Z.eqb_neq; lia).
      reflexivity.
    + replace (ret =? 0) with false by (symmetry; apply Z.eqb_neq; lia).
      reflexivity.
Qed.

Lemma try_keys_all_missing (keys : list chars) (item : DBRequest A)
      (w : world store) :
  keys <> [] -> optional item = false ->
  (forall key st, In key keys ->
                  exists r, 0 < r /\ load key (what item) st = (r, st)) ->
  try_keys load keys item w = (1, report (ErrMissing (last keys [])) w).
Proof.
  revert w. induction keys as [|key keys IH]; intros w Hne Hopt Hmiss;
    [congruence|].
  cbn [try_keys].
  destruct (Hmiss key (fst w) ltac:(left; reflexivity)) as (r & Hr & E).
  rewrite E.
  replace (r =? 0) with false by (symmetry; apply Z.eqb_neq; lia).
  replace (0 <? r) with true by (symmetry; apply Z.ltb_lt; lia).
  replace (fst w, snd w) with w by (destruct w; reflexivity).
  destruct keys as [|key' keys'].
  - rewrite Hopt. reflexivity.
  - rewrite IH; [reflexivity | discriminate | exact Hopt|].
    intros k st Hk. apply Hmiss. right. exact Hk.
Qed.

End Search.

(** X25: [LoadDatabase] under a prefix of [n] levels handles the entries in
    their order and reads each under its key at [n] levels and then, while
    the key is not found, one level up after the other, down to the level
    the search level allows: with a positive search level [s] down to
    [s - 1] levels, with a negative one at most that many levels up, with
    0 not at all.  It stops at the first entry that is not read.  The call
    always returns. *)
Theorem LoadDatabase_searches_up (A store : Type)
        (load : chars -> A -> store -> Z * store)
        (req : list (DBRequest A)) (components : list chars) (search : Z)
        (w : world store) :
  Forall component components ->
  Z.of_nat (length components) <= kMaxInt ->
  LoadDatabase load req (dotted components) search w
  = Some (run_requests load (keys_of components search) req 0 w).
Proof.
  intros Hc Hmax. unfold LoadDatabase. cbn [LoadDatabase_depth].
  pose proof (load_items_levels A store load components Hc Hmax
                (length components) (length (dotted components))
                search req 0 w (Nat.le_refl _)) as H.
  rewrite firstn_all in H. apply H. lia.
Qed.

Lemma LoadDatabase_searches_up_witness :
  LoadDatabase load_top [request_nw] (dotted prefix_u1) 1 (O, [])
  = Some (run_requests load_top (keys_of prefix_u1 1) [request_nw] 0 (O, []))
  /\ run_requests load_top (keys_of prefix_u1 1) [request_nw] 0 (O, [])
     = (0, (4%nat, [])).
Proof.
  split; [|vm_compute; reflexivity].
  apply LoadDatabase_searches_up.
  - repeat (constructor; [split; [discriminate|vm_compute; intuition discriminate]|]).
    constructor.
  - vm_compute. discriminate.
Defined.

(** X26: the value returned for a required key that is found at no level.
    When the search does not leave the level of the prefix it is the index
    of the entry plus one; when the search goes up at least one level it is
    1 whatever the index, the value the nested call returns for the only
    entry it is given.  The message names the key at the last level
    tried. *)
Theorem LoadDatabase_missing_key_code (A store : Type)
        (load : chars -> A -> store -> Z * store)
        (pre post : list (DBRequest A)) (item : DBRequest A)
        (components : list chars) (search : Z) (w w1 : world store) :
  Forall component components ->
  Z.of_nat (length components) <= kMaxInt ->
  has_var item = true -> optional item = false ->
  LoadDatabase load pre (dotted components) search w = Some (0, w1) ->
  (forall key st,
      In key (keys_of components search item) ->
      exists r, 0 < r /\ load key (what item) st = (r, st)) ->
  LoadDatabase load (pre ++ item :: post) (dotted components) search w
  = Some (if (length (keys_of components search item) <=? 1)%nat
          then 1 + Z.of_nat (length pre) else 1,
          report (ErrMissing (last (keys_of components search item) [])) w1).
Proof.
  intros Hc Hmax Hv Hopt Hpre Hmiss.
  assert (Hrun : forall req,
             LoadDatabase load req (dotted components) search w
             = Some (run_requests load (keys_of components search) req 0 w)).
  { intros req. unfold LoadDatabase. cbn [LoadDatabase_depth].
    pose proof (load_items_levels A store load components Hc Hmax
                  (length components) (length (dotted components))
                  search req 0 w (Nat.le_refl _)) as H.
    rewrite firstn_all in H. apply H. lia. }
  rewrite Hrun in *.
  injection Hpre as Hpre.
  rewrite run_requests_app by lia. rewrite Hpre. cbn [Z.eqb].
  cbn [run_requests]. rewrite Hv. cbn [negb].
  rewrite try_keys_all_missing; try assumption.
  - cbn [Z.eqb Z.ltb Z.compare andb]. cbn [Z.add].
    destruct (length (keys_of components search item) <=? 1)%nat; reflexivity.
  - unfold keys_of. intros E.
    pose proof (keys_down_length components (name item)
                  (lowest_level (length components) (effective item search))
                  (length components)) as K.
    rewrite E in K. cbn in K. lia.
Qed.

Lemma LoadDatabase_missing_key_code_witness :
  LoadDatabase load_a ([request_a] ++ request_nw :: []) (dotted prefix_u1) 1
               (tt, [])
  = Some (1, (tt, [ErrMissing (name request_nw)])) /\
  LoadDatabase load_a ([request_a] ++ request_nw :: []) (dotted prefix_u1) 0
               (tt, [])
  = Some (2, (tt, [ErrMissing (dotted prefix_u1 ++ name request_nw)])).
Proof.
  assert (Hc : Forall component prefix_u1).
  { repeat (constructor;
            [split; [discriminate|vm_compute; intuition discriminate]|]).
    constructor. }
  assert (Hmax : Z.of_nat (length prefix_u1) <= kMaxInt)
    by (vm_compute; discriminate).
  split.
  - apply (LoadDatabase_missing_key_code unit unit load_a [request_a] []
             request_nw prefix_u1 1 (tt, []) (tt, []) Hc Hmax).
    + reflexivity.
    + reflexivity.
    + vm_compute. reflexivity.
    + intros key [] Hin. exists 1. split; [lia|].
      vm_compute in Hin.
      repeat (destruct Hin as [<-|Hin]; [reflexivity|]). destruct Hin.
  - apply (LoadDatabase_missing_key_code unit unit load_a [request_a] []
             request_nw prefix_u1 0 (tt, []) (tt, []) Hc Hmax).
    + reflexivity.
    + reflexivity.
    + vm_compute. reflexivity.
    + intros key [] Hin. exists 1. split; [lia|].
      vm_compute in Hin.
      repeat (destruct Hin as [<-|Hin]; [reflexivity|]). destruct Hin.
Defined.

End DBRequestsFacts.

Module DBFilesFacts.
Import Ascii Database DBText DBFiles DBFilesSample.

Lemma scan_digits_all (s : chars) :
  forall width acc count,
    forallb isdigit s = true -> (length s <= width)%nat ->
    fst (fst (scan_digits width acc count s)) = digits_val acc s.
Proof.
  induction s as [|x s IH]; intros width acc count Hd Hw.
  - destruct width; reflexivity.
  - cbn [forallb] in Hd. apply andb_true_iff in Hd. destruct Hd as [Hx Hs].
    destruct width as [|width]; [cbn in Hw; lia|].
    cbn [scan_digits]. rewrite Hx. cbn [digits_val fold_left].
    apply IH; [exact Hs | cbn in Hw; lia].
Qed.

Lemma atoi_digits_val (s : chars) :
  forallb isdigit s = true -> atoi_digits s = digits_val 0 s.
Proof. intros H. unfold atoi_digits. apply scan_digits_all; [exact H | lia]. Qed.

Lemma digits_val_acc (s : chars) :
  forall acc,
    digits_val acc s = acc * 10 ^ Z.of_nat (length s) + digits_val 0 s.
Proof.
  induction s as [|x s IH]; intros acc.
  - cbn. lia.
  - cbn [digits_val fold_left length]. fold (digits_val (10 * acc + digit_value x) s).
    fold (digits_val (10 * 0 + digit_value x) s).
    rewrite (IH (10 * acc + digit_value x)), (IH (10 * 0 + digit_value x)).
    rewrite Nat2Z.inj_succ, Z.pow_succ_r by lia. lia.
Qed.

Lemma digit_value_range (c : ascii) :
  isdigit c = true -> 0 <= digit_value c <= 9.
Proof.
  unfold isdigit, digit_value. intros H. apply andb_true_iff in H.
  destruct H as [H1 H2]. apply N.leb_le in H1, H2. lia.
Qed.

Lemma digits_val_range (s : chars) :
  forallb isdigit s = true ->
  0 <= digits_val 0 s < 10 ^ Z.of_nat (length s).
Proof.
  induction s as [|x s IH]; intros H.
  - cbn. lia.
  - cbn [forallb] in H. apply andb_true_iff in H. destruct H as [Hx Hs].
    specialize (IH Hs). pose proof (digit_value_range x Hx) as R.
    cbn [digits_val fold_left length]. fold (digits_val (10 * 0 + digit_value x) s).
    rewrite digits_val_acc.
    rewrite Nat2Z.inj_succ, Z.pow_succ_r by lia. nia.
Qed.

(** Among strings of digits of one length, the order of the strings is the
    order of their values. *)
Lemma string_ltb_digits (a : chars) :
  forall b,
    length a = length b ->
    forallb isdigit a = true -> forallb isdigit b = true ->
    string_ltb a b = (digits_val 0 a <? digits_val 0 b).
Proof.
  induction a as [|x a IH]; intros b Hl Ha Hb.
  - destruct b; [reflexivity | discriminate].
  - destruct b as [|y b]; [discriminate|].
    cbn [forallb] in Ha, Hb.
    apply andb_true_iff in Ha, Hb. destruct Ha as [Hx Ha], Hb as [Hy Hb].
    injection Hl as Hl.
    pose proof (digits_val_range a Ha) as Ra.
    pose proof (digits_val_range b Hb) as Rb.
    rewrite Hl in Ra.
    cbn [string_ltb digits_val fold_left].
    fold (digits_val (10 * 0 + digit_value x) a).
    fold (digits_val (10 * 0 + digit_value y) b).
    rewrite (digits_val_acc a), (digits_val_acc b), Hl.
    assert (Hxy : forall u v : ascii,
               (N_of_ascii u <? N_of_ascii v)%N
               = (digit_value u <? digit_value v)).
    { intros u v. unfold digit_value.
      destruct (N.ltb_spec (N_of_ascii u) (N_of_ascii v));
        symmetry; [apply Z.ltb_lt | apply Z.ltb_ge]; lia. }
    rewrite !Hxy.
    set (p := 10 ^ Z.of_nat (length b)) in *.
    destruct (Z.ltb_spec (digit_value x) (digit_value y)) as [H1|H1].
    + symmetry. apply Z.ltb_lt. nia.
    + destruct (Z.ltb_spec (digit_value y) (digit_value x)) as [H2|H2].
      * symmetry. apply Z.ltb_ge. nia.
      * rewrite (IH b Hl Ha Hb).
        assert (E : digit_value x = digit_value y) by lia. rewrite E.
        destruct (Z.ltb_spec (digits_val 0 a) (digits_val 0 b));
          symmetry; [apply Z.ltb_lt | apply Z.ltb_ge]; lia.
Qed.

Lemma is_time_dir_spec (item : chars) :
  is_time_dir item = true ->
  length item = 8%nat /\ forallb isdigit item = true.
Proof.
  unfold is_time_dir. intros H. apply andb_true_iff in H.
  destruct H as [H1 H2]. apply Nat.eqb_eq in H1. auto.
Qed.

Lemma string_ltb_time_dirs (a b : chars) :
  is_time_dir a = true -> is_time_dir b = true ->
  string_ltb a b = (atoi_digits a <? atoi_digits b).
Proof.
  intros Ha Hb. apply is_time_dir_spec in Ha, Hb.
  destruct Ha as [La Da], Hb as [Lb Db].
  rewrite !atoi_digits_val by assumption.
  apply string_ltb_digits; [congruence | assumption | assumption].
Qed.

Lemma insert_sorted_In (x : chars) (l : list chars) :
  forall y, In y (insert_sorted x l) <-> y = x \/ In y l.
Proof.
  induction l as [|z l IH]; intros y; cbn [insert_sorted].
  - cbn. intuition congruence.
  - destruct (string_ltb z x); cbn [In]; [rewrite IH|]; intuition congruence.
Qed.

Lemma sort_In (l : list chars) : forall y, In y (sort l) <-> In y l.
Proof.
  induction l as [|x l IH]; intros y; [reflexivity|].
  change (sort (x :: l)) with (insert_sorted x (sort l)).
  rewrite insert_sorted_In, IH. cbn. intuition congruence.
Qed.

Lemma insert_sorted_by_date (x : chars) (l : list chars) :
  is_time_dir x = true -> Forall (fun d => is_time_dir d = true) l ->
  ascending l ->
  ascending (insert_sorted x l).
Proof.
  intros Hx Hl Hs. induction l as [|z l IH]; cbn [insert_sorted].
  - cbn. auto.
  - inversion Hl as [|? ? Hz Hl']; subst.
    destruct Hs as [Hall Hs'].
    rewrite (string_ltb_time_dirs z x Hz Hx).
    destruct (Z.ltb_spec (atoi_digits z) (atoi_digits x)) as [H|H].
    + cbn [ascending]. split; [|apply IH; assumption].
      apply Forall_forall. intros y Hy. apply insert_sorted_In in Hy.
      destruct Hy as [->|Hy]; [unfold by_date; lia|].
      rewrite Forall_forall in Hall. apply Hall. exact Hy.
    + cbn [ascending]. split; [|split; assumption].
      constructor; [exact H|].
      rewrite Forall_forall in *. intros y Hy. specialize (Hall y Hy).
      unfold by_date in *. lia.
Qed.

Lemma sort_by_date (l : list chars) :
  Forall (fun d => is_time_dir d = true) l ->
  ascending (sort l).
Proof.
  induction l as [|x l IH]; intros H; [exact I|].
  inversion H as [|? ? Hx Hl]; subst.
  change (sort (x :: l)) with (insert_sorted x (sort l)).
  apply insert_sorted_by_date; [exact Hx | | apply IH; exact Hl].
  apply Forall_forall. intros y Hy. apply (proj1 (sort_In l y)) in Hy.
  rewrite Forall_forall in Hl. apply Hl. exact Hy.
Qed.

(** The loop picks the last directory whose date is not after [date]. *)
Lemma date_dir_sorted (date : Z) (l : list chars) :
  forall prev,
    ascending l ->
    match prev with
    | Some p => atoi_digits p <= date /\ Forall (by_date p) l
    | None => True
    end ->
    match date_dir date prev l with
    | Some d =>
      (l <> [] -> (In d l \/ prev = Some d)) /\
      (l = [] -> False) /\
      atoi_digits d <= date /\
      forall d', In d' l -> atoi_digits d' <= date ->
                 atoi_digits d' <= atoi_digits d
    | None =>
      l = [] \/ (prev = None /\ forall d', In d' l -> date < atoi_digits d')
    end.
Proof.
  induction l as [|x l IH]; intros prev Hs Hp; cbn [date_dir].
  - left. reflexivity.
  - destruct Hs as [Hall Hs'].
    destruct (Z.ltb_spec date (atoi_digits x)) as [Hlt|Hge].
    + assert (Hafter : forall d', In d' (x :: l) -> date < atoi_digits d').
      { intros d' [->|Hd]; [exact Hlt|].
        rewrite Forall_forall in Hall. specialize (Hall d' Hd).
        unfold by_date in Hall. lia. }
      destruct prev as [p|].
      * destruct Hp as [Hp1 Hp2].
        split; [intros _; right; reflexivity|].
        split; [discriminate|]. split; [exact Hp1|].
        intros d' Hd Hle. specialize (Hafter d' Hd). lia.
      * right. split; [reflexivity | exact Hafter].
    + destruct l as [|y l'].
      * split; [intros _; left; left; reflexivity|].
        split; [discriminate|]. split; [exact Hge|].
        intros d' [->|[]] _. lia.
      * specialize (IH (Some x) Hs' (conj Hge Hall)).
        destruct (date_dir date (Some x) (y :: l')) as [d|].
        -- destruct IH as (I1 & _ & I3 & I4).
           split.
           { intros _. destruct (I1 ltac:(discriminate)) as [H|H].
             - left. right. exact H.
             - injection H as ->. left. left. reflexivity. }
           split; [discriminate|]. split; [exact I3|].
           intros d' [->|Hd] Hle; [|apply I4; assumption].
           destruct (I1 ltac:(discriminate)) as [H|H].
           ++ rewrite Forall_forall in Hall. exact (Hall d H).
           ++ injection H as ->. lia.
        -- destruct IH as [H|[H _]]; discriminate.
Qed.

Lemma chars_eqb_eq (s t : chars) : chars_eqb s t = true <-> s = t.
Proof.
  revert t. induction s as [|x s IH]; intros [|y t]; cbn [chars_eqb];
    try (split; [discriminate | congruence]); [tauto|].
  rewrite andb_true_iff, IH. split.
  - intros [H ->]. apply Ascii.eqb_eq in H. congruence.
  - intros H. injection H as -> ->. split; [apply Ascii.eqb_refl | reflexivity].
Qed.

Lemma have_defaultdir_spec (entries : list chars) :
  existsb (fun item => negb (length item =? 8)%nat
                       && chars_eqb item defaultdir) entries = true
  <-> In defaultdir entries.
Proof.
  rewrite existsb_exists. split.
  - intros (x & Hx & H). apply andb_true_iff in H. destruct H as [_ H].
    apply chars_eqb_eq in H. subst x. exact Hx.
  - intros H. exists defaultdir. split; [exact H | reflexivity].
Qed.

Lemma existsb_slash (name : chars) :
  existsb (Ascii.eqb "/"%char) name = true <-> In "/"%char name.
Proof.
  rewrite existsb_exists. split.
  - intros (x & Hx & H). apply Ascii.eqb_eq in H. subst x. exact Hx.
  - intros H. exists "/"%char. split; [exact H | reflexivity].
Qed.

(** X27: for a plain name, [GetDBFileList] lists the file in the current
    directory first, then the one in the date directory, then the one in
    [DEFAULT], then the one in the database directory itself, the first
    directory of the search list that can be opened.  The date directory
    is the one with the latest date that is not after [date], among the
    entries of eight digits; there is none when all of them are later.
    [OpenDBFile] opens the first file of that list that can be opened. *)
Theorem GetDBFileList_candidates
        (DB_DIR : option chars) (OpenDirectory : chars -> option (list chars))
        (fopen : chars -> bool) (NDEBUG : bool)
        (name : chars) (date : TDatime)
        (thedir : chars) (entries : list chars) (filename : chars) :
  name <> [] -> ~ In "/"%char name ->
  first_directory OpenDirectory (search_list DB_DIR) = Some (thedir, entries) ->
  db_filename name = Some filename ->
  exists dated default,
    GetDBFileList DB_DIR OpenDirectory NDEBUG name date
    = Some ([filename] ++ dated ++ default
            ++ [thedir ++ slash ++ filename]) /\
    OpenDBFile DB_DIR OpenDirectory fopen NDEBUG name date
    = Some (find fopen ([filename] ++ dated ++ default
                        ++ [thedir ++ slash ++ filename])) /\
    ((In defaultdir entries /\
      default = [thedir ++ slash ++ defaultdir ++ slash ++ filename]) \/
     (~ In defaultdir entries /\ default = [])) /\
    ((exists d,
         dated = [thedir ++ slash ++ d ++ slash ++ filename] /\
         In d entries /\ is_time_dir d = true /\
         atoi_digits d <= GetDate date /\
         forall d', In d' entries -> is_time_dir d' = true ->
                    atoi_digits d' <= GetDate date ->
                    atoi_digits d' <= atoi_digits d) \/
     (dated = [] /\
      forall d', In d' entries -> is_time_dir d' = true ->
                 GetDate date < atoi_digits d')).
Proof.
  intros Hname Hslash Hdir Hfile.
  assert (Hs : existsb (Ascii.eqb "/"%char) name = false).
  { destruct (existsb (Ascii.eqb "/"%char) name) eqn:E; [|reflexivity].
    apply existsb_slash in E. contradiction. }
  set (time_dirs := filter is_time_dir entries).
  assert (Htd : Forall (fun d => is_time_dir d = true) time_dirs).
  { apply Forall_forall. intros d Hd. apply filter_In in Hd. tauto. }
  pose proof (date_dir_sorted (GetDate date) (sort time_dirs) None
                (sort_by_date time_dirs Htd) I) as Hpick.
  exists (match date_dir (GetDate date) None (sort time_dirs) with
          | Some it => [thedir ++ slash ++ it ++ slash ++ filename]
          | None => []
          end).
  exists (if existsb (fun item => negb (length item =? 8)%nat
                                  && chars_eqb item defaultdir) entries
          then [thedir ++ slash ++ defaultdir ++ slash ++ filename]
          else []).
  assert (HG : GetDBFileList DB_DIR OpenDirectory NDEBUG name date
               = Some ([filename]
                       ++ match date_dir (GetDate date) None (sort time_dirs)
                          with
                          | Some it =>
                            [thedir ++ slash ++ it ++ slash ++ filename]
                          | None => []
                          end
                       ++ (if existsb
                                (fun item => negb (length item =? 8)%nat
                                             && chars_eqb item defaultdir)
                                entries
                           then [thedir ++ slash ++ defaultdir ++ slash
                                 ++ filename]
                           else [])
                       ++ [thedir ++ slash ++ filename])).
  { unfold GetDBFileList. destruct name as [|c name']; [congruence|].
    rewrite Hs, Hdir, Hfile. reflexivity. }
  split; [exact HG|]. split.
  { unfold OpenDBFile. destruct name as [|c name']; [congruence|].
    rewrite HG. reflexivity. }
  split.
  { match goal with
    | |- context [existsb ?f entries] => destruct (existsb f entries) eqn:E
    end.
    - left. split; [apply have_defaultdir_spec; exact E | reflexivity].
    - right. split; [|reflexivity]. intros H.
      apply have_defaultdir_spec in H. congruence. }
  destruct (date_dir (GetDate date) None (sort time_dirs)) as [d|].
  - left. exists d. destruct Hpick as (P1 & P2 & P3 & P4).
    assert (Hne : sort time_dirs <> []) by (intros E; exact (P2 E)).
    destruct (P1 Hne) as [Hin|Hin]; [|discriminate].
    apply (proj1 (sort_In _ _)) in Hin. apply filter_In in Hin.
    split; [reflexivity|]. split; [tauto|]. split; [tauto|].
    split; [exact P3|].
    intros d' Hd' Ht Hle. apply P4; [|exact Hle].
    apply sort_In. apply filter_In. auto.
  - right. split; [reflexivity|]. intros d' Hd' Ht.
    assert (Hin : In d' (sort time_dirs))
      by (apply sort_In; apply filter_In; auto).
    destruct Hpick as [E|[_ H]]; [rewrite E in Hin; destruct Hin|].
    apply H. exact Hin.
Qed.

Lemma firstn_3_app (s t : chars) :
  (3 <= length s)%nat -> firstn 3 (s ++ t) = firstn 3 s.
Proof.
  intros H. destruct s as [|a [|b [|c s]]]; cbn in H; try lia. reflexivity.
Qed.

Lemma skipn_suffix (s t : chars) :
  skipn (length (s ++ t) - length t) (s ++ t) = t.
Proof.
  rewrite length_app.
  replace (length s + length t - length t)%nat with (length s) by lia.
  rewrite skipn_app, skipn_all, Nat.sub_diag. reflexivity.
Qed.

(** X28: what [GetDBFileList] does with the name.  A name with a slash is
    taken as it is; an empty name, or no directory that can be opened,
    gives an empty list.  Otherwise the file name gets "db_" in front and
    ".dat" behind unless they are there already, so it always starts with
    the one and ends with the other and is not changed a second time; only
    for the name "db_" there is no such file name, and the assertion
    fails. *)
Theorem GetDBFileList_file_name
        (DB_DIR : option chars) (OpenDirectory : chars -> option (list chars))
        (NDEBUG : bool) (date : TDatime) :
  GetDBFileList DB_DIR OpenDirectory NDEBUG [] date = Some [] /\
  (forall name,
      In "/"%char name ->
      GetDBFileList DB_DIR OpenDirectory NDEBUG name date = Some [name]) /\
  (forall name,
      ~ In "/"%char name ->
      first_directory OpenDirectory (search_list DB_DIR) = None ->
      GetDBFileList DB_DIR OpenDirectory NDEBUG name date = Some []) /\
  (forall name filename,
      db_filename name = Some filename ->
      firstn 3 filename = db_ /\
      skipn (length filename - 4) filename = dot_dat /\
      db_filename filename = Some filename) /\
  (forall name, db_filename name = None <-> name = [] \/ name = db_) /\
  (forall thedir entries,
      first_directory OpenDirectory (search_list DB_DIR)
      = Some (thedir, entries) ->
      GetDBFileList DB_DIR OpenDirectory NDEBUG db_ date
      = if NDEBUG then Some [] else None).
Proof.
  split; [reflexivity|]. split.
  { intros name H. unfold GetDBFileList.
    destruct name as [|c name']; [destruct H|].
    apply existsb_slash in H. rewrite H. reflexivity. }
  split.
  { intros name H Hd. unfold GetDBFileList.
    destruct name as [|c name']; [reflexivity|].
    destruct (existsb (Ascii.eqb "/"%char) (c :: name')) eqn:E.
    - apply existsb_slash in E. contradiction.
    - rewrite Hd. reflexivity. }
  split.
  { intros name filename H. unfold db_filename in H.
    set (f0 := if chars_eqb (firstn 3 name) db_ then name else db_ ++ name)
      in *.
    assert (H3 : firstn 3 f0 = db_).
    { unfold f0. destruct (chars_eqb (firstn 3 name) db_) eqn:E.
      - apply chars_eqb_eq. exact E.
      - reflexivity. }
    destruct (Nat.ltb_spec (length f0) 4) as [|Hlen]; [discriminate|].
    assert (Hidem : forall f, firstn 3 f = db_ ->
                              skipn (length f - 4) f = dot_dat ->
                              db_filename f = Some f).
    { intros f F1 F2. unfold db_filename.
      rewrite F1.
      replace (chars_eqb db_ db_) with true by reflexivity.
      assert (L : (4 <= length f)%nat).
      { apply (f_equal (@length _)) in F2. rewrite length_skipn in F2.
        cbn in F2. lia. }
      replace (length f <? 4)%nat with false
        by (symmetry; apply Nat.ltb_ge; exact L).
      assert (Hlast : last f nul = "t"%char).
      { rewrite <- (firstn_skipn (length f - 4) f), F2.
        change dot_dat with (["."; "d"; "a"]%char ++ ["t"%char]).
        rewrite app_assoc, last_last. reflexivity. }
      rewrite Hlast, F2. reflexivity. }
    destruct (Ascii.eqb_spec (last f0 nul) "."%char) as [Hl|Hl].
    - injection H as <-.
      assert (E : exists g, f0 = g ++ ["."%char]).
      { destruct (exists_last (l := f0)) as (g & x & E);
          [intros E; rewrite E in Hlen; cbn in Hlen; lia|].
        rewrite E, last_last in Hl. subst x. exists g. exact E. }
      destruct E as (g & E).
      assert (S4 : skipn (length (f0 ++ dat) - 4) (f0 ++ dat) = dot_dat).
      { rewrite E, <- app_assoc.
        change (["."%char] ++ dat) with dot_dat.
        apply (skipn_suffix g dot_dat). }
      assert (F3 : firstn 3 (f0 ++ dat) = db_)
        by (rewrite firstn_3_app by lia; exact H3).
      auto.
    - destruct (chars_eqb (skipn (length f0 - 4) f0) dot_dat) eqn:E;
        cbn [negb] in H; injection H as <-.
      + apply chars_eqb_eq in E. auto.
      + assert (S4 : skipn (length (f0 ++ dot_dat) - 4) (f0 ++ dot_dat)
                     = dot_dat) by apply (skipn_suffix f0 dot_dat).
        assert (F3 : firstn 3 (f0 ++ dot_dat) = db_)
          by (rewrite firstn_3_app by lia; exact H3).
        auto. }
  split.
  { intros name. unfold db_filename.
    destruct (chars_eqb (firstn 3 name) db_) eqn:E.
    - apply chars_eqb_eq in E.
      destruct (Nat.ltb_spec (length name) 4) as [Hlen|Hlen].
      + split; [intros _|reflexivity]. right.
        rewrite <- E. symmetry. apply firstn_all2.
        apply (f_equal (@length _)) in E. rewrite length_firstn in E.
        cbn in E. lia.
      + split.
        * destruct (Ascii.eqb _ _); [discriminate|].
          destruct (negb _); discriminate.
        * intros [->| ->]; cbn in Hlen; lia.
    - destruct (Nat.ltb_spec (length (db_ ++ name)) 4) as [Hlen|Hlen].
      + split; [intros _|reflexivity]. left.
        rewrite length_app in Hlen. cbn in Hlen.
        destruct name; [reflexivity | cbn in Hlen; lia].
      + split.
        * destruct (Ascii.eqb _ _); [discriminate|].
          destruct (negb _); discriminate.
        * intros [->| ->]; [cbn in Hlen; lia | discriminate]. }
  intros thedir entries Hd. unfold GetDBFileList.
  change (existsb (Ascii.eqb "/"%char) db_) with false.
  change (db_filename db_) with (@None chars).
  unfold db_ at 1. rewrite Hd. reflexivity.
Qed.

Lemma GetDBFileList_candidates_witness :
  let thedir := dir_DB in
  let entries := entries_DB in
  let filename := file_run in
  exists dated default,
    GetDBFileList None open_DB false name_run date_june
    = Some ([filename] ++ dated ++ default
            ++ [thedir ++ slash ++ filename]) /\
    OpenDBFile None open_DB fopen_2020 false name_run date_june
    = Some (find fopen_2020 ([filename] ++ dated ++ default
                             ++ [thedir ++ slash ++ filename])) /\
    ((In defaultdir entries /\
      default = [thedir ++ slash ++ defaultdir ++ slash ++ filename]) \/
     (~ In defaultdir entries /\ default = [])) /\
    ((exists d,
         dated = [thedir ++ slash ++ d ++ slash ++ filename] /\
         In d entries /\ is_time_dir d = true /\
         atoi_digits d <= GetDate date_june /\
         forall d', In d' entries -> is_time_dir d' = true ->
                    atoi_digits d' <= GetDate date_june ->
                    atoi_digits d' <= atoi_digits d) \/
     (dated = [] /\
      forall d', In d' entries -> is_time_dir d' = true ->
                 GetDate date_june < atoi_digits d')).
Proof.
  apply (GetDBFileList_candidates None open_DB fopen_2020 false name_run
           date_june dir_DB entries_DB file_run).
  - discriminate.
  - vm_compute. intuition discriminate.
  - reflexivity.
  - reflexivity.
Defined.

End DBFilesFacts.

(** * Facts about [LoadDBvalue] on the text of a file *)

Module DBLoadFacts.
Import Ascii Database DatabaseFacts DBRead DBLines DBLinesFacts DBLoad
       DBLoadSample.

(** ** Every call returns *)

(** The loop of [ReadDBline] rewinds only from a tentative
    continuation. *)
Lemma ReadDBline_turn_rewind (Trim : chars -> chars) (line linbuf : chars)
      (maybe : bool) :
  ReadDBline_turn Trim line maybe linbuf = Done true -> maybe = true.
Proof.
  destruct maybe; [reflexivity|]. unfold ReadDBline_turn. cbv zeta.
  cbn [andb]. intros H.
  repeat match type of H with
         | context [if ?b then _ else _] => destruct b
         | context [match IsAssignment ?x with _ => _ end] =>
           destruct (IsAssignment x)
         end; discriminate H.
Qed.

(** A call of [ReadDBline] that hands on a line leaves the file behind at
    least one character that it had before it. *)
Lemma ReadDBline_loop_progress (Trim : chars -> chars) (bufsiz n : nat) :
  (2 <= bufsiz)%nat ->
  forall fuel line maybe unfinished r oldpos file
         line' maybe' r' oldpos' file',
    r = 0 ->
    (length file <= n)%nat ->
    (maybe = true \/ unfinished = false -> (length file < n)%nat) ->
    ReadDBline_loop Trim bufsiz fuel line maybe unfinished r oldpos file
    = Some (line', maybe', r', oldpos', file') ->
    (r' = 0 -> (length file' < n)%nat) /\
    (maybe' = true -> r' <> 0 -> (length oldpos' < n)%nat).
Proof.
  intros Hb. induction fuel as [|fuel IH];
    intros line maybe unfinished r oldpos file line' maybe' r' oldpos' file'
           Hr Hle Hlt;
    rewrite ReadDBline_loop_unfold;
    (destruct unfinished; cbn [negb];
     [|intros [= <- <- <- <- <-]; split; [intros _; apply Hlt; auto|];
       intros _ Hne; congruence]);
    destruct (GetLine_total bufsiz file Hb)
      as (r1 & linbuf & file1 & -> & Hr1 & Hlt1);
    (destruct Hr1 as [->| ->];
     [|cbn [Z.eqb negb EOF]; intros [= <- <- <- <- <-];
       split; [discriminate|]; intros Hm _; apply Hlt; auto]);
    specialize (Hlt1 eq_refl); cbn [Z.eqb negb];
    destruct (ReadDBline_turn Trim line maybe linbuf)
      as [line1 maybe1 unf1|rewind|] eqn:Et; try discriminate.
  - intros [= <- <- <- <- <-]. split; [intros _|intros _ Hne; congruence].
    destruct rewind; [|lia].
    apply Hlt. left. exact (ReadDBline_turn_rewind _ _ _ _ Et).
  - apply IH; [reflexivity | lia | intros _; lia].
  - intros [= <- <- <- <- <-]. split; [intros _|intros _ Hne; congruence].
    destruct rewind; [|lia].
    apply Hlt. left. exact (ReadDBline_turn_rewind _ _ _ _ Et).
Qed.

Lemma ReadDBline_progress (Trim : chars -> chars) (bufsiz : nat)
      (file : chars) :
  (2 <= bufsiz)%nat ->
  exists r line file',
    ReadDBline Trim bufsiz file = Some (r, line, file') /\
    (r = 0 /\ (length file' < length file)%nat \/ r = EOF).
Proof.
  intros Hb. unfold ReadDBline.
  destruct (ReadDBline_loop_total Trim bufsiz Hb (length file) [] false true
              0 file file (le_n _))
    as (line & maybe & r & oldpos & pos & E & Hm & Hr).
  { split; discriminate. }
  { reflexivity. }
  destruct (ReadDBline_loop_progress Trim bufsiz (length file) Hb
              (length file) [] false true 0 file file line maybe r oldpos pos
              eq_refl (le_n _)) as [Hp1 Hp2].
  { intros [H|H]; discriminate H. }
  { exact E. }
  rewrite E. destruct maybe.
  - specialize (Hm eq_refl). rewrite empty_false by lia.
    destruct Hr as [[-> _]| ->].
    + cbn [Z.eqb EOF]. eexists _, _, _. split; [reflexivity|].
      left. split; [reflexivity | exact (Hp1 eq_refl)].
    + cbn [Z.eqb EOF]. eexists _, _, _. split; [reflexivity|].
      left. split; [reflexivity|]. apply Hp2; [reflexivity | discriminate].
  - destruct Hr as [[-> _]| ->].
    + eexists _, _, _. split; [reflexivity|].
      left. split; [reflexivity | exact (Hp1 eq_refl)].
    + eexists _, _, _. split; [reflexivity|]. right. reflexivity.
Qed.

(** The loop of [LoadDBvalue] around [ReadDBline] ends before it has made
    as many turns as the file has characters. *)
Lemma read_dblines_total (Trim : chars -> chars) (bufsiz : nat) :
  (2 <= bufsiz)%nat ->
  forall fuel file,
    (length file <= fuel)%nat ->
    exists dblines, read_dblines Trim bufsiz fuel file = Some dblines.
Proof.
  intros Hb. induction fuel as [|fuel IH]; intros file Hf;
    destruct (ReadDBline_progress Trim bufsiz file Hb)
      as (r & line & file' & E & Hr);
    cbn [read_dblines]; rewrite E;
    (destruct Hr as [[-> Hlt]| ->];
     [|eexists; reflexivity]); cbn [Z.eqb].
  - lia.
  - destruct (IH file' ltac:(lia)) as (l & ->). eexists. reflexivity.
Qed.

Lemma load_lines_NDEBUG (date : TDatime) (key : chars) (lines : list chars) :
  forall st, exists st',
    fold_opt (load_line true date key) lines st = Some st'.
Proof.
  induction lines as [|l lines IH]; intros st; [eexists; reflexivity|].
  assert (H : exists s, load_line true date key st l = Some s).
  { unfold load_line. destruct (do_ignore st); [eexists; reflexivity|].
    destruct (IsDBkey_NDEBUG l key (text st)) as ([status t] & ->).
    eexists. reflexivity. }
  destruct H as (s & H). cbn [fold_opt]. rewrite H. apply IH.
Qed.

(** A build without assertions returns from [LoadDBvalue] on every
    file. *)
Lemma LoadDBvalue_file_returns (Trim : chars -> chars)
      (Substitute : chars -> list chars) (file : chars) (date : TDatime)
      (key text0 : chars) :
  exists r,
    LoadDBvalue_file Trim true Substitute file date key text0 = Some r.
Proof.
  unfold LoadDBvalue_file.
  destruct (read_dblines_total Trim 256 ltac:(lia) (length file) file
              (le_n _)) as (dblines & ->).
  unfold LoadDBvalue. rewrite load_dblines_fold.
  destruct (load_lines_NDEBUG date key (inner_lines Substitute dblines)
              (mkLoad false false epoch epoch text0)) as (st' & ->).
  eexists. reflexivity.
Qed.

(** ** Time stamps behind an assignment *)

(** C9: on the sample file (the sections undated, 2020, 2019 and 2022, each
    with a value of [a], every time stamp right behind the value before it)
    and the first of January 2021, [SeekDBdate] leaves the file behind the
    time stamp of 2020, but [LoadDBvalue] returns the value 4 of the section
    of 2022, not the value 2 of the section of 2020: [ReadDBline] hands each
    time stamp on as the end of the assignment before it, so that
    [LoadDBvalue] meets no time stamp at all.  With an empty line behind
    each value the same sections give the value 2. *)
Theorem LoadDBvalue_time_stamp_joined
        (Trim : chars -> chars) (NDEBUG : bool) :
  let date := TDatime_Set 2021 1 1 0 0 0 in
  SeekDBdate sample_file 0 date false = (true, 30) /\
  read_dblines Trim 256 (length sample_file) sample_file
  = Some glued_lines /\
  LoadDBvalue_file Trim NDEBUG no_substitution sample_file date key_a []
  = Some (0, value_4) /\
  LoadDBvalue_file Trim NDEBUG no_substitution spaced_file date key_a []
  = Some (0, value_2).
Proof.
  cbv zeta. repeat split; vm_compute; reflexivity.
Qed.

(** A line with a blank at the end of its right-hand side reaches
    [IsDBkey]: [ReadDBline] puts the blank back that stood before a
    continuation mark, and an empty line ends the entry there. *)
Lemma IsDBkey_assertion_reached (Trim : chars -> chars) :
  Trim line_a1_blank = line_a1 ->
  read_dblines Trim 256 (length continued_file) continued_file
  = Some [line_a1_blank] /\
  IsDBkey false line_a1_blank key_a [] = None /\
  LoadDBvalue_file Trim false no_substitution continued_file epoch key_a []
  = None.
Proof.
  intros HT. vm_compute in HT.
  assert (H : read_dblines Trim 256 (length continued_file) continued_file
              = Some [line_a1_blank]).
  { vm_compute. rewrite !HT. vm_compute. reflexivity. }
  split; [exact H|]. split; [reflexivity|].
  unfold LoadDBvalue_file. rewrite H. reflexivity.
Qed.

End DBLoadFacts.
